(* ===== verification/_CoqProject ===== *)
-Q . S2P
Prelude.v
Goods.v
Ledger.v
Transactions.v
TickDeque.v
Refiller.v
Service.v
Lifecycle.v
Market.v
Tests.v
Trader.v
Markets.v
MinMax.v
PriceComparison.v
RandomAction.v
Console.v
MarketLog.v
Interactive.v
IteractionLogger.v
Strategies.v
Interactions.v
Main.v
