(* ===== verification/Prelude.v ===== *)
(** * A verification development of the DogeMarket currency-exchange engine and its trader

    This library models, in Rocq, the market engine of the repository
    (crate [doge_market] under [src/doge/doge_market/src] and the account
    type of [src/doge/doge_common/src/account.rs]), the market primitives,
    the shared markets, the strategies and the main loop of the trader
    (crate [doge_trader] under [src/doge/doge_trader/src]) and proves the
    properties that make them correct.

    ** The program and how its parts interact

    The engine is one market maker holding four currencies ([GoodKind]:
    [EUR], the base currency, and [USD], [YEN], [YUAN]).
    - [Account] (doge_common/account.rs) holds one quantity per kind, with
      [deposit] and a fallible [withdraw].
    - [AccountOps] (account_ops.rs) is the ledger: three accounts [assets]
      (free), [reservations] and [futures]; it computes buy and sell prices
      from its own inventory.
    - [BuyTx] / [SellTx] (buy_transaction.rs, sell_transaction.rs) are the
      per-lock state machines [Reserved -> Paid | Expired] and the ledger
      mutations of [reserve], [buy]/[sell] (settlement) and [expire].
    - [TickDeque] (tick_deque.rs) is the FIFO of tokens stamped with their
      creation tick that yields the tokens whose age reaches [max_ticks].
    - [TxService] (service.rs) owns the ledger, the two registries of
      transactions by UUID and the deque; [tick_all] expires aged locks.
    - [GoodRefiller] (refiller.rs) rebalances the free inventory once per tick.
    - [DogeMarketImpl] / [DogeMarket] (market.rs, dogemarket.rs) is the
      public facade: price queries, [lock_buy], [buy], [lock_sell], [sell],
      [on_event]; every successful mutation advances one tick
      ([advance_a_day] = [tick_all] then [refill_goods]).  A market
      reports its initialization and its successful locks, buys and sells,
      and its failed buys and sells, to a [Box<dyn Logger>] (logger.rs):
      the text file logger (txt_file_logger.rs) when [log_dogemarket.txt]
      can be created, the mute one (mute_logger.rs) otherwise;
      stdout_logger.rs is a third implementation.
    - The trader (doge_trader) calls any market through the external trait
      [Market]; common.rs wraps its calls ([lock_buy], [buy], [direct_buy],
      ...) with the trader's account and event log.
    - [MarketWrapper] (markets.rs) holds three markets behind shared
      handles ([Rc<RefCell<dyn Market>>]); main.rs runs a [Strategy]
      (strategy.rs) for n iterations, each [apply] trading on the three
      markets through common.rs and waiting a day with the
      [wait_one_day!] macro of the external crate.  The strategies are
      noop_strategy.rs, single_market_random_strategy.rs,
      price_comparison_strategy.rs, min_max_strategy.rs,
      random_action_strategy.rs and interactive_strategy.rs, which asks
      for each operation on standard input.
    - main.rs builds the account from its arguments, selects the strategy
      from the command line or on standard input ([select_strategy]), and
      in each iteration may offer to change it, applies it through the
      [Box<dyn Strategy>], and records the four accounts (trader, SOL,
      RCNZ, BOSE) in the [IteractionLogger]
      (iteraction_logger/iteraction_logger.rs), which prints the gains of
      the iteration and, at the end, of the whole run.  interactions.rs
      holds an older menu loop with event handlers, and parser.rs an older
      command line; main.rs calls neither.

    ** Files, in dependency order

    - [Prelude]: this header; the numeric model (rationals [Q] with
      decidable comparisons; [fval], the value of an [f32] computation that
      can be infinite or NaN); [outcome], the result of Rust code that
      returns [Ok]/[Err] or panics, with its monad notation and the tactic
      [ok_inv]; sums over lists; the [doge] hint database.
    - [Goods]: [GoodKind], the market constants of the external crate
      [unitn_market_2022] (as a class with its laws), [Good] with
      [split]/[merge], and [Account] with [deposit]/[withdraw].
    - [Ledger]: [AccountOps], the price functions and their laws (errors,
      panics, monotonicity, a setoid equivalence with [Proper] instances).
    - [Transactions]: [BuyTx] and [SellTx]: reserve/settle/expire, their
      error paths and the reserve-then-expire round trips.
    - [TickDeque]: the expiry queue with its [u32] counter kept at width,
      and the equivalence of [tick] with a filter-based reference.
    - [Refiller]: [GoodTracker] and [GoodRefiller], with the panic of
      [refill_goods] characterised exactly.
    - [Service]: [TxService], its invariant preserved by every operation,
      settlement without panic and [tick_all] total.
    - [Lifecycle]: [LockSpec], an abstract specification of the lock
      phases (Open, Settled, Lapsed) in which a lock records the tick it
      was opened at and a tick lapses exactly the open locks that reach
      [max_ticks], and a forward simulation: every step of a well-formed
      [TxService] is matched by a step of the specification.
    - [Market]: the facade, the step relation [market_step] of a market
      with its reachable-state invariant, error mappings and effect traces.
    - [Tests]: the [#[test]] functions of the crate run on the model.
    - [Trader]: the class [Market] (the trait), the state and error monad
      [TM] of the trader's world (account, market, events), the functions
      of common.rs and the random strategy, and the instance [doge_market]
      composing them with the facade.
    - [Markets]: [MarketWrapper] with its handles as references into a
      shared store ([deref]/[store]), the monad morphism [at_market] that
      runs a trader computation on one of the three markets, the
      [wait_one_day!] macro, the class [Strategy] (the trait, with the law
      that [apply] keeps the account well formed), [trading_loop] (the
      loop of main.rs), the no-op and the three
      single-market random strategies as instances.
    - [MinMax]: the min-max strategy: the sizing loops and their
      termination, [find_exchange] ([max_by] over kinds and market pairs)
      and [apply] with its locks and settlements; the withdrawal that pays
      the bid never fails, and a refused sale loses the goods bought.
    - [PriceComparison]: the price tables and the choice of the best
      operation (first minimum and maximum under [f32] comparisons), and
      [apply], which never trades again once no operation gains 2.
    - [RandomAction]: the random choice of an action among pending locks
      and new ones, its bounds, and the completion arm, which restores the
      account when the market refuses and reschedules when it cannot pay.
    - [Console]: the process's standard input and output as explicit
      state (the lines [read_line] returns, the lines printed as the values
      they show), the standard library's [trim] and [i32]/[u32]/[char]/[f32]
      parsers on ASCII text, and [prompt_loop], the loop shared by every
      question of the program: it returns the first answer of the input
      and never returns when no answer is left.
    - [MarketLog]: the market's loggers as a class with its three
      instances and [Box<dyn Logger>], the logger choice of
      [DogeMarket::new_with_goods], the five log codes, chrono's time
      format and calendar, and [Display] of [f32]: a file log holds one
      line per call, in order, each reading back as market, time and
      code; a new market logs its inventory by kind;
      [test_datetime_format] passes only at the offset +01:00.
    - [Interactive]: the interactive strategy's menus, the listing of goods
      and the two operations; it never returns at the end of the input,
      and the listing shows RCNZ's goods under BOSE.
    - [IteractionLogger]: the four histories of accounts, with the
      invariant that they grow together, and the gain reports: the
      per-iteration one hides every loss, the final one swaps its start
      and end values, and neither panics.
    - [Strategies]: [Box<dyn Strategy>] as a sum of the implementations
      with dynamic dispatch of [apply] and [get_name]; every [apply] keeps
      the account well formed.
    - [Interactions]: the menus and the nested loops of interactions.rs,
      and the [Args] of parser.rs.
    - [Main]: [fn main] over the console, the three markets and the random
      draws: [select_strategy] is the shared prompt loop, a [y] at the end
      of the input makes the program loop forever, the logger records one
      account per iteration and participant, and a pause that
      [Duration::from_secs_f32] refuses ends every run abnormally.

    ** Numeric model, bounds and fuel

    Rust [f32] quantities are modelled as exact rationals [Q]: rounding is
    not modelled.  Divisions that the code can perform by zero produce, as in
    IEEE arithmetic, an infinity or NaN ([fval]), and the [assert!] of
    [compute_buy_price] is evaluated on that value, so the panics of the code
    are part of the model ([Panic] of [outcome]).  Because arithmetic is
    exact, the "drift tolerance" branches of the settlement code (a withdraw
    of a reservation that finds slightly less than expected) are modelled as
    written and shown to be dead in the exact model.  Equalities of
    quantities are [Qeq] ([==]).  The tick counter of [TickDeque] is a
    [u32] kept as [Z] with its [checked_add] written out: [tick] panics
    when it would pass [U32_MAX].  The day counters of
    [GoodTracker] only grow below 100 and need no width.  Where the trader
    passes on a price that is not finite as a bid, the step leaves the
    rational model and is the panic [OutOfModel].

    The only unbounded loop modelled, the [loop] of
    [compute_exchange_quantity], is [MinMax.shrink] on fuel: [None] means
    not ended within the fuel.  Its termination theorem exhibits a fuel
    (from the ratio of the first quantity to the price bound, by a
    Bernoulli bound on 1.2^n) rather than assuming one.  With no euros
    the [f32] loop ends in a panic once the quantity underflows to zero,
    which exact rationals never reach: there the model only runs out of
    fuel, and no theorem is stated about that case.  The strategies' [apply]
    that call it ([MinMax.apply]) and the loop of main.rs
    ([trading_loop], structural in the number of iterations) return
    [option] and propagate that [None].  The iterator of [MarketWrapper]
    pops a vector of three handles; [collect] takes the vector's length
    as fuel, which is exactly enough ([collect_rev]).  [f32::total_cmp]
    orders NaN, which the comparator of [find_exchange] meets only for
    a NaN gain (inf - inf, or a NaN price); that case is the panic
    [OutOfModel].  Every loop that reads standard input (the prompts of
    the interactive strategy, [select_strategy] and the change of strategy
    of main.rs, the menus of interactions.rs) is [prompt_loop] of Console.v
    or a [Fixpoint] of the same shape on fuel, each round reading one line:
    a fuel one more than the lines before the first answer is enough, and
    no fuel is when no answer is left ([prompt_loop_first],
    [prompt_loop_spins]).  [Main.main] passes one fuel to every such loop
    of the run and to the strategies' loops; the iterations themselves
    are structural in [n_iterations].  The [usize] subtraction
    [vec.len() - 1] of the final gain report is kept at its width: it
    panics on an empty history ([usize_sub]).

    [Display] of an [f32] (MarketLog.v) prints the exact decimal of its
    rational value cut after 9 decimals, where Rust's shortest
    representation of an [f32] stops.  The log theorems assume quantities
    that are decimals of at most 9 decimals ([decimal9]) below the
    overflow to infinity, and times whose fields fit their widths
    ([fits]: a four-digit year).  [display_int] runs its digit loop with
    [log2 z + 1] as fuel, which is at least the number of decimal digits.

    ** Not modelled

    The trader's event handlers (the loggers of logger/ and displayer/: text
    formatting of each event and file I/O) and the charts (history.rs,
    chart.rs, the create_*_graphs.rs files and [generate_svgs]) are
    output that no trading state depends on, and are not modelled; the
    events themselves are (the trader's event log).  [Args::parse] (clap)
    and the time slept between iterations are not modelled: [main] takes
    the parsed arguments, and only the check of the pause by
    [Duration::from_secs_f32] is.  The [{:.2}] formatting of printed numbers is not
    modelled (a printed line is the value it shows), nor is input that is
    not ASCII text.  The three external markets (SOL, RCNZ, BOSE) are not in
    the repository: the trader's model is generic in the class [Market],
    and its theorems hold for any instance or are proved for DogeMarkets.
    The tests of e2e.rs are not modelled: the first run the generic test
    suite [market_test] of the external crate, which is not in the
    repository either, and the others check fixed scenarios whose
    outcome depends on that crate's constants.  Random choices (UUID generation, the 5%
    shortage roll, the strategies' draws) are inputs of the modelled
    operations. *)

From Stdlib Require Export QArith Qminmax Lqa Permutation Morphisms.
From stdpp Require Export base decidable list.

Open Scope Q_scope.

Declare Scope doge_scope.
Delimit Scope doge_scope with doge.

(** ** Decidable comparisons on [Q]

    The code branches on [f32] comparisons; with these instances the model
    writes them as [if decide (q <= 0) then ...] and proofs case on them with
    [case_decide]. *)

#[export] Instance Qle_decision : RelDecision Qle :=
  fun x y => match Qlt_le_dec y x with
             | left H => right (Qlt_not_le _ _ H)
             | right H => left H
             end.

#[export] Instance Qlt_decision : RelDecision Qlt :=
  fun x y => match Qlt_le_dec x y with
             | left H => left H
             | right H => right (Qle_not_lt _ _ H)
             end.

#[export] Instance Qeq_decision : RelDecision Qeq := Qeq_dec.

(** ** Values of [f32] computations

    A finite value, an infinity (with its sign: [Inf true] is [-inf]) or
    NaN.  Only the divisions of the price formulas can leave the finite
    values; multiplication and division follow the IEEE rules on
    infinities and NaN (signed zeros are not distinguished). *)

Inductive fval :=
| Fin (q : Q)
| Inf (neg : bool)
| NaN.

Definition qneg (a : Q) : bool := bool_decide (a < 0).

Definition fmul (x y : fval) : fval :=
  match x, y with
  | NaN, _ | _, NaN => NaN
  | Fin a, Fin b => Fin (a * b)
  | Fin a, Inf s | Inf s, Fin a =>
      if decide (a == 0) then NaN else Inf (xorb s (qneg a))
  | Inf s, Inf t => Inf (xorb s t)
  end.

Definition fdiv (x y : fval) : fval :=
  match x, y with
  | NaN, _ | _, NaN => NaN
  | Fin a, Fin b =>
      if decide (b == 0) then (if decide (a == 0) then NaN else Inf (qneg a))
      else Fin (a / b)
  | Fin _, Inf _ => Fin 0
  | Inf s, Fin b => Inf (xorb s (qneg b))
  | Inf _, Inf _ => NaN
  end.

(** [x >= 0.], [b < x] and [x < b] of the code, with [b] finite. *)
Definition fge0 (x : fval) : bool :=
  match x with Fin a => bool_decide (0 <= a) | Inf s => negb s | NaN => false end.

Definition qltf (b : Q) (x : fval) : bool :=
  match x with Fin a => bool_decide (b < a) | Inf s => negb s | NaN => false end.

Definition fltq (x : fval) (b : Q) : bool :=
  match x with Fin a => bool_decide (a < b) | Inf s => s | NaN => false end.

(** [x - y] of two [f32] values, with the IEEE rules on infinities. *)
Definition fsub (x y : fval) : fval :=
  match x, y with
  | NaN, _ | _, NaN => NaN
  | Fin a, Fin b => Fin (a - b)
  | Fin _, Inf t => Inf (negb t)
  | Inf s, Fin _ => Inf s
  | Inf s, Inf t => if Bool.eqb s t then NaN else Inf s
  end.

(** [partial_cmp] of two [f32] values: [None] when one of them is NaN. *)
Definition fcmp (x y : fval) : option comparison :=
  match x, y with
  | NaN, _ | _, NaN => None
  | Fin a, Fin b => Some (a ?= b)
  | Inf s, Inf t => Some (match s, t with
                          | true, true | false, false => Eq
                          | true, false => Lt
                          | false, true => Gt
                          end)
  | Inf s, Fin _ => Some (if s then Lt else Gt)
  | Fin _, Inf t => Some (if t then Gt else Lt)
  end.

(** [x < y] and [x == y] of the code: false when one of them is NaN. *)
Definition flt (x y : fval) : bool := match fcmp x y with Some Lt => true | _ => false end.
Definition feq (x y : fval) : bool := match fcmp x y with Some Eq => true | _ => false end.

Definition is_nan (x : fval) : bool := match x with NaN => true | _ => false end.

(** [f32::MAX] = (2^24 - 1) * 2^104. *)
Definition f32_MAX : Q := inject_Z ((2 ^ 24 - 1) * 2 ^ 104).

Notation "x ⊗ y" := (fmul x y) (at level 40, left associativity) : doge_scope.
Notation "x ⊘ y" := (fdiv x y) (at level 40, left associativity) : doge_scope.

(** ** Outcomes of Rust code: [Ok], [Err] or a panic *)

Inductive panic_reason :=
| Unreachable      (** [unreachable!()] *)
| UnwrapOnErr      (** [.unwrap()] on an [Err] or [None] *)
| AssertFailed      (** [assert!] *)
| ArithmeticOverflow (** integer overflow, which panics in a debug build *)
| IndexOutOfBounds (** [v[i]] with [i >= v.len()] *)
| ExplicitPanic    (** [panic!()] *)
| OutOfModel.      (** a non-finite [f32] reaches code whose model is rational: the run
                       leaves the model here *)

Inductive outcome (E A : Type) :=
| Ok (a : A)
| Err (e : E)
| Panic (why : panic_reason).
Arguments Ok {E A} a.
Arguments Err {E A} e.
Arguments Panic {E A} why.

#[export] Instance outcome_ret E : MRet (outcome E) := fun _ a => Ok a.
#[export] Instance outcome_bind E : MBind (outcome E) :=
  fun _ _ k c => match c with
                 | Ok a => k a
                 | Err e => Err e
                 | Panic r => Panic r
                 end.

(** [map_err] of a [Result]; a panic passes through. *)
Definition map_err {E F A} (f : E -> F) (c : outcome E A) : outcome F A :=
  match c with Ok a => Ok a | Err e => Err (f e) | Panic r => Panic r end.

(** [.unwrap()] of a [Result]: an [Err] panics. *)
Definition unwrap {E F A} (c : outcome E A) : outcome F A :=
  match c with Ok a => Ok a | Err _ => Panic UnwrapOnErr | Panic r => Panic r end.

(** A computation of the code with no error results (its [unit] error is
    never produced), run where the caller has another error type. *)
Definition infallible {F A} (c : outcome unit A) : outcome F A :=
  match c with Ok a => Ok a | Err _ => Panic Unreachable | Panic r => Panic r end.

(** The computation never returns an error (it may still panic). *)
Definition no_err {E A} (c : outcome E A) : Prop := forall e, c <> Err e.

Definition is_panic {E A} (c : outcome E A) : bool :=
  match c with Panic _ => true | _ => false end.

(** ** Sums of quantities *)

Definition qsum (l : list Q) : Q := fold_right Qplus 0 l.

(** [Iterator::reduce]: [None] on an empty iterator, else the fold of the
    rest with the first element as accumulator. *)
Definition reduce {A} (f : A -> A -> A) (l : list A) : option A :=
  match l with [] => None | x :: xs => Some (fold_left f xs x) end.

(** The selection closure [|a, b| if R(a, b) { a } else { b }]. *)
Definition select {A} (R : A -> A -> Prop) `{RelDecision A A R} (a b : A) : A :=
  if decide (R a b) then a else b.

(** ** Automation

    The [doge] database holds the resolution lemmas of the components and
    [doge_rw] their rewriting lemmas; [qsplit] turns every [decide] on [Q] in the goal or the
    hypotheses into a case, and [qauto] closes the arithmetic. *)

Create HintDb doge.
Create Rewrite HintDb doge_rw.

Ltac qsplit :=
  repeat match goal with
  | |- context [decide ?P] => destruct (decide P)
  | H : context [decide ?P] |- _ => destruct (decide P)
  | |- context [bool_decide ?P] => destruct (bool_decide_reflect P)
  | H : context [bool_decide ?P] |- _ => destruct (bool_decide_reflect P)
  end.

(** Close a closed goal about concrete accounts: a quantification over the
    four kinds, then comparisons of literals. *)
Ltac concrete_leaf :=
  vm_compute; first [reflexivity | discriminate | (let H := fresh in intro H; discriminate H) | done].
Ltac concrete := repeat split; first [concrete_leaf | (intros []; concrete_leaf)].

Ltac qauto := solve [ simpl in *; qsplit; try discriminate; try congruence; lra ].

(** ** Equivalence of [f32] values and of outcomes *)

Definition fval_equiv (x y : fval) : Prop :=
  match x, y with
  | Fin a, Fin b => a == b
  | Inf s, Inf t => s = t
  | NaN, NaN => True
  | _, _ => False
  end.

Definition outcome_rel {E A} (RE : relation E) (RA : relation A) (c d : outcome E A) : Prop :=
  match c, d with
  | Ok a, Ok b => RA a b
  | Err e, Err f => RE e f
  | Panic r, Panic r' => r = r'
  | _, _ => False
  end.

(** ** Lemmas on [Q] and [fval] *)

#[export] Instance fval_equiv_equiv : Equivalence fval_equiv.
Proof.
  split.
  - intros []; simpl; done.
  - intros [] []; simpl; done.
  - intros [] [] []; simpl; try done; intros; etransitivity; eauto.
Qed.

#[export] Instance qneg_proper : Proper (Qeq ==> eq) qneg.
Proof. intros a b H. unfold qneg. apply bool_decide_ext. rewrite H. done. Qed.

Ltac fval_cases :=
  repeat match goal with
  | x : fval |- _ => destruct x
  end; cbn [fval_equiv fmul fdiv fge0 qltf fltq] in *; try done.

#[export] Instance fmul_proper : Proper (fval_equiv ==> fval_equiv ==> fval_equiv) fmul.
Proof.
  intros x x' Hx y y' Hy. fval_cases; subst; qsplit; cbn [fval_equiv];
    try done; try lra; try (rewrite Hx, Hy; reflexivity);
    try (rewrite Hx; reflexivity); try (rewrite Hy; reflexivity).
Qed.

#[export] Instance fdiv_proper : Proper (fval_equiv ==> fval_equiv ==> fval_equiv) fdiv.
Proof.
  intros x x' Hx y y' Hy. fval_cases; subst; qsplit; cbn [fval_equiv];
    try done; try lra; try (rewrite Hx, Hy; reflexivity);
    try (rewrite Hx; reflexivity); try (rewrite Hy; reflexivity).
Qed.

#[export] Instance fsub_proper : Proper (fval_equiv ==> fval_equiv ==> fval_equiv) fsub.
Proof.
  intros x x' Hx y y' Hy. fval_cases; subst; repeat match goal with b : bool |- _ => destruct b end;
    cbn in *; try done; lra.
Qed.

#[export] Instance fge0_proper : Proper (fval_equiv ==> eq) fge0.
Proof. intros x y H. fval_cases; subst; qsplit; try done; lra. Qed.

Lemma fmul_fin a b : fmul (Fin a) (Fin b) = Fin (a * b).
Proof. reflexivity. Qed.

Lemma fdiv_fin a b : ~ b == 0 -> fdiv (Fin a) (Fin b) = Fin (a / b).
Proof. intros H. simpl. by rewrite decide_False. Qed.

Lemma fdiv_fin_zero_pos a b : b == 0 -> 0 < a -> fdiv (Fin a) (Fin b) = Inf false.
Proof.
  intros Hb Ha. simpl. rewrite decide_True by done. rewrite decide_False by lra.
  unfold qneg. by rewrite bool_decide_false by lra.
Qed.

Lemma fdiv_fin_zero_zero a b : b == 0 -> a == 0 -> fdiv (Fin a) (Fin b) = NaN.
Proof. intros Hb Ha. simpl. by rewrite !decide_True by done. Qed.

Lemma fmul_inf_pos a : 0 < a -> fmul (Fin a) (Inf false) = Inf false /\ fmul (Inf false) (Fin a) = Inf false.
Proof.
  intros Ha. simpl. rewrite decide_False by lra. unfold qneg.
  by rewrite bool_decide_false by lra.
Qed.

Lemma fdiv_inf_pos a : 0 < a -> fdiv (Inf false) (Fin a) = Inf false.
Proof. intros Ha. simpl. unfold qneg. by rewrite bool_decide_false by lra. Qed.

#[export] Hint Rewrite fmul_fin : doge_rw.

(** ** The order of [f32] values

    [fle] is [x <= y] of the code.  Away from NaN, [fcmp] is a total
    preorder whose equivalence is [fval_equiv]. *)

Definition fle (x y : fval) : bool := match fcmp x y with Some Lt | Some Eq => true | _ => false end.

Ltac qcmp_cases :=
  repeat match goal with
  | |- context [?a ?= ?b] => destruct (Qcompare_spec a b)
  | H : context [?a ?= ?b] |- _ => destruct (Qcompare_spec a b)
  end.

Ltac fcmp_solve :=
  fval_cases; repeat match goal with b : bool |- _ => destruct b end;
  cbn [fcmp flt fle feq is_nan fval_equiv] in *; qcmp_cases; try done; try lra.

Lemma fle_refl x : is_nan x = false -> fle x x = true.
Proof. fcmp_solve. Qed.

Lemma fle_trans x y z : fle x y = true -> fle y z = true -> fle x z = true.
Proof. fcmp_solve. Qed.

Lemma fle_total x y : is_nan x = false -> is_nan y = false -> fle x y = true \/ fle y x = true.
Proof. fcmp_solve; auto. Qed.

Lemma flt_fle x y : is_nan x = false -> is_nan y = false -> flt x y = negb (fle y x).
Proof. fcmp_solve. Qed.

Lemma feq_fle x y : feq x y = true <-> fle x y = true /\ fle y x = true.
Proof. fcmp_solve; intuition. Qed.

Lemma fle_not_nan x y : fle x y = true -> is_nan x = false /\ is_nan y = false.
Proof. fcmp_solve. Qed.

(** Sums of quantities are invariant under permutation. *)
#[export] Instance qsum_perm : Proper (@Permutation Q ==> Qeq) qsum.
Proof.
  intros l l' H. induction H; simpl; try reflexivity.
  - by rewrite IHPermutation.
  - lra.
  - etransitivity; eauto.
Qed.

Lemma qsum_app l l' : qsum (l ++ l') == qsum l + qsum l'.
Proof. induction l; simpl; [lra | rewrite IHl; lra]. Qed.

Lemma qsum_nonneg l : Forall (Qle 0) l -> 0 <= qsum l.
Proof. induction 1; simpl; lra. Qed.

Lemma Qdiv_100 x : x / 100 == x * (1#100).
Proof. reflexivity. Qed.

Lemma Qdiv_nonneg a b : 0 <= a -> 0 < b -> 0 <= a / b.
Proof. intros. apply Qle_shift_div_l; lra. Qed.

Lemma Qdiv_pos a b : 0 < a -> 0 < b -> 0 < a / b.
Proof. intros. apply Qlt_shift_div_l; lra. Qed.

(** [E / d] grows when the positive denominator shrinks. *)
Lemma Qdiv_lt_denom E d1 d2 : 0 < E -> 0 < d1 -> d1 < d2 -> E / d2 < E / d1.
Proof.
  intros HE H1 H2. unfold Qdiv. apply Qmult_lt_l; [done |].
  apply (Qinv_lt_contravar d1 d2); lra.
Qed.

Lemma Qdiv_le_denom E d1 d2 : 0 <= E -> 0 < d1 -> d1 <= d2 -> E / d2 <= E / d1.
Proof.
  intros HE H1 H2. unfold Qdiv. rewrite !(Qmult_comm E). apply Qmult_le_compat_r; [| done].
  destruct (Qle_lt_or_eq _ _ H2) as [Hlt | Heq].
  - apply Qlt_le_weak, (Qinv_lt_contravar d1 d2); lra.
  - rewrite Heq. lra.
Qed.

#[export] Hint Resolve Qdiv_nonneg Qdiv_pos : doge.

(** ** Selecting an extremum with [reduce] *)

Section Reduce.
Context {A : Type} (R : A -> A -> Prop) `{RelDecision A A R}.
Context `{!Reflexive R} `{!Transitive R} (R_total : forall a b, ~ R a b -> R b a).

Lemma fold_left_select xs acc :
  let r := fold_left (select R) xs acc in
  (r = acc \/ r ∈ xs) /\ R r acc /\ Forall (R r) xs.
Proof.
  revert acc. induction xs as [| y xs IH]; intros acc; cbn.
  - split; [by left | split; [reflexivity | constructor]].
  - destruct (IH (select R acc y)) as (Hin & Hr & Hall). unfold select in *.
    case_decide as Hy.
    + split; [destruct Hin; [by left | right; by right] | split; [done |]].
      constructor; [by transitivity acc | done].
    + pose proof (R_total _ _ Hy).
      split; [destruct Hin as [-> | ?]; right; [left | by right] | split; [by transitivity y |]].
      by constructor.
Qed.

(** [reduce] with the selection closure returns an element of the list that
    is [R]-related to every element, and [None] only on the empty list. *)
Lemma reduce_select l x : reduce (select R) l = Some x -> x ∈ l /\ Forall (R x) l.
Proof.
  destruct l as [| y ys]; [done |]. intros [= <-].
  destruct (fold_left_select ys y) as (Hin & Hr & Hall).
  split; [destruct Hin as [-> | ?]; [left | by right] | by constructor].
Qed.

Lemma reduce_None {B} (f : B -> B -> B) l : reduce f l = None <-> l = [].
Proof. destruct l; cbn; split; congruence. Qed.
End Reduce.

(** ** Computations without error results *)

Lemma bind_Ok {E A B} (a : A) (f : A -> outcome E B) : (x ← Ok a; f x) = f a.
Proof. done. Qed.
#[export] Hint Rewrite @bind_Ok : doge_rw.

Lemma bind_Ok_inv {E A B} (c : outcome E A) (f : A -> outcome E B) b :
  (x ← c; f x) = Ok b -> exists a, c = Ok a /\ f a = Ok b.
Proof. destruct c; cbn; [eauto | done | done]. Qed.

(** Peel the successful binds off a hypothesis [H : (x ← c; k) = Ok b]. *)
Ltac ok_inv H :=
  repeat (first [ apply bind_Ok_inv in H as ([? ?] & ? & H)
                | apply bind_Ok_inv in H as (? & ? & H) ]; cbn in H).

Lemma no_err_ok {E A} (a : A) : no_err (E:=E) (Ok a).
Proof. by intros e. Qed.

Lemma no_err_panic {E A} r : no_err (E:=E) (A:=A) (Panic r).
Proof. by intros e. Qed.

Lemma no_err_bind {E A B} (c : outcome E A) (f : A -> outcome E B) :
  no_err c -> (forall a, no_err (f a)) -> no_err (c ≫= f).
Proof. intros Hc Hf e. destruct c as [a | e' |]; cbn; [apply Hf | by destruct (Hc e') | done]. Qed.

Lemma no_err_unwrap {E F A} (c : outcome E A) : no_err (E:=F) (unwrap c).
Proof. by destruct c. Qed.

#[export] Hint Resolve no_err_ok no_err_panic no_err_bind no_err_unwrap : doge.
