(* ===== verification/Goods.v ===== *)
(** * Goods and accounts

    [GoodKind], [Good] and the market constants come from the external crate
    [unitn_market_2022] (not part of this repository): they are modelled from
    the specification, the constants as a class [MarketConsts] whose laws
    are their positivity.  [Account] is doge_common/src/account.rs: four
    goods, one per kind, with [deposit] (by [merge]) and [withdraw] (by
    [split]).  The account invariant [account_wf] says every slot holds the
    kind of its name; [deposit] never panics on a well-formed account, and
    deposit/withdraw are inverse. *)

From S2P Require Import Prelude.

(** ** Kinds of goods *)

Inductive GoodKind := EUR | USD | YEN | YUAN.

#[export] Instance GoodKind_eq_dec : EqDecision GoodKind.
Proof. solve_decision. Defined.

Definition DEFAULT_GOOD_KIND : GoodKind := EUR.

Definition all_kinds : list GoodKind := [EUR; USD; YEN; YUAN].

(** The constants of [unitn_market_2022::good::consts]. *)
Class MarketConsts := {
  DEFAULT_EUR_USD_EXCHANGE_RATE : Q;
  DEFAULT_EUR_YEN_EXCHANGE_RATE : Q;
  DEFAULT_EUR_YUAN_EXCHANGE_RATE : Q;
  STARTING_CAPITAL : Q;
  usd_rate_pos : 0 < DEFAULT_EUR_USD_EXCHANGE_RATE;
  yen_rate_pos : 0 < DEFAULT_EUR_YEN_EXCHANGE_RATE;
  yuan_rate_pos : 0 < DEFAULT_EUR_YUAN_EXCHANGE_RATE;
  starting_capital_pos : 0 < STARTING_CAPITAL
}.

Section Rates.
Context `{MarketConsts}.

(** [GoodKind::get_default_exchange_rate]: units of the kind per euro. *)
Definition get_default_exchange_rate (k : GoodKind) : Q :=
  match k with
  | EUR => 1
  | USD => DEFAULT_EUR_USD_EXCHANGE_RATE
  | YEN => DEFAULT_EUR_YEN_EXCHANGE_RATE
  | YUAN => DEFAULT_EUR_YUAN_EXCHANGE_RATE
  end.

End Rates.

(** ** Goods: [unitn_market_2022::good::good::Good] *)

Record Good := mk_good { get_kind : GoodKind; get_qty : Q }.

Module Good.
Definition new (k : GoodKind) (q : Q) : Good := mk_good k q.

Inductive GoodSplitError := NonPositiveSplitQuantity | NotEnoughQuantityToSplit.
Inductive MergeError := DifferentKindsOfGood.

(** [g.split(q)]: the remaining good and the split-off part. *)
Definition split (g : Good) (q : Q) : outcome GoodSplitError (Good * Good) :=
    if decide (q <= 0) then Err NonPositiveSplitQuantity
    else if decide (get_qty g < q) then Err NotEnoughQuantityToSplit
    else Ok (mk_good (get_kind g) (get_qty g - q), new (get_kind g) q).

(** [g.merge(other)]: the merged good. *)
Definition merge (g other : Good) : outcome MergeError Good :=
    if decide (get_kind g = get_kind other)
    then Ok (mk_good (get_kind g) (get_qty g + get_qty other))
    else Err DifferentKindsOfGood.
End Good.

(** [unitn_market_2022::market::good_label::GoodLabel]. *)
Record GoodLabel := mk_label {
  good_kind : GoodKind;
  quantity : Q;
  exchange_rate_buy : fval;
  exchange_rate_sell : fval
}.

(** ** Accounts: doge_common/src/account.rs *)

Record Account := mk_account { eur : Good; usd : Good; yen : Good; yuan : Good }.

Inductive WithdrawError :=
| NonPositiveWithdrawQuantity
| WithdrawExcessiveQuantity (withdrawable : Q).

Module Account.
Definition new_empty : Account :=
    mk_account (Good.new EUR 0) (Good.new USD 0) (Good.new YEN 0) (Good.new YUAN 0).

Definition get_good_by_kind (a : Account) (k : GoodKind) : Good :=
    match k with EUR => eur a | USD => usd a | YEN => yen a | YUAN => yuan a end.

(** Writing back through [get_good_by_kind_mut]. *)
Definition set_good_by_kind (a : Account) (k : GoodKind) (g : Good) : Account :=
    match k with
    | EUR => mk_account g (usd a) (yen a) (yuan a)
    | USD => mk_account (eur a) g (yen a) (yuan a)
    | YEN => mk_account (eur a) (usd a) g (yuan a)
    | YUAN => mk_account (eur a) (usd a) (yen a) g
    end.

Definition get_quantity_by_kind (a : Account) (k : GoodKind) : Q :=
    get_qty (get_good_by_kind a k).

(** [deposit]: merge into the slot of the good's kind, [.unwrap()]ed. *)
Definition deposit {E} (a : Account) (g : Good) : outcome E Account :=
    match Good.merge (get_good_by_kind a (get_kind g)) g with
    | Ok g' => Ok (set_good_by_kind a (get_kind g) g')
    | Err _ => Panic UnwrapOnErr
    | Panic r => Panic r
    end.

(** [withdraw]: split from the slot; the errors are mapped, the excessive
      one carrying the current quantity. *)
Definition withdraw (a : Account) (k : GoodKind) (q : Q)
    : outcome WithdrawError (Good * Account) :=
    match Good.split (get_good_by_kind a k) q with
    | Ok (rest, taken) => Ok (taken, set_good_by_kind a k rest)
    | Err Good.NonPositiveSplitQuantity => Err NonPositiveWithdrawQuantity
    | Err Good.NotEnoughQuantityToSplit =>
        Err (WithdrawExcessiveQuantity (get_quantity_by_kind a k))
    | Panic r => Panic r
    end.

Definition new_from_good_labels (labels : list GoodLabel) : outcome unit Account :=
    foldl (fun acc label => a ← acc; deposit a (Good.new (good_kind label) (quantity label)))
          (Ok new_empty) labels.

Section Value.
Context `{MarketConsts}.
Definition get_total_account_value_in_eur (a : Account) : Q :=
    get_quantity_by_kind a EUR +
    get_quantity_by_kind a USD / DEFAULT_EUR_USD_EXCHANGE_RATE +
    get_quantity_by_kind a YEN / DEFAULT_EUR_YEN_EXCHANGE_RATE +
    get_quantity_by_kind a YUAN / DEFAULT_EUR_YUAN_EXCHANGE_RATE.
End Value.

(** Every slot holds the kind it is named after. *)
Definition account_wf (a : Account) : Prop :=
    forall k, get_kind (get_good_by_kind a k) = k.

(** All quantities are non-negative. *)
Definition account_nonneg (a : Account) : Prop :=
    forall k, 0 <= get_quantity_by_kind a k.

(** Specification helpers: the account with [q] more, or [q] less, of kind
    [k] (the shapes that [deposit] and [withdraw] produce). *)
Definition credit (a : Account) (k : GoodKind) (q : Q) : Account :=
  set_good_by_kind a k (mk_good k (get_quantity_by_kind a k + q)).

Definition debit (a : Account) (k : GoodKind) (q : Q) : Account :=
  set_good_by_kind a k (mk_good k (get_quantity_by_kind a k - q)).

(** Equality of accounts up to [==] of the quantities. *)
Definition acc_equiv (a b : Account) : Prop :=
    forall k, get_kind (get_good_by_kind a k) = get_kind (get_good_by_kind b k) /\
              get_quantity_by_kind a k == get_quantity_by_kind b k.
End Account.

(** ** Facts about accounts *)

Lemma default_exchange_rate_pos `{MarketConsts} k : 0 < get_default_exchange_rate k.
Proof.
  destruct k; simpl; auto using usd_rate_pos, yen_rate_pos, yuan_rate_pos.
  reflexivity.
Qed.

Lemma get_set_same a k g :
  Account.get_good_by_kind (Account.set_good_by_kind a k g) k = g.
Proof. by destruct k. Qed.

Lemma get_set_other a k k' g : k <> k' ->
  Account.get_good_by_kind (Account.set_good_by_kind a k g) k' =
  Account.get_good_by_kind a k'.
Proof. destruct k, k'; simpl; congruence. Qed.

Lemma qty_set a k k' g :
  Account.get_quantity_by_kind (Account.set_good_by_kind a k g) k' =
  if decide (k = k') then get_qty g else Account.get_quantity_by_kind a k'.
Proof.
  unfold Account.get_quantity_by_kind.
  case_decide; subst; [by rewrite get_set_same | by rewrite get_set_other].
Qed.

Lemma set_get a k : Account.set_good_by_kind a k (Account.get_good_by_kind a k) = a.
Proof. by destruct a, k. Qed.

Lemma wf_set a k g :
  Account.account_wf a -> get_kind g = k -> Account.account_wf (Account.set_good_by_kind a k g).
Proof.
  intros Hwf <- k'. destruct (decide (get_kind g = k')) as [<-|Hne].
  - by rewrite get_set_same.
  - rewrite get_set_other; auto.
Qed.

#[export] Hint Rewrite get_set_same qty_set : doge_rw.
#[export] Hint Resolve default_exchange_rate_pos wf_set : doge.

Lemma new_empty_wf : Account.account_wf Account.new_empty.
Proof. by intros []. Qed.

(** Depositing into a well-formed account adds the quantity to the slot of
    its kind and never panics. *)
Lemma deposit_ok {E} a g : Account.account_wf a ->
  @Account.deposit E a g =
  Ok (Account.set_good_by_kind a (get_kind g)
        (mk_good (get_kind g) (Account.get_quantity_by_kind a (get_kind g) + get_qty g))).
Proof.
  intros Hwf. unfold Account.deposit, Good.merge, Account.get_quantity_by_kind.
  rewrite (Hwf (get_kind g)). by rewrite decide_True.
Qed.

Lemma deposit_wf {E} a g a' : Account.account_wf a -> @Account.deposit E a g = Ok a' ->
  Account.account_wf a'.
Proof. intros Hwf. rewrite deposit_ok by done. intros [= <-]. auto with doge. Qed.

(** Withdrawing a positive quantity that the slot covers succeeds and
    leaves the difference. *)
Lemma withdraw_ok a k q : Account.account_wf a ->
  0 < q -> q <= Account.get_quantity_by_kind a k ->
  Account.withdraw a k q =
  Ok (Good.new k q,
      Account.set_good_by_kind a k (mk_good k (Account.get_quantity_by_kind a k - q))).
Proof.
  intros Hwf Hq Hle. unfold Account.withdraw, Good.split.
  rewrite decide_False by lra.
  unfold Account.get_quantity_by_kind in *.
  rewrite decide_False by lra. by rewrite (Hwf k).
Qed.

(** The two error results of [withdraw]. *)
Lemma withdraw_nonpositive a k q : q <= 0 ->
  Account.withdraw a k q = Err NonPositiveWithdrawQuantity.
Proof. intros Hq. unfold Account.withdraw, Good.split. by rewrite decide_True. Qed.

Lemma withdraw_excessive a k q : 0 < q -> Account.get_quantity_by_kind a k < q ->
  Account.withdraw a k q =
  Err (WithdrawExcessiveQuantity (Account.get_quantity_by_kind a k)).
Proof.
  intros Hq Hlt. unfold Account.withdraw, Good.split.
  rewrite decide_False by lra. unfold Account.get_quantity_by_kind in *.
  by rewrite decide_True.
Qed.

#[export] Instance acc_equiv_equiv : Equivalence Account.acc_equiv.
Proof.
  split.
  - intros a k. split; reflexivity.
  - intros a b H k. destruct (H k). split; [done | by symmetry].
  - intros a b c H1 H2 k. destruct (H1 k), (H2 k). split; [congruence | etransitivity; eauto].
Qed.

Lemma acc_equiv_set a k g g' :
  get_kind g = get_kind g' -> get_qty g == get_qty g' ->
  Account.acc_equiv (Account.set_good_by_kind a k g) (Account.set_good_by_kind a k g').
Proof.
  intros Hk Hq k'. unfold Account.get_quantity_by_kind.
  destruct (decide (k = k')) as [<-|Hne].
  - rewrite !get_set_same. done.
  - rewrite !get_set_other by done. split; reflexivity.
Qed.

Lemma set_set a k g g' :
  Account.set_good_by_kind (Account.set_good_by_kind a k g) k g' = Account.set_good_by_kind a k g'.
Proof. by destruct k. Qed.

(** C40: Round trip: depositing a positive good into a well-formed account whose
    slot is non-negative, then withdrawing the same quantity of the same
    kind, gives the good back and an account equal (up to [==]) to the
    original. *)
Lemma deposit_withdraw_roundtrip a g : Account.account_wf a -> 0 < get_qty g ->
  0 <= Account.get_quantity_by_kind a (get_kind g) ->
  exists a1 a2, @Account.deposit unit a g = Ok a1 /\
    Account.withdraw a1 (get_kind g) (get_qty g) = Ok (g, a2) /\
    Account.acc_equiv a2 a.
Proof.
  intros Hwf Hq Hnn. destruct g as [k q]; simpl in *.
  eexists _, _. split; [by rewrite deposit_ok | split].
  - rewrite withdraw_ok; simpl; auto with doge.
    rewrite qty_set, decide_True by done. simpl. lra.
  - rewrite set_set, qty_set, decide_True by done. simpl.
    transitivity (Account.set_good_by_kind a k (Account.get_good_by_kind a k));
      [| by rewrite set_get].
    apply acc_equiv_set; simpl; [by rewrite Hwf |].
    unfold Account.get_quantity_by_kind. lra.
Qed.

(** ** Credit and debit *)

Lemma deposit_credit {E} a g : Account.account_wf a ->
  @Account.deposit E a g = Ok (Account.credit a (get_kind g) (get_qty g)).
Proof. intros. by rewrite deposit_ok. Qed.

Lemma withdraw_debit a k q : Account.account_wf a ->
  0 < q -> q <= Account.get_quantity_by_kind a k ->
  Account.withdraw a k q = Ok (Good.new k q, Account.debit a k q).
Proof. intros. by rewrite withdraw_ok. Qed.

Lemma qty_credit a k k' q :
  Account.get_quantity_by_kind (Account.credit a k q) k' =
  if decide (k = k') then Account.get_quantity_by_kind a k + q
  else Account.get_quantity_by_kind a k'.
Proof. unfold Account.credit. rewrite qty_set. by case_decide. Qed.

Lemma qty_debit a k k' q :
  Account.get_quantity_by_kind (Account.debit a k q) k' =
  if decide (k = k') then Account.get_quantity_by_kind a k - q
  else Account.get_quantity_by_kind a k'.
Proof. unfold Account.debit. rewrite qty_set. by case_decide. Qed.

Lemma wf_credit a k q : Account.account_wf a -> Account.account_wf (Account.credit a k q).
Proof. intros. unfold Account.credit. auto with doge. Qed.

Lemma wf_debit a k q : Account.account_wf a -> Account.account_wf (Account.debit a k q).
Proof. intros. unfold Account.debit. auto with doge. Qed.

Lemma nonneg_credit a k q : Account.account_nonneg a -> 0 <= q ->
  Account.account_nonneg (Account.credit a k q).
Proof.
  intros Hn Hq k'. rewrite qty_credit. pose proof (Hn k). pose proof (Hn k'). case_decide; lra.
Qed.

Lemma nonneg_debit a k q : Account.account_nonneg a -> q <= Account.get_quantity_by_kind a k ->
  Account.account_nonneg (Account.debit a k q).
Proof. intros Hn Hq k'. rewrite qty_debit. specialize (Hn k'). case_decide; subst; lra. Qed.

#[export] Hint Resolve wf_credit wf_debit nonneg_credit : doge.
#[export] Hint Rewrite qty_credit qty_debit : doge_rw.

(** Two well-formed accounts with equal quantities are equivalent. *)
Lemma acc_equiv_intro a b : Account.account_wf a -> Account.account_wf b ->
  (forall k, Account.get_quantity_by_kind a k == Account.get_quantity_by_kind b k) ->
  Account.acc_equiv a b.
Proof. intros Ha Hb Hq k. split; [by rewrite Ha, Hb | apply Hq]. Qed.

(** Credit and debit of the same quantity cancel, up to [==]. *)
Lemma credit_debit a k q : Account.account_wf a ->
  Account.acc_equiv (Account.credit (Account.debit a k q) k q) a.
Proof.
  intros Hwf. apply acc_equiv_intro; auto with doge.
  intros k'. rewrite qty_credit, !qty_debit. repeat case_decide; subst; try done; lra.
Qed.

Lemma debit_credit a k q : Account.account_wf a ->
  Account.acc_equiv (Account.debit (Account.credit a k q) k q) a.
Proof.
  intros Hwf. apply acc_equiv_intro; auto with doge.
  intros k'. rewrite qty_debit, !qty_credit. repeat case_decide; subst; try done; lra.
Qed.

(** Operations on different slots commute. *)
Lemma credit_debit_comm a k k' q q' : k <> k' ->
  Account.credit (Account.debit a k q) k' q' = Account.debit (Account.credit a k' q') k q.
Proof.
  intros Hne. unfold Account.credit, Account.debit.
  rewrite !qty_set. rewrite !decide_False by congruence. by destruct k, k'.
Qed.

(** [deposit] has no error result: a failed merge panics. *)
Lemma deposit_no_err {E} a g : no_err (@Account.deposit E a g).
Proof. unfold Account.deposit. by destruct (Good.merge _ _). Qed.

#[export] Hint Resolve deposit_no_err : doge.

(** A successful [withdraw] from a well-formed account took a positive
    quantity it held, and returns it as a good of the kind. *)
Lemma withdraw_inv a k q g a' : Account.account_wf a -> Account.withdraw a k q = Ok (g, a') ->
  g = Good.new k q /\ a' = Account.debit a k q /\ 0 < q /\ q <= Account.get_quantity_by_kind a k.
Proof.
  intros Hwf Hw. destruct (decide (q <= 0)) as [Hq | Hq].
  { by rewrite withdraw_nonpositive in Hw. }
  destruct (decide (Account.get_quantity_by_kind a k < q)) as [Hlt | Hlt].
  { rewrite withdraw_excessive in Hw by lra. done. }
  rewrite withdraw_debit in Hw by (done || lra). injection Hw as <- <-. split_and!; done || lra.
Qed.

(** ** Witnesses *)

Lemma deposit_withdraw_roundtrip_witness :
  exists a1 a2,
    @Account.deposit unit (mk_account (Good.new EUR 10) (Good.new USD 0) (Good.new YEN 0) (Good.new YUAN 0))
      (Good.new USD 5) = Ok a1 /\
    Account.withdraw a1 USD 5 = Ok (Good.new USD 5, a2) /\
    Account.acc_equiv a2 (mk_account (Good.new EUR 10) (Good.new USD 0) (Good.new YEN 0) (Good.new YUAN 0)).
Proof.
  apply (deposit_withdraw_roundtrip
           (mk_account (Good.new EUR 10) (Good.new USD 0) (Good.new YEN 0) (Good.new YUAN 0))
           (Good.new USD 5)); concrete.
Defined.
