(* ===== verification/Ledger.v ===== *)
(** * The ledger: [AccountOps] (doge_market/src/account_ops.rs)

    Three accounts: [assets] (quantities free for new reservations),
    [reservations] (promised to buyers and to sellers of outstanding locks)
    and [futures] (expected from the counterparties of outstanding locks).
    The price of buying [q] of kind [k] scales the euro position
    [assets(EUR) + reservations(EUR) + futures(EUR)] by [q / (assets(k) - q)];
    the price of selling scales [assets(EUR)] by
    [q / (assets(k) + reservations(k) + futures(k) + q)].  The earn
    percentage is applied as [(100 + p) / 100] (buy) and [(100 - p) / 100]
    (sell).  This file proves the behaviour of both functions on every
    branch, the absence of the [assert!] panic on a non-negative ledger (and
    its presence when the euro position is zero), the monotonicity laws of
    the buy price, the unit tests of account_ops.rs, and that the prices
    depend on the ledger only up to [==] ([Proper] instances). *)

From S2P Require Import Prelude Goods.

Record AccountOps := mk_ops {
  assets : Account;
  reservations : Account;
  futures : Account
}.

Module BuyPriceComputationError.
Inductive t :=
| NonPositiveQuantity
| NegativeExchangeRateEarnPercentage
| ExceedsReservableQuantity (reservable : Q).
End BuyPriceComputationError.

Module SellPriceComputationError.
Inductive t :=
| NonPositiveQuantity
| NegativeExchangeEarnRatePercentage.
End SellPriceComputationError.

Module BuyExchangeRateComputationError.
Inductive t :=
| NonPositiveExchangeRateEarnPercentage
| ExceedsReservableQuantity (reservable : Q).
End BuyExchangeRateComputationError.

Module SellExchangeRateComputationError.
Inductive t :=
| NonPositiveExchangeRateEarnPercentage.
End SellExchangeRateComputationError.

Module AccountOps.
Import Account.

Definition new_empty : AccountOps :=
  mk_ops Account.new_empty Account.new_empty Account.new_empty.

Definition of_assets (a : Account) : AccountOps :=
  mk_ops a Account.new_empty Account.new_empty.

Definition get_reservable_quantity_by_kind (ops : AccountOps) (k : GoodKind) : Q :=
  get_quantity_by_kind (assets ops) k.

Definition get_reserved_quantity_by_kind (ops : AccountOps) (k : GoodKind) : Q :=
  get_quantity_by_kind (reservations ops) k.

Definition get_total_quantity_by_kind (ops : AccountOps) (k : GoodKind) : Q :=
  get_quantity_by_kind (assets ops) k + get_quantity_by_kind (reservations ops) k.

Definition get_future_quantity_by_kind (ops : AccountOps) (k : GoodKind) : Q :=
  get_quantity_by_kind (futures ops) k.

(** The euro position that scales the buy price. *)
Definition eur_position (ops : AccountOps) : Q :=
  get_reservable_quantity_by_kind ops EUR + get_reserved_quantity_by_kind ops EUR +
  get_future_quantity_by_kind ops EUR.

(** The account [a] with [d] more euros: the ledgers of the monotonicity
    of the buy price. *)
Definition raise_eur (a : Account) (d : Q) : Account :=
  set_good_by_kind a EUR (mk_good EUR (get_quantity_by_kind a EUR + d)).

Definition compute_buy_price (ops : AccountOps) (of_kind : GoodKind) (of_quantity : Q)
    (exchange_rate_earn_percentage : Q) : outcome BuyPriceComputationError.t fval :=
  if decide (of_quantity <= 0) then Err BuyPriceComputationError.NonPositiveQuantity
  else if decide (exchange_rate_earn_percentage < 0) then
    Err BuyPriceComputationError.NegativeExchangeRateEarnPercentage
  else
    let reservable := get_reservable_quantity_by_kind ops of_kind in
    if decide (reservable < of_quantity) then
      Err (BuyPriceComputationError.ExceedsReservableQuantity reservable)
    else
      let exchange_rate :=
        if decide (of_kind = EUR) then Fin 1
        else fdiv (Fin (eur_position ops))
                  (Fin (get_reservable_quantity_by_kind ops of_kind - of_quantity)) in
      let buy_price :=
        fdiv (fmul (fmul (Fin of_quantity) exchange_rate)
                   (Fin (100 + exchange_rate_earn_percentage))) (Fin 100) in
      if fge0 buy_price then Ok buy_price else Panic AssertFailed.

Definition compute_sell_price (ops : AccountOps) (of_kind : GoodKind) (of_quantity : Q)
    (exchange_rate_earn_percentage : Q) : outcome SellPriceComputationError.t fval :=
  if decide (of_quantity <= 0) then Err SellPriceComputationError.NonPositiveQuantity
  else if decide (exchange_rate_earn_percentage < 0) then
    Err SellPriceComputationError.NegativeExchangeEarnRatePercentage
  else
    let exchange_rate :=
      if decide (of_kind = EUR) then Fin 1
      else fdiv (Fin (get_reservable_quantity_by_kind ops EUR))
                (Fin (get_reservable_quantity_by_kind ops of_kind +
                      get_reserved_quantity_by_kind ops of_kind +
                      get_future_quantity_by_kind ops of_kind + of_quantity)) in
    Ok (fdiv (fmul (fmul (Fin of_quantity) exchange_rate)
                   (Fin (100 - exchange_rate_earn_percentage))) (Fin 100)).

Definition compute_buy_exchange_rate (ops : AccountOps) (kind : GoodKind)
    (exchange_rate_earn_percentage : Q) : outcome BuyExchangeRateComputationError.t fval :=
  match compute_buy_price ops kind 1 exchange_rate_earn_percentage with
  | Ok p => Ok p
  | Err BuyPriceComputationError.NonPositiveQuantity => Panic Unreachable
  | Err BuyPriceComputationError.NegativeExchangeRateEarnPercentage =>
      Err BuyExchangeRateComputationError.NonPositiveExchangeRateEarnPercentage
  | Err (BuyPriceComputationError.ExceedsReservableQuantity r) =>
      Err (BuyExchangeRateComputationError.ExceedsReservableQuantity r)
  | Panic r => Panic r
  end.

Definition compute_sell_exchange_rate (ops : AccountOps) (kind : GoodKind)
    (exchange_rate_earn_percentage : Q) : outcome SellExchangeRateComputationError.t fval :=
  match compute_sell_price ops kind 1 exchange_rate_earn_percentage with
  | Ok p => Ok p
  | Err SellPriceComputationError.NonPositiveQuantity => Panic Unreachable
  | Err SellPriceComputationError.NegativeExchangeEarnRatePercentage =>
      Err SellExchangeRateComputationError.NonPositiveExchangeRateEarnPercentage
  | Panic r => Panic r
  end.

(** The ledger invariant: the three accounts are well formed and hold
    non-negative quantities. *)
Definition ops_wf (ops : AccountOps) : Prop :=
  account_wf (assets ops) /\ account_wf (reservations ops) /\ account_wf (futures ops).

Definition ops_nonneg (ops : AccountOps) : Prop :=
  account_nonneg (assets ops) /\ account_nonneg (reservations ops) /\
  account_nonneg (futures ops).

(** Equality of ledgers up to [==]. *)
Definition ops_equiv (o1 o2 : AccountOps) : Prop :=
  acc_equiv (assets o1) (assets o2) /\ acc_equiv (reservations o1) (reservations o2) /\
  acc_equiv (futures o1) (futures o2).

(** Equality of buy-price errors up to [==] of the carried quantity. *)
Definition bpce_equiv (e1 e2 : BuyPriceComputationError.t) : Prop :=
  match e1, e2 with
  | BuyPriceComputationError.ExceedsReservableQuantity r1,
    BuyPriceComputationError.ExceedsReservableQuantity r2 => r1 == r2
  | _, _ => e1 = e2
  end.
End AccountOps.

(** ** Facts about the ledger *)

Import AccountOps.

Lemma reservable_nonneg ops k : ops_nonneg ops -> 0 <= get_reservable_quantity_by_kind ops k.
Proof. intros (H & _ & _). apply H. Qed.

Lemma eur_position_nonneg ops : ops_nonneg ops -> 0 <= eur_position ops.
Proof.
  intros (Ha & Hr & Hf). unfold eur_position, get_reservable_quantity_by_kind,
    get_reserved_quantity_by_kind, get_future_quantity_by_kind.
  specialize (Ha EUR). specialize (Hr EUR). specialize (Hf EUR). lra.
Qed.

#[export] Hint Resolve reservable_nonneg eur_position_nonneg : doge.

Lemma scale_nonneg x p : 0 <= x -> 0 <= p -> 0 <= x * (100 + p) / 100.
Proof. intros. rewrite Qdiv_100. apply Qmult_le_0_compat; [| lra]. nra. Qed.

Lemma scale_lt x y p : x < y -> 0 <= p -> x * (100 + p) / 100 < y * (100 + p) / 100.
Proof.
  intros. rewrite !Qdiv_100. apply Qmult_lt_compat_r; [lra |].
  apply Qmult_lt_compat_r; lra.
Qed.

(** The buy price on its finite branch: positive quantity within the free
    stock (strictly below it for a foreign kind), non-negative percentage
    and euro position. *)
Lemma compute_buy_price_fin ops k q p :
  0 < q -> 0 <= p -> 0 <= eur_position ops ->
  (k = EUR /\ q <= get_reservable_quantity_by_kind ops k) \/
  (k <> EUR /\ q < get_reservable_quantity_by_kind ops k) ->
  compute_buy_price ops k q p =
  Ok (Fin (q * (if decide (k = EUR) then 1
                else eur_position ops / (get_reservable_quantity_by_kind ops k - q))
             * (100 + p) / 100)).
Proof.
  intros Hq Hp HE Hk. unfold compute_buy_price.
  rewrite decide_False by lra. rewrite decide_False by lra.
  rewrite decide_False by (destruct Hk as [[_ ?]|[_ ?]]; lra).
  destruct (decide (k = EUR)) as [Heq | Hne].
  - rewrite !fmul_fin, fdiv_fin by lra. cbn [fge0].
    rewrite bool_decide_true; [done |]. apply scale_nonneg; [nra | lra].
  - assert (Hlt : q < get_reservable_quantity_by_kind ops k) by (destruct Hk as [[]|[]]; done).
    rewrite fdiv_fin by lra. rewrite !fmul_fin, fdiv_fin by lra. cbn [fge0].
    rewrite bool_decide_true; [done |]. apply scale_nonneg; [| lra].
    apply Qmult_le_0_compat; [lra |]. apply Qdiv_nonneg; lra.
Qed.

(** Buying the whole free stock of a foreign kind divides by zero: with a
    positive euro position the price is [+inf]. *)
Lemma compute_buy_price_exhausted ops k q p :
  k <> EUR -> 0 < q -> 0 <= p -> q == get_reservable_quantity_by_kind ops k ->
  0 < eur_position ops -> compute_buy_price ops k q p = Ok (Inf false).
Proof.
  intros Hk Hq Hp Hr HE. unfold compute_buy_price.
  rewrite decide_False by lra. rewrite decide_False by lra. rewrite decide_False by lra.
  rewrite decide_False by done. rewrite fdiv_fin_zero_pos by lra.
  rewrite (proj1 (fmul_inf_pos q Hq)), (proj2 (fmul_inf_pos (100 + p) ltac:(lra))).
  by rewrite fdiv_inf_pos by lra.
Qed.

(** With a zero euro position the same division is [0/0 = NaN] and the
    [assert!(buy_price >= 0.)] panics. *)
Lemma compute_buy_price_exhausted_nan ops k q p :
  k <> EUR -> 0 < q -> 0 <= p -> q == get_reservable_quantity_by_kind ops k ->
  eur_position ops == 0 -> compute_buy_price ops k q p = Panic AssertFailed.
Proof.
  intros Hk Hq Hp Hr HE. unfold compute_buy_price.
  rewrite decide_False by lra. rewrite decide_False by lra. rewrite decide_False by lra.
  rewrite decide_False by done. by rewrite fdiv_fin_zero_zero by lra.
Qed.

(** Rewrite with [compute_buy_price_fin], discharging its side conditions. *)
Ltac buy_fin :=
  rewrite compute_buy_price_fin;
  [| lra | lra | eauto with doge; lra
   | first [left; split; [done | lra] | right; split; [done | lra]]].

(** The three error results of [compute_buy_price], checked in the order of
    the code. *)
Lemma compute_buy_price_errors ops k q p :
  (q <= 0 -> compute_buy_price ops k q p = Err BuyPriceComputationError.NonPositiveQuantity) /\
  (0 < q -> p < 0 ->
   compute_buy_price ops k q p = Err BuyPriceComputationError.NegativeExchangeRateEarnPercentage) /\
  (0 < q -> 0 <= p -> get_reservable_quantity_by_kind ops k < q ->
   compute_buy_price ops k q p =
   Err (BuyPriceComputationError.ExceedsReservableQuantity (get_reservable_quantity_by_kind ops k))).
Proof.
  unfold compute_buy_price. split; [| split]; intros.
  - by rewrite decide_True.
  - rewrite decide_False by lra. by rewrite decide_True.
  - rewrite decide_False by lra. rewrite decide_False by lra. by rewrite decide_True.
Qed.

(** Buying euros costs the quantity scaled by the earn percentage. *)
Lemma compute_buy_price_eur ops q p :
  ops_nonneg ops -> 0 < q -> 0 <= p -> q <= get_reservable_quantity_by_kind ops EUR ->
  exists v, compute_buy_price ops EUR q p = Ok (Fin v) /\ v == q * (100 + p) / 100.
Proof.
  intros Hn Hq Hp Hr. eexists. split.
  - apply compute_buy_price_fin; auto with doge.
  - rewrite decide_True by done. field.
Qed.

(** C6: On a non-negative ledger, [compute_buy_price] panics exactly when a
    positive quantity equal to the whole free stock of a foreign kind is
    priced while the euro position is zero ([0/0] is NaN and the
    [assert!(buy_price >= 0.)] fails). *)
Lemma compute_buy_price_panic_iff ops k q p : ops_nonneg ops ->
  is_panic (compute_buy_price ops k q p) = true <->
  k <> EUR /\ 0 < q /\ 0 <= p /\ q == get_reservable_quantity_by_kind ops k /\
  eur_position ops == 0.
Proof.
  intros Hn. split.
  - destruct (decide (q <= 0)) as [Hq|Hq].
    { unfold compute_buy_price. by rewrite decide_True. }
    destruct (decide (p < 0)) as [Hp|Hp].
    { unfold compute_buy_price. rewrite decide_False by done. by rewrite decide_True. }
    destruct (decide (get_reservable_quantity_by_kind ops k < q)) as [Hr|Hr].
    { unfold compute_buy_price. rewrite !decide_False by done. by rewrite decide_True. }
    destruct (decide (k = EUR)) as [->|Hk].
    { buy_fin. done. }
    destruct (decide (q == get_reservable_quantity_by_kind ops k)) as [He|He].
    2: { buy_fin. done. }
    pose proof (eur_position_nonneg ops Hn).
    destruct (decide (eur_position ops == 0)) as [Hz|Hz].
    + intros _. repeat split; auto; lra.
    + rewrite compute_buy_price_exhausted; try done; lra.
  - intros (Hk & Hq & Hp & Hr & HE). by rewrite compute_buy_price_exhausted_nan.
Qed.

(** C35: For a foreign kind the buy price strictly increases with the quantity. *)
Lemma compute_buy_price_increasing_in_quantity ops k q1 q2 p :
  k <> EUR -> 0 < eur_position ops -> 0 <= p -> 0 < q1 -> q1 < q2 ->
  q2 < get_reservable_quantity_by_kind ops k ->
  exists v1 v2, compute_buy_price ops k q1 p = Ok (Fin v1) /\
    compute_buy_price ops k q2 p = Ok (Fin v2) /\ v1 < v2.
Proof.
  intros Hk HE Hp H1 H12 H2. eexists _, _. split; [| split].
  - buy_fin. reflexivity.
  - buy_fin. reflexivity.
  - rewrite !decide_False by done. apply scale_lt; [| done].
    apply Qmult_le_lt_compat_pos; split; try lra.
    + apply Qdiv_pos; lra.
    + apply Qdiv_lt_denom; lra.
Qed.

(** Two ledgers with the same free stock of a foreign kind: the one with
    the larger euro position quotes the higher buy price. *)
Lemma buy_price_lt ops ops' k q p : k <> EUR -> 0 <= eur_position ops -> 0 <= p -> 0 < q ->
  q < get_reservable_quantity_by_kind ops k ->
  get_reservable_quantity_by_kind ops' k = get_reservable_quantity_by_kind ops k ->
  eur_position ops < eur_position ops' ->
  exists v1 v2, compute_buy_price ops k q p = Ok (Fin v1) /\ compute_buy_price ops' k q p = Ok (Fin v2) /\ v1 < v2.
Proof.
  intros Hk HE Hp Hq Hr Hr' HE'. eexists _, _. split; [| split].
  - buy_fin. reflexivity.
  - rewrite compute_buy_price_fin; [reflexivity | lra | lra | lra |]. right. rewrite Hr'. done.
  - rewrite !decide_False by done. rewrite Hr'. apply scale_lt; [| done].
    apply Qmult_lt_l; [done |]. unfold Qdiv. apply Qmult_lt_compat_r; [| lra].
    apply Qinv_lt_0_compat. lra.
Qed.

Lemma raise_eur_qty a d k : Account.get_quantity_by_kind (raise_eur a d) k =
  if decide (EUR = k) then Account.get_quantity_by_kind a EUR + d else Account.get_quantity_by_kind a k.
Proof. unfold raise_eur. rewrite qty_set. by case_decide. Qed.

(** C38: For a foreign kind the buy price strictly increases with each of
    the three terms of the euro position: [d] more euros in the free
    assets, in the reservations or in the futures each raise the price. *)
Lemma compute_buy_price_increasing_in_eur ops k q p d :
  k <> EUR -> 0 <= eur_position ops -> 0 <= p -> 0 < q ->
  q < get_reservable_quantity_by_kind ops k -> 0 < d ->
  exists v, compute_buy_price ops k q p = Ok (Fin v) /\
    (exists v', compute_buy_price (mk_ops (raise_eur (assets ops) d) (reservations ops) (futures ops)) k q p
                = Ok (Fin v') /\ v < v') /\
    (exists v', compute_buy_price (mk_ops (assets ops) (raise_eur (reservations ops) d) (futures ops)) k q p
                = Ok (Fin v') /\ v < v') /\
    (exists v', compute_buy_price (mk_ops (assets ops) (reservations ops) (raise_eur (futures ops) d)) k q p
                = Ok (Fin v') /\ v < v').
Proof.
  intros Hk HE Hp Hq Hr Hd.
  assert (Hf : forall ops', get_reservable_quantity_by_kind ops' k = get_reservable_quantity_by_kind ops k ->
            eur_position ops < eur_position ops' -> forall v, compute_buy_price ops k q p = Ok (Fin v) ->
            exists v', compute_buy_price ops' k q p = Ok (Fin v') /\ v < v').
  { intros ops' Hr' HE' v Ev. destruct (buy_price_lt ops ops' k q p Hk HE Hp Hq Hr Hr' HE') as (v1 & v2 & E1 & E2 & Hlt).
    rewrite E1 in Ev. injection Ev as <-. eauto. }
  assert (Hv : exists v, compute_buy_price ops k q p = Ok (Fin v)) by (eexists; buy_fin; reflexivity).
  destruct Hv as [v Ev]. exists v. split; [done |].
  split; [| split]; (eapply Hf; [| | exact Ev]);
    unfold eur_position, get_reservable_quantity_by_kind, get_reserved_quantity_by_kind, get_future_quantity_by_kind;
    cbn [assets reservations futures]; rewrite ?raise_eur_qty, ?decide_True by done;
    rewrite ?decide_False by congruence; first [reflexivity | lra].
Qed.


(** On a non-negative ledger the sell price of a positive quantity is always
    finite: the denominator contains the quantity itself. *)
Lemma compute_sell_price_fin ops k q p : ops_nonneg ops -> 0 < q -> 0 <= p ->
  compute_sell_price ops k q p =
  Ok (Fin (q * (if decide (k = EUR) then 1
                else get_reservable_quantity_by_kind ops EUR /
                     (get_reservable_quantity_by_kind ops k + get_reserved_quantity_by_kind ops k +
                      get_future_quantity_by_kind ops k + q))
             * (100 - p) / 100)).
Proof.
  intros (Ha & Hr & Hf) Hq Hp. unfold compute_sell_price.
  rewrite decide_False by lra. rewrite decide_False by lra.
  destruct (decide (k = EUR)).
  - by rewrite !fmul_fin, fdiv_fin by lra.
  - unfold get_reservable_quantity_by_kind, get_reserved_quantity_by_kind,
      get_future_quantity_by_kind.
    specialize (Ha k). specialize (Hr k). specialize (Hf k).
    rewrite fdiv_fin by lra. by rewrite !fmul_fin, fdiv_fin by lra.
Qed.

(** The sell price is finite and non-negative for every percentage in
    [0, 100], and for euros it is the quantity less the percentage. *)
Lemma compute_sell_price_nonneg ops k q p : ops_nonneg ops -> 0 < q -> 0 <= p <= 100 ->
  exists v, compute_sell_price ops k q p = Ok (Fin v) /\ 0 <= v /\
            (k = EUR -> v == q * (100 - p) / 100).
Proof.
  intros Hn Hq Hp. eexists. split; [apply compute_sell_price_fin; auto; lra |].
  split.
  - rewrite Qdiv_100. apply Qmult_le_0_compat; [| lra]. apply Qmult_le_0_compat; [| lra].
    apply Qmult_le_0_compat; [lra |]. case_decide; [lra |].
    destruct Hn as (Ha & Hr & Hf). apply Qdiv_nonneg; [apply Ha |].
    specialize (Ha k). specialize (Hr k). specialize (Hf k).
    unfold get_reservable_quantity_by_kind, get_reserved_quantity_by_kind,
      get_future_quantity_by_kind. lra.
  - intros ->. rewrite decide_True by done. field.
Qed.

#[export] Instance ops_equiv_equiv : Equivalence ops_equiv.
Proof.
  split.
  - intros o. split; [| split]; reflexivity.
  - intros o1 o2 (H1 & H2 & H3). split; [| split]; symmetry; assumption.
  - intros o1 o2 o3 (H1 & H2 & H3) (H1' & H2' & H3').
    split; [| split]; etransitivity; eassumption.
Qed.

Lemma ops_equiv_qty o1 o2 k : ops_equiv o1 o2 ->
  get_reservable_quantity_by_kind o1 k == get_reservable_quantity_by_kind o2 k /\
  get_reserved_quantity_by_kind o1 k == get_reserved_quantity_by_kind o2 k /\
  get_future_quantity_by_kind o1 k == get_future_quantity_by_kind o2 k.
Proof. intros (H1 & H2 & H3). repeat split; [apply H1 | apply H2 | apply H3]. Qed.

(** Prices depend on the ledger only up to [==]: ledgers equal up to [==]
    give related results on every branch (same error, same panic, equal
    prices). *)
#[export] Instance compute_buy_price_proper :
  Proper (ops_equiv ==> eq ==> eq ==> eq ==> outcome_rel bpce_equiv fval_equiv)
    compute_buy_price.
Proof.
  intros o1 o2 Ho k _ <- q _ <- p _ <-.
  pose proof (ops_equiv_qty o1 o2 k Ho) as (Hr & _ & _).
  assert (HE : eur_position o1 == eur_position o2).
  { unfold eur_position. destruct (ops_equiv_qty o1 o2 EUR Ho) as (? & ? & ?).
    lra. }
  unfold compute_buy_price.
  destruct (decide (q <= 0)); [done |]. destruct (decide (p < 0)); [done |].
  destruct (decide (get_reservable_quantity_by_kind o1 k < q)) as [H1|H1];
    destruct (decide (get_reservable_quantity_by_kind o2 k < q)) as [H2|H2];
    [exact Hr | exfalso; lra | exfalso; lra |].
  set (v1 := fdiv _ (Fin 100)). set (v2 := fdiv _ (Fin 100)).
  assert (Hv : fval_equiv v1 v2).
  { unfold v1, v2. apply fdiv_proper; [| reflexivity]. apply fmul_proper; [| reflexivity].
    apply fmul_proper; [reflexivity |]. case_decide; [reflexivity |].
    apply fdiv_proper; cbn [fval_equiv]; [done | by rewrite Hr]. }
  rewrite (fge0_proper v1 v2 Hv). by destruct (fge0 v2).
Qed.

(** ** Witnesses *)

Definition sample_ops (e u y yu : Q) : AccountOps :=
  of_assets (mk_account (Good.new EUR e) (Good.new USD u) (Good.new YEN y) (Good.new YUAN yu)).

Lemma compute_buy_price_panic_iff_witness :
  ops_nonneg (sample_ops 0 2000 0 0) /\
  (is_panic (compute_buy_price (sample_ops 0 2000 0 0) USD 2000 1) = true <->
   USD <> EUR /\ 0 < 2000 /\ 0 <= 1 /\
   2000 == get_reservable_quantity_by_kind (sample_ops 0 2000 0 0) USD /\
   eur_position (sample_ops 0 2000 0 0) == 0).
Proof. split; [concrete | apply compute_buy_price_panic_iff; concrete]. Defined.

Lemma compute_buy_price_increasing_in_quantity_witness :
  exists v1 v2, compute_buy_price (sample_ops 1000 2000 0 0) USD 100 1 = Ok (Fin v1) /\
    compute_buy_price (sample_ops 1000 2000 0 0) USD 1800 1 = Ok (Fin v2) /\ v1 < v2.
Proof. apply compute_buy_price_increasing_in_quantity; concrete. Defined.

Lemma compute_buy_price_increasing_in_eur_witness :
  exists v, compute_buy_price (sample_ops 1000 2000 0 0) USD 100 1 = Ok (Fin v) /\
    (exists v', compute_buy_price (mk_ops (raise_eur (assets (sample_ops 1000 2000 0 0)) 500)
                  (reservations (sample_ops 1000 2000 0 0)) (futures (sample_ops 1000 2000 0 0))) USD 100 1
                = Ok (Fin v') /\ v < v') /\
    (exists v', compute_buy_price (mk_ops (assets (sample_ops 1000 2000 0 0))
                  (raise_eur (reservations (sample_ops 1000 2000 0 0)) 500) (futures (sample_ops 1000 2000 0 0))) USD 100 1
                = Ok (Fin v') /\ v < v') /\
    (exists v', compute_buy_price (mk_ops (assets (sample_ops 1000 2000 0 0)) (reservations (sample_ops 1000 2000 0 0))
                  (raise_eur (futures (sample_ops 1000 2000 0 0)) 500)) USD 100 1
                = Ok (Fin v') /\ v < v').
Proof. apply compute_buy_price_increasing_in_eur; concrete. Defined.

Lemma compute_buy_price_eur_witness :
  exists v, compute_buy_price (sample_ops 120000 0 0 0) EUR 77 1 = Ok (Fin v) /\
            v == 77 * (100 + 1) / 100.
Proof. apply compute_buy_price_eur; concrete. Defined.

Lemma compute_sell_price_nonneg_witness :
  exists v, compute_sell_price (sample_ops 35000 0 0 75000) YUAN 10500 1 = Ok (Fin v) /\ 0 <= v /\
            (YUAN = EUR -> v == 10500 * (100 - 1) / 100).
Proof. apply compute_sell_price_nonneg; concrete. Defined.

Lemma compute_buy_price_errors_witness :
  compute_buy_price (sample_ops 2000 0 0 0) EUR 5000 1 =
  Err (BuyPriceComputationError.ExceedsReservableQuantity
         (get_reservable_quantity_by_kind (sample_ops 2000 0 0 0) EUR)).
Proof. apply (compute_buy_price_errors (sample_ops 2000 0 0 0) EUR 5000 1); concrete. Defined.
