(* ===== verification/Transactions.v ===== *)
(** * Buy and sell locks (buy_transaction.rs, sell_transaction.rs)

    A [BuyTx] records the good the counterparty buys from the market
    ([buy], held in [reservations]) and its bid ([bid], expected in
    [futures]); a [SellTx] records the good it sells to the market ([sell],
    expected in [futures]) and the market's offer ([offer], held in
    [reservations]).  Each is a state machine [Reserved -> Paid | Expired]:
    [reserve] creates it in [Reserved], settlement ([BuyTx.buy],
    [SellTx.sell]) moves it to [Paid], [expire] to [Expired]; the terminal
    states are absorbing.

    Settlement and expiry withdraw the recorded quantities with the code's
    drift tolerance: when the account holds less than expected, whatever
    is left is vacuumed to zero ([withdraw_vacuum], [withdraw_drop]).

    The theorems give the effect of each operation on the ledger on every
    branch, errors included, prove that the drift branches are dead when the
    ledger covers the lock, that expiring a fresh lock restores the ledger
    (up to [==]), and that a lock raises the buy price of the locked kind. *)

From S2P Require Import Prelude Goods Ledger.

(** ** Drift-tolerant withdraws *)

(** [match ops.reservations.withdraw(k, q) { Ok(good) => good,
    Err(NonPositive..) => unreachable!(), Err(WithdrawExcessiveQuantity
    { withdrawable }) => { if withdrawable > 0. { withdraw(k, withdrawable)
    .unwrap(); } Good::new(k, q) } }]: the delivered good and the account. *)
Definition withdraw_vacuum {E} (a : Account) (k : GoodKind) (q : Q) : outcome E (Good * Account) :=
  match Account.withdraw a k q with
  | Ok (g, a') => Ok (g, a')
  | Err NonPositiveWithdrawQuantity => Panic Unreachable
  | Err (WithdrawExcessiveQuantity withdrawable) =>
      if decide (0 < withdrawable) then
        '(_, a') ← unwrap (Account.withdraw a k withdrawable); Ok (Good.new k q, a')
      else Ok (Good.new k q, a)
  | Panic r => Panic r
  end.

(** [if let Err(WithdrawExcessiveQuantity { withdrawable }) =
    ops.futures.withdraw(k, q) { if withdrawable > 0. { withdraw(k,
    withdrawable).unwrap(); } }]: a non-positive quantity is ignored. *)
Definition withdraw_drop {E} (a : Account) (k : GoodKind) (q : Q) : outcome E Account :=
  match Account.withdraw a k q with
  | Ok (_, a') => Ok a'
  | Err NonPositiveWithdrawQuantity => Ok a
  | Err (WithdrawExcessiveQuantity withdrawable) =>
      if decide (0 < withdrawable) then
        '(_, a') ← unwrap (Account.withdraw a k withdrawable); Ok a'
      else Ok a
  | Panic r => Panic r
  end.

(** The earn percentage used by the transactions and the market: none on
    euros, one percent on the other kinds. *)
Definition earn_percentage (k : GoodKind) : Q :=
  if decide (k = DEFAULT_GOOD_KIND) then 0 else 1.

(** ** [BuyTx] *)

Module BuyTx.

Inductive BuyTxState := Reserved | Paid | Expired.

#[global] Instance BuyTxState_eq_dec : EqDecision BuyTxState.
Proof. solve_decision. Defined.

Record BuyTx := mk_buy_tx { buy : Good; bid : Good; state : BuyTxState }.

Record BuyTxProposal := mk_buy_proposal { proposal_buy : Good; proposal_bid : Good }.

Inductive BuyTxReservationError :=
| NonPositiveBuy
| NonPositiveBid
| ExceedsReservableQuantity (reservable : Q)
| BidTooLow (lowest : fval).

Inductive BuyTxPaymentError :=
| InvalidState (current_state : BuyTxState)
| WrongGoodKind (pre_agreed : GoodKind)
| InsufficientGoodQuantity (pre_agreed : Q).

Definition reserve (ops : AccountOps) (proposal : BuyTxProposal)
    : outcome BuyTxReservationError (BuyTx * AccountOps) :=
  let pbuy := proposal_buy proposal in
  let pbid := proposal_bid proposal in
  if decide (get_qty pbuy <= 0) then Err NonPositiveBuy
  else if decide (get_qty pbid <= 0) then Err NonPositiveBid
  else if decide (AccountOps.get_reservable_quantity_by_kind ops (get_kind pbuy) < get_qty pbuy)
  then Err (ExceedsReservableQuantity
              (AccountOps.get_reservable_quantity_by_kind ops (get_kind pbuy)))
  else
    match AccountOps.compute_buy_price ops (get_kind pbuy) (get_qty pbuy)
            (earn_percentage (get_kind pbuy)) with
    | Ok buy_price =>
        if qltf (get_qty pbid) buy_price then Err (BidTooLow buy_price)
        else
          '(_, assets') ← unwrap (Account.withdraw (assets ops) (get_kind pbuy) (get_qty pbuy));
          reservations' ← Account.deposit (reservations ops) pbuy;
          futures' ← Account.deposit (futures ops) pbid;
          Ok (mk_buy_tx pbuy pbid Reserved, mk_ops assets' reservations' futures')
    | Err BuyPriceComputationError.NonPositiveQuantity => Panic Unreachable
    | Err BuyPriceComputationError.NegativeExchangeRateEarnPercentage => Panic Unreachable
    | Err (BuyPriceComputationError.ExceedsReservableQuantity reservable) =>
        Err (ExceedsReservableQuantity reservable)
    | Panic r => Panic r
    end.

(** [tx.buy(ops, with)]: the good delivered to the buyer, the transaction,
    the ledger and the buyer's remaining cash. *)
Definition buy_ (tx : BuyTx) (ops : AccountOps) (with_ : Good)
    : outcome BuyTxPaymentError (Good * BuyTx * AccountOps * Good) :=
  match state tx with
  | Reserved =>
      if decide (get_kind with_ <> get_kind (bid tx)) then Err (WrongGoodKind (get_kind (bid tx)))
      else if decide (get_qty with_ < get_qty (bid tx))
      then Err (InsufficientGoodQuantity (get_qty (bid tx)))
      else
        '(with', from_buyer) ← unwrap (Good.split with_ (get_qty (bid tx)));
        assets' ← Account.deposit (assets ops) from_buyer;
        '(from_us, reservations') ←
          withdraw_vacuum (reservations ops) (get_kind (buy tx)) (get_qty (buy tx));
        futures' ← withdraw_drop (futures ops) (get_kind (bid tx)) (get_qty (bid tx));
        Ok (from_us, mk_buy_tx (buy tx) (bid tx) Paid, mk_ops assets' reservations' futures', with')
  | other => Err (InvalidState other)
  end.

Definition expire (tx : BuyTx) (ops : AccountOps) : outcome unit (BuyTx * AccountOps) :=
  match state tx with
  | Reserved =>
      '(reservation, reservations') ←
        withdraw_vacuum (reservations ops) (get_kind (buy tx)) (get_qty (buy tx));
      assets' ← Account.deposit (assets ops) reservation;
      futures' ← withdraw_drop (futures ops) (get_kind (bid tx)) (get_qty (bid tx));
      Ok (mk_buy_tx (buy tx) (bid tx) Expired, mk_ops assets' reservations' futures')
  | _ => Ok (tx, ops)
  end.

End BuyTx.

(** ** [SellTx] *)

Module SellTx.

Inductive SellTxState := Reserved | Paid | Expired.

#[global] Instance SellTxState_eq_dec : EqDecision SellTxState.
Proof. solve_decision. Defined.

Record SellTx := mk_sell_tx { sell : Good; offer : Good; state : SellTxState }.

Record SellTxProposal := mk_sell_proposal { proposal_sell : Good; proposal_offer : Good }.

Inductive SellTxReservationError :=
| NonPositiveSell
| NonPositiveOffer
| ExceedsReservableQuantity (reservable : Q)
| OfferTooHigh (highest : fval).

Inductive SellTxPaymentError :=
| InvalidState (current_state : SellTxState)
| WrongGoodKind (pre_agreed : GoodKind)
| InsufficientGoodQuantity (pre_agreed : Q).

Definition reserve (ops : AccountOps) (proposal : SellTxProposal)
    : outcome SellTxReservationError (SellTx * AccountOps) :=
  let psell := proposal_sell proposal in
  let poffer := proposal_offer proposal in
  if decide (get_qty psell <= 0) then Err NonPositiveSell
  else if decide (get_qty poffer <= 0) then Err NonPositiveOffer
  else if decide (AccountOps.get_reservable_quantity_by_kind ops (get_kind poffer) < get_qty poffer)
  then Err (ExceedsReservableQuantity
              (AccountOps.get_reservable_quantity_by_kind ops (get_kind poffer)))
  else
    match AccountOps.compute_sell_price ops (get_kind psell) (get_qty psell)
            (earn_percentage (get_kind psell)) with
    | Ok sell_price =>
        if fltq sell_price (get_qty poffer) then Err (OfferTooHigh sell_price)
        else
          '(_, assets') ← unwrap (Account.withdraw (assets ops) (get_kind poffer) (get_qty poffer));
          reservations' ← Account.deposit (reservations ops) poffer;
          futures' ← Account.deposit (futures ops) psell;
          Ok (mk_sell_tx psell poffer Reserved, mk_ops assets' reservations' futures')
    | Err SellPriceComputationError.NegativeExchangeEarnRatePercentage => Panic Unreachable
    | Err SellPriceComputationError.NonPositiveQuantity => Panic Unreachable
    | Panic r => Panic r
    end.

(** [tx.sell(ops, with)]: the good delivered to the seller, the transaction,
    the ledger and the seller's remaining good. *)
Definition sell_ (tx : SellTx) (ops : AccountOps) (with_ : Good)
    : outcome SellTxPaymentError (Good * SellTx * AccountOps * Good) :=
  match state tx with
  | Reserved =>
      if decide (get_kind with_ <> get_kind (sell tx)) then Err (WrongGoodKind (get_kind (sell tx)))
      else if decide (get_qty with_ < get_qty (sell tx))
      then Err (InsufficientGoodQuantity (get_qty (sell tx)))
      else
        '(with', from_seller) ← unwrap (Good.split with_ (get_qty (sell tx)));
        assets' ← Account.deposit (assets ops) from_seller;
        '(from_us, reservations') ←
          withdraw_vacuum (reservations ops) (get_kind (offer tx)) (get_qty (offer tx));
        futures' ← withdraw_drop (futures ops) (get_kind (sell tx)) (get_qty (sell tx));
        Ok (from_us, mk_sell_tx (sell tx) (offer tx) Paid, mk_ops assets' reservations' futures', with')
  | other => Err (InvalidState other)
  end.

Definition expire (tx : SellTx) (ops : AccountOps) : outcome unit (SellTx * AccountOps) :=
  match state tx with
  | Reserved =>
      '(reservation, reservations') ←
        withdraw_vacuum (reservations ops) (get_kind (offer tx)) (get_qty (offer tx));
      assets' ← Account.deposit (assets ops) reservation;
      futures' ← withdraw_drop (futures ops) (get_kind (sell tx)) (get_qty (sell tx));
      Ok (mk_sell_tx (sell tx) (offer tx) Expired, mk_ops assets' reservations' futures')
  | _ => Ok (tx, ops)
  end.

End SellTx.

(** ** The drift-tolerant withdraws *)

Import AccountOps.

(** When the account covers the quantity, the drift branch is not taken:
    both withdraws are the plain withdraw. *)
Lemma withdraw_vacuum_covered {E} a k q : Account.account_wf a ->
  0 < q -> q <= Account.get_quantity_by_kind a k ->
  @withdraw_vacuum E a k q = Ok (Good.new k q, Account.debit a k q).
Proof. intros. unfold withdraw_vacuum. by rewrite withdraw_debit. Qed.

Lemma withdraw_drop_covered {E} a k q : Account.account_wf a ->
  0 < q -> q <= Account.get_quantity_by_kind a k ->
  @withdraw_drop E a k q = Ok (Account.debit a k q).
Proof. intros. unfold withdraw_drop. by rewrite withdraw_debit. Qed.

(** ** Buy locks *)

Import BuyTx.

(** A proposal that passes every check is reserved: the bought quantity
    moves from [assets] to [reservations] and the bid is recorded in
    [futures]. *)
Lemma buy_reserve_ok ops pr v : ops_wf ops ->
  0 < get_qty (proposal_buy pr) -> 0 < get_qty (proposal_bid pr) ->
  get_qty (proposal_buy pr) <= get_reservable_quantity_by_kind ops (get_kind (proposal_buy pr)) ->
  compute_buy_price ops (get_kind (proposal_buy pr)) (get_qty (proposal_buy pr))
    (earn_percentage (get_kind (proposal_buy pr))) = Ok v ->
  qltf (get_qty (proposal_bid pr)) v = false ->
  BuyTx.reserve ops pr =
  Ok (mk_buy_tx (proposal_buy pr) (proposal_bid pr) Reserved,
      mk_ops (Account.debit (assets ops) (get_kind (proposal_buy pr)) (get_qty (proposal_buy pr)))
             (Account.credit (reservations ops) (get_kind (proposal_buy pr)) (get_qty (proposal_buy pr)))
             (Account.credit (futures ops) (get_kind (proposal_bid pr)) (get_qty (proposal_bid pr)))).
Proof.
  intros (Ha & Hr & Hf) Hq Hb Hle Hprice Hbid. unfold BuyTx.reserve.
  rewrite decide_False by lra. rewrite decide_False by lra. rewrite decide_False by lra.
  rewrite Hprice, Hbid, withdraw_debit by done. cbn.
  by rewrite !deposit_credit by done.
Qed.

(** Every error of [BuyTx::reserve], in the order of the code's checks. *)
Lemma buy_reserve_errors ops pr :
  let q := get_qty (proposal_buy pr) in
  let k := get_kind (proposal_buy pr) in
  let b := get_qty (proposal_bid pr) in
  (q <= 0 -> BuyTx.reserve ops pr = Err NonPositiveBuy) /\
  (0 < q -> b <= 0 -> BuyTx.reserve ops pr = Err NonPositiveBid) /\
  (0 < q -> 0 < b -> get_reservable_quantity_by_kind ops k < q ->
   BuyTx.reserve ops pr = Err (ExceedsReservableQuantity (get_reservable_quantity_by_kind ops k))) /\
  (forall v, 0 < q -> 0 < b -> q <= get_reservable_quantity_by_kind ops k ->
   compute_buy_price ops k q (earn_percentage k) = Ok v -> qltf b v = true ->
   BuyTx.reserve ops pr = Err (BidTooLow v)).
Proof.
  cbn zeta. unfold BuyTx.reserve. repeat split; intros.
  - by rewrite decide_True.
  - rewrite decide_False by lra. by rewrite decide_True.
  - rewrite decide_False by lra. rewrite decide_False by lra. by rewrite decide_True.
  - rewrite decide_False by lra. rewrite decide_False by lra. rewrite decide_False by lra.
    by rewrite H2, H3.
Qed.

(** Settling a reserved buy lock with enough cash of the bid's kind: the
    bid moves from the buyer into [assets], the reservation and the
    expected bid are cleared, the lock is [Paid] and the buyer receives the
    bought good. *)
Lemma buy_settle_ok tx ops w : ops_wf ops -> state tx = Reserved ->
  0 < get_qty (buy tx) -> 0 < get_qty (bid tx) ->
  get_qty (buy tx) <= get_reserved_quantity_by_kind ops (get_kind (buy tx)) ->
  get_qty (bid tx) <= get_future_quantity_by_kind ops (get_kind (bid tx)) ->
  get_kind w = get_kind (bid tx) -> get_qty (bid tx) <= get_qty w ->
  BuyTx.buy_ tx ops w =
  Ok (Good.new (get_kind (buy tx)) (get_qty (buy tx)), mk_buy_tx (buy tx) (bid tx) Paid,
      mk_ops (Account.credit (assets ops) (get_kind (bid tx)) (get_qty (bid tx)))
             (Account.debit (reservations ops) (get_kind (buy tx)) (get_qty (buy tx)))
             (Account.debit (futures ops) (get_kind (bid tx)) (get_qty (bid tx))),
      mk_good (get_kind w) (get_qty w - get_qty (bid tx))).
Proof.
  intros (Ha & Hr & Hf) Hs Hq Hb Hres Hfut Hk Hw.
  destruct w as [kw qw]; cbn in Hk, Hw |- *; subst kw.
  unfold BuyTx.buy_. rewrite Hs.
  rewrite decide_False by tauto. rewrite decide_False by (cbn; lra).
  unfold Good.split. rewrite decide_False by lra. rewrite decide_False by (cbn; lra). cbn.
  rewrite deposit_credit by done. cbn [get_kind get_qty].
  rewrite withdraw_vacuum_covered by done. cbn.
  by rewrite withdraw_drop_covered by done.
Qed.

(** Every error of [BuyTx::buy]. *)
Lemma buy_settle_errors tx ops w :
  (state tx <> Reserved -> BuyTx.buy_ tx ops w = Err (InvalidState (state tx))) /\
  (state tx = Reserved -> get_kind w <> get_kind (bid tx) ->
   BuyTx.buy_ tx ops w = Err (WrongGoodKind (get_kind (bid tx)))) /\
  (state tx = Reserved -> get_kind w = get_kind (bid tx) -> get_qty w < get_qty (bid tx) ->
   BuyTx.buy_ tx ops w = Err (InsufficientGoodQuantity (get_qty (bid tx)))).
Proof.
  unfold BuyTx.buy_. repeat split; intros Hs; [destruct (state tx); done | |]; rewrite Hs; intros.
  - by rewrite decide_True.
  - rewrite decide_False by congruence. by rewrite decide_True.
Qed.

(** Expiring a reserved buy lock whose quantities the ledger covers: the
    reservation returns to [assets], the expected bid is cleared and the
    lock is [Expired]. *)
Lemma buy_expire_ok tx ops : ops_wf ops -> state tx = Reserved ->
  0 < get_qty (buy tx) -> 0 < get_qty (bid tx) ->
  get_qty (buy tx) <= get_reserved_quantity_by_kind ops (get_kind (buy tx)) ->
  get_qty (bid tx) <= get_future_quantity_by_kind ops (get_kind (bid tx)) ->
  BuyTx.expire tx ops =
  Ok (mk_buy_tx (buy tx) (bid tx) Expired,
      mk_ops (Account.credit (assets ops) (get_kind (buy tx)) (get_qty (buy tx)))
             (Account.debit (reservations ops) (get_kind (buy tx)) (get_qty (buy tx)))
             (Account.debit (futures ops) (get_kind (bid tx)) (get_qty (bid tx)))).
Proof.
  intros (Ha & Hr & Hf) Hs Hq Hb Hres Hfut. unfold BuyTx.expire. rewrite Hs.
  rewrite withdraw_vacuum_covered by done. cbn.
  rewrite deposit_credit by done. cbn [get_kind get_qty].
  by rewrite withdraw_drop_covered by done.
Qed.

(** A settled or expired buy lock is not touched by [expire]. *)
Lemma buy_expire_terminal tx ops : state tx <> Reserved -> BuyTx.expire tx ops = Ok (tx, ops).
Proof. unfold BuyTx.expire. by destruct (state tx). Qed.

(** What a successful buy reservation tells: its checks held, the lock is
    [Reserved] with the proposal's goods, and the ledger moved as in
    [buy_reserve_ok]. *)
Lemma buy_reserve_inv ops pr tx ops1 : ops_wf ops -> BuyTx.reserve ops pr = Ok (tx, ops1) ->
  0 < get_qty (proposal_buy pr) /\ 0 < get_qty (proposal_bid pr) /\
  get_qty (proposal_buy pr) <= get_reservable_quantity_by_kind ops (get_kind (proposal_buy pr)) /\
  tx = mk_buy_tx (proposal_buy pr) (proposal_bid pr) Reserved /\
  ops1 = mk_ops (Account.debit (assets ops) (get_kind (proposal_buy pr)) (get_qty (proposal_buy pr)))
           (Account.credit (reservations ops) (get_kind (proposal_buy pr)) (get_qty (proposal_buy pr)))
           (Account.credit (futures ops) (get_kind (proposal_bid pr)) (get_qty (proposal_bid pr))).
Proof.
  intros Hwf H. pose proof Hwf as (Ha & Hr & Hf). unfold BuyTx.reserve in H.
  destruct (decide (get_qty (proposal_buy pr) <= 0)); [done |].
  destruct (decide (get_qty (proposal_bid pr) <= 0)); [done |].
  case_decide; [done |].
  destruct (compute_buy_price _ _ _ _) as [v| [] |] eqn:Hp; try done.
  destruct (qltf _ v) eqn:Hbid; [done |].
  rewrite withdraw_debit in H
    by (done || lra || (unfold get_reservable_quantity_by_kind in *; lra)).
  cbn in H. rewrite !deposit_credit in H by done.
  injection H as <- <-. repeat split; lra.
Qed.

(** C5: Expiry undoes a reservation: expiring a freshly reserved buy lock
    succeeds, marks it [Expired] and gives back a ledger equal (up to [==])
    to the one before the reservation. *)
Lemma buy_reserve_expire_roundtrip ops pr tx ops1 : ops_wf ops -> ops_nonneg ops ->
  BuyTx.reserve ops pr = Ok (tx, ops1) ->
  exists tx2 ops2, BuyTx.expire tx ops1 = Ok (tx2, ops2) /\ state tx2 = Expired /\
    ops_equiv ops2 ops.
Proof.
  intros Hwf Hn H. destruct (buy_reserve_inv ops pr tx ops1 Hwf H) as (Hq & Hb & Hle & -> & ->).
  pose proof Hwf as (Ha & Hr & Hf). pose proof Hn as (Ha' & Hr' & Hf').
  eexists _, _. split.
  - apply buy_expire_ok; cbn; try done.
    + repeat split; cbn; auto with doge.
    + unfold get_reserved_quantity_by_kind. cbn. rewrite qty_credit, decide_True by done.
      specialize (Hr' (get_kind (proposal_buy pr))). lra.
    + unfold get_future_quantity_by_kind. cbn. rewrite qty_credit, decide_True by done.
      specialize (Hf' (get_kind (proposal_bid pr))). lra.
  - split; [reflexivity |].
    split; [| split]; cbn; [apply credit_debit | apply debit_credit | apply debit_credit]; done.
Qed.

(** The price-increase property: after a buy lock of [q] of a foreign kind
    paid in euros, buying [q] of that kind again costs strictly more (the
    free stock shrank by [q] and the euro position grew by the bid). *)
Lemma buy_reserve_raises_buy_price ops pr tx ops1 p : ops_wf ops -> ops_nonneg ops ->
  get_kind (proposal_buy pr) <> EUR -> get_kind (proposal_bid pr) = EUR -> 0 <= p ->
  BuyTx.reserve ops pr = Ok (tx, ops1) ->
  2 * get_qty (proposal_buy pr) < get_reservable_quantity_by_kind ops (get_kind (proposal_buy pr)) ->
  exists v1 v2,
    compute_buy_price ops (get_kind (proposal_buy pr)) (get_qty (proposal_buy pr)) p = Ok (Fin v1) /\
    compute_buy_price ops1 (get_kind (proposal_buy pr)) (get_qty (proposal_buy pr)) p = Ok (Fin v2) /\
    v1 < v2.
Proof.
  intros Hwf Hn Hk Hkb Hp H H2.
  destruct (buy_reserve_inv ops pr tx ops1 Hwf H) as (Hq & Hb & Hle & -> & ->).
  set (k := get_kind (proposal_buy pr)) in *. set (q := get_qty (proposal_buy pr)) in *.
  set (b := get_qty (proposal_bid pr)) in *.
  pose proof (eur_position_nonneg ops Hn) as HE.
  assert (Hr1 : get_reservable_quantity_by_kind
                  (mk_ops (Account.debit (assets ops) k q) (Account.credit (reservations ops) k q)
                     (Account.credit (futures ops) (get_kind (proposal_bid pr)) b)) k
                == get_reservable_quantity_by_kind ops k - q).
  { unfold get_reservable_quantity_by_kind. cbn. rewrite qty_debit, decide_True by done. lra. }
  assert (HE1 : eur_position
                  (mk_ops (Account.debit (assets ops) k q) (Account.credit (reservations ops) k q)
                     (Account.credit (futures ops) (get_kind (proposal_bid pr)) b))
                == eur_position ops + b).
  { unfold eur_position, get_reservable_quantity_by_kind, get_reserved_quantity_by_kind,
      get_future_quantity_by_kind. cbn. rewrite Hkb, qty_debit, qty_credit, qty_credit.
    rewrite !decide_False by done. rewrite decide_True by done. lra. }
  eexists _, _. split; [| split].
  - buy_fin. reflexivity.
  - rewrite compute_buy_price_fin; [reflexivity | lra | lra | rewrite HE1; lra |].
    right. rewrite Hr1. split; [done | lra].
  - rewrite !decide_False by done. rewrite Hr1, HE1. apply scale_lt; [| done].
    apply Qmult_lt_l; [done |].
    apply (Qle_lt_trans _ (eur_position ops / (get_reservable_quantity_by_kind ops k - q - q))).
    + apply Qdiv_le_denom; lra.
    + unfold Qdiv. apply Qmult_lt_compat_r; [apply Qinv_lt_0_compat |]; lra.
Qed.

(** ** Sell locks *)

Import SellTx.

Lemma earn_percentage_nonneg k : 0 <= earn_percentage k.
Proof. unfold earn_percentage. case_decide; lra. Qed.

#[export] Hint Resolve earn_percentage_nonneg : doge.

(** A sell proposal that passes every check is reserved: the offer moves
    from [assets] to [reservations] and the sold good is recorded in
    [futures]. *)
Lemma sell_reserve_ok ops pr v : ops_wf ops ->
  0 < get_qty (proposal_sell pr) -> 0 < get_qty (proposal_offer pr) ->
  get_qty (proposal_offer pr) <= get_reservable_quantity_by_kind ops (get_kind (proposal_offer pr)) ->
  compute_sell_price ops (get_kind (proposal_sell pr)) (get_qty (proposal_sell pr))
    (earn_percentage (get_kind (proposal_sell pr))) = Ok v ->
  fltq v (get_qty (proposal_offer pr)) = false ->
  SellTx.reserve ops pr =
  Ok (mk_sell_tx (proposal_sell pr) (proposal_offer pr) Reserved,
      mk_ops (Account.debit (assets ops) (get_kind (proposal_offer pr)) (get_qty (proposal_offer pr)))
             (Account.credit (reservations ops) (get_kind (proposal_offer pr)) (get_qty (proposal_offer pr)))
             (Account.credit (futures ops) (get_kind (proposal_sell pr)) (get_qty (proposal_sell pr)))).
Proof.
  intros (Ha & Hr & Hf) Hq Ho Hle Hprice Hoff. unfold SellTx.reserve.
  rewrite decide_False by lra. rewrite decide_False by lra. rewrite decide_False by lra.
  rewrite Hprice, Hoff, withdraw_debit by done. cbn.
  by rewrite !deposit_credit by done.
Qed.


(** Settling a reserved sell lock with enough of the sold kind: the sold
    good moves into [assets], the reserved offer is delivered to the seller
    and the expected good is cleared; the lock is [Paid]. *)
Lemma sell_settle_ok tx ops w : ops_wf ops -> state tx = Reserved ->
  0 < get_qty (sell tx) -> 0 < get_qty (offer tx) ->
  get_qty (offer tx) <= get_reserved_quantity_by_kind ops (get_kind (offer tx)) ->
  get_qty (sell tx) <= get_future_quantity_by_kind ops (get_kind (sell tx)) ->
  get_kind w = get_kind (sell tx) -> get_qty (sell tx) <= get_qty w ->
  SellTx.sell_ tx ops w =
  Ok (Good.new (get_kind (offer tx)) (get_qty (offer tx)), mk_sell_tx (sell tx) (offer tx) Paid,
      mk_ops (Account.credit (assets ops) (get_kind (sell tx)) (get_qty (sell tx)))
             (Account.debit (reservations ops) (get_kind (offer tx)) (get_qty (offer tx)))
             (Account.debit (futures ops) (get_kind (sell tx)) (get_qty (sell tx))),
      mk_good (get_kind w) (get_qty w - get_qty (sell tx))).
Proof.
  intros (Ha & Hr & Hf) Hs Hq Ho Hres Hfut Hk Hw.
  destruct w as [kw qw]; cbn in Hk, Hw |- *; subst kw.
  unfold SellTx.sell_. rewrite Hs.
  rewrite decide_False by tauto. rewrite decide_False by (cbn; lra).
  unfold Good.split. rewrite decide_False by lra. rewrite decide_False by (cbn; lra). cbn.
  rewrite deposit_credit by done. cbn [get_kind get_qty].
  rewrite withdraw_vacuum_covered by done. cbn.
  by rewrite withdraw_drop_covered by done.
Qed.

(** Every error of [SellTx::sell]. *)
Lemma sell_settle_errors tx ops w :
  (state tx <> Reserved -> SellTx.sell_ tx ops w = Err (InvalidState (state tx))) /\
  (state tx = Reserved -> get_kind w <> get_kind (sell tx) ->
   SellTx.sell_ tx ops w = Err (WrongGoodKind (get_kind (sell tx)))) /\
  (state tx = Reserved -> get_kind w = get_kind (sell tx) -> get_qty w < get_qty (sell tx) ->
   SellTx.sell_ tx ops w = Err (InsufficientGoodQuantity (get_qty (sell tx)))).
Proof.
  unfold SellTx.sell_. repeat split; intros Hs; [destruct (state tx); done | |]; rewrite Hs; intros.
  - by rewrite decide_True.
  - rewrite decide_False by congruence. by rewrite decide_True.
Qed.

(** Expiring a reserved sell lock returns the offer to [assets] and clears
    the expected good. *)
Lemma sell_expire_ok tx ops : ops_wf ops -> state tx = Reserved ->
  0 < get_qty (sell tx) -> 0 < get_qty (offer tx) ->
  get_qty (offer tx) <= get_reserved_quantity_by_kind ops (get_kind (offer tx)) ->
  get_qty (sell tx) <= get_future_quantity_by_kind ops (get_kind (sell tx)) ->
  SellTx.expire tx ops =
  Ok (mk_sell_tx (sell tx) (offer tx) Expired,
      mk_ops (Account.credit (assets ops) (get_kind (offer tx)) (get_qty (offer tx)))
             (Account.debit (reservations ops) (get_kind (offer tx)) (get_qty (offer tx)))
             (Account.debit (futures ops) (get_kind (sell tx)) (get_qty (sell tx)))).
Proof.
  intros (Ha & Hr & Hf) Hs Hq Ho Hres Hfut. unfold SellTx.expire. rewrite Hs.
  rewrite withdraw_vacuum_covered by done. cbn.
  rewrite deposit_credit by done. cbn [get_kind get_qty].
  by rewrite withdraw_drop_covered by done.
Qed.

Lemma sell_expire_terminal tx ops : state tx <> Reserved -> SellTx.expire tx ops = Ok (tx, ops).
Proof. unfold SellTx.expire. by destruct (state tx). Qed.

Lemma sell_reserve_inv ops pr tx ops1 : ops_wf ops -> SellTx.reserve ops pr = Ok (tx, ops1) ->
  0 < get_qty (proposal_sell pr) /\ 0 < get_qty (proposal_offer pr) /\
  get_qty (proposal_offer pr) <= get_reservable_quantity_by_kind ops (get_kind (proposal_offer pr)) /\
  tx = mk_sell_tx (proposal_sell pr) (proposal_offer pr) Reserved /\
  ops1 = mk_ops (Account.debit (assets ops) (get_kind (proposal_offer pr)) (get_qty (proposal_offer pr)))
           (Account.credit (reservations ops) (get_kind (proposal_offer pr)) (get_qty (proposal_offer pr)))
           (Account.credit (futures ops) (get_kind (proposal_sell pr)) (get_qty (proposal_sell pr))).
Proof.
  intros Hwf H. pose proof Hwf as (Ha & Hr & Hf). unfold SellTx.reserve in H.
  destruct (decide (get_qty (proposal_sell pr) <= 0)); [done |].
  destruct (decide (get_qty (proposal_offer pr) <= 0)); [done |].
  case_decide; [done |].
  destruct (compute_sell_price _ _ _ _) as [v| [] |] eqn:Hp; try done.
  destruct (fltq v _) eqn:Hoff; [done |].
  rewrite withdraw_debit in H
    by (done || lra || (unfold get_reservable_quantity_by_kind in *; lra)).
  cbn in H. rewrite !deposit_credit in H by done.
  injection H as <- <-. repeat split; lra.
Qed.

(** C29: Expiry undoes a sell reservation, up to [==]. *)
Lemma sell_reserve_expire_roundtrip ops pr tx ops1 : ops_wf ops -> ops_nonneg ops ->
  SellTx.reserve ops pr = Ok (tx, ops1) ->
  exists tx2 ops2, SellTx.expire tx ops1 = Ok (tx2, ops2) /\ state tx2 = Expired /\
    ops_equiv ops2 ops.
Proof.
  intros Hwf Hn H. destruct (sell_reserve_inv ops pr tx ops1 Hwf H) as (Hq & Ho & Hle & -> & ->).
  pose proof Hwf as (Ha & Hr & Hf). pose proof Hn as (Ha' & Hr' & Hf').
  eexists _, _. split.
  - apply sell_expire_ok; cbn; try done.
    + repeat split; cbn; auto with doge.
    + unfold get_reserved_quantity_by_kind. cbn. rewrite qty_credit, decide_True by done.
      specialize (Hr' (get_kind (proposal_offer pr))). lra.
    + unfold get_future_quantity_by_kind. cbn. rewrite qty_credit, decide_True by done.
      specialize (Hf' (get_kind (proposal_sell pr))). lra.
  - split; [reflexivity |].
    split; [| split]; cbn; [apply credit_debit | apply debit_credit | apply debit_credit]; done.
Qed.

(** ** Settlement reports [InvalidState] only for a terminal lock *)

Ltac solve_no_err :=
  repeat first [ apply no_err_bind; [| intros [? ?] || intros ?] | case_decide ];
  auto with doge.

Lemma withdraw_vacuum_no_err {E} a k q : no_err (@withdraw_vacuum E a k q).
Proof.
  unfold withdraw_vacuum. destruct (Account.withdraw a k q) as [[? ?] | [] |]; solve_no_err.
Qed.

Lemma withdraw_drop_no_err {E} a k q : no_err (@withdraw_drop E a k q).
Proof.
  unfold withdraw_drop. destruct (Account.withdraw a k q) as [[? ?] | [] |]; solve_no_err.
Qed.

#[export] Hint Resolve withdraw_vacuum_no_err withdraw_drop_no_err : doge.

Lemma buy_invalid_state tx ops w st : BuyTx.buy_ tx ops w = Err (BuyTx.InvalidState st) ->
  st <> BuyTx.Reserved.
Proof.
  unfold BuyTx.buy_. destruct (BuyTx.state tx) eqn:Hs; [| by intros [= <-] | by intros [= <-]].
  repeat case_decide; [done | done |].
  intros Hres. exfalso. revert Hres. apply no_err_bind; [apply no_err_unwrap |]. intros [? ?]. solve_no_err.
Qed.

Lemma sell_invalid_state tx ops w st : SellTx.sell_ tx ops w = Err (SellTx.InvalidState st) ->
  st <> SellTx.Reserved.
Proof.
  unfold SellTx.sell_. destruct (SellTx.state tx) eqn:Hs; [| by intros [= <-] | by intros [= <-]].
  repeat case_decide; [done | done |].
  intros Hres. exfalso. revert Hres. apply no_err_bind; [apply no_err_unwrap |]. intros [? ?]. solve_no_err.
Qed.

(** ** Witnesses *)

Lemma buy_reserve_expire_roundtrip_witness :
  exists tx ops1,
    BuyTx.reserve (sample_ops 1000 2000 0 0)
      (mk_buy_proposal (Good.new USD 100) (Good.new EUR 200)) = Ok (tx, ops1) /\
    exists tx2 ops2, BuyTx.expire tx ops1 = Ok (tx2, ops2) /\ BuyTx.state tx2 = BuyTx.Expired /\
      ops_equiv ops2 (sample_ops 1000 2000 0 0).
Proof.
  eexists _, _. split; [reflexivity |].
  apply (buy_reserve_expire_roundtrip (sample_ops 1000 2000 0 0)
           (mk_buy_proposal (Good.new USD 100) (Good.new EUR 200)));
    [concrete | concrete | reflexivity].
Defined.

Lemma sell_reserve_expire_roundtrip_witness :
  exists tx ops1,
    SellTx.reserve (sample_ops 1000 2000 0 0)
      (mk_sell_proposal (Good.new USD 100) (Good.new EUR 10)) = Ok (tx, ops1) /\
    exists tx2 ops2, SellTx.expire tx ops1 = Ok (tx2, ops2) /\ SellTx.state tx2 = SellTx.Expired /\
      ops_equiv ops2 (sample_ops 1000 2000 0 0).
Proof.
  eexists _, _. split; [reflexivity |].
  apply (sell_reserve_expire_roundtrip (sample_ops 1000 2000 0 0)
           (mk_sell_proposal (Good.new USD 100) (Good.new EUR 10)));
    [concrete | concrete | reflexivity].
Defined.

Lemma buy_reserve_errors_witness :
  exists v, compute_buy_price (sample_ops 1000 2000 0 0) USD 100 (earn_percentage USD) = Ok v /\
    BuyTx.reserve (sample_ops 1000 2000 0 0) (mk_buy_proposal (Good.new USD 100) (Good.new EUR 1)) =
    Err (BidTooLow v).
Proof.
  eexists. split; [reflexivity |].
  apply (proj2 (proj2 (proj2 (buy_reserve_errors (sample_ops 1000 2000 0 0)
           (mk_buy_proposal (Good.new USD 100) (Good.new EUR 1)))))); concrete.
Defined.


Lemma buy_reserve_raises_buy_price_witness :
  exists tx ops1,
    BuyTx.reserve (sample_ops 1000 2000 0 0)
      (mk_buy_proposal (Good.new USD 100) (Good.new EUR 200)) = Ok (tx, ops1) /\
    exists v1 v2,
      compute_buy_price (sample_ops 1000 2000 0 0) USD 100 1 = Ok (Fin v1) /\
      compute_buy_price ops1 USD 100 1 = Ok (Fin v2) /\ v1 < v2.
Proof.
  eexists _, _. split; [reflexivity |].
  eapply (buy_reserve_raises_buy_price (sample_ops 1000 2000 0 0)
           (mk_buy_proposal (Good.new USD 100) (Good.new EUR 200)));
    [concrete | concrete | concrete | concrete | concrete | reflexivity | concrete].
Defined.
