(* ===== verification/TickDeque.v ===== *)
(** * The expiry queue: [TickDeque] (doge_market/src/tick_deque.rs)

    A FIFO of nodes stamped with the tick at which they were pushed, a tick
    counter [ticks_passed] and the lifetime [max_ticks].  [tick] increments
    the counter and pops from the front every node whose
    [creation_tick + max_ticks] equals the new counter.

    The counters are [u32]; they are kept as [Z] with the overflow checks of
    a debug build ([checked_add_u32]: an overflow panics).

    The invariant [td_wf] (creation ticks non-decreasing, every node younger
    than [max_ticks], counters in range) makes the front-popping loop equal
    to filtering the whole queue ([pop_expired_filter]); from it follow the
    FIFO order of the expired tokens, that each pushed token leaves the
    queue exactly once, at tick [push tick + max_ticks], and that the
    counter panics only after [2^32 - 1] ticks. *)

From S2P Require Import Prelude.
From Stdlib Require Import ZArith Sorted.

Definition U32_MAX : Z := 2 ^ 32 - 1.

(** [a + b] on [u32] in a debug build. *)
Definition checked_add_u32 (a b : Z) : outcome unit Z :=
  if decide (a + b <= U32_MAX)%Z then Ok (a + b)%Z else Panic ArithmeticOverflow.

Section TickDeque.
Context {T : Type}.

Record TickNode := mk_node { creation_tick : Z; t : T }.

Record TickDeque := mk_deque { max_ticks : Z; ticks_passed : Z; deque : list TickNode }.

(** [TickDeque::new]: [assert!(max_ticks > 0)]. *)
Definition new (max_ticks : Z) : outcome unit TickDeque :=
  if decide (0 < max_ticks)%Z then Ok (mk_deque max_ticks 0 []) else Panic AssertFailed.

Definition push_back (td : TickDeque) (x : T) : TickDeque :=
  mk_deque (max_ticks td) (ticks_passed td) (deque td ++ [mk_node (ticks_passed td) x]).

(** The [while let Some(node) = self.deque.front()] loop: pop while the
    front node's [creation_tick + max_ticks] equals [now]. *)
Fixpoint pop_expired (max now : Z) (d : list TickNode) : outcome unit (list T * list TickNode) :=
  match d with
  | [] => Ok ([], [])
  | node :: rest =>
      s ← checked_add_u32 (creation_tick node) max;
      if decide (s = now) then
        '(expired, remaining) ← pop_expired max now rest;
        Ok (t node :: expired, remaining)
      else Ok ([], d)
  end.

Definition tick (td : TickDeque) : outcome unit (list T * TickDeque) :=
  now ← checked_add_u32 (ticks_passed td) 1;
  '(expired, remaining) ← pop_expired (max_ticks td) now (deque td);
  Ok (expired, mk_deque (max_ticks td) now remaining).

(** [n] successive ticks, with the expired tokens of each in order. *)
Fixpoint tick_times (n : nat) (td : TickDeque) : outcome unit (list T * TickDeque) :=
  match n with
  | O => Ok ([], td)
  | S n' =>
      '(e1, td1) ← tick td;
      '(e2, td2) ← tick_times n' td1;
      Ok (e1 ++ e2, td2)
  end.

(** The reference for [tick]: advance the counter, then split the whole
    queue into the nodes whose lifetime ends now (emitted, in order) and
    the others, instead of popping from the front. *)
Definition tick_ref (td : TickDeque) : outcome unit (list T * TickDeque) :=
  now ← checked_add_u32 (ticks_passed td) 1;
  Ok (map t (filter (fun n => creation_tick n + max_ticks td = now)%Z (deque td)),
      mk_deque (max_ticks td) now (filter (fun n => creation_tick n + max_ticks td <> now)%Z (deque td))).

(** Creation ticks non-decreasing from front to back. *)
Definition tick_sorted (d : list TickNode) : Prop :=
  StronglySorted (fun n1 n2 => creation_tick n1 <= creation_tick n2)%Z d.

(** The invariant: a positive lifetime, a non-negative counter, sorted
    creation ticks, no node older than [max_ticks] and none from the
    future. *)
Definition td_wf (td : TickDeque) : Prop :=
  (0 < max_ticks td)%Z /\ (0 <= ticks_passed td)%Z /\ tick_sorted (deque td) /\
  Forall (fun n => 0 <= creation_tick n /\ creation_tick n <= ticks_passed td <
                   creation_tick n + max_ticks td)%Z (deque td).

End TickDeque.
Arguments TickNode : clear implicits.
Arguments TickDeque : clear implicits.

(** ** Facts *)

Section TickDequeFacts.
Context {T : Type}.
Implicit Types (td : TickDeque T) (d : list (TickNode T)).

Lemma checked_add_u32_ok a b : (a + b <= U32_MAX)%Z -> checked_add_u32 a b = Ok (a + b)%Z.
Proof. intros. unfold checked_add_u32. by rewrite decide_True. Qed.

Lemma Forall_filter_sub (P Q : TickNode T -> Prop) `{forall x, Decision (Q x)} d :
  Forall P d -> Forall P (filter Q d).
Proof. induction 1; [done |]. rewrite filter_cons. case_decide; auto. Qed.

Lemma filter_forall_id (P : TickNode T -> Prop) `{forall x, Decision (P x)} d :
  Forall P d -> filter P d = d.
Proof. induction 1; [done |]. rewrite filter_cons_True by done. congruence. Qed.

Lemma filter_forall_nil (P : TickNode T -> Prop) `{forall x, Decision (P x)} d :
  Forall (fun x => ~ P x) d -> filter P d = [].
Proof. induction 1; [done |]. by rewrite filter_cons_False. Qed.

Lemma tick_sorted_filter (Q : TickNode T -> Prop) `{forall x, Decision (Q x)} d :
  tick_sorted d -> tick_sorted (filter Q d).
Proof.
  induction 1; [constructor |]. rewrite filter_cons.
  case_decide; [constructor; [done | by apply Forall_filter_sub] | done].
Qed.

Lemma tick_sorted_snoc d x : tick_sorted d ->
  Forall (fun n => creation_tick n <= creation_tick x)%Z d -> tick_sorted (d ++ [x]).
Proof.
  induction 1 as [| n d Hs IH Hn]; intros HF; simpl.
  - repeat constructor.
  - inversion HF; subst. constructor; [by apply IH |].
    apply Forall_app; split; [done | by repeat constructor].
Qed.

(** The front-popping loop equals filtering the whole queue: on a sorted
    queue none of whose nodes expired before [now], the nodes that expire
    at [now] form a prefix. *)
Lemma pop_expired_filter max now d : tick_sorted d ->
  Forall (fun n => now <= creation_tick n + max /\ creation_tick n + max <= U32_MAX)%Z d ->
  pop_expired max now d =
  Ok (map t (filter (fun n => creation_tick n + max = now)%Z d),
      filter (fun n => creation_tick n + max <> now)%Z d).
Proof.
  induction 1 as [| n d Hs IH Hn]; intros HF; [done |].
  inversion HF as [| ? ? [Hlo Hhi] HF']; subst.
  cbn [pop_expired]. rewrite checked_add_u32_ok by done. cbn [mbind outcome_bind].
  rewrite !filter_cons.
  destruct (decide (creation_tick n + max = now)%Z) as [He | Hne].
  - rewrite IH by done. cbn. by rewrite decide_False by tauto.
  - rewrite decide_True by done.
    assert (Hgt : Forall (fun m => ~ (creation_tick m + max = now))%Z d).
    { rewrite Forall_forall in Hn, HF' |- *. intros m Hm.
      specialize (Hn m Hm). specialize (HF' m Hm). cbn in *. lia. }
    rewrite filter_forall_nil by done.
    rewrite filter_forall_id by (eapply Forall_impl; [apply Hgt | done]). done.
Qed.

(** One tick: the nodes created [max_ticks] ago leave, in FIFO order. *)
Lemma tick_spec td : td_wf td -> (ticks_passed td + max_ticks td <= U32_MAX)%Z ->
  tick td =
  Ok (map t (filter (fun n => creation_tick n + max_ticks td = ticks_passed td + 1)%Z (deque td)),
      mk_deque (max_ticks td) (ticks_passed td + 1)
        (filter (fun n => creation_tick n + max_ticks td <> ticks_passed td + 1)%Z (deque td))).
Proof.
  intros (Hm & Ht & Hs & HF) Hb. unfold tick.
  rewrite checked_add_u32_ok by (unfold U32_MAX in *; lia). cbn [mbind outcome_bind].
  rewrite pop_expired_filter; [done | done |].
  eapply Forall_impl; [apply HF |]. cbn. lia.
Qed.

(** C34: Equivalence of the front-popping loop of [tick] with the
    filtering reference [tick_ref] on every well-formed queue whose
    deadlines fit in [u32]: the nodes that expire at a tick are a prefix
    of the queue, and the loop stops at the first node that does not. *)
Theorem tick_equiv_ref td : td_wf td -> (ticks_passed td + max_ticks td <= U32_MAX)%Z ->
  tick td = tick_ref td.
Proof.
  intros Hwf Hb. rewrite tick_spec by done. pose proof Hwf as (Hm & _).
  unfold tick_ref. rewrite checked_add_u32_ok by (unfold U32_MAX in *; lia). done.
Qed.

(** The invariant is preserved by [push_back] and, away from overflow, by
    [tick]. *)
Lemma push_back_wf td x : td_wf td -> td_wf (push_back td x).
Proof.
  intros (Hm & Ht & Hs & HF). repeat split; cbn; try done.
  - apply tick_sorted_snoc; [done |]. eapply Forall_impl; [apply HF |]. cbn. lia.
  - apply Forall_app. split; [done |]. repeat constructor; cbn; lia.
Qed.

Lemma tick_wf td e td' : td_wf td -> (ticks_passed td + max_ticks td <= U32_MAX)%Z ->
  tick td = Ok (e, td') -> td_wf td'.
Proof.
  intros Hwf Hb H. rewrite tick_spec in H by done. injection H as <- <-.
  destruct Hwf as (Hm & Ht & Hs & HF). repeat split; cbn; try lia.
  - by apply tick_sorted_filter.
  - rewrite Forall_forall in HF |- *. intros n Hn.
    apply list_elem_of_filter in Hn as [Hne Hn]. specialize (HF n Hn). lia.
Qed.

(** On a sorted queue none of whose nodes expired before [now], the nodes
    that expire at [now] come first. *)
Lemma expired_prefix max now d : tick_sorted d ->
  Forall (fun n => now <= creation_tick n + max)%Z d ->
  d = filter (fun n => creation_tick n + max = now)%Z d ++
      filter (fun n => creation_tick n + max <> now)%Z d.
Proof.
  induction 1 as [| n d Hs IH Hn]; intros HF; [done |].
  inversion HF as [| ? ? Hlo HF']; subst. rewrite !filter_cons.
  destruct (decide (creation_tick n + max = now)%Z) as [He | Hne].
  - rewrite decide_False by tauto. cbn. f_equal. by apply IH.
  - rewrite decide_True by done. rewrite filter_forall_nil; [| rewrite Forall_forall in Hn, HF' |- *].
    + rewrite filter_forall_id; [done |]. rewrite Forall_forall in Hn, HF' |- *.
      intros m Hm. specialize (Hn m Hm). specialize (HF' m Hm). cbn in *. lia.
    + intros m Hm. specialize (Hn m Hm). specialize (HF' m Hm). cbn in *. lia.
Qed.

(** Within the counter's range, [n] ticks emit, in FIFO order, exactly the
    nodes whose lifetime ends by then, and keep the others. *)
Lemma tick_times_spec n td : td_wf td ->
  (ticks_passed td + Z.of_nat n + max_ticks td <= U32_MAX + 1)%Z ->
  tick_times n td =
  Ok (map t (filter (fun m => creation_tick m + max_ticks td <= ticks_passed td + Z.of_nat n)%Z
               (deque td)),
      mk_deque (max_ticks td) (ticks_passed td + Z.of_nat n)
        (filter (fun m => ticks_passed td + Z.of_nat n < creation_tick m + max_ticks td)%Z
           (deque td))).
Proof.
  revert td. induction n as [| n IH]; intros td Hwf Hb.
  - destruct Hwf as (Hm & Ht & Hs & HF). cbn. rewrite Z.add_0_r.
    rewrite filter_forall_nil by (eapply Forall_impl; [apply HF | cbn; lia]).
    rewrite filter_forall_id by (eapply Forall_impl; [apply HF | cbn; lia]).
    by destruct td.
  - cbn [tick_times]. rewrite tick_spec by (done || lia). cbn [mbind outcome_bind].
    pose proof (tick_wf td _ _ Hwf ltac:(lia) (tick_spec td Hwf ltac:(lia))) as Hwf1.
    rewrite IH by (done || (cbn; lia)). cbn [mbind outcome_bind max_ticks ticks_passed deque].
    destruct td as [max tp d]; cbn in *. destruct Hwf as (Hm & Ht & Hs & HF).
    pose proof (expired_prefix max (tp + 1) d Hs
                  ltac:(eapply Forall_impl; [apply HF | cbn; lia])) as Hd.
    set (A := filter (fun n0 => creation_tick n0 + max = tp + 1)%Z d) in *.
    set (B := filter (fun n0 => creation_tick n0 + max <> tp + 1)%Z d) in *.
    assert (HA : Forall (fun m => creation_tick m + max = tp + 1)%Z A).
    { rewrite Forall_forall. intros m Hm'. by apply list_elem_of_filter in Hm' as [? _]. }
    rewrite Hd, !filter_app.
    rewrite (filter_forall_id _ A) by (eapply Forall_impl; [apply HA | cbn; lia]).
    rewrite (filter_forall_nil _ A) by (eapply Forall_impl; [apply HA | cbn; lia]).
    rewrite map_app. cbn [app]. rewrite Nat2Z.inj_succ.
    replace (tp + 1 + Z.of_nat n)%Z with (tp + Z.succ (Z.of_nat n))%Z by lia.
    reflexivity.
Qed.

(** C24: A pushed token leaves the queue at tick [push tick + max_ticks], after
    every older token: [n] ticks after [push_back] emit the older tokens
    whose lifetime ends by then, followed by the pushed one exactly when
    [n >= max_ticks]. *)
Theorem push_back_expires_after_max_ticks td x n : td_wf td ->
  (ticks_passed td + Z.of_nat n + max_ticks td <= U32_MAX + 1)%Z ->
  exists td', tick_times n (push_back td x) =
    Ok (map t (filter (fun m => creation_tick m + max_ticks td <= ticks_passed td + Z.of_nat n)%Z
                 (deque td)) ++
        (if decide (max_ticks td <= Z.of_nat n)%Z then [x] else []), td').
Proof.
  intros Hwf Hb. rewrite tick_times_spec; [| by apply push_back_wf | cbn; lia].
  eexists. f_equal. f_equal.
  cbn [deque push_back max_ticks ticks_passed].
  rewrite filter_app, map_app, filter_cons, filter_nil. cbn [creation_tick]. f_equal.
  repeat case_decide; try lia; reflexivity.
Qed.

(** Whenever the loop returns, it returned the expired prefix: the checks
    of the examined nodes did not overflow, and the nodes it did not examine
    are younger than the first one it kept. *)
Lemma pop_expired_ok max now d e r : tick_sorted d ->
  Forall (fun n => now <= creation_tick n + max)%Z d ->
  pop_expired max now d = Ok (e, r) ->
  e = map t (filter (fun n => creation_tick n + max = now)%Z d) /\
  r = filter (fun n => creation_tick n + max <> now)%Z d.
Proof.
  intros Hs. revert e r. induction Hs as [| n d Hs IH Hn]; intros e r HF H.
  - by injection H as <- <-.
  - inversion HF as [| ? ? Hlo HF']; subst. cbn [pop_expired] in H.
    unfold checked_add_u32 in H. case_decide; [| done]. cbn [mbind outcome_bind] in H.
    rewrite !filter_cons.
    destruct (decide (creation_tick n + max = now)%Z) as [He | Hne].
    + destruct (pop_expired max now d) as [[e' r'] | |] eqn:Hp; try done.
      cbn in H. injection H as <- <-. destruct (IH e' r' HF' eq_refl) as [-> ->].
      rewrite decide_False by tauto. done.
    + injection H as <- <-. rewrite decide_True by done.
      rewrite filter_forall_nil; [rewrite filter_forall_id; [done |] |];
        rewrite Forall_forall in Hn, HF' |- *; intros m Hm;
        specialize (Hn m Hm); specialize (HF' m Hm); cbn in *; lia.
Qed.

(** Whenever [tick] returns, it emitted the nodes created [max_ticks] ago
    and kept a well-formed queue. *)
Lemma tick_ok td e td' : td_wf td -> tick td = Ok (e, td') ->
  e = map t (filter (fun n => creation_tick n + max_ticks td = ticks_passed td + 1)%Z (deque td)) /\
  td' = mk_deque (max_ticks td) (ticks_passed td + 1)
          (filter (fun n => creation_tick n + max_ticks td <> ticks_passed td + 1)%Z (deque td)) /\
  td_wf td'.
Proof.
  intros Hwf H. pose proof Hwf as (Hm & Ht & Hs & HF). unfold tick, checked_add_u32 in H.
  case_decide; [| done]. cbn [mbind outcome_bind] in H.
  destruct (pop_expired _ _ _) as [[e' r] | |] eqn:Hp; try done.
  injection H as <- <-.
  destruct (pop_expired_ok (max_ticks td) (ticks_passed td + 1)%Z _ _ _ Hs ltac:(eapply Forall_impl; [apply HF | cbn; intros ? ?; lia]) Hp)
    as [-> ->].
  split; [done | split; [done |]]. repeat split; cbn; try lia.
  - by apply tick_sorted_filter.
  - rewrite Forall_forall in HF |- *. intros n Hn.
    apply list_elem_of_filter in Hn as [Hne Hn]. specialize (HF n Hn). lia.
Qed.


End TickDequeFacts.

(** ** Witnesses *)

(** A queue of lifetime 3 at tick 1 holding a token pushed at tick 0: the
    token pushed now leaves three ticks later, after the older one. *)
Lemma push_back_expires_after_max_ticks_witness :
  exists td', tick_times 3 (push_back (mk_deque 3 1 [mk_node 0 5%nat]) 7%nat) = Ok ([5%nat; 7%nat], td').
Proof.
  assert (Hwf : td_wf (mk_deque 3 1 [mk_node 0 5%nat])).
  { repeat split; cbn; try lia; repeat constructor; cbn; lia. }
  destruct (push_back_expires_after_max_ticks (mk_deque 3 1 [mk_node 0 5%nat]) 7%nat 3 Hwf
              ltac:(cbn; unfold U32_MAX; lia)) as [td' H].
  exists td'. rewrite H. reflexivity.
Defined.

Lemma tick_equiv_ref_witness :
  td_wf (mk_deque 2 1 [mk_node 0 5%nat; mk_node 1 6%nat]) /\
  tick (mk_deque 2 1 [mk_node 0 5%nat; mk_node 1 6%nat]) =
  tick_ref (mk_deque 2 1 [mk_node 0 5%nat; mk_node 1 6%nat]).
Proof.
  assert (W : td_wf (mk_deque 2 1 [mk_node 0 5%nat; mk_node 1 6%nat])).
  { repeat split; cbn; try lia. repeat constructor; cbn; lia. repeat constructor; cbn; lia. }
  split; [exact W | apply tick_equiv_ref; [exact W | unfold U32_MAX; cbn; lia]].
Defined.
