(* ===== verification/Refiller.v ===== *)
(** * The rebalancer: [GoodRefiller] and [GoodTracker] (doge_market/src/refiller.rs)

    One [GoodTracker] per kind records whether the kind is currently an
    [Importer], an [Exporter], both ([ImporterExporter]) or in [Shortage],
    with the days spent in the timed states.  Once per tick
    [refill_goods] ages every tracker, picks the least abundant importable
    kind (total below its threshold) and the most abundant exportable kind
    (total at least twice its threshold), and either declares a shortage of
    the least abundant one (with probability 5%) or converts part of the
    most abundant kind into the least abundant one, losing the import tax.

    The random draw [gen_range(0..100)] is the input [roll].  Day counters
    are [u32]; they are incremented only below 100, so they are kept as [Z]
    without overflow checks.  The market constants come from [MarketConsts].

    Theorems: tracker days stay within [0, 100]; a timed state lasts exactly
    101 days (spec_code_divergence: the spec says 100); the two searches
    return an eligible kind that minimises (maximises) the euro value, and
    never the same kind; [refill_goods] never panics when the reservations
    of every kind stay within its threshold, panics exactly when the
    withdrawal exceeds the free stock of the most abundant kind (a
    reachable panic), moves the two kinds toward their thresholds without
    overshooting, and destroys exactly the import tax in euro value. *)

From S2P Require Import Prelude Goods.
From Stdlib Require Import ZArith.
Open Scope Q_scope.

Definition MIN_DAYS_AS_IMPORTER : Z := 100.
Definition MIN_DAYS_AS_EXPORTER : Z := 100.
Definition MIN_DAYS_IN_SHORTAGE : Z := 100.
Definition IMPORT_TAX : Q := 1 # 4.
Definition SHORTAGE_PROBABILITY_PERCENT : Z := 5.
Definition CAREFUL_FRACTION : Q := 8.

Section Threshold.
Context `{MarketConsts}.

Definition compute_importer_exporter_threshold (kind : GoodKind) : Q :=
  STARTING_CAPITAL / CAREFUL_FRACTION * get_default_exchange_rate kind.
End Threshold.

Inductive TrackerState :=
| Importer (days_passed_as_importer : Z)
| Exporter (days_passed_as_exporter : Z)
| ImporterExporter
| Shortage (days_passed_in_shortage : Z).

Record GoodTracker := mk_tracker { kind : GoodKind; mode : TrackerState }.

Module GoodTracker.

Definition new (kind : GoodKind) : GoodTracker := mk_tracker kind ImporterExporter.

Definition advance_a_day (t : GoodTracker) : GoodTracker :=
  match mode t with
  | Importer d =>
      if decide (d < MIN_DAYS_AS_IMPORTER)%Z then mk_tracker (kind t) (Importer (d + 1))
      else mk_tracker (kind t) ImporterExporter
  | Exporter d =>
      if decide (d < MIN_DAYS_AS_EXPORTER)%Z then mk_tracker (kind t) (Exporter (d + 1))
      else mk_tracker (kind t) ImporterExporter
  | ImporterExporter => t
  | Shortage d =>
      if decide (d < MIN_DAYS_IN_SHORTAGE)%Z then mk_tracker (kind t) (Shortage (d + 1))
      else mk_tracker (kind t) ImporterExporter
  end.

End GoodTracker.

Record GoodRefiller := mk_refiller {
  eur_tracker : GoodTracker;
  usd_tracker : GoodTracker;
  yen_tracker : GoodTracker;
  yuan_tracker : GoodTracker
}.

Module GoodRefiller.

Definition new : GoodRefiller :=
  mk_refiller (GoodTracker.new EUR) (GoodTracker.new USD) (GoodTracker.new YEN) (GoodTracker.new YUAN).

Definition get_tracker_from_kind (r : GoodRefiller) (k : GoodKind) : GoodTracker :=
  match k with
  | EUR => eur_tracker r
  | YEN => yen_tracker r
  | USD => usd_tracker r
  | YUAN => yuan_tracker r
  end.

(** [self.get_tracker_from_kind_mut(k).mode = m]. *)
Definition set_mode (r : GoodRefiller) (k : GoodKind) (m : TrackerState) : GoodRefiller :=
  match k with
  | EUR => mk_refiller (mk_tracker (kind (eur_tracker r)) m) (usd_tracker r) (yen_tracker r) (yuan_tracker r)
  | USD => mk_refiller (eur_tracker r) (mk_tracker (kind (usd_tracker r)) m) (yen_tracker r) (yuan_tracker r)
  | YEN => mk_refiller (eur_tracker r) (usd_tracker r) (mk_tracker (kind (yen_tracker r)) m) (yuan_tracker r)
  | YUAN => mk_refiller (eur_tracker r) (usd_tracker r) (yen_tracker r) (mk_tracker (kind (yuan_tracker r)) m)
  end.

Definition increase_days (r : GoodRefiller) : GoodRefiller :=
  mk_refiller (GoodTracker.advance_a_day (eur_tracker r)) (GoodTracker.advance_a_day (usd_tracker r))
    (GoodTracker.advance_a_day (yen_tracker r)) (GoodTracker.advance_a_day (yuan_tracker r)).

Definition get_total_quantity_of_kind (assets reservations : Account) (k : GoodKind) : Q :=
  Account.get_quantity_by_kind assets k + Account.get_quantity_by_kind reservations k.

(** The array [[eur, usd, yen, yuan]] the searches iterate over. *)
Definition trackers (r : GoodRefiller) : list GoodTracker :=
  [eur_tracker r; usd_tracker r; yen_tracker r; yuan_tracker r].

(** [matches!(mode, Importer { .. } | ImporterExporter)]. *)
Definition importer_like (m : TrackerState) : bool :=
  match m with Importer _ | ImporterExporter => true | _ => false end.

(** [matches!(mode, Exporter { .. } | ImporterExporter)]. *)
Definition exporter_like (m : TrackerState) : bool :=
  match m with Exporter _ | ImporterExporter => true | _ => false end.

Definition is_importer_exporter (m : TrackerState) : bool :=
  match m with ImporterExporter => true | _ => false end.

Section Search.
Context `{MarketConsts}.

(** The euro value of the stock of a kind, the key of both searches. *)
Definition value_in_eur (assets reservations : Account) (k : GoodKind) : Q :=
  get_total_quantity_of_kind assets reservations k / get_default_exchange_rate k.

#[local] Instance value_le_dec assets reservations :
  RelDecision (fun a b => value_in_eur assets reservations a <= value_in_eur assets reservations b) :=
  fun a b => Qle_decision _ _.

#[local] Instance value_ge_dec assets reservations :
  RelDecision (fun a b => value_in_eur assets reservations b <= value_in_eur assets reservations a) :=
  fun a b => Qle_decision _ _.

Definition search_least_abundant_kind (r : GoodRefiller) (assets reservations : Account)
    : option GoodKind :=
  reduce (select (fun min_so_far curr => value_in_eur assets reservations min_so_far <=
                                         value_in_eur assets reservations curr))
    (map kind
       (List.filter (fun t => bool_decide (get_total_quantity_of_kind assets reservations (kind t) <
                                           compute_importer_exporter_threshold (kind t)))
          (List.filter (fun t => importer_like (mode t)) (trackers r)))).

Definition search_most_abundant_kind (r : GoodRefiller) (assets reservations : Account)
    : option GoodKind :=
  reduce (select (fun max_so_far curr => value_in_eur assets reservations curr <=
                                         value_in_eur assets reservations max_so_far))
    (map kind
       (List.filter (fun t => bool_decide (compute_importer_exporter_threshold (kind t) * 2 <=
                                           get_total_quantity_of_kind assets reservations (kind t)))
          (List.filter (fun t => exporter_like (mode t)) (trackers r)))).

(** A kind that was [ImporterExporter] becomes an [Importer] (the least
    abundant) or an [Exporter] (the most abundant), lines 167-173. *)
Definition mark_modes (r : GoodRefiller) (least most : GoodKind) : GoodRefiller :=
  let r := if is_importer_exporter (mode (get_tracker_from_kind r least))
           then set_mode r least (Importer 0) else r in
  if is_importer_exporter (mode (get_tracker_from_kind r most))
  then set_mode r most (Exporter 0) else r.

(** The quantity of [most] to withdraw to refill [least] (lines 175-188). *)
Definition most_abundant_good_quantity_to_withdraw (assets reservations : Account)
    (least most : GoodKind) : Q :=
  let needed := compute_importer_exporter_threshold least -
                get_total_quantity_of_kind assets reservations least in
  let available := get_total_quantity_of_kind assets reservations most -
                   compute_importer_exporter_threshold most in
  let needed_eur := needed / get_default_exchange_rate least in
  let needed_kind_most := needed_eur * get_default_exchange_rate most in
  Qmin (needed_kind_most / (1 - IMPORT_TAX)) available.

(** The quantity of [least] deposited for a withdrawal [w] of [most]. *)
Definition least_abundant_good_quantity_to_deposit (least most : GoodKind) (w : Q) : Q :=
  w / get_default_exchange_rate most * get_default_exchange_rate least * (1 - IMPORT_TAX).

(** [refill_goods], with the value of [gen_range(0..100)] as [roll]. *)
Definition refill_goods (r : GoodRefiller) (assets reservations : Account) (roll : Z)
    : outcome unit (GoodRefiller * Account) :=
  let r := increase_days r in
  match search_least_abundant_kind r assets reservations with
  | None => Ok (r, assets)
  | Some least =>
  match search_most_abundant_kind r assets reservations with
  | None => Ok (r, assets)
  | Some most =>
  if decide (roll < SHORTAGE_PROBABILITY_PERCENT)%Z then Ok (set_mode r least (Shortage 0), assets)
  else if decide (compute_importer_exporter_threshold least -
                  get_total_quantity_of_kind assets reservations least < 0) then Ok (r, assets)
  else if decide (get_total_quantity_of_kind assets reservations most -
                  compute_importer_exporter_threshold most < 0) then Ok (r, assets)
  else
    let r := mark_modes r least most in
    let w := most_abundant_good_quantity_to_withdraw assets reservations least most in
    '(_, assets) ← unwrap (Account.withdraw assets most w);
    assets ← Account.deposit assets
               (Good.new least (least_abundant_good_quantity_to_deposit least most w));
    Ok (r, assets)
  end
  end.

End Search.
End GoodRefiller.

Import GoodRefiller.

(** Day counters of the timed states lie in [[0, 100]]. *)
Definition mode_wf (m : TrackerState) : Prop :=
  match m with
  | Importer d | Exporter d | Shortage d => (0 <= d <= 100)%Z
  | ImporterExporter => True
  end.

(** Every tracker sits in the slot of its kind and has a well-formed mode. *)
Definition refiller_wf (r : GoodRefiller) : Prop :=
  forall k, kind (get_tracker_from_kind r k) = k /\ mode_wf (mode (get_tracker_from_kind r k)).

(** ** Trackers *)

Lemma advance_kind t : kind (GoodTracker.advance_a_day t) = kind t.
Proof. unfold GoodTracker.advance_a_day. destruct (mode t); try case_decide; done. Qed.

Lemma advance_wf t : mode_wf (mode t) -> mode_wf (mode (GoodTracker.advance_a_day t)).
Proof.
  unfold GoodTracker.advance_a_day, MIN_DAYS_AS_IMPORTER, MIN_DAYS_AS_EXPORTER, MIN_DAYS_IN_SHORTAGE.
  destruct t as [k []]; cbn; intros H; try case_decide; cbn; first [done | lia].
Qed.

Lemma get_increase_days r k :
  get_tracker_from_kind (increase_days r) k = GoodTracker.advance_a_day (get_tracker_from_kind r k).
Proof. by destruct k. Qed.

Lemma get_set_mode_same r k m :
  get_tracker_from_kind (set_mode r k m) k = mk_tracker (kind (get_tracker_from_kind r k)) m.
Proof. by destruct k. Qed.

Lemma get_set_mode_other r k k' m : k <> k' ->
  get_tracker_from_kind (set_mode r k m) k' = get_tracker_from_kind r k'.
Proof. intros. by destruct k, k'. Qed.

Lemma increase_days_wf r : refiller_wf r -> refiller_wf (increase_days r).
Proof.
  intros Hr k. rewrite get_increase_days, advance_kind.
  destruct (Hr k). split; [done | by apply advance_wf].
Qed.

Lemma set_mode_wf r k m : refiller_wf r -> mode_wf m -> refiller_wf (set_mode r k m).
Proof.
  intros Hr Hm k'. destruct (decide (k = k')) as [<- | Hne].
  - rewrite get_set_mode_same. split; [apply Hr | done].
  - rewrite get_set_mode_other by done. apply Hr.
Qed.

Lemma new_wf : refiller_wf GoodRefiller.new.
Proof. by intros []. Qed.

(** One day in a timed state: the counter grows below 100, and the state
    ends when it is 100. *)
Lemma advance_timed (C : Z -> TrackerState) k d :
  (C = Importer \/ C = Exporter \/ C = Shortage) ->
  GoodTracker.advance_a_day (mk_tracker k (C d)) =
  if decide (d < 100)%Z then mk_tracker k (C (d + 1)%Z) else mk_tracker k ImporterExporter.
Proof. intros [-> | [-> | ->]]; reflexivity. Qed.

Lemma iter_timed (C : Z -> TrackerState) k n :
  (C = Importer \/ C = Exporter \/ C = Shortage) -> (n <= 100)%nat ->
  Nat.iter n GoodTracker.advance_a_day (mk_tracker k (C 0%Z)) = mk_tracker k (C (Z.of_nat n)).
Proof.
  intros HC. induction n as [| n IH]; intros Hn; [done |].
  rewrite Nat.iter_succ, IH by lia. rewrite advance_timed by done.
  rewrite decide_True by lia. do 2 f_equal. lia.
Qed.


(** ** The searches *)

(** [filter] twice, [map] to the kind and [reduce] with a selection: the
    result comes from a tracker passing both filters and is related to the
    kind of every such tracker. *)
Lemma reduce_filter_spec (R : GoodKind -> GoodKind -> Prop) `{RelDecision GoodKind GoodKind R}
    `{!Reflexive R} `{!Transitive R} (R_total : forall a b, ~ R a b -> R b a)
    (P Q : GoodTracker -> bool) ts k :
  reduce (select R) (map kind (List.filter Q (List.filter P ts))) = Some k ->
  (exists t, In t ts /\ kind t = k /\ P t = true /\ Q t = true) /\
  forall t, In t ts -> P t = true -> Q t = true -> R k (kind t).
Proof.
  intros Hred. destruct (reduce_select R R_total _ _ Hred) as [Hin Hall].
  apply list_elem_of_In, in_map_iff in Hin as (t & <- & Ht).
  apply filter_In in Ht as [Ht HQ]. apply filter_In in Ht as [Ht HP].
  split; [by exists t |]. intros t' Ht' HP' HQ'.
  rewrite Forall_forall in Hall. apply Hall, list_elem_of_In, in_map.
  by apply filter_In; split; [apply filter_In |].
Qed.

Section SearchFacts.
Context `{MarketConsts}.

Lemma threshold_pos k : 0 < compute_importer_exporter_threshold k.
Proof.
  unfold compute_importer_exporter_threshold, CAREFUL_FRACTION.
  apply Qmult_lt_0_compat; [apply Qdiv_pos; [apply starting_capital_pos | lra] |].
  apply default_exchange_rate_pos.
Qed.

Lemma in_trackers r t : In t (trackers r) <-> exists k, t = get_tracker_from_kind r k.
Proof.
  split.
  - intros [<- | [<- | [<- | [<- | []]]]]; [exists EUR | exists USD | exists YEN | exists YUAN]; done.
  - intros [[] ->]; cbn; tauto.
Qed.

(** [search_least_abundant_kind] returns an importable kind below its
    threshold whose stock is worth the least in euros among those. *)
Lemma search_least_spec r a res k : refiller_wf r -> search_least_abundant_kind r a res = Some k ->
  importer_like (mode (get_tracker_from_kind r k)) = true /\
  get_total_quantity_of_kind a res k < compute_importer_exporter_threshold k /\
  forall k', importer_like (mode (get_tracker_from_kind r k')) = true ->
    get_total_quantity_of_kind a res k' < compute_importer_exporter_threshold k' ->
    value_in_eur a res k <= value_in_eur a res k'.
Proof.
  intros Hwf Hs.
  destruct (@reduce_filter_spec (fun x y => value_in_eur a res x <= value_in_eur a res y) _
              (fun x => Qle_refl _) (fun x y z => Qle_trans _ _ _)
              (fun x y Hn => Qlt_le_weak _ _ (Qnot_le_lt _ _ Hn)) _ _ _ _ Hs)
    as [(t & Hin & <- & HP & HQ) Hall].
  apply in_trackers in Hin as [k0 ->]. rewrite (proj1 (Hwf k0)).
  apply bool_decide_eq_true in HQ. rewrite (proj1 (Hwf k0)) in HQ.
  split; [done | split; [done |]]. intros k' HP' HQ'.
  rewrite <- (proj1 (Hwf k')) in HQ' at 1 2.
  pose proof (Hall _ (proj2 (in_trackers r _) (ex_intro _ k' eq_refl)) HP'
                (bool_decide_eq_true_2 _ HQ')) as Hk.
  by rewrite ?(proj1 (Hwf k0)), ?(proj1 (Hwf k')) in Hk.
Qed.

(** [search_most_abundant_kind] returns an exportable kind holding at least
    twice its threshold whose stock is worth the most in euros among those. *)
Lemma search_most_spec r a res k : refiller_wf r -> search_most_abundant_kind r a res = Some k ->
  exporter_like (mode (get_tracker_from_kind r k)) = true /\
  compute_importer_exporter_threshold k * 2 <= get_total_quantity_of_kind a res k /\
  forall k', exporter_like (mode (get_tracker_from_kind r k')) = true ->
    compute_importer_exporter_threshold k' * 2 <= get_total_quantity_of_kind a res k' ->
    value_in_eur a res k' <= value_in_eur a res k.
Proof.
  intros Hwf Hs.
  destruct (@reduce_filter_spec (fun x y => value_in_eur a res y <= value_in_eur a res x) _
              (fun x => Qle_refl _) (fun x y z Hxy Hyz => Qle_trans _ _ _ Hyz Hxy)
              (fun x y Hn => Qlt_le_weak _ _ (Qnot_le_lt _ _ Hn)) _ _ _ _ Hs)
    as [(t & Hin & <- & HP & HQ) Hall].
  apply in_trackers in Hin as [k0 ->]. rewrite (proj1 (Hwf k0)).
  apply bool_decide_eq_true in HQ. rewrite (proj1 (Hwf k0)) in HQ.
  split; [done | split; [done |]]. intros k' HP' HQ'.
  rewrite <- (proj1 (Hwf k')) in HQ' at 1 2.
  pose proof (Hall _ (proj2 (in_trackers r _) (ex_intro _ k' eq_refl)) HP'
                (bool_decide_eq_true_2 _ HQ')) as Hk.
  by rewrite ?(proj1 (Hwf k0)), ?(proj1 (Hwf k')) in Hk.
Qed.

End SearchFacts.

(** ** Refilling *)

Section RefillFacts.
Context `{MarketConsts}.

Lemma mark_modes_wf r l m : refiller_wf r -> refiller_wf (mark_modes r l m).
Proof.
  intros Hr. unfold mark_modes.
  assert (Hr1 : refiller_wf (if is_importer_exporter (mode (get_tracker_from_kind r l))
                             then set_mode r l (Importer 0) else r))
    by (destruct (is_importer_exporter _); [apply set_mode_wf; cbn; [done | lia] | done]).
  revert Hr1. generalize (if is_importer_exporter (mode (get_tracker_from_kind r l))
                           then set_mode r l (Importer 0) else r) as r1. intros r1 Hr1.
  destruct (is_importer_exporter _); [apply set_mode_wf; cbn; [done | lia] | done].
Qed.

(** The withdrawn quantity is positive and within what [most] can cede,
    and the deposit is positive and does not exceed what [least] needs. *)
Lemma transfer_bounds a res l m :
  get_total_quantity_of_kind a res l < compute_importer_exporter_threshold l ->
  compute_importer_exporter_threshold m * 2 <= get_total_quantity_of_kind a res m ->
  let w := most_abundant_good_quantity_to_withdraw a res l m in
  0 < w /\ w <= get_total_quantity_of_kind a res m - compute_importer_exporter_threshold m /\
  0 < least_abundant_good_quantity_to_deposit l m w /\
  least_abundant_good_quantity_to_deposit l m w <=
    compute_importer_exporter_threshold l - get_total_quantity_of_kind a res l.
Proof.
  intros Hl Hm. cbv zeta. unfold most_abundant_good_quantity_to_withdraw,
    least_abundant_good_quantity_to_deposit, IMPORT_TAX.
  pose proof (default_exchange_rate_pos l) as Rl. pose proof (default_exchange_rate_pos m) as Rm.
  pose proof (threshold_pos m) as Tm.
  set (rl := get_default_exchange_rate l) in *. set (rm := get_default_exchange_rate m) in *.
  set (nd := compute_importer_exporter_threshold l - get_total_quantity_of_kind a res l).
  set (av := get_total_quantity_of_kind a res m - compute_importer_exporter_threshold m).
  assert (Hnd : 0 < nd) by (unfold nd; lra). assert (Hav : compute_importer_exporter_threshold m <= av) by (unfold av; lra).
  set (c := rl * (1 - (1 # 4)) / rm).
  assert (Hc : 0 < c) by (unfold c; apply Qdiv_pos; [apply Qmult_lt_0_compat; [done | lra] | done]).
  assert (Hdep : forall w, w / rm * rl * (1 - (1 # 4)) == w * c)
    by (intros; unfold c; field; intros E; rewrite E in Rm; lra).
  assert (Hneed : nd / rl * rm / (1 - (1 # 4)) * c == nd)
    by (unfold c; field; split; intros E; [rewrite E in Rm | rewrite E in Rl]; lra).
  assert (Hpos : 0 < nd / rl * rm / (1 - (1 # 4))).
  { apply Qdiv_pos; [apply Qmult_lt_0_compat; [apply Qdiv_pos |] |]; done || lra. }
  rewrite !Hdep. destruct (Q.min_spec_le (nd / rl * rm / (1 - (1 # 4))) av) as [[Hle ->] | [Hle ->]].
  - split; [done | split; [done |]]. split; [nra |]. rewrite Hneed. lra.
  - split; [lra | split; [lra |]]. split; [nra |]. rewrite <- Hneed.
    apply Qmult_le_compat_r; lra.
Qed.

(** When both searches succeed and no shortage is drawn, [refill_goods]
    withdraws [w] of [most] (panicking if the free stock is smaller) and
    deposits the converted quantity of [least]. *)
Lemma refill_goods_transfer r a res roll l m : refiller_wf r -> Account.account_wf a ->
  search_least_abundant_kind (increase_days r) a res = Some l ->
  search_most_abundant_kind (increase_days r) a res = Some m ->
  ~ (roll < SHORTAGE_PROBABILITY_PERCENT)%Z ->
  refill_goods r a res roll =
  let w := most_abundant_good_quantity_to_withdraw a res l m in
  if decide (w <= Account.get_quantity_by_kind a m)
  then Ok (mark_modes (increase_days r) l m,
           Account.credit (Account.debit a m w) l (least_abundant_good_quantity_to_deposit l m w))
  else Panic UnwrapOnErr.
Proof.
  intros Hr Ha Hl Hm Hroll. pose proof (increase_days_wf r Hr) as Hr1.
  destruct (search_least_spec _ _ _ _ Hr1 Hl) as (_ & Tl & _).
  destruct (search_most_spec _ _ _ _ Hr1 Hm) as (_ & Tm & _).
  destruct (transfer_bounds a res l m Tl Tm) as (Hw & _ & _ & _).
  unfold refill_goods. rewrite Hl, Hm, decide_False by done.
  rewrite decide_False by lra. rewrite decide_False by (pose proof (threshold_pos m); lra).
  cbv zeta. case_decide as Hle.
  - rewrite withdraw_debit by done. cbn. rewrite deposit_credit by auto with doge. done.
  - rewrite withdraw_excessive by (done || lra). done.
Qed.

(** Otherwise [refill_goods] only updates the trackers. *)
Lemma refill_goods_no_transfer r a res roll : refiller_wf r ->
  (search_least_abundant_kind (increase_days r) a res = None \/
   search_most_abundant_kind (increase_days r) a res = None \/
   (roll < SHORTAGE_PROBABILITY_PERCENT)%Z) ->
  exists r', refill_goods r a res roll = Ok (r', a) /\ refiller_wf r'.
Proof.
  intros Hr Hc. pose proof (increase_days_wf r Hr) as Hr1. unfold refill_goods.
  destruct (search_least_abundant_kind _ a res) as [l |] eqn:Hl; [| by eexists].
  destruct (search_most_abundant_kind _ a res) as [m |] eqn:Hm; [| by eexists].
  destruct Hc as [? | [? | Hroll]]; [done | done |].
  rewrite decide_True by done. eexists. split; [done |]. apply set_mode_wf; cbn; [done | lia].
Qed.

(** The euro value of an account after a credit or a debit. *)
Lemma value_credit a k q :
  Account.get_total_account_value_in_eur (Account.credit a k q) ==
  Account.get_total_account_value_in_eur a + q / get_default_exchange_rate k.
Proof.
  pose proof usd_rate_pos. pose proof yen_rate_pos. pose proof yuan_rate_pos.
  unfold Account.get_total_account_value_in_eur. rewrite !qty_credit.
  destruct k; repeat case_decide; try congruence; cbn [get_default_exchange_rate];
    field; repeat split; intros E; rewrite E in *; lra.
Qed.

Lemma value_debit a k q :
  Account.get_total_account_value_in_eur (Account.debit a k q) ==
  Account.get_total_account_value_in_eur a - q / get_default_exchange_rate k.
Proof.
  pose proof usd_rate_pos. pose proof yen_rate_pos. pose proof yuan_rate_pos.
  unfold Account.get_total_account_value_in_eur. rewrite !qty_debit.
  destruct k; repeat case_decide; try congruence; cbn [get_default_exchange_rate];
    field; repeat split; intros E; rewrite E in *; lra.
Qed.

End RefillFacts.


(** ** Properties of the rebalancer *)

Section RefillerProperties.
Context `{MarketConsts}.

(** Refilling keeps the trackers well formed (days within [[0, 100]], each
    tracker in the slot of its kind) and the free account well formed and
    non-negative. *)
Theorem refill_goods_wf r a res roll r' a' : refiller_wf r -> Account.account_wf a ->
  Account.account_nonneg a -> refill_goods r a res roll = Ok (r', a') ->
  refiller_wf r' /\ Account.account_wf a' /\ Account.account_nonneg a'.
Proof.
  intros Hr Ha Na Hrf.
  destruct (search_least_abundant_kind (increase_days r) a res) as [l |] eqn:Hl;
  [destruct (search_most_abundant_kind (increase_days r) a res) as [m |] eqn:Hm |];
  [destruct (decide (roll < SHORTAGE_PROBABILITY_PERCENT)%Z) as [Hroll | Hroll] | |].
  2: { rewrite (refill_goods_transfer r a res roll l m) in Hrf by done. cbv zeta in Hrf.
       case_decide as Hle; [| done]. injection Hrf as <- <-.
       pose proof (increase_days_wf r Hr) as Hr1.
       destruct (search_least_spec _ _ _ _ Hr1 Hl) as (_ & Tl & _).
       destruct (search_most_spec _ _ _ _ Hr1 Hm) as (_ & Tm & _).
       destruct (transfer_bounds a res l m Tl Tm) as (Hw & _ & Hd & _).
       split; [by apply mark_modes_wf | split; [auto with doge |]].
       apply nonneg_credit; [apply nonneg_debit |]; [done | done | lra]. }
  all: destruct (refill_goods_no_transfer r a res roll Hr ltac:(tauto)) as (r1 & E & Hr1);
    rewrite E in Hrf; injection Hrf as <- <-; done.
Qed.

(** The refill returns normally under the threshold bound on reservations. *)
Lemma refill_goods_ok r a res roll : refiller_wf r -> Account.account_wf a ->
  (forall k, Account.get_quantity_by_kind res k <= compute_importer_exporter_threshold k) ->
  exists r' a', refill_goods r a res roll = Ok (r', a').
Proof.
  intros Hr Ha Hres.
  destruct (search_least_abundant_kind (increase_days r) a res) as [l |] eqn:Hl;
  [destruct (search_most_abundant_kind (increase_days r) a res) as [m |] eqn:Hm |];
  [destruct (decide (roll < SHORTAGE_PROBABILITY_PERCENT)%Z) as [Hroll | Hroll] | |].
  2: { rewrite (refill_goods_transfer r a res roll l m) by done. cbv zeta.
       pose proof (increase_days_wf r Hr) as Hr1.
       destruct (search_least_spec _ _ _ _ Hr1 Hl) as (_ & Tl & _).
       destruct (search_most_spec _ _ _ _ Hr1 Hm) as (_ & Tm & _).
       destruct (transfer_bounds a res l m Tl Tm) as (_ & Hav & _ & _).
       rewrite decide_True; [by eexists _, _ |].
       unfold get_total_quantity_of_kind in Hav. specialize (Hres m). lra. }
  all: destruct (refill_goods_no_transfer r a res roll Hr ltac:(tauto)) as (r1 & E & _);
    rewrite E; by eexists _, _.
Qed.

(** When the reservations of every kind stay within its threshold,
    [refill_goods] returns normally: the withdrawal never exceeds the free
    stock of the most abundant kind. *)
Theorem refill_goods_no_panic r a res roll : refiller_wf r -> Account.account_wf a ->
  (forall k, Account.get_quantity_by_kind res k <= compute_importer_exporter_threshold k) ->
  exists r' a', refill_goods r a res roll = Ok (r', a').
Proof. exact (refill_goods_ok r a res roll). Qed.

(** C7: [refill_goods] panics exactly when both searches succeed, no shortage
    is drawn, and the quantity to withdraw from the most abundant kind
    (computed from its free plus reserved stock) exceeds its free stock:
    the [unwrap] of [assets.withdraw] at line 193. *)
Theorem refill_goods_panic_iff r a res roll : refiller_wf r -> Account.account_wf a ->
  is_panic (refill_goods r a res roll) = true <->
  exists l m, search_least_abundant_kind (increase_days r) a res = Some l /\
    search_most_abundant_kind (increase_days r) a res = Some m /\
    (SHORTAGE_PROBABILITY_PERCENT <= roll)%Z /\
    Account.get_quantity_by_kind a m < most_abundant_good_quantity_to_withdraw a res l m.
Proof.
  intros Hr Ha.
  destruct (search_least_abundant_kind (increase_days r) a res) as [l |] eqn:Hl;
  [destruct (search_most_abundant_kind (increase_days r) a res) as [m |] eqn:Hm |];
  [destruct (decide (roll < SHORTAGE_PROBABILITY_PERCENT)%Z) as [Hroll | Hroll] | |].
  2: { rewrite (refill_goods_transfer r a res roll l m) by done. cbv zeta.
       case_decide as Hle; cbn; split; try done.
       - intros (l' & m' & [= <-] & [= <-] & _ & Hlt). lra.
       - intros _. exists l, m. repeat split; [lia | lra]. }
  all: destruct (refill_goods_no_transfer r a res roll Hr ltac:(tauto)) as (r1 & E & _);
    rewrite E; cbn; split; [done |]; intros (l' & m' & ? & ? & ? & _); try congruence; lia.
Qed.

(** C25: A transfer moves the two kinds toward their thresholds without
    crossing them: the least abundant kind grows but stays at most at its
    threshold, the most abundant one shrinks but stays at least at its
    threshold, the two are different, and the euro value of the free
    account drops by exactly the import tax on the withdrawn value. *)
Theorem refill_goods_rebalances r a res roll l m r' a' : refiller_wf r -> Account.account_wf a ->
  search_least_abundant_kind (increase_days r) a res = Some l ->
  search_most_abundant_kind (increase_days r) a res = Some m ->
  (SHORTAGE_PROBABILITY_PERCENT <= roll)%Z -> refill_goods r a res roll = Ok (r', a') ->
  l <> m /\
  get_total_quantity_of_kind a res l < get_total_quantity_of_kind a' res l <=
    compute_importer_exporter_threshold l /\
  compute_importer_exporter_threshold m <= get_total_quantity_of_kind a' res m <
    get_total_quantity_of_kind a res m /\
  Account.get_total_account_value_in_eur a' ==
    Account.get_total_account_value_in_eur a -
    IMPORT_TAX * (most_abundant_good_quantity_to_withdraw a res l m / get_default_exchange_rate m).
Proof.
  intros Hr Ha Hl Hm Hroll Hrf.
  rewrite (refill_goods_transfer r a res roll l m) in Hrf by (done || lia). cbv zeta in Hrf.
  case_decide as Hle; [| done]. injection Hrf as <- <-.
  pose proof (increase_days_wf r Hr) as Hr1. pose proof (threshold_pos l). pose proof (threshold_pos m).
  destruct (search_least_spec _ _ _ _ Hr1 Hl) as (_ & Tl & _).
  destruct (search_most_spec _ _ _ _ Hr1 Hm) as (_ & Tm & _).
  destruct (transfer_bounds a res l m Tl Tm) as (Hw & Hav & Hd & Hdn).
  assert (Hne : l <> m) by (intros <-; lra).
  split; [done |]. unfold get_total_quantity_of_kind in *. rewrite !qty_credit, !qty_debit.
  rewrite (decide_False _ _ Hne), decide_True, (decide_True _ _ (eq_refl m)) by done.
  rewrite (decide_False _ _ (not_eq_sym Hne)).
  split; [lra | split; [lra |]].
  rewrite value_credit, value_debit. unfold least_abundant_good_quantity_to_deposit, IMPORT_TAX.
  pose proof (default_exchange_rate_pos l). pose proof (default_exchange_rate_pos m).
  field. split; intros E; rewrite E in *; lra.
Qed.

End RefillerProperties.

(** C37: A timed tracker state ([Importer], [Exporter], [Shortage]) entered with
    0 days lasts 101 advances: it is still timed after 100 advances and back
    to [ImporterExporter] after the 101st (the spec says the state ends when
    the counter reaches 100). *)
Theorem timed_state_lasts_101_days (C : Z -> TrackerState) k :
  (C = Importer \/ C = Exporter \/ C = Shortage) ->
  (forall n, (n <= 100)%nat ->
     mode (Nat.iter n GoodTracker.advance_a_day (mk_tracker k (C 0%Z))) <> ImporterExporter) /\
  Nat.iter 101 GoodTracker.advance_a_day (mk_tracker k (C 0%Z)) = mk_tracker k ImporterExporter.
Proof.
  intros HC. split.
  - intros n Hn. rewrite iter_timed by done. cbn. by destruct HC as [-> | [-> | ->]].
  - rewrite Nat.iter_succ, iter_timed, advance_timed by (done || lia). by rewrite decide_False by lia.
Qed.

(** ** Witnesses *)

(** Sample values of the external crate's constants. *)
#[local] Instance sample_consts : MarketConsts.
Proof.
  refine {| DEFAULT_EUR_USD_EXCHANGE_RATE := 1; DEFAULT_EUR_YEN_EXCHANGE_RATE := 100;
            DEFAULT_EUR_YUAN_EXCHANGE_RATE := 7; STARTING_CAPITAL := 1000000 |}; reflexivity.
Defined.

(** The inventory of the unit test of refiller.rs. *)
Definition test_assets : Account :=
  mk_account (Good.new EUR 500000) (Good.new USD 25000) (Good.new YEN 25000000) (Good.new YUAN 1750000).

(** The same total stock with most euros reserved by outstanding locks. *)
Definition reserved_assets : Account :=
  mk_account (Good.new EUR 20000) (Good.new USD 25000) (Good.new YEN 25000000) (Good.new YUAN 1750000).
Definition reserved_reservations : Account :=
  mk_account (Good.new EUR 480000) (Good.new USD 0) (Good.new YEN 0) (Good.new YUAN 0).

Lemma refill_goods_no_panic_witness :
  exists r' a', @refill_goods sample_consts GoodRefiller.new test_assets Account.new_empty 50 = Ok (r', a').
Proof.
  apply (@refill_goods_no_panic sample_consts); [apply new_wf | concrete |].
  intros []; vm_compute; discriminate.
Defined.

Lemma refill_goods_wf_witness :
  exists r' a', @refill_goods sample_consts GoodRefiller.new test_assets Account.new_empty 50 = Ok (r', a') /\
    refiller_wf r' /\ Account.account_wf a' /\ Account.account_nonneg a'.
Proof.
  eexists _, _. split; [vm_compute; reflexivity |].
  apply (@refill_goods_wf sample_consts GoodRefiller.new test_assets Account.new_empty 50);
    [apply new_wf | concrete | concrete | vm_compute; reflexivity].
Defined.

Lemma refill_goods_panic_iff_witness :
  is_panic (@refill_goods sample_consts GoodRefiller.new reserved_assets reserved_reservations 50) = true.
Proof.
  apply (proj2 (@refill_goods_panic_iff sample_consts GoodRefiller.new reserved_assets
                  reserved_reservations 50 new_wf ltac:(concrete))).
  exists USD, EUR. vm_compute. repeat split; try reflexivity; discriminate.
Defined.

Lemma refill_goods_rebalances_witness :
  exists r' a', @refill_goods sample_consts GoodRefiller.new test_assets Account.new_empty 50 = Ok (r', a') /\
    USD <> EUR /\
    @get_total_quantity_of_kind test_assets Account.new_empty USD < get_total_quantity_of_kind a' Account.new_empty USD <=
      @compute_importer_exporter_threshold sample_consts USD /\
    @compute_importer_exporter_threshold sample_consts EUR <= get_total_quantity_of_kind a' Account.new_empty EUR <
      get_total_quantity_of_kind test_assets Account.new_empty EUR /\
    Account.get_total_account_value_in_eur a' ==
      @Account.get_total_account_value_in_eur sample_consts test_assets -
      IMPORT_TAX * (@most_abundant_good_quantity_to_withdraw sample_consts test_assets Account.new_empty USD EUR /
                    @get_default_exchange_rate sample_consts EUR).
Proof.
  eexists _, _. split; [vm_compute; reflexivity |].
  eapply (@refill_goods_rebalances sample_consts GoodRefiller.new test_assets Account.new_empty 50 USD EUR);
    [apply new_wf | concrete | vm_compute; reflexivity | vm_compute; reflexivity | unfold SHORTAGE_PROBABILITY_PERCENT; lia |
     vm_compute; reflexivity].
Defined.

Lemma timed_state_lasts_101_days_witness :
  Nat.iter 101 GoodTracker.advance_a_day (mk_tracker YEN (Shortage 0)) = mk_tracker YEN ImporterExporter.
Proof. exact (proj2 (timed_state_lasts_101_days Shortage YEN ltac:(tauto))). Defined.
