(* ===== verification/Service.v ===== *)
(** * The transaction service: [TxService] (doge_market/src/service.rs)

    The service owns the ledger, the registries [buys] and [sells] of locks
    by UUID (HashMaps, modelled as stdpp [gmap]s) and the expiry queue of
    UUIDs.  A reservation inserts the new lock under a fresh UUID and pushes
    the UUID on the queue; settlement looks the lock up and runs its
    [buy]/[sell]; [tick_all] ticks the queue and expires every UUID it
    yields, looking it up first in [buys], then in [sells], and reaching
    [unreachable!()] if it is in neither.  Locks are never removed.

    UUIDs are drawn at random by the code ([Uuid::new_v4]); here the UUID
    is an input of the reservation, and the theorems assume it fresh.

    The service invariant [svc_inv] says that the ledger is well formed and
    non-negative, that [reservations] and [futures] hold exactly the sums of
    the quantities of the outstanding ([Reserved]) locks, that every lock
    has positive quantities, that the queue is well formed and only holds
    UUIDs of registered locks, and that no UUID is both a buy and a sell.
    It is preserved by every operation; under it settlement never panics and
    takes no drift branch, and [tick_all] always succeeds while the tick
    counter is in range. *)

From S2P Require Import Prelude Goods Ledger Transactions TickDeque.
From stdpp Require Import gmap.
From Stdlib Require Import ZArith.
Open Scope Q_scope.

(** [uuid::Uuid], by an identifier. *)
Definition Uuid := positive.

Module ServiceBuyReservationError.
Inductive t :=
| NonPositiveBuy
| NonPositiveBid
| ExceedsReservableQuantity (reservable : Q)
| BidTooLow (lowest : fval).
End ServiceBuyReservationError.

Module ServiceSellReservationError.
Inductive t :=
| NonPositiveSell
| NonPositiveOffer
| ExceedsReservableQuantity (reservable : Q)
| OfferTooHigh (highest : fval).
End ServiceSellReservationError.

Module ServiceBuyError.
Inductive t :=
| UnrecognizedUuid
| InvalidState (current_state : BuyTx.BuyTxState)
| WrongGoodKind (pre_agreed : GoodKind)
| InsufficientGoodQuantity (pre_agreed : Q).
End ServiceBuyError.

Module ServiceSellError.
Inductive t :=
| UnrecognizedUuid
| InvalidState (current_state : SellTx.SellTxState)
| WrongGoodKind (pre_agreed : GoodKind)
| InsufficientGoodQuantity (pre_agreed : Q).
End ServiceSellError.

Module TxService.

Record TxService := mk_service {
  ops : AccountOps;
  buys : gmap Uuid BuyTx.BuyTx;
  sells : gmap Uuid SellTx.SellTx;
  deque : TickDeque Uuid
}.

Definition new (ops : AccountOps) (max_ticks : Z) : outcome unit TxService :=
  d ← TickDeque.new max_ticks; Ok (mk_service ops ∅ ∅ d).

Definition do_buy_reservation (s : TxService) (proposal : BuyTx.BuyTxProposal) (uuid : Uuid)
    : outcome ServiceBuyReservationError.t (Uuid * TxService) :=
  match BuyTx.reserve (ops s) proposal with
  | Ok (reservation, ops') =>
      Ok (uuid, mk_service ops' (<[uuid := reservation]> (buys s)) (sells s)
                  (push_back (deque s) uuid))
  | Err BuyTx.NonPositiveBuy => Err ServiceBuyReservationError.NonPositiveBuy
  | Err BuyTx.NonPositiveBid => Err ServiceBuyReservationError.NonPositiveBid
  | Err (BuyTx.ExceedsReservableQuantity r) => Err (ServiceBuyReservationError.ExceedsReservableQuantity r)
  | Err (BuyTx.BidTooLow l) => Err (ServiceBuyReservationError.BidTooLow l)
  | Panic r => Panic r
  end.

Definition do_sell_reservation (s : TxService) (proposal : SellTx.SellTxProposal) (uuid : Uuid)
    : outcome ServiceSellReservationError.t (Uuid * TxService) :=
  match SellTx.reserve (ops s) proposal with
  | Ok (reservation, ops') =>
      Ok (uuid, mk_service ops' (buys s) (<[uuid := reservation]> (sells s))
                  (push_back (deque s) uuid))
  | Err SellTx.NonPositiveSell => Err ServiceSellReservationError.NonPositiveSell
  | Err SellTx.NonPositiveOffer => Err ServiceSellReservationError.NonPositiveOffer
  | Err (SellTx.ExceedsReservableQuantity r) => Err (ServiceSellReservationError.ExceedsReservableQuantity r)
  | Err (SellTx.OfferTooHigh h) => Err (ServiceSellReservationError.OfferTooHigh h)
  | Panic r => Panic r
  end.

(** [do_buy]: the delivered good, the service and the buyer's remaining cash. *)
Definition do_buy (s : TxService) (uuid : Uuid) (with_ : Good)
    : outcome ServiceBuyError.t (Good * TxService * Good) :=
  match buys s !! uuid with
  | Some tx =>
      match BuyTx.buy_ tx (ops s) with_ with
      | Ok (bought, tx', ops', with') =>
          Ok (bought, mk_service ops' (<[uuid := tx']> (buys s)) (sells s) (deque s), with')
      | Err (BuyTx.InvalidState st) => Err (ServiceBuyError.InvalidState st)
      | Err (BuyTx.WrongGoodKind k) => Err (ServiceBuyError.WrongGoodKind k)
      | Err (BuyTx.InsufficientGoodQuantity q) => Err (ServiceBuyError.InsufficientGoodQuantity q)
      | Panic r => Panic r
      end
  | None => Err ServiceBuyError.UnrecognizedUuid
  end.

Definition do_sell (s : TxService) (uuid : Uuid) (with_ : Good)
    : outcome ServiceSellError.t (Good * TxService * Good) :=
  match sells s !! uuid with
  | Some tx =>
      match SellTx.sell_ tx (ops s) with_ with
      | Ok (sold, tx', ops', with') =>
          Ok (sold, mk_service ops' (buys s) (<[uuid := tx']> (sells s)) (deque s), with')
      | Err (SellTx.InvalidState st) => Err (ServiceSellError.InvalidState st)
      | Err (SellTx.WrongGoodKind k) => Err (ServiceSellError.WrongGoodKind k)
      | Err (SellTx.InsufficientGoodQuantity q) => Err (ServiceSellError.InsufficientGoodQuantity q)
      | Panic r => Panic r
      end
  | None => Err ServiceSellError.UnrecognizedUuid
  end.

Definition get_buy (s : TxService) (uuid : Uuid) : option BuyTx.BuyTx := buys s !! uuid.
Definition get_sell (s : TxService) (uuid : Uuid) : option SellTx.SellTx := sells s !! uuid.

(** The body of the [for_each] of [tick_all], for one UUID. *)
Definition expire_one (s : TxService) (uuid : Uuid) : outcome unit TxService :=
  match buys s !! uuid with
  | Some tx =>
      '(tx', ops') ← BuyTx.expire tx (ops s);
      Ok (mk_service ops' (<[uuid := tx']> (buys s)) (sells s) (deque s))
  | None =>
      match sells s !! uuid with
      | Some tx =>
          '(tx', ops') ← SellTx.expire tx (ops s);
          Ok (mk_service ops' (buys s) (<[uuid := tx']> (sells s)) (deque s))
      | None => Panic Unreachable
      end
  end.

Fixpoint expire_each (uuids : list Uuid) (s : TxService) : outcome unit TxService :=
  match uuids with
  | [] => Ok s
  | uuid :: rest => s' ← expire_one s uuid; expire_each rest s'
  end.

Definition tick_all (s : TxService) : outcome unit TxService :=
  '(expired, d') ← tick (deque s);
  expire_each expired (mk_service (ops s) (buys s) (sells s) d').

End TxService.

(** ** The service invariant *)

Import TxService AccountOps.

(** The sum of [f] over the values of a registry. *)
Definition sum_map {V} (f : V -> Q) (m : gmap Uuid V) : Q :=
  qsum (map (fun kv => f kv.2) (map_to_list m)).

(** What an outstanding lock holds in [reservations] and expects in
    [futures], for kind [k]. *)
Definition buy_reserved (k : GoodKind) (tx : BuyTx.BuyTx) : Q :=
  match BuyTx.state tx with
  | BuyTx.Reserved => if decide (get_kind (BuyTx.buy tx) = k) then get_qty (BuyTx.buy tx) else 0
  | _ => 0
  end.

Definition buy_future (k : GoodKind) (tx : BuyTx.BuyTx) : Q :=
  match BuyTx.state tx with
  | BuyTx.Reserved => if decide (get_kind (BuyTx.bid tx) = k) then get_qty (BuyTx.bid tx) else 0
  | _ => 0
  end.

Definition sell_reserved (k : GoodKind) (tx : SellTx.SellTx) : Q :=
  match SellTx.state tx with
  | SellTx.Reserved => if decide (get_kind (SellTx.offer tx) = k) then get_qty (SellTx.offer tx) else 0
  | _ => 0
  end.

Definition sell_future (k : GoodKind) (tx : SellTx.SellTx) : Q :=
  match SellTx.state tx with
  | SellTx.Reserved => if decide (get_kind (SellTx.sell tx) = k) then get_qty (SellTx.sell tx) else 0
  | _ => 0
  end.

Record svc_inv (s : TxService) : Prop := {
  inv_wf : ops_wf (ops s);
  inv_nonneg : ops_nonneg (ops s);
  inv_reserved : forall k, get_reserved_quantity_by_kind (ops s) k ==
    sum_map (buy_reserved k) (buys s) + sum_map (sell_reserved k) (sells s);
  inv_future : forall k, get_future_quantity_by_kind (ops s) k ==
    sum_map (buy_future k) (buys s) + sum_map (sell_future k) (sells s);
  inv_buys_pos : map_Forall (fun _ tx => 0 < get_qty (BuyTx.buy tx) /\ 0 < get_qty (BuyTx.bid tx))
                   (buys s);
  inv_sells_pos : map_Forall (fun _ tx => 0 < get_qty (SellTx.sell tx) /\ 0 < get_qty (SellTx.offer tx))
                    (sells s);
  inv_disjoint : forall u, is_Some (buys s !! u) -> sells s !! u = None;
  inv_deque_wf : td_wf (deque s);
  inv_deque_dom : Forall (fun n => is_Some (buys s !! t n) \/ is_Some (sells s !! t n))
                    (TickDeque.deque (deque s))
}.

(** A UUID the service has never used. *)
Definition fresh (s : TxService) (u : Uuid) : Prop :=
  buys s !! u = None /\ sells s !! u = None.

(** ** Sums over registries *)

Section SumMap.
Context {V : Type}.
Implicit Types (f : V -> Q) (m : gmap Uuid V).

Lemma sum_map_empty f : sum_map f ∅ == 0.
Proof. unfold sum_map. by rewrite map_to_list_empty. Qed.

Lemma sum_map_insert_new f m u v : m !! u = None ->
  sum_map f (<[u := v]> m) == f v + sum_map f m.
Proof.
  intros H. unfold sum_map. rewrite (map_to_list_insert m u v H). simpl. reflexivity.
Qed.

Lemma sum_map_insert_old f m u v v' : m !! u = Some v ->
  sum_map f (<[u := v']> m) == sum_map f m - f v + f v'.
Proof.
  intros H.
  pose proof (sum_map_insert_new f (delete u m) u v (lookup_delete_eq m u)) as H1.
  pose proof (sum_map_insert_new f (delete u m) u v' (lookup_delete_eq m u)) as H2.
  rewrite insert_delete_eq in H1, H2. rewrite (insert_id m u v H) in H1. lra.
Qed.

Lemma sum_map_ge f m u v : map_Forall (fun _ w => 0 <= f w) m -> m !! u = Some v ->
  f v <= sum_map f m.
Proof.
  intros Hall H. rewrite <- (insert_delete_id m u v H).
  rewrite sum_map_insert_new by apply lookup_delete_eq.
  assert (0 <= sum_map f (delete u m)); [| lra].
  unfold sum_map. apply qsum_nonneg. apply Forall_forall. intros x Hx.
  apply list_elem_of_In, in_map_iff in Hx as [[u' w] [<- Hin]].
  apply list_elem_of_In, elem_of_map_to_list, lookup_delete_Some in Hin as [_ Hin]. apply (Hall u' w Hin).
Qed.
End SumMap.

Lemma sum_map_nonneg {V} (f : V -> Q) (m : gmap Uuid V) :
  map_Forall (fun _ w => 0 <= f w) m -> 0 <= sum_map f m.
Proof.
  intros Hall. unfold sum_map. apply qsum_nonneg. apply Forall_forall. intros x Hx.
  apply list_elem_of_In, in_map_iff in Hx as [[u' w] [<- Hin]].
  apply list_elem_of_In, elem_of_map_to_list in Hin. apply (Hall u' w Hin).
Qed.

(** ** Invariant facts *)

Lemma buy_contrib_nonneg s k : svc_inv s ->
  map_Forall (fun _ w => 0 <= buy_reserved k w) (buys s) /\
  map_Forall (fun _ w => 0 <= buy_future k w) (buys s).
Proof.
  intros Hi. split; intros u w Hw; destruct (inv_buys_pos s Hi u w Hw);
    unfold buy_reserved, buy_future; destruct (BuyTx.state w); try case_decide; lra.
Qed.

Lemma sell_contrib_nonneg s k : svc_inv s ->
  map_Forall (fun _ w => 0 <= sell_reserved k w) (sells s) /\
  map_Forall (fun _ w => 0 <= sell_future k w) (sells s).
Proof.
  intros Hi. split; intros u w Hw; destruct (inv_sells_pos s Hi u w Hw);
    unfold sell_reserved, sell_future; destruct (SellTx.state w); try case_decide; lra.
Qed.

(** No double spend: the ledger covers every outstanding lock, in
    [reservations] for what it delivers and in [futures] for what it
    expects. *)
Lemma buy_covered s u tx : svc_inv s -> buys s !! u = Some tx -> BuyTx.state tx = BuyTx.Reserved ->
  get_qty (BuyTx.buy tx) <= get_reserved_quantity_by_kind (ops s) (get_kind (BuyTx.buy tx)) /\
  get_qty (BuyTx.bid tx) <= get_future_quantity_by_kind (ops s) (get_kind (BuyTx.bid tx)).
Proof.
  intros Hi Hu Hs. rewrite (inv_reserved s Hi), (inv_future s Hi).
  destruct (buy_contrib_nonneg s (get_kind (BuyTx.buy tx)) Hi) as [H1 _].
  destruct (buy_contrib_nonneg s (get_kind (BuyTx.bid tx)) Hi) as [_ H2].
  destruct (sell_contrib_nonneg s (get_kind (BuyTx.buy tx)) Hi) as [H3 _].
  destruct (sell_contrib_nonneg s (get_kind (BuyTx.bid tx)) Hi) as [_ H4].
  pose proof (sum_map_ge _ _ u tx H1 Hu). pose proof (sum_map_ge _ _ u tx H2 Hu).
  pose proof (sum_map_nonneg _ _ H3). pose proof (sum_map_nonneg _ _ H4).
  unfold buy_reserved, buy_future in *. rewrite Hs in *. rewrite !decide_True in * by done. lra.
Qed.

Lemma sell_covered s u tx : svc_inv s -> sells s !! u = Some tx -> SellTx.state tx = SellTx.Reserved ->
  get_qty (SellTx.offer tx) <= get_reserved_quantity_by_kind (ops s) (get_kind (SellTx.offer tx)) /\
  get_qty (SellTx.sell tx) <= get_future_quantity_by_kind (ops s) (get_kind (SellTx.sell tx)).
Proof.
  intros Hi Hu Hs. rewrite (inv_reserved s Hi), (inv_future s Hi).
  destruct (buy_contrib_nonneg s (get_kind (SellTx.offer tx)) Hi) as [H1 _].
  destruct (buy_contrib_nonneg s (get_kind (SellTx.sell tx)) Hi) as [_ H2].
  destruct (sell_contrib_nonneg s (get_kind (SellTx.offer tx)) Hi) as [H3 _].
  destruct (sell_contrib_nonneg s (get_kind (SellTx.sell tx)) Hi) as [_ H4].
  pose proof (sum_map_ge _ _ u tx H3 Hu). pose proof (sum_map_ge _ _ u tx H4 Hu).
  pose proof (sum_map_nonneg _ _ H1). pose proof (sum_map_nonneg _ _ H2).
  unfold sell_reserved, sell_future in *. rewrite Hs in *. rewrite !decide_True in * by done. lra.
Qed.

Ltac ledger_unfold :=
  unfold get_reservable_quantity_by_kind, get_reserved_quantity_by_kind,
    get_future_quantity_by_kind in *;
  cbn [assets reservations futures TxService.ops TxService.buys TxService.sells TxService.deque] in *.

(** The queue only holds registered UUIDs, also after a registry grows. *)
Lemma deque_dom_insert_buy s u tx :
  Forall (fun n => is_Some (buys s !! t n) \/ is_Some (sells s !! t n)) (TickDeque.deque (deque s)) ->
  Forall (fun n => is_Some (<[u := tx]> (buys s) !! t n) \/ is_Some (sells s !! t n))
    (TickDeque.deque (deque s)).
Proof.
  intros H. eapply Forall_impl; [apply H |]. intros n [Hb | Hs]; [left | by right].
  apply lookup_insert_is_Some'. by right.
Qed.

Lemma deque_dom_insert_sell s u tx :
  Forall (fun n => is_Some (buys s !! t n) \/ is_Some (sells s !! t n)) (TickDeque.deque (deque s)) ->
  Forall (fun n => is_Some (buys s !! t n) \/ is_Some (<[u := tx]> (sells s) !! t n))
    (TickDeque.deque (deque s)).
Proof.
  intros H. eapply Forall_impl; [apply H |]. intros n [Hb | Hs]; [by left | right].
  apply lookup_insert_is_Some'. by right.
Qed.

(** A buy reservation under a fresh UUID preserves the invariant. *)
Lemma do_buy_reservation_inv s pr u u' s' : svc_inv s -> fresh s u ->
  do_buy_reservation s pr u = Ok (u', s') -> u' = u /\ svc_inv s'.
Proof.
  intros Hi [Hfb Hfs] H. unfold do_buy_reservation in H.
  destruct (BuyTx.reserve (ops s) pr) as [[tx ops1]|e|r] eqn:Hr; [| by destruct e | done].
  injection H as <- <-. split; [done |].
  destruct (buy_reserve_inv _ _ _ _ (inv_wf s Hi) Hr) as (Hq & Hb & Hle & -> & ->).
  destruct (inv_wf s Hi) as (Wa & Wr & Wf). destruct (inv_nonneg s Hi) as (Na & Nr & Nf).
  constructor; ledger_unfold.
  - unfold ops_wf. split; [| split]; cbn; auto with doge.
  - unfold ops_nonneg. split; [| split]; cbn;
      [apply nonneg_debit | apply nonneg_credit | apply nonneg_credit]; try done; lra.
  - intros k'. rewrite sum_map_insert_new by done. rewrite qty_credit.
    pose proof (inv_reserved s Hi k') as E. ledger_unfold.
    unfold buy_reserved at 1. cbn. case_decide; subst; lra.
  - intros k'. rewrite sum_map_insert_new by done. rewrite qty_credit.
    pose proof (inv_future s Hi k') as E. ledger_unfold.
    unfold buy_future at 1. cbn. case_decide; subst; lra.
  - apply map_Forall_insert_2; [cbn; lra | apply (inv_buys_pos s Hi)].
  - apply (inv_sells_pos s Hi).
  - intros u0 Hu0. apply lookup_insert_is_Some' in Hu0 as [<- | Hu0]; [done |].
    by apply (inv_disjoint s Hi).
  - apply push_back_wf, (inv_deque_wf s Hi).
  - cbn. apply Forall_app. split; [by apply deque_dom_insert_buy, (inv_deque_dom s Hi) |].
    constructor; [| constructor]. left. cbn. rewrite lookup_insert_eq. eauto.
Qed.

(** A sell reservation under a fresh UUID preserves the invariant. *)
Lemma do_sell_reservation_inv s pr u u' s' : svc_inv s -> fresh s u ->
  do_sell_reservation s pr u = Ok (u', s') -> u' = u /\ svc_inv s'.
Proof.
  intros Hi [Hfb Hfs] H. unfold do_sell_reservation in H.
  destruct (SellTx.reserve (ops s) pr) as [[tx ops1]|e|r] eqn:Hr; [| by destruct e | done].
  injection H as <- <-. split; [done |].
  destruct (sell_reserve_inv _ _ _ _ (inv_wf s Hi) Hr) as (Hq & Hb & Hle & -> & ->).
  destruct (inv_wf s Hi) as (Wa & Wr & Wf). destruct (inv_nonneg s Hi) as (Na & Nr & Nf).
  constructor; ledger_unfold.
  - unfold ops_wf. split; [| split]; cbn; auto with doge.
  - unfold ops_nonneg. split; [| split]; cbn;
      [apply nonneg_debit | apply nonneg_credit | apply nonneg_credit]; try done; lra.
  - intros k'. rewrite sum_map_insert_new by done. rewrite qty_credit.
    pose proof (inv_reserved s Hi k') as E. ledger_unfold.
    unfold sell_reserved at 1. cbn. case_decide; subst; lra.
  - intros k'. rewrite sum_map_insert_new by done. rewrite qty_credit.
    pose proof (inv_future s Hi k') as E. ledger_unfold.
    unfold sell_future at 1. cbn. case_decide; subst; lra.
  - apply (inv_buys_pos s Hi).
  - apply map_Forall_insert_2; [cbn; lra | apply (inv_sells_pos s Hi)].
  - intros u0 Hu0. rewrite lookup_insert_ne; [by apply (inv_disjoint s Hi) |].
    intros <-. rewrite Hfb in Hu0. by destruct Hu0.
  - apply push_back_wf, (inv_deque_wf s Hi).
  - cbn. apply Forall_app. split; [by apply deque_dom_insert_sell, (inv_deque_dom s Hi) |].
    constructor; [| constructor]. right. cbn. rewrite lookup_insert_eq. eauto.
Qed.

(** Releasing an outstanding buy lock (settlement or expiry): its
    reservation and expected bid leave the ledger, the lock leaves the
    [Reserved] state, and [assets] becomes any well-formed non-negative
    account. *)
Lemma inv_buy_release s u tx tx' a' : svc_inv s -> buys s !! u = Some tx ->
  BuyTx.state tx = BuyTx.Reserved -> BuyTx.state tx' <> BuyTx.Reserved ->
  BuyTx.buy tx' = BuyTx.buy tx -> BuyTx.bid tx' = BuyTx.bid tx ->
  Account.account_wf a' -> Account.account_nonneg a' ->
  svc_inv (mk_service
    (mk_ops a' (Account.debit (reservations (ops s)) (get_kind (BuyTx.buy tx)) (get_qty (BuyTx.buy tx)))
               (Account.debit (futures (ops s)) (get_kind (BuyTx.bid tx)) (get_qty (BuyTx.bid tx))))
    (<[u := tx']> (buys s)) (sells s) (deque s)).
Proof.
  intros Hi Hu Hs Hs' Hb Hbid Wa' Na'.
  destruct (buy_covered s u tx Hi Hu Hs) as [Cr Cf].
  destruct (inv_wf s Hi) as (Wa & Wr & Wf). destruct (inv_nonneg s Hi) as (Na & Nr & Nf).
  constructor; ledger_unfold.
  - unfold ops_wf. split; [| split]; cbn; auto with doge.
  - unfold ops_nonneg. split; [| split]; cbn; [done | apply nonneg_debit | apply nonneg_debit]; done.
  - intros k'. rewrite (sum_map_insert_old _ _ u tx tx') by done. rewrite qty_debit.
    pose proof (inv_reserved s Hi k') as E. ledger_unfold.
    unfold buy_reserved at 2 3. rewrite Hs. destruct (BuyTx.state tx'); try done;
      case_decide; subst; lra.
  - intros k'. rewrite (sum_map_insert_old _ _ u tx tx') by done. rewrite qty_debit.
    pose proof (inv_future s Hi k') as E. ledger_unfold.
    unfold buy_future at 2 3. rewrite Hs. destruct (BuyTx.state tx'); try done;
      case_decide; subst; lra.
  - apply map_Forall_insert_2; [| apply (inv_buys_pos s Hi)].
    rewrite Hb, Hbid. apply (inv_buys_pos s Hi u tx Hu).
  - apply (inv_sells_pos s Hi).
  - intros u0 Hu0. apply lookup_insert_is_Some' in Hu0 as [<- | Hu0];
      apply (inv_disjoint s Hi); [eauto | done].
  - apply (inv_deque_wf s Hi).
  - by apply deque_dom_insert_buy, (inv_deque_dom s Hi).
Qed.

Lemma inv_sell_release s u tx tx' a' : svc_inv s -> sells s !! u = Some tx ->
  SellTx.state tx = SellTx.Reserved -> SellTx.state tx' <> SellTx.Reserved ->
  SellTx.sell tx' = SellTx.sell tx -> SellTx.offer tx' = SellTx.offer tx ->
  Account.account_wf a' -> Account.account_nonneg a' ->
  svc_inv (mk_service
    (mk_ops a' (Account.debit (reservations (ops s)) (get_kind (SellTx.offer tx)) (get_qty (SellTx.offer tx)))
               (Account.debit (futures (ops s)) (get_kind (SellTx.sell tx)) (get_qty (SellTx.sell tx))))
    (buys s) (<[u := tx']> (sells s)) (deque s)).
Proof.
  intros Hi Hu Hs Hs' Hsl Hof Wa' Na'.
  destruct (sell_covered s u tx Hi Hu Hs) as [Cr Cf].
  destruct (inv_wf s Hi) as (Wa & Wr & Wf). destruct (inv_nonneg s Hi) as (Na & Nr & Nf).
  constructor; ledger_unfold.
  - unfold ops_wf. split; [| split]; cbn; auto with doge.
  - unfold ops_nonneg. split; [| split]; cbn; [done | apply nonneg_debit | apply nonneg_debit]; done.
  - intros k'. rewrite (sum_map_insert_old _ _ u tx tx') by done. rewrite qty_debit.
    pose proof (inv_reserved s Hi k') as E. ledger_unfold.
    unfold sell_reserved at 2 3. rewrite Hs. destruct (SellTx.state tx'); try done;
      case_decide; subst; lra.
  - intros k'. rewrite (sum_map_insert_old _ _ u tx tx') by done. rewrite qty_debit.
    pose proof (inv_future s Hi k') as E. ledger_unfold.
    unfold sell_future at 2 3. rewrite Hs. destruct (SellTx.state tx'); try done;
      case_decide; subst; lra.
  - apply (inv_buys_pos s Hi).
  - apply map_Forall_insert_2; [| apply (inv_sells_pos s Hi)].
    rewrite Hsl, Hof. apply (inv_sells_pos s Hi u tx Hu).
  - intros u0 Hu0. destruct (decide (u = u0)) as [<- | Hne].
    + exfalso. pose proof (inv_disjoint s Hi u Hu0). congruence.
    + rewrite lookup_insert_ne by done. by apply (inv_disjoint s Hi).
  - apply (inv_deque_wf s Hi).
  - by apply deque_dom_insert_sell, (inv_deque_dom s Hi).
Qed.

(** ** Settlement *)

(** Under the invariant, settling a buy lock either fails with an error
    or is the settlement of an outstanding, covered lock. *)
Lemma do_buy_cases s u w : svc_inv s ->
  (exists e, do_buy s u w = Err e) \/
  (exists tx, buys s !! u = Some tx /\ BuyTx.state tx = BuyTx.Reserved /\
     do_buy s u w =
     Ok (Good.new (get_kind (BuyTx.buy tx)) (get_qty (BuyTx.buy tx)),
         mk_service
           (mk_ops (Account.credit (assets (ops s)) (get_kind (BuyTx.bid tx)) (get_qty (BuyTx.bid tx)))
              (Account.debit (reservations (ops s)) (get_kind (BuyTx.buy tx)) (get_qty (BuyTx.buy tx)))
              (Account.debit (futures (ops s)) (get_kind (BuyTx.bid tx)) (get_qty (BuyTx.bid tx))))
           (<[u := BuyTx.mk_buy_tx (BuyTx.buy tx) (BuyTx.bid tx) BuyTx.Paid]> (buys s)) (sells s) (deque s),
         mk_good (get_kind w) (get_qty w - get_qty (BuyTx.bid tx)))).
Proof.
  intros Hi. unfold do_buy. destruct (buys s !! u) as [tx |] eqn:Hu; [| left; eauto].
  destruct (buy_settle_errors tx (ops s) w) as (E1 & E2 & E3).
  destruct (decide (BuyTx.state tx = BuyTx.Reserved)) as [Hs | Hs];
    [| left; rewrite (E1 Hs); eauto].
  destruct (decide (get_kind w = get_kind (BuyTx.bid tx))) as [Hk | Hk];
    [| left; rewrite (E2 Hs Hk); eauto].
  destruct (decide (get_qty w < get_qty (BuyTx.bid tx))) as [Hq | Hq];
    [left; rewrite (E3 Hs Hk Hq); eauto |].
  right. exists tx. split; [done | split; [done |]].
  destruct (inv_buys_pos s Hi u tx Hu). destruct (buy_covered s u tx Hi Hu Hs).
  rewrite buy_settle_ok; first [done | apply (inv_wf s Hi) | apply Qnot_lt_le; done].
Qed.

Lemma do_sell_cases s u w : svc_inv s ->
  (exists e, do_sell s u w = Err e) \/
  (exists tx, sells s !! u = Some tx /\ SellTx.state tx = SellTx.Reserved /\
     do_sell s u w =
     Ok (Good.new (get_kind (SellTx.offer tx)) (get_qty (SellTx.offer tx)),
         mk_service
           (mk_ops (Account.credit (assets (ops s)) (get_kind (SellTx.sell tx)) (get_qty (SellTx.sell tx)))
              (Account.debit (reservations (ops s)) (get_kind (SellTx.offer tx)) (get_qty (SellTx.offer tx)))
              (Account.debit (futures (ops s)) (get_kind (SellTx.sell tx)) (get_qty (SellTx.sell tx))))
           (buys s) (<[u := SellTx.mk_sell_tx (SellTx.sell tx) (SellTx.offer tx) SellTx.Paid]> (sells s))
           (deque s),
         mk_good (get_kind w) (get_qty w - get_qty (SellTx.sell tx)))).
Proof.
  intros Hi. unfold do_sell. destruct (sells s !! u) as [tx |] eqn:Hu; [| left; eauto].
  destruct (sell_settle_errors tx (ops s) w) as (E1 & E2 & E3).
  destruct (decide (SellTx.state tx = SellTx.Reserved)) as [Hs | Hs];
    [| left; rewrite (E1 Hs); eauto].
  destruct (decide (get_kind w = get_kind (SellTx.sell tx))) as [Hk | Hk];
    [| left; rewrite (E2 Hs Hk); eauto].
  destruct (decide (get_qty w < get_qty (SellTx.sell tx))) as [Hq | Hq];
    [left; rewrite (E3 Hs Hk Hq); eauto |].
  right. exists tx. split; [done | split; [done |]].
  destruct (inv_sells_pos s Hi u tx Hu). destruct (sell_covered s u tx Hi Hu Hs).
  rewrite sell_settle_ok; first [done | apply (inv_wf s Hi) | apply Qnot_lt_le; done].
Qed.

Lemma do_buy_inv s u w g s' w' : svc_inv s -> do_buy s u w = Ok (g, s', w') -> svc_inv s'.
Proof.
  intros Hi H. destruct (do_buy_cases s u w Hi) as [[e He] | (tx & Hu & Hs & He)];
    rewrite He in H; [done |]. injection H as _ <- _.
  destruct (inv_wf s Hi) as (Wa & _ & _). destruct (inv_nonneg s Hi) as (Na & _ & _).
  destruct (inv_buys_pos s Hi u tx Hu).
  apply inv_buy_release; cbn; auto with doge;
    first [by rewrite Hs | apply nonneg_credit; [done | lra]].
Qed.

Lemma do_sell_inv s u w g s' w' : svc_inv s -> do_sell s u w = Ok (g, s', w') -> svc_inv s'.
Proof.
  intros Hi H. destruct (do_sell_cases s u w Hi) as [[e He] | (tx & Hu & Hs & He)];
    rewrite He in H; [done |]. injection H as _ <- _.
  destruct (inv_wf s Hi) as (Wa & _ & _). destruct (inv_nonneg s Hi) as (Na & _ & _).
  destruct (inv_sells_pos s Hi u tx Hu).
  apply inv_sell_release; cbn; auto with doge;
    first [by rewrite Hs | apply nonneg_credit; [done | lra]].
Qed.

(** ** Expiry *)

(** Expiring one registered UUID succeeds, keeps the invariant and keeps
    every registered UUID registered. *)
Lemma expire_one_ok s u : svc_inv s -> is_Some (buys s !! u) \/ is_Some (sells s !! u) ->
  exists s', expire_one s u = Ok s' /\ svc_inv s' /\
    (forall v, is_Some (buys s !! v) -> is_Some (buys s' !! v)) /\
    (forall v, is_Some (sells s !! v) -> is_Some (sells s' !! v)).
Proof.
  intros Hi Hdom. pose proof (inv_wf s Hi) as Wops.
  destruct (inv_wf s Hi) as (Wa & _ & _). destruct (inv_nonneg s Hi) as (Na & _ & _).
  unfold expire_one. destruct (buys s !! u) as [tx |] eqn:Hu.
  - destruct (decide (BuyTx.state tx = BuyTx.Reserved)) as [Hs | Hs].
    + destruct (inv_buys_pos s Hi u tx Hu). destruct (buy_covered s u tx Hi Hu Hs).
      rewrite buy_expire_ok by done. cbn. eexists. split; [done |]. split.
      * apply inv_buy_release; cbn; auto with doge;
    first [by rewrite Hs | apply nonneg_credit; [done | lra]].
      * split; intros v Hv; [apply lookup_insert_is_Some'; by right | done].
    + rewrite buy_expire_terminal by done. cbn. rewrite (insert_id (buys s) u tx Hu).
      eexists. split; [done |]. by destruct s.
  - destruct Hdom as [[? ?] | Hsell]; [congruence |].
    destruct (sells s !! u) as [tx |] eqn:Hu'; [| by destruct Hsell].
    destruct (decide (SellTx.state tx = SellTx.Reserved)) as [Hs | Hs].
    + destruct (inv_sells_pos s Hi u tx Hu'). destruct (sell_covered s u tx Hi Hu' Hs).
      rewrite sell_expire_ok by done. cbn. eexists. split; [done |]. split.
      * apply inv_sell_release; cbn; auto with doge;
    first [by rewrite Hs | apply nonneg_credit; [done | lra]].
      * split; intros v Hv; [done | apply lookup_insert_is_Some'; by right].
    + rewrite sell_expire_terminal by done. cbn. rewrite (insert_id (sells s) u tx Hu').
      eexists. split; [done |]. by destruct s.
Qed.

(** Expiring a list of registered UUIDs succeeds and keeps the invariant. *)
Lemma expire_each_ok us s : svc_inv s ->
  Forall (fun u => is_Some (buys s !! u) \/ is_Some (sells s !! u)) us ->
  exists s', expire_each us s = Ok s' /\ svc_inv s'.
Proof.
  revert s. induction us as [| u us IH]; intros s Hi Hall; [by exists s |].
  inversion Hall as [| ? ? Hu Hrest]; subst.
  destruct (expire_one_ok s u Hi Hu) as (s1 & H1 & Hi1 & Hb & Hs).
  cbn. rewrite H1. cbn. apply IH; [done |].
  eapply Forall_impl; [apply Hrest |]. intros v [? | ?]; [left; auto | right; auto].
Qed.

(** ** Ticking *)

(** After the queue ticks, the service with the new queue still satisfies
    the invariant and every expired UUID is registered. *)
Lemma tick_deque_inv s e d' : svc_inv s -> tick (deque s) = Ok (e, d') ->
  svc_inv (mk_service (ops s) (buys s) (sells s) d') /\
  Forall (fun u => is_Some (buys s !! u) \/ is_Some (sells s !! u)) e.
Proof.
  intros Hi H. destruct (tick_ok _ _ _ (inv_deque_wf s Hi) H) as (-> & -> & Hwf).
  pose proof (inv_deque_dom s Hi) as Hdom. split.
  - destruct Hi. constructor; cbn; try done. by apply Forall_filter_sub.
  - apply Forall_map. by apply Forall_filter_sub.
Qed.

Lemma tick_all_inv s s' : svc_inv s -> tick_all s = Ok s' -> svc_inv s'.
Proof.
  intros Hi H. unfold tick_all in H.
  destruct (tick (deque s)) as [[e d'] | |] eqn:Ht; try done. cbn in H.
  destruct (tick_deque_inv s e d' Hi Ht) as [Hi1 Hdom].
  destruct (expire_each_ok e _ Hi1 Hdom) as (s2 & H2 & Hi2). congruence.
Qed.

(** ** The service as a transition system *)

(** One operation of the service that returned normally.  Reservations are
    made under a fresh UUID (the code draws it at random). *)
Inductive svc_step : TxService -> TxService -> Prop :=
| step_buy_reservation s pr u s' :
    fresh s u -> do_buy_reservation s pr u = Ok (u, s') -> svc_step s s'
| step_sell_reservation s pr u s' :
    fresh s u -> do_sell_reservation s pr u = Ok (u, s') -> svc_step s s'
| step_buy s u w g s' w' : do_buy s u w = Ok (g, s', w') -> svc_step s s'
| step_sell s u w g s' w' : do_sell s u w = Ok (g, s', w') -> svc_step s s'
| step_tick s s' : tick_all s = Ok s' -> svc_step s s'.

(** The services reachable from [TxService::new(AccountOps::of_assets(a), max)]. *)
Inductive svc_reachable (a : Account) (max : Z) : TxService -> Prop :=
| reach_new s : new (of_assets a) max = Ok s -> svc_reachable a max s
| reach_step s s' : svc_reachable a max s -> svc_step s s' -> svc_reachable a max s'.

Lemma new_empty_nonneg : Account.account_nonneg Account.new_empty.
Proof. intros []; cbn; lra. Qed.

Lemma svc_inv_new a max s : Account.account_wf a -> Account.account_nonneg a ->
  new (of_assets a) max = Ok s -> svc_inv s.
Proof.
  intros Wa Na H. unfold new, TickDeque.new in H. case_decide; [| done].
  injection H as <-. constructor; cbn.
  - split; [| split]; [done | apply new_empty_wf | apply new_empty_wf].
  - split; [| split]; [done | apply new_empty_nonneg | apply new_empty_nonneg].
  - intros []; rewrite !sum_map_empty; reflexivity.
  - intros []; rewrite !sum_map_empty; reflexivity.
  - apply map_Forall_empty.
  - apply map_Forall_empty.
  - intros u []. done.
  - repeat split; cbn; try lia; constructor.
  - constructor.
Qed.

Lemma svc_step_inv s s' : svc_inv s -> svc_step s s' -> svc_inv s'.
Proof.
  intros Hi Hst. destruct Hst as [s pr u s' Hf H | s pr u s' Hf H | s u w g s' w' H
                                 | s u w g s' w' H | s s' H].
  - exact (proj2 (do_buy_reservation_inv s pr u u s' Hi Hf H)).
  - exact (proj2 (do_sell_reservation_inv s pr u u s' Hi Hf H)).
  - exact (do_buy_inv s u w g s' w' Hi H).
  - exact (do_sell_inv s u w g s' w' Hi H).
  - exact (tick_all_inv s s' Hi H).
Qed.

(** ** A paid buy lock is final *)

Lemma expire_one_keeps_paid s v s' u tx : expire_one s v = Ok s' ->
  buys s !! u = Some tx -> BuyTx.state tx = BuyTx.Paid -> buys s' !! u = Some tx.
Proof.
  unfold expire_one. intros H Hu Hp. destruct (buys s !! v) as [tx0 |] eqn:Ev.
  - destruct (BuyTx.expire tx0 (ops s)) as [[tx' ops'] | | ] eqn:Ee; cbn in H; try discriminate.
    injection H as <-. cbn. destruct (decide (u = v)) as [-> | Hne].
    + rewrite lookup_insert_eq. rewrite Hu in Ev. injection Ev as <-.
      unfold BuyTx.expire in Ee. rewrite Hp in Ee. by injection Ee as <- _.
    + by rewrite lookup_insert_ne.
  - destruct (sells s !! v) as [tx0 |]; [| discriminate].
    destruct (SellTx.expire tx0 (ops s)) as [[tx' ops'] | | ]; cbn in H; try discriminate. by injection H as <-.
Qed.

Lemma expire_each_keeps_paid us s s' u tx : expire_each us s = Ok s' ->
  buys s !! u = Some tx -> BuyTx.state tx = BuyTx.Paid -> buys s' !! u = Some tx.
Proof.
  revert s. induction us as [| v us IH]; intros s H Hu Hp; cbn in H; [by injection H as <- |].
  destruct (expire_one s v) as [s1 | | ] eqn:E1; cbn in H; try discriminate.
  exact (IH s1 H (expire_one_keeps_paid s v s1 u tx E1 Hu Hp) Hp).
Qed.

(** No step of the service changes a paid buy lock. *)
Lemma svc_step_keeps_paid s s' u tx : svc_step s s' ->
  buys s !! u = Some tx -> BuyTx.state tx = BuyTx.Paid -> buys s' !! u = Some tx.
Proof.
  intros Hst Hu Hp. destruct Hst as [s pr v s' [Fb Fs] H | s pr v s' _ H | s v w g s' w' H | s v w g s' w' H | s s' H].
  - unfold do_buy_reservation in H. repeat case_match; simplify_eq. cbn.
    rewrite lookup_insert_ne; [done | congruence].
  - unfold do_sell_reservation in H. by repeat case_match; simplify_eq.
  - unfold do_buy in H. destruct (buys s !! v) as [tx0 |] eqn:Ev; [| discriminate].
    destruct (decide (v = u)) as [-> | Hne].
    + rewrite Hu in Ev. injection Ev as <-.
      rewrite (proj1 (buy_settle_errors tx (ops s) w)) in H by (rewrite Hp; discriminate). discriminate.
    + repeat case_match; simplify_eq. cbn. by rewrite lookup_insert_ne.
  - unfold do_sell in H. by repeat case_match; simplify_eq.
  - unfold tick_all in H. destruct (tick (deque s)) as [[e d'] | | ]; cbn in H; try discriminate.
    exact (expire_each_keeps_paid _ _ _ u tx H Hu Hp).
Qed.

Lemma rtc_keeps_paid s s' u tx : rtc svc_step s s' ->
  buys s !! u = Some tx -> BuyTx.state tx = BuyTx.Paid -> buys s' !! u = Some tx.
Proof. induction 1 as [| s1 s2 s3 Hst _ IH]; intros Hu Hp; [done |]. exact (IH (svc_step_keeps_paid _ _ _ _ Hst Hu Hp) Hp). Qed.

Lemma expire_one_keeps_sold s v s' u tx : expire_one s v = Ok s' ->
  sells s !! u = Some tx -> SellTx.state tx = SellTx.Paid -> sells s' !! u = Some tx.
Proof.
  unfold expire_one. intros H Hu Hp. destruct (buys s !! v) as [tx0 |] eqn:Ev.
  - destruct (BuyTx.expire tx0 (ops s)) as [[tx' ops'] | | ]; cbn in H; try discriminate. by injection H as <-.
  - destruct (sells s !! v) as [tx0 |] eqn:Evs; [| discriminate].
    destruct (SellTx.expire tx0 (ops s)) as [[tx' ops'] | | ] eqn:Ee; cbn in H; try discriminate.
    injection H as <-. cbn. destruct (decide (u = v)) as [-> | Hne].
    + rewrite lookup_insert_eq. rewrite Hu in Evs. injection Evs as <-.
      unfold SellTx.expire in Ee. rewrite Hp in Ee. by injection Ee as <- _.
    + by rewrite lookup_insert_ne.
Qed.

Lemma expire_each_keeps_sold us s s' u tx : expire_each us s = Ok s' ->
  sells s !! u = Some tx -> SellTx.state tx = SellTx.Paid -> sells s' !! u = Some tx.
Proof.
  revert s. induction us as [| v us IH]; intros s H Hu Hp; cbn in H; [by injection H as <- |].
  destruct (expire_one s v) as [s1 | | ] eqn:E1; cbn in H; try discriminate.
  exact (IH s1 H (expire_one_keeps_sold s v s1 u tx E1 Hu Hp) Hp).
Qed.

(** No step of the service changes a paid sell lock. *)
Lemma svc_step_keeps_sold s s' u tx : svc_step s s' ->
  sells s !! u = Some tx -> SellTx.state tx = SellTx.Paid -> sells s' !! u = Some tx.
Proof.
  intros Hst Hu Hp. destruct Hst as [s pr v s' _ H | s pr v s' [Fb Fs] H | s v w g s' w' H | s v w g s' w' H | s s' H].
  - unfold do_buy_reservation in H. by repeat case_match; simplify_eq.
  - unfold do_sell_reservation in H. repeat case_match; simplify_eq. cbn.
    rewrite lookup_insert_ne; [done | congruence].
  - unfold do_buy in H. by repeat case_match; simplify_eq.
  - unfold do_sell in H. destruct (sells s !! v) as [tx0 |] eqn:Ev; [| discriminate].
    destruct (decide (v = u)) as [-> | Hne].
    + rewrite Hu in Ev. injection Ev as <-.
      rewrite (proj1 (sell_settle_errors tx (ops s) w)) in H by (rewrite Hp; discriminate). discriminate.
    + repeat case_match; simplify_eq. cbn. by rewrite lookup_insert_ne.
  - unfold tick_all in H. destruct (tick (deque s)) as [[e d'] | | ]; cbn in H; try discriminate.
    exact (expire_each_keeps_sold _ _ _ u tx H Hu Hp).
Qed.

Lemma rtc_keeps_sold s s' u tx : rtc svc_step s s' ->
  sells s !! u = Some tx -> SellTx.state tx = SellTx.Paid -> sells s' !! u = Some tx.
Proof. induction 1 as [| s1 s2 s3 Hst _ IH]; intros Hu Hp; [done |]. exact (IH (svc_step_keeps_sold _ _ _ _ Hst Hu Hp) Hp). Qed.

(** ** Properties of the service *)

(** C8: Every service reachable from [TxService::new] over a well-formed,
    non-negative stock satisfies the service invariant: the ledger is
    non-negative and [reservations] and [futures] hold exactly the
    quantities of the outstanding locks. *)
Theorem svc_reachable_inv a max s : Account.account_wf a -> Account.account_nonneg a ->
  svc_reachable a max s -> svc_inv s.
Proof.
  intros Wa Na. induction 1 as [s H | s s' _ IH Hst].
  - exact (svc_inv_new a max s Wa Na H).
  - exact (svc_step_inv s s' IH Hst).
Qed.

(** C2: Under the invariant, settling a lock never panics: [do_buy] and
    [do_sell] return a result or an error for every UUID and every good
    handed over. *)
Theorem settle_never_panics s u w : svc_inv s ->
  is_panic (do_buy s u w) = false /\ is_panic (do_sell s u w) = false.
Proof.
  intros Hi. split.
  - by destruct (do_buy_cases s u w Hi) as [[e ->] | (tx & _ & _ & ->)].
  - by destruct (do_sell_cases s u w Hi) as [[e ->] | (tx & _ & _ & ->)].
Qed.

(** C33: A buy lock is settled at most once: after a successful
    [do_buy] of a UUID, along any later run of the service (reservations,
    settlements of any lock, ticks) every [do_buy] of that UUID fails with
    [InvalidState Paid]. *)
Theorem do_buy_once s u w g s' w' s'' w2 : svc_inv s -> do_buy s u w = Ok (g, s', w') ->
  rtc svc_step s' s'' -> do_buy s'' u w2 = Err (ServiceBuyError.InvalidState BuyTx.Paid).
Proof.
  intros Hi H Hr. destruct (do_buy_cases s u w Hi) as [[e He] | (tx & Hu & Hs & He)];
    rewrite He in H; [done |]. injection H as _ <- _.
  eapply rtc_keeps_paid in Hr; [| cbn; apply lookup_insert_eq | done].
  unfold do_buy. rewrite Hr. by rewrite (proj1 (buy_settle_errors _ _ w2)).
Qed.

(** C21: A sell lock is settled at most once: after a successful
    [do_sell] of a UUID, along any later run of the service (reservations,
    settlements of any lock, ticks) every [do_sell] of that UUID fails with
    [InvalidState Paid]. *)
Theorem do_sell_once s u w g s' w' s'' w2 : svc_inv s -> do_sell s u w = Ok (g, s', w') ->
  rtc svc_step s' s'' -> do_sell s'' u w2 = Err (ServiceSellError.InvalidState SellTx.Paid).
Proof.
  intros Hi H Hr. destruct (do_sell_cases s u w Hi) as [[e He] | (tx & Hu & Hs & He)];
    rewrite He in H; [done |]. injection H as _ <- _.
  eapply rtc_keeps_sold in Hr; [| cbn; apply lookup_insert_eq | done].
  unfold do_sell. rewrite Hr. by rewrite (proj1 (sell_settle_errors _ _ w2)).
Qed.

(** C3: Under the invariant, [tick_all] succeeds while the tick counter
    has room for one more lifetime: it never reaches [unreachable!()] nor
    an expiry panic, and it keeps the invariant. *)
Theorem tick_all_total s : svc_inv s ->
  (ticks_passed (deque s) + max_ticks (deque s) <= U32_MAX)%Z ->
  exists s', tick_all s = Ok s' /\ svc_inv s'.
Proof.
  intros Hi Hb. unfold tick_all.
  rewrite (tick_spec (deque s) (inv_deque_wf s Hi) Hb). cbn [mbind outcome_bind].
  destruct (tick_deque_inv s _ _ Hi (tick_spec (deque s) (inv_deque_wf s Hi) Hb)) as [Hi1 Hdom].
  exact (expire_each_ok _ _ Hi1 Hdom).
Qed.

(** ** Witnesses *)

Definition sample_account : Account :=
  mk_account (Good.new EUR 1000) (Good.new USD 2000) (Good.new YEN 0) (Good.new YUAN 0).

Definition sample_service : TxService :=
  mk_service (of_assets sample_account) ∅ ∅ (TickDeque.mk_deque 3 0 []).

Definition sample_buy_proposal : BuyTx.BuyTxProposal :=
  BuyTx.mk_buy_proposal (Good.new USD 100) (Good.new EUR 200).

(** The service after a buy lock of 100 USD for 200 EUR under UUID 1. *)
Definition sample_locked : TxService :=
  match do_buy_reservation sample_service sample_buy_proposal 1%positive with
  | Ok (_, s) => s
  | _ => sample_service
  end.

(** The service after that lock was paid with 500 EUR. *)
Definition sample_paid : TxService :=
  match do_buy sample_locked 1%positive (Good.new EUR 500) with
  | Ok (_, s, _) => s
  | _ => sample_locked
  end.

Definition sample_sell_proposal : SellTx.SellTxProposal :=
  SellTx.mk_sell_proposal (Good.new USD 100) (Good.new EUR 10).

(** The service after a sell lock of 100 USD for 10 EUR under UUID 1. *)
Definition sample_sell_locked : TxService :=
  match do_sell_reservation sample_service sample_sell_proposal 1%positive with
  | Ok (_, s) => s
  | _ => sample_service
  end.

Definition sample_sold : TxService :=
  match do_sell sample_sell_locked 1%positive (Good.new USD 100) with
  | Ok (_, s, _) => s
  | _ => sample_sell_locked
  end.

Lemma sample_new : new (of_assets sample_account) 3 = Ok sample_service.
Proof. reflexivity. Qed.

Lemma sample_locked_step :
  do_buy_reservation sample_service sample_buy_proposal 1%positive = Ok (1%positive, sample_locked).
Proof. vm_compute. reflexivity. Qed.

Lemma sample_locked_fresh : fresh sample_service 1%positive.
Proof. split; reflexivity. Qed.

Lemma sample_service_inv : svc_inv sample_service.
Proof. apply (svc_inv_new sample_account 3); [concrete | concrete | exact sample_new]. Qed.

Lemma sample_locked_inv : svc_inv sample_locked.
Proof.
  exact (proj2 (do_buy_reservation_inv _ _ _ _ _ sample_service_inv sample_locked_fresh
                  sample_locked_step)).
Qed.

Lemma sample_sell_locked_inv : svc_inv sample_sell_locked.
Proof.
  exact (proj2 (do_sell_reservation_inv _ sample_sell_proposal 1%positive 1%positive _
                  sample_service_inv sample_locked_fresh ltac:(vm_compute; reflexivity))).
Qed.

Lemma sample_reachable : svc_reachable sample_account 3 sample_locked.
Proof.
  eapply reach_step; [apply reach_new, sample_new |].
  eapply step_buy_reservation; [apply sample_locked_fresh | apply sample_locked_step].
Qed.

Lemma svc_reachable_inv_witness :
  svc_reachable sample_account 3 sample_locked /\ svc_inv sample_locked.
Proof.
  split; [exact sample_reachable |].
  apply (svc_reachable_inv sample_account 3 sample_locked); [concrete | concrete | exact sample_reachable].
Defined.

Lemma settle_never_panics_witness :
  is_panic (do_buy sample_locked 1%positive (Good.new EUR 500)) = false /\
  is_panic (do_sell sample_locked 1%positive (Good.new EUR 500)) = false.
Proof. exact (settle_never_panics sample_locked 1%positive (Good.new EUR 500) sample_locked_inv). Defined.

(** The paid lock of [sample_paid] three ticks later, when its UUID
    leaves the expiry queue. *)
Definition sample_paid_later : TxService :=
  match tick_all sample_paid with
  | Ok s1 => match tick_all s1 with
             | Ok s2 => match tick_all s2 with Ok s3 => s3 | _ => s2 end
             | _ => s1 end
  | _ => sample_paid
  end.

Lemma do_buy_once_witness :
  do_buy sample_locked 1%positive (Good.new EUR 500) =
    Ok (Good.new USD 100, sample_paid, Good.new EUR 300) /\
  rtc svc_step sample_paid sample_paid_later /\
  do_buy sample_paid_later 1%positive (Good.new EUR 900) = Err (ServiceBuyError.InvalidState BuyTx.Paid).
Proof.
  assert (H : do_buy sample_locked 1%positive (Good.new EUR 500) =
              Ok (Good.new USD 100, sample_paid, Good.new EUR 300)) by (vm_compute; reflexivity).
  assert (R : rtc svc_step sample_paid sample_paid_later).
  { eapply rtc_l; [apply step_tick; vm_compute; reflexivity |].
    eapply rtc_l; [apply step_tick; vm_compute; reflexivity |].
    eapply rtc_l; [apply step_tick; vm_compute; reflexivity |]. apply rtc_refl. }
  split; [exact H | split; [exact R |]].
  exact (do_buy_once sample_locked 1%positive _ _ _ _ _ (Good.new EUR 900) sample_locked_inv H R).
Defined.

Lemma tick_all_total_witness :
  (TickDeque.ticks_passed (deque sample_locked) + max_ticks (deque sample_locked) <= U32_MAX)%Z /\
  exists s', tick_all sample_locked = Ok s' /\ svc_inv s'.
Proof.
  assert (Hb : (TickDeque.ticks_passed (deque sample_locked) + max_ticks (deque sample_locked)
                <= U32_MAX)%Z) by (vm_compute; discriminate).
  split; [exact Hb |]. exact (tick_all_total sample_locked sample_locked_inv Hb).
Defined.

(** The paid sell lock of [sample_sold] three ticks later. *)
Definition sample_sold_later : TxService :=
  match tick_all sample_sold with
  | Ok s1 => match tick_all s1 with
             | Ok s2 => match tick_all s2 with Ok s3 => s3 | _ => s2 end
             | _ => s1 end
  | _ => sample_sold
  end.

Lemma do_sell_once_witness :
  do_sell sample_sell_locked 1%positive (Good.new USD 100) =
    Ok (Good.new EUR 10, sample_sold, Good.new USD 0) /\
  rtc svc_step sample_sold sample_sold_later /\
  do_sell sample_sold_later 1%positive (Good.new USD 500) = Err (ServiceSellError.InvalidState SellTx.Paid).
Proof.
  assert (H : do_sell sample_sell_locked 1%positive (Good.new USD 100) =
              Ok (Good.new EUR 10, sample_sold, Good.new USD 0)) by (vm_compute; reflexivity).
  assert (R : rtc svc_step sample_sold sample_sold_later).
  { eapply rtc_l; [apply step_tick; vm_compute; reflexivity |].
    eapply rtc_l; [apply step_tick; vm_compute; reflexivity |].
    eapply rtc_l; [apply step_tick; vm_compute; reflexivity |]. apply rtc_refl. }
  split; [exact H | split; [exact R |]].
  exact (do_sell_once sample_sell_locked 1%positive _ _ _ _ _ (Good.new USD 500) sample_sell_locked_inv H R).
Defined.
