(* ===== verification/Lifecycle.v ===== *)
(** * The lock lifecycle: an abstract specification refined by [TxService]

    [LockSpec] says what the service promises about its locks, forgetting
    goods and ledger.  Its state is a clock and, for each UUID, a buy or
    a sell lock with its phase and the tick it was opened at.  A lock is
    opened [Open] at the current tick under a UUID no lock has used; an
    open lock can be settled ([Settled]); a tick advances the clock and
    turns into [Lapsed] exactly the open locks opened [max_ticks] ticks
    before the new time, and changes nothing else.  Settled and lapsed
    locks never change again.

    [refines s σ] relates a [TxService] to a state of the specification:
    the same clock, the same phases ([buy_phase], [sell_phase] of the
    [BuyTxState]/[SellTxState] of each lock), the creation tick of every
    node of the expiry queue is the opening tick of its lock, and every
    open lock has its node in the queue.  [svc_refines] is a forward
    simulation: [TxService::new] is related to the initial state, and
    every step of the service (a reservation under a fresh UUID, a
    settlement, a [tick_all]) is matched by a step of the specification
    that keeps the relation (service.rs, tick_deque.rs,
    buy_transaction.rs, sell_transaction.rs). *)

From S2P Require Import Prelude Goods Ledger Transactions TickDeque Service.
From stdpp Require Import gmap.
Open Scope Q_scope.

Module LockSpec.

Inductive phase := Open | Settled | Lapsed.

#[global] Instance phase_eq_dec : EqDecision phase.
Proof. solve_decision. Defined.

Record lock := mk_lock { phase_of : phase; opened : Z }.

Record state := mk_state { now : Z; buy_locks : gmap Uuid lock; sell_locks : gmap Uuid lock }.

Section Spec.
Variable max_ticks : Z.

Definition init : state := mk_state 0 ∅ ∅.

(** The lock at tick [n]: an open lock opened [max_ticks] ticks before
    lapses, every other lock stays as it is. *)
Definition lapse_at (n : Z) (l : lock) : lock :=
  if decide (phase_of l = Open /\ opened l + max_ticks = n)%Z then mk_lock Lapsed (opened l) else l.

Definition tick (σ : state) : state :=
  let n := (now σ + 1)%Z in mk_state n (lapse_at n <$> buy_locks σ) (lapse_at n <$> sell_locks σ).

Inductive step : state -> state -> Prop :=
| open_buy σ u : buy_locks σ !! u = None -> sell_locks σ !! u = None ->
    step σ (mk_state (now σ) (<[u := mk_lock Open (now σ)]> (buy_locks σ)) (sell_locks σ))
| open_sell σ u : buy_locks σ !! u = None -> sell_locks σ !! u = None ->
    step σ (mk_state (now σ) (buy_locks σ) (<[u := mk_lock Open (now σ)]> (sell_locks σ)))
| settle_buy σ u t : buy_locks σ !! u = Some (mk_lock Open t) ->
    step σ (mk_state (now σ) (<[u := mk_lock Settled t]> (buy_locks σ)) (sell_locks σ))
| settle_sell σ u t : sell_locks σ !! u = Some (mk_lock Open t) ->
    step σ (mk_state (now σ) (buy_locks σ) (<[u := mk_lock Settled t]> (sell_locks σ)))
| tick_step σ : step σ (tick σ).

Definition reachable (σ : state) : Prop := rtc step init σ.

End Spec.
End LockSpec.

Import LockSpec.

(** ** The relation between the service and the specification *)

Definition buy_phase (tx : BuyTx.BuyTx) : phase :=
  match BuyTx.state tx with BuyTx.Reserved => Open | BuyTx.Paid => Settled | BuyTx.Expired => Lapsed end.

Definition sell_phase (tx : SellTx.SellTx) : phase :=
  match SellTx.state tx with SellTx.Reserved => Open | SellTx.Paid => Settled | SellTx.Expired => Lapsed end.

(** A lock of [σ] under [u] opened at [c]. *)
Definition opened_at (σ : state) (u : Uuid) (c : Z) : Prop :=
  (exists l, buy_locks σ !! u = Some l /\ opened l = c) \/ (exists l, sell_locks σ !! u = Some l /\ opened l = c).

Record refines (s : TxService.TxService) (σ : state) : Prop := {
  ref_now : now σ = ticks_passed (TxService.deque s);
  ref_buys : forall u, phase_of <$> buy_locks σ !! u = buy_phase <$> TxService.buys s !! u;
  ref_sells : forall u, phase_of <$> sell_locks σ !! u = sell_phase <$> TxService.sells s !! u;
  ref_nodes : Forall (fun n => opened_at σ (t n) (creation_tick n)) (TickDeque.deque (TxService.deque s));
  ref_open_buy : forall u l, buy_locks σ !! u = Some l -> phase_of l = Open ->
    mk_node (opened l) u ∈ TickDeque.deque (TxService.deque s);
  ref_open_sell : forall u l, sell_locks σ !! u = Some l -> phase_of l = Open ->
    mk_node (opened l) u ∈ TickDeque.deque (TxService.deque s)
}.

(** The phase after the expiry of the UUIDs [us]. *)
Definition lapse_if (b : bool) (p : phase) : phase := if b && bool_decide (p = Open) then Lapsed else p.

(** ** The phase of a lock under each operation *)

Lemma buy_reserve_phase ops pr tx ops' : BuyTx.reserve ops pr = Ok (tx, ops') -> buy_phase tx = Open.
Proof. unfold BuyTx.reserve. intros H. repeat case_match; simplify_eq; ok_inv H; by simplify_eq. Qed.

Lemma sell_reserve_phase ops pr tx ops' : SellTx.reserve ops pr = Ok (tx, ops') -> sell_phase tx = Open.
Proof. unfold SellTx.reserve. intros H. repeat case_match; simplify_eq; ok_inv H; by simplify_eq. Qed.

Lemma buy_settle_phase tx ops w g tx' ops' w' : BuyTx.buy_ tx ops w = Ok (g, tx', ops', w') ->
  buy_phase tx = Open /\ buy_phase tx' = Settled.
Proof.
  unfold BuyTx.buy_, buy_phase. intros H. destruct (BuyTx.state tx); [| done | done].
  repeat case_decide; [done | done |]. ok_inv H. by simplify_eq.
Qed.

Lemma sell_settle_phase tx ops w g tx' ops' w' : SellTx.sell_ tx ops w = Ok (g, tx', ops', w') ->
  sell_phase tx = Open /\ sell_phase tx' = Settled.
Proof.
  unfold SellTx.sell_, sell_phase. intros H. destruct (SellTx.state tx); [| done | done].
  repeat case_decide; [done | done |]. ok_inv H. by simplify_eq.
Qed.

(** ** Expiry *)

Lemma lapse_if_twice b1 b2 p : lapse_if b1 (lapse_if b2 p) = lapse_if (b2 || b1) p.
Proof. unfold lapse_if. destruct b1, b2, p; done. Qed.

Lemma buy_expire_lapse tx ops tx' ops' : BuyTx.expire tx ops = Ok (tx', ops') -> buy_phase tx' = lapse_if true (buy_phase tx).
Proof.
  unfold BuyTx.expire, buy_phase. intros H. destruct (BuyTx.state tx) eqn:Hs; [ok_inv H | ..]; simplify_eq; by rewrite ?Hs.
Qed.

Lemma sell_expire_lapse tx ops tx' ops' : SellTx.expire tx ops = Ok (tx', ops') -> sell_phase tx' = lapse_if true (sell_phase tx).
Proof.
  unfold SellTx.expire, sell_phase. intros H. destruct (SellTx.state tx) eqn:Hs; [ok_inv H | ..]; simplify_eq; by rewrite ?Hs.
Qed.

Definition disjoint (s : TxService.TxService) : Prop :=
  forall u, is_Some (TxService.buys s !! u) -> TxService.sells s !! u = None.

Lemma lapse_if_false (o : option phase) : lapse_if false <$> o = o.
Proof. by destruct o. Qed.

(** [expire_one]: the lock of [v] lapses if it is open. *)
Lemma expire_one_phases v s s' : disjoint s -> TxService.expire_one s v = Ok s' ->
  TxService.deque s' = TxService.deque s /\
  (forall u, buy_phase <$> TxService.buys s' !! u = lapse_if (bool_decide (u = v)) <$> (buy_phase <$> TxService.buys s !! u)) /\
  (forall u, sell_phase <$> TxService.sells s' !! u = lapse_if (bool_decide (u = v)) <$> (sell_phase <$> TxService.sells s !! u)).
Proof.
  intros Hdis H. unfold TxService.expire_one in H.
  destruct (TxService.buys s !! v) as [tx |] eqn:Eb; [| destruct (TxService.sells s !! v) as [tx |] eqn:Es]; [| | done];
    ok_inv H; simplify_eq; cbn; (split; [done |]); split; intros u;
    (destruct (decide (u = v)) as [-> | Hne];
     [rewrite ?bool_decide_true by done | rewrite ?bool_decide_false, ?lapse_if_false by done]).
  - rewrite lookup_insert_eq, Eb. cbn. f_equal. by eapply buy_expire_lapse.
  - by rewrite lookup_insert_ne.
  - by rewrite (Hdis v ltac:(by rewrite Eb)).
  - done.
  - by rewrite Eb.
  - done.
  - rewrite lookup_insert_eq, Es. cbn. f_equal. by eapply sell_expire_lapse.
  - by rewrite lookup_insert_ne.
Qed.

(** [expire_each]: the locks of the expired UUIDs lapse if they are open,
    nothing else changes. *)
Lemma expire_each_phases us s s' : disjoint s -> TxService.expire_each us s = Ok s' ->
  TxService.deque s' = TxService.deque s /\
  (forall u, buy_phase <$> TxService.buys s' !! u = lapse_if (bool_decide (u ∈ us)) <$> (buy_phase <$> TxService.buys s !! u)) /\
  (forall u, sell_phase <$> TxService.sells s' !! u = lapse_if (bool_decide (u ∈ us)) <$> (sell_phase <$> TxService.sells s !! u)).
Proof.
  revert s. induction us as [| v us IH]; intros s Hdis H; cbn in H.
  - injection H as <-. split; [done |]. split; intros u; by rewrite bool_decide_false, lapse_if_false by set_solver.
  - destruct (TxService.expire_one s v) as [s0 | | ] eqn:H0; cbn in H; try done.
    destruct (expire_one_phases v s _ Hdis H0) as (Hd1 & Hb1 & Hs1).
    assert (Hdis1 : disjoint s0).
    { intros u [x Hx]. specialize (Hb1 u). specialize (Hs1 u). rewrite Hx in Hb1.
      destruct (TxService.buys s !! u) eqn:Eu; cbn in Hb1; [| discriminate].
      rewrite (Hdis u ltac:(by eexists)) in Hs1. by destruct (TxService.sells s0 !! u). }
    destruct (IH _ Hdis1 H) as (Hd2 & Hb2 & Hs2). split; [congruence |].
    split; intros u;
      replace (bool_decide (u ∈ v :: us)) with (bool_decide (u = v) || bool_decide (u ∈ us))
        by (rewrite <- bool_decide_or; apply bool_decide_ext; set_solver).
    + rewrite Hb2, Hb1. destruct (TxService.buys s !! u); cbn; [| done]. by rewrite lapse_if_twice.
    + rewrite Hs2, Hs1. destruct (TxService.sells s !! u); cbn; [| done]. by rewrite lapse_if_twice.
Qed.

(** ** The relation is kept by every step *)

Lemma ref_buy_none s σ u : refines s σ -> TxService.buys s !! u = None -> buy_locks σ !! u = None.
Proof. intros Hr Hu. pose proof (ref_buys s σ Hr u) as E. rewrite Hu in E. by destruct (buy_locks σ !! u). Qed.

Lemma ref_sell_none s σ u : refines s σ -> TxService.sells s !! u = None -> sell_locks σ !! u = None.
Proof. intros Hr Hu. pose proof (ref_sells s σ Hr u) as E. rewrite Hu in E. by destruct (sell_locks σ !! u). Qed.

(** [opened_at] survives a change of the maps that keeps the lock of [u]
    and its opening tick. *)
Lemma opened_at_mono σ σ' u c :
  (forall l, buy_locks σ !! u = Some l -> exists l', buy_locks σ' !! u = Some l' /\ opened l' = opened l) ->
  (forall l, sell_locks σ !! u = Some l -> exists l', sell_locks σ' !! u = Some l' /\ opened l' = opened l) ->
  opened_at σ u c -> opened_at σ' u c.
Proof.
  intros Hb Hs [(l & Hl & <-) | (l & Hl & <-)]; [left | right].
  - destruct (Hb l Hl) as (l' & ? & ?). by exists l'.
  - destruct (Hs l Hl) as (l' & ? & ?). by exists l'.
Qed.

Lemma keep_lock (m : gmap Uuid lock) u v x : u <> v -> forall l, m !! u = Some l ->
  exists l', <[v := x]> m !! u = Some l' /\ opened l' = opened l.
Proof. intros Hne l Hl. exists l. by rewrite lookup_insert_ne. Qed.

Lemma keep_lock_fmap max n (m : gmap Uuid lock) u : forall l, m !! u = Some l ->
  exists l', (lapse_at max n <$> m) !! u = Some l' /\ opened l' = opened l.
Proof. intros l Hl. exists (lapse_at max n l). rewrite lookup_fmap, Hl. split; [done |]. unfold lapse_at. by case_decide. Qed.

(** The phase the specification's tick gives a lock is the phase the
    expiry of the popped UUIDs gives it. *)
Lemma lapse_matches max n l u (d : list (TickNode Uuid)) :
  (phase_of l = Open -> mk_node (opened l) u ∈ d) ->
  (forall m, m ∈ d -> t m = u -> opened l = creation_tick m) ->
  phase_of (lapse_at max n l) =
  lapse_if (bool_decide (u ∈ map t (filter (fun m => creation_tick m + max = n)%Z d))) (phase_of l).
Proof.
  intros Hopen Hnodes. unfold lapse_at, lapse_if. destruct (phase_of l) eqn:Hp; cbn.
  - case_decide as Hc.
    + rewrite bool_decide_true; [done |]. apply list_elem_of_fmap. exists (mk_node (opened l) u).
      split; [done |]. apply list_elem_of_filter. split; [cbn; lia | by apply Hopen].
    + rewrite Hp, bool_decide_false; [done |]. intros (m & -> & Hm)%list_elem_of_fmap.
      apply list_elem_of_filter in Hm as [Hm Hin]. apply Hc. split; [done |].
      rewrite (Hnodes m Hin eq_refl). done.
  - case_decide as Hc; [destruct Hc; congruence |]. rewrite Hp. by destruct (bool_decide _).
  - case_decide as Hc; [destruct Hc; congruence |]. rewrite Hp. by destruct (bool_decide _).
Qed.

(** A node of the queue carries the opening tick of its UUID's lock. *)
Lemma node_opened_buy s σ u l m : svc_inv s -> refines s σ -> buy_locks σ !! u = Some l ->
  m ∈ TickDeque.deque (TxService.deque s) -> t m = u -> opened l = creation_tick m.
Proof.
  intros Hi Hr Hl Hm <-. pose proof (proj1 (Forall_forall _ _) (ref_nodes s σ Hr) m Hm) as [(l' & Hl' & <-) | (l' & Hl' & _)].
  - congruence.
  - pose proof (ref_buys s σ Hr (t m)) as E. rewrite Hl in E.
    destruct (TxService.buys s !! t m) eqn:Eb; [| done].
    rewrite (ref_sell_none s σ (t m) Hr (inv_disjoint s Hi (t m) ltac:(by eexists))) in Hl'. done.
Qed.

Lemma node_opened_sell s σ u l m : svc_inv s -> refines s σ -> sell_locks σ !! u = Some l ->
  m ∈ TickDeque.deque (TxService.deque s) -> t m = u -> opened l = creation_tick m.
Proof.
  intros Hi Hr Hl Hm <-. pose proof (proj1 (Forall_forall _ _) (ref_nodes s σ Hr) m Hm) as [(l' & Hl' & _) | (l' & Hl' & <-)].
  - pose proof (ref_sells s σ Hr (t m)) as E. rewrite Hl in E.
    destruct (TxService.sells s !! t m) eqn:Es; [| done].
    destruct (TxService.buys s !! t m) eqn:Eb.
    + by rewrite (inv_disjoint s Hi (t m) ltac:(by eexists)) in Es.
    + by rewrite (ref_buy_none s σ (t m) Hr Eb) in Hl'.
  - congruence.
Qed.

(** The node of a fresh UUID is not in the queue. *)
Lemma fresh_not_node s u n : svc_inv s -> Service.fresh s u -> n ∈ TickDeque.deque (TxService.deque s) -> t n <> u.
Proof.
  intros Hi [Fb Fs] Hn Et. destruct (proj1 (Forall_forall _ _) (inv_deque_dom s Hi) n Hn) as [[? E] | [? E]];
    rewrite Et in E; congruence.
Qed.

Lemma reserve_buy_refines s σ pr u s' : svc_inv s -> Service.fresh s u -> refines s σ ->
  TxService.do_buy_reservation s pr u = Ok (u, s') ->
  refines s' (mk_state (now σ) (<[u := mk_lock Open (now σ)]> (buy_locks σ)) (sell_locks σ)).
Proof.
  intros Hi Hf Hr H. unfold TxService.do_buy_reservation in H.
  destruct (BuyTx.reserve _ _) as [[tx ops'] | e | ] eqn:Er; [| destruct e; discriminate H | discriminate H]. injection H as <-.
  pose proof (ref_now s σ Hr) as Hn. constructor; cbn.
  - done.
  - intros v. destruct (decide (v = u)) as [-> | Hne].
    + rewrite !lookup_insert_eq. cbn. by erewrite buy_reserve_phase.
    + rewrite !lookup_insert_ne by done. apply Hr.
  - apply Hr.
  - apply Forall_app. split.
    + apply Forall_forall. intros n Hm. eapply (opened_at_mono σ);
        [apply keep_lock; by apply (fresh_not_node s u n) | intros l Hl; by exists l | exact (proj1 (Forall_forall _ _) (ref_nodes s σ Hr) n Hm)].
    + constructor; [| constructor]. left. exists (mk_lock Open (now σ)). cbn. rewrite lookup_insert_eq. by rewrite Hn.
  - intros v l Hl Ho. apply elem_of_app. destruct (decide (v = u)) as [-> | Hne].
    + rewrite lookup_insert_eq in Hl. injection Hl as <-. right. cbn. rewrite Hn. by left.
    + rewrite lookup_insert_ne in Hl by done. left. exact (ref_open_buy s σ Hr v l Hl Ho).
  - intros v l Hl Ho. apply elem_of_app. left. exact (ref_open_sell s σ Hr v l Hl Ho).
Qed.

Lemma reserve_sell_refines s σ pr u s' : svc_inv s -> Service.fresh s u -> refines s σ ->
  TxService.do_sell_reservation s pr u = Ok (u, s') ->
  refines s' (mk_state (now σ) (buy_locks σ) (<[u := mk_lock Open (now σ)]> (sell_locks σ))).
Proof.
  intros Hi Hf Hr H. unfold TxService.do_sell_reservation in H.
  destruct (SellTx.reserve _ _) as [[tx ops'] | e | ] eqn:Er; [| destruct e; discriminate H | discriminate H]. injection H as <-.
  pose proof (ref_now s σ Hr) as Hn. constructor; cbn.
  - done.
  - apply Hr.
  - intros v. destruct (decide (v = u)) as [-> | Hne].
    + rewrite !lookup_insert_eq. cbn. by erewrite sell_reserve_phase.
    + rewrite !lookup_insert_ne by done. apply Hr.
  - apply Forall_app. split.
    + apply Forall_forall. intros n Hm. eapply (opened_at_mono σ);
        [intros l Hl; by exists l | cbn; apply keep_lock; by apply (fresh_not_node s u n) | exact (proj1 (Forall_forall _ _) (ref_nodes s σ Hr) n Hm)].
    + constructor; [| constructor]. right. exists (mk_lock Open (now σ)). cbn. rewrite lookup_insert_eq. by rewrite Hn.
  - intros v l Hl Ho. apply elem_of_app. left. exact (ref_open_buy s σ Hr v l Hl Ho).
  - intros v l Hl Ho. apply elem_of_app. destruct (decide (v = u)) as [-> | Hne].
    + rewrite lookup_insert_eq in Hl. injection Hl as <-. right. cbn. rewrite Hn. by left.
    + rewrite lookup_insert_ne in Hl by done. left. exact (ref_open_sell s σ Hr v l Hl Ho).
Qed.

Lemma settle_buy_refines s σ u w g s' w' : refines s σ -> TxService.do_buy s u w = Ok (g, s', w') ->
  exists c, buy_locks σ !! u = Some (mk_lock Open c) /\
  refines s' (mk_state (now σ) (<[u := mk_lock Settled c]> (buy_locks σ)) (sell_locks σ)).
Proof.
  intros Hr H. unfold TxService.do_buy in H. destruct (TxService.buys s !! u) as [tx |] eqn:Hu; [| done].
  destruct (BuyTx.buy_ tx _ w) as [[[[g0 tx'] ops'] w0] | e | ] eqn:Eb; [| destruct e; discriminate H | discriminate H].
  injection H as <- <- <-. destruct (buy_settle_phase _ _ _ _ _ _ _ Eb) as [Ho Hp].
  pose proof (ref_buys s σ Hr u) as E. rewrite Hu in E. cbn in E.
  destruct (buy_locks σ !! u) as [[ph c] |] eqn:El; [| done]. injection E as ->. rewrite Ho in El.
  exists c. split; [by rewrite Ho |]. constructor; cbn.
  - apply Hr.
  - intros v. destruct (decide (v = u)) as [-> | Hne].
    + by rewrite !lookup_insert_eq; cbn; rewrite Hp.
    + rewrite !lookup_insert_ne by done. apply Hr.
  - apply Hr.
  - apply Forall_forall. intros n Hm. eapply (opened_at_mono σ); [| intros l Hl; by exists l |
      exact (proj1 (Forall_forall _ _) (ref_nodes s σ Hr) n Hm)].
    cbn. intros l Hl. destruct (decide (t n = u)) as [Etn | Hne].
    + rewrite Etn in Hl |- *. exists (mk_lock Settled c). rewrite lookup_insert_eq. rewrite El in Hl. by injection Hl as <-.
    + by apply keep_lock.
  - intros v l Hl Ho'. destruct (decide (v = u)) as [-> | Hne].
    + rewrite lookup_insert_eq in Hl. by injection Hl as <-.
    + rewrite lookup_insert_ne in Hl by done. exact (ref_open_buy s σ Hr v l Hl Ho').
  - exact (ref_open_sell s σ Hr).
Qed.

Lemma settle_sell_refines s σ u w g s' w' : refines s σ -> TxService.do_sell s u w = Ok (g, s', w') ->
  exists c, sell_locks σ !! u = Some (mk_lock Open c) /\
  refines s' (mk_state (now σ) (buy_locks σ) (<[u := mk_lock Settled c]> (sell_locks σ))).
Proof.
  intros Hr H. unfold TxService.do_sell in H. destruct (TxService.sells s !! u) as [tx |] eqn:Hu; [| done].
  destruct (SellTx.sell_ tx _ w) as [[[[g0 tx'] ops'] w0] | e | ] eqn:Eb; [| destruct e; discriminate H | discriminate H].
  injection H as <- <- <-. destruct (sell_settle_phase _ _ _ _ _ _ _ Eb) as [Ho Hp].
  pose proof (ref_sells s σ Hr u) as E. rewrite Hu in E. cbn in E.
  destruct (sell_locks σ !! u) as [[ph c] |] eqn:El; [| done]. injection E as ->. rewrite Ho in El.
  exists c. split; [by rewrite Ho |]. constructor; cbn.
  - apply Hr.
  - apply Hr.
  - intros v. destruct (decide (v = u)) as [-> | Hne].
    + by rewrite !lookup_insert_eq; cbn; rewrite Hp.
    + rewrite !lookup_insert_ne by done. apply Hr.
  - apply Forall_forall. intros n Hm. eapply (opened_at_mono σ); [intros l Hl; by exists l | |
      exact (proj1 (Forall_forall _ _) (ref_nodes s σ Hr) n Hm)].
    cbn. intros l Hl. destruct (decide (t n = u)) as [Etn | Hne].
    + rewrite Etn in Hl |- *. exists (mk_lock Settled c). rewrite lookup_insert_eq. rewrite El in Hl. by injection Hl as <-.
    + by apply keep_lock.
  - exact (ref_open_buy s σ Hr).
  - intros v l Hl Ho'. destruct (decide (v = u)) as [-> | Hne].
    + rewrite lookup_insert_eq in Hl. by injection Hl as <-.
    + rewrite lookup_insert_ne in Hl by done. exact (ref_open_sell s σ Hr v l Hl Ho').
Qed.

Lemma tick_open_node σ u l (d' : list (TickNode Uuid)) (max n : Z) :
  (forall u l, buy_locks σ !! u = Some l -> phase_of l = Open -> mk_node (opened l) u ∈ d') ->
  (lapse_at max n <$> buy_locks σ) !! u = Some l -> phase_of l = Open ->
  mk_node (opened l) u ∈ filter (fun m => creation_tick m + max <> n)%Z d'.
Proof.
  intros Hopen Hl Ho. rewrite lookup_fmap in Hl. destruct (buy_locks σ !! u) as [l0 |] eqn:El; [| done].
  injection Hl as <-. unfold lapse_at in *. case_decide as Hc; [by cbn in Ho |].
  apply list_elem_of_filter. split; [intros Heq; cbn in Heq; apply Hc; split; [done | lia] | by apply Hopen].
Qed.

Lemma tick_refines s σ s' : svc_inv s -> refines s σ -> TxService.tick_all s = Ok s' ->
  refines s' (LockSpec.tick (max_ticks (TxService.deque s)) σ).
Proof.
  intros Hi Hr H. unfold TxService.tick_all in H.
  destruct (TickDeque.tick (TxService.deque s)) as [[e d'] | | ] eqn:Et; cbn in H; try discriminate.
  destruct (tick_ok _ _ _ (inv_deque_wf s Hi) Et) as (-> & -> & _).
  apply expire_each_phases in H as (Hd & Hb & Hs); [| exact (inv_disjoint s Hi)]. cbn in Hd, Hb, Hs.
  pose proof (ref_now s σ Hr) as Hn. constructor; cbn; rewrite ?Hd; cbn.
  - lia.
  - intros u. rewrite Hb, lookup_fmap. pose proof (ref_buys s σ Hr u) as E.
    destruct (buy_locks σ !! u) as [l |] eqn:El; destruct (TxService.buys s !! u) as [tx |] eqn:Etx;
      cbn in *; try done.
    injection E as E. f_equal. rewrite <- E, Hn. apply lapse_matches.
    + exact (ref_open_buy s σ Hr u l El).
    + intros m Hm Hmu. exact (node_opened_buy s σ u l m Hi Hr El Hm Hmu).
  - intros u. rewrite Hs, lookup_fmap. pose proof (ref_sells s σ Hr u) as E.
    destruct (sell_locks σ !! u) as [l |] eqn:El; destruct (TxService.sells s !! u) as [tx |] eqn:Etx;
      cbn in *; try done.
    injection E as E. f_equal. rewrite <- E, Hn. apply lapse_matches.
    + exact (ref_open_sell s σ Hr u l El).
    + intros m Hm Hmu. exact (node_opened_sell s σ u l m Hi Hr El Hm Hmu).
  - apply Forall_forall. intros n [_ Hm]%list_elem_of_filter.
    eapply (opened_at_mono σ); [apply keep_lock_fmap | apply keep_lock_fmap |
      exact (proj1 (Forall_forall _ _) (ref_nodes s σ Hr) n Hm)].
  - intros u l Hl Ho. rewrite <- Hn. exact (tick_open_node σ u l _ _ _ (ref_open_buy s σ Hr) Hl Ho).
  - intros u l Hl Ho. rewrite <- Hn.
    exact (tick_open_node (mk_state (now σ) (sell_locks σ) (buy_locks σ)) u l _ _ _ (ref_open_sell s σ Hr) Hl Ho).
Qed.

Lemma refines_new ops max s : TxService.new ops max = Ok s -> refines s LockSpec.init.
Proof.
  unfold TxService.new, TickDeque.new. intros H. case_decide; [| done]. injection H as <-.
  constructor; cbn; try done; intros u l Hl; by rewrite lookup_empty in Hl.
Qed.

(** ** Refinement *)

(** C4: Forward simulation of the lock specification by the service:
    [TxService::new] is related to the specification with no locks, and
    from related states every step of the service (a reservation under
    a fresh UUID, a settlement, a [tick_all]) is matched by a step of the
    specification that keeps the relation.  So a reservation opens a
    lock at the current tick, a settlement only closes an open lock, and
    a tick lapses exactly the open locks opened [max_ticks] ticks before
    and leaves every other lock as it is. *)
Theorem svc_refines :
  (forall ops max s, TxService.new ops max = Ok s -> refines s LockSpec.init) /\
  (forall s σ s', svc_inv s -> refines s σ -> svc_step s s' ->
     exists σ', LockSpec.step (max_ticks (TxService.deque s)) σ σ' /\ refines s' σ').
Proof.
  split; [exact refines_new |].
  intros s σ s' Hi Hr Hst.
  destruct Hst as [s pr u s' Hf H | s pr u s' Hf H | s u w g s' w' H | s u w g s' w' H | s s' H].
  - eexists. split; [| exact (reserve_buy_refines s σ pr u s' Hi Hf Hr H)].
    destruct Hf as [Fb Fs]. apply open_buy; [exact (ref_buy_none s σ u Hr Fb) | exact (ref_sell_none s σ u Hr Fs)].
  - eexists. split; [| exact (reserve_sell_refines s σ pr u s' Hi Hf Hr H)].
    destruct Hf as [Fb Fs]. apply open_sell; [exact (ref_buy_none s σ u Hr Fb) | exact (ref_sell_none s σ u Hr Fs)].
  - destruct (settle_buy_refines s σ u w g s' w' Hr H) as (c & Hc & Hr').
    eexists. split; [by apply settle_buy | exact Hr'].
  - destruct (settle_sell_refines s σ u w g s' w' Hr H) as (c & Hc & Hr').
    eexists. split; [by apply settle_sell | exact Hr'].
  - eexists. split; [apply tick_step | exact (tick_refines s σ s' Hi Hr H)].
Qed.

(** ** Witness *)

Lemma svc_refines_witness :
  refines sample_service LockSpec.init /\ svc_inv sample_service /\
  svc_step sample_service sample_locked /\
  exists σ', LockSpec.step (max_ticks (TxService.deque sample_service)) LockSpec.init σ' /\ refines sample_locked σ'.
Proof.
  destruct svc_refines as [Hn Hs].
  assert (H0 : refines sample_service LockSpec.init) by exact (Hn _ _ _ sample_new).
  assert (Hst : svc_step sample_service sample_locked)
    by exact (step_buy_reservation _ _ _ _ sample_locked_fresh sample_locked_step).
  split; [exact H0 | split; [exact sample_service_inv | split; [exact Hst |]]].
  exact (Hs _ _ _ sample_service_inv H0 Hst).
Defined.
