(* ===== verification/Market.v ===== *)
(** * The market facade: [DogeMarketImpl] (market.rs) and [DogeMarket] (dogemarket.rs)

    [DogeMarketImpl] owns the transaction service and the rebalancer; it
    maps the service's errors to its own, prices goods and builds the
    labels of [get_goods], and [advance_a_day] runs [tick_all] and then
    [refill_goods] on the free and reserved accounts.

    [DogeMarket] is the implementation of the external [Market] trait: it
    parses tokens, maps errors to the trait's public errors, advances one
    day after every successful mutation and publishes an [Event] to every
    subscriber.  Its observable effects (log entries, day advances, events
    sent to subscribers) are returned, in the order the code performs
    them, as a trace of [effect]s.  Log entries on the failure paths and
    the choice of logger (file or mute) are not part of the trace.

    The random inputs of the code are inputs here: the UUID of a new lock
    and the shortage [roll] of each day.  Tokens are the hexadecimal text
    of the UUID ([uuid_to_string], [uuid_from_str], modelled from the
    [uuid] crate's [to_string]/[from_str] contract: canonical text,
    parsed back exactly).

    The state machine of a market is [market_step]; the theorems show the
    invariant of every reachable market, where a settlement can panic,
    the public errors of settling a lock that is no longer open, the
    saturated rates of [get_goods], and the budget of the random starting
    inventory. *)

From S2P Require Import Prelude Goods Ledger Transactions TickDeque Refiller Service.
From stdpp Require Import gmap.
From Stdlib Require Import ZArith String HexString.
Open Scope Q_scope.
Import AccountOps.

(** ** Tokens *)

(** [Uuid::to_string]. *)
Definition uuid_to_string (u : Uuid) : string := HexString.of_pos u.

(** [Uuid::from_str]: only the canonical text of a UUID parses. *)
Definition uuid_from_str (s : string) : option Uuid :=
  match HexString.to_N s with
  | Npos p => if String.eqb (HexString.of_pos p) s then Some p else None
  | N0 => None
  end.

(** ** Events of the external crate *)

Inductive EventKind := Bought | Sold | LockedBuy | LockedSell | Wait.

Record Event := mk_event { event_kind : EventKind; event_good_kind : GoodKind;
                           event_quantity : Q; event_price : Q }.

(** ** Errors *)

Module DogeBuyReservationError.
Inductive t := NonPositiveBuy | NonPositiveBid | ExceedsReservableQuantity (reservable : Q)
             | BidTooLow (lowest : fval).
End DogeBuyReservationError.

Module DogeSellReservationError.
Inductive t := NonPositiveSell | NonPositiveOffer | ExceedsReservableQuantity (reservable : Q)
             | OfferTooHigh (highest : fval).
End DogeSellReservationError.

Module DogeBuyError.
Inductive t := UnrecognizedUuid | InvalidState (current_state : BuyTx.BuyTxState)
             | WrongGoodKind (pre_agreed : GoodKind) | InsufficientGoodQuantity (pre_agreed : Q).
End DogeBuyError.

Module DogeSellError.
Inductive t := UnrecognizedUuid | InvalidState (current_state : SellTx.SellTxState)
             | WrongGoodKind (pre_agreed : GoodKind) | InsufficientGoodQuantity (pre_agreed : Q).
End DogeSellError.

Module DogeGetBuyPriceError.
Inductive t := NonPositiveRequest | ExceedsReservableQuantity (reservable : Q).
End DogeGetBuyPriceError.

Module DogeGetSellPriceError.
Inductive t := NonPositiveRequest.
End DogeGetSellPriceError.

(** ** [DogeMarketImpl] *)

Module DogeMarketImpl.

Record DogeMarketImpl := mk_impl { service : TxService.TxService; refiller : GoodRefiller }.

(** The field [market_name], set once by [new] and never written again. *)
Definition market_name : string := "DogeMarket"%string.

Definition new (ops : AccountOps) (max_ticks : Z) : outcome unit DogeMarketImpl :=
  s ← TxService.new ops max_ticks; Ok (mk_impl s GoodRefiller.new).

Definition do_buy_reservation (m : DogeMarketImpl) (proposal : BuyTx.BuyTxProposal) (uuid : Uuid)
    : outcome DogeBuyReservationError.t (Uuid * DogeMarketImpl) :=
  match TxService.do_buy_reservation (service m) proposal uuid with
  | Ok (u, s) => Ok (u, mk_impl s (refiller m))
  | Err ServiceBuyReservationError.NonPositiveBuy => Err DogeBuyReservationError.NonPositiveBuy
  | Err ServiceBuyReservationError.NonPositiveBid => Err DogeBuyReservationError.NonPositiveBid
  | Err (ServiceBuyReservationError.ExceedsReservableQuantity r) =>
      Err (DogeBuyReservationError.ExceedsReservableQuantity r)
  | Err (ServiceBuyReservationError.BidTooLow l) => Err (DogeBuyReservationError.BidTooLow l)
  | Panic r => Panic r
  end.

Definition do_sell_reservation (m : DogeMarketImpl) (proposal : SellTx.SellTxProposal) (uuid : Uuid)
    : outcome DogeSellReservationError.t (Uuid * DogeMarketImpl) :=
  match TxService.do_sell_reservation (service m) proposal uuid with
  | Ok (u, s) => Ok (u, mk_impl s (refiller m))
  | Err ServiceSellReservationError.NonPositiveSell => Err DogeSellReservationError.NonPositiveSell
  | Err ServiceSellReservationError.NonPositiveOffer => Err DogeSellReservationError.NonPositiveOffer
  | Err (ServiceSellReservationError.ExceedsReservableQuantity r) =>
      Err (DogeSellReservationError.ExceedsReservableQuantity r)
  | Err (ServiceSellReservationError.OfferTooHigh h) => Err (DogeSellReservationError.OfferTooHigh h)
  | Panic r => Panic r
  end.

Definition buy (m : DogeMarketImpl) (uuid : Uuid) (cash : Good)
    : outcome DogeBuyError.t (Good * DogeMarketImpl * Good) :=
  match TxService.do_buy (service m) uuid cash with
  | Ok (g, s, cash') => Ok (g, mk_impl s (refiller m), cash')
  | Err ServiceBuyError.UnrecognizedUuid => Err DogeBuyError.UnrecognizedUuid
  | Err (ServiceBuyError.InvalidState st) => Err (DogeBuyError.InvalidState st)
  | Err (ServiceBuyError.WrongGoodKind k) => Err (DogeBuyError.WrongGoodKind k)
  | Err (ServiceBuyError.InsufficientGoodQuantity q) => Err (DogeBuyError.InsufficientGoodQuantity q)
  | Panic r => Panic r
  end.

Definition sell (m : DogeMarketImpl) (uuid : Uuid) (good : Good)
    : outcome DogeSellError.t (Good * DogeMarketImpl * Good) :=
  match TxService.do_sell (service m) uuid good with
  | Ok (g, s, good') => Ok (g, mk_impl s (refiller m), good')
  | Err ServiceSellError.UnrecognizedUuid => Err DogeSellError.UnrecognizedUuid
  | Err (ServiceSellError.InvalidState st) => Err (DogeSellError.InvalidState st)
  | Err (ServiceSellError.WrongGoodKind k) => Err (DogeSellError.WrongGoodKind k)
  | Err (ServiceSellError.InsufficientGoodQuantity q) => Err (DogeSellError.InsufficientGoodQuantity q)
  | Panic r => Panic r
  end.

(** [get_account_ops_mut] followed by the refill of [ops.assets]. *)
Definition set_assets (s : TxService.TxService) (a : Account) : TxService.TxService :=
  TxService.mk_service (mk_ops a (reservations (TxService.ops s)) (futures (TxService.ops s)))
    (TxService.buys s) (TxService.sells s) (TxService.deque s).

Section WithConsts.
Context `{MarketConsts}.

Definition advance_a_day (m : DogeMarketImpl) (roll : Z) : outcome unit DogeMarketImpl :=
  s ← TxService.tick_all (service m);
  '(r, assets') ← GoodRefiller.refill_goods (refiller m) (assets (TxService.ops s))
                    (reservations (TxService.ops s)) roll;
  Ok (mk_impl (set_assets s assets') r).

End WithConsts.

Definition get_buy_price (m : DogeMarketImpl) (k : GoodKind) (q : Q)
    : outcome DogeGetBuyPriceError.t fval :=
  match compute_buy_price (TxService.ops (service m)) k q (earn_percentage k) with
  | Ok p => Ok p
  | Err BuyPriceComputationError.NonPositiveQuantity => Err DogeGetBuyPriceError.NonPositiveRequest
  | Err BuyPriceComputationError.NegativeExchangeRateEarnPercentage => Panic Unreachable
  | Err (BuyPriceComputationError.ExceedsReservableQuantity r) =>
      Err (DogeGetBuyPriceError.ExceedsReservableQuantity r)
  | Panic r => Panic r
  end.

Definition get_sell_price (m : DogeMarketImpl) (k : GoodKind) (q : Q)
    : outcome DogeGetSellPriceError.t fval :=
  match compute_sell_price (TxService.ops (service m)) k q (earn_percentage k) with
  | Ok p => Ok p
  | Err SellPriceComputationError.NonPositiveQuantity => Err DogeGetSellPriceError.NonPositiveRequest
  | Err SellPriceComputationError.NegativeExchangeEarnRatePercentage => Panic Unreachable
  | Panic r => Panic r
  end.

Definition make_label_for_kind (m : DogeMarketImpl) (k : GoodKind) : outcome unit GoodLabel :=
  let ops := TxService.ops (service m) in
  rb ← match compute_buy_exchange_rate ops k (earn_percentage k) with
       | Ok r => Ok r
       | Err BuyExchangeRateComputationError.NonPositiveExchangeRateEarnPercentage => Panic Unreachable
       | Err (BuyExchangeRateComputationError.ExceedsReservableQuantity _) => Ok (Fin f32_MAX)
       | Panic r => Panic r
       end;
  rs ← match compute_sell_exchange_rate ops k (earn_percentage k) with
       | Ok r => Ok r
       | Err SellExchangeRateComputationError.NonPositiveExchangeRateEarnPercentage => Panic Unreachable
       | Panic r => Panic r
       end;
  Ok (mk_label k (get_reservable_quantity_by_kind ops k) rb rs).

End DogeMarketImpl.

(** ** The public errors of the [Market] trait (crate [unitn_market_2022]) *)

Module MarketGetterError.
Inductive t := NonPositiveQuantityAsked
| InsufficientGoodQuantityAvailable (requested_good_kind : GoodKind)
    (requested_good_quantity available_good_quantity : Q).
End MarketGetterError.

Module LockBuyError.
Inductive t :=
| NonPositiveQuantityToBuy (negative_quantity_to_buy : Q)
| NonPositiveBid (negative_bid : Q)
| InsufficientGoodQuantityAvailable (requested_good_kind : GoodKind)
    (requested_good_quantity available_good_quantity : Q)
| BidTooLow (requested_good_kind : GoodKind) (requested_good_quantity low_bid : Q)
    (lowest_acceptable_bid : fval).
End LockBuyError.

Module LockSellError.
Inductive t :=
| NonPositiveQuantityToSell (negative_quantity_to_sell : Q)
| NonPositiveOffer (negative_offer : Q)
| InsufficientDefaultGoodQuantityAvailable (offered_good_kind : GoodKind)
    (offered_good_quantity available_good_quantity : Q)
| OfferTooHigh (offered_good_kind : GoodKind) (offered_good_quantity high_offer : Q)
    (highest_acceptable_offer : fval).
End LockSellError.

Module BuyError.
Inductive t :=
| UnrecognizedToken (unrecognized_token : string)
| ExpiredToken (expired_token : string)
| GoodKindNotDefault (non_default_good_kind : GoodKind)
| InsufficientGoodQuantity (contained_quantity pre_agreed_quantity : Q).
End BuyError.

Module SellError.
Inductive t :=
| UnrecognizedToken (unrecognized_token : string)
| ExpiredToken (expired_token : string)
| WrongGoodKind (wrong_good_kind pre_agreed_kind : GoodKind)
| InsufficientGoodQuantity (contained_quantity pre_agreed_quantity : Q).
End SellError.

(** ** Observable effects *)

(** The calls of the [Logger] trait (logger.rs). *)
Inductive LogEntry :=
| LogInitialization (eur usd yen yuan : Good)
| LogLockBuy (locked : Good) (trader_name : string) (bid : Good) (token : option Uuid)
| LogLockSell (locked : Good) (trader_name : string) (offer : Good) (token : option Uuid)
| LogBuy (token : Uuid) (success : bool)
| LogSell (token : Uuid) (success : bool).

(** A subscriber, by its position in the registration order. *)
Definition SubscriberId := nat.

Inductive effect :=
| ELog (e : LogEntry)
| EAdvance
| EPublish (subscriber : SubscriberId) (e : Event).

(** [self.subscribers.iter_mut().for_each(|sub| sub.on_event(event))]. *)
Definition publish (subs : list SubscriberId) (e : Event) : list effect :=
  map (fun s => EPublish s e) subs.

(** ** [DogeMarket] *)

Module DogeMarket.
Import DogeMarketImpl.

Record DogeMarket := mk_market { doge_impl : DogeMarketImpl.DogeMarketImpl;
                                 subscribers : list SubscriberId }.

Section WithConsts.
Context `{MarketConsts}.

Definition new_with_goods (eur yen usd yuan : Good) : outcome unit (DogeMarket * list effect) :=
  impl ← DogeMarketImpl.new (of_assets (mk_account eur usd yen yuan)) 10;
  Ok (mk_market impl [], [ELog (LogInitialization eur usd yen yuan)]).

Definition new_with_quantities (eur yen usd yuan : Q) : outcome unit (DogeMarket * list effect) :=
  new_with_goods (Good.new EUR eur) (Good.new YEN yen) (Good.new USD usd) (Good.new YUAN yuan).

(** [new_random_quantities]: the starting inventory, worth the starting
    capital less the margin for rounding. *)
Definition new_random_quantities : list Good :=
  let EUR_TO_USD_RATE := DEFAULT_EUR_USD_EXCHANGE_RATE in
  let USD_TO_EUR_RATE := 1 / EUR_TO_USD_RATE in
  let EUR_TO_YEN_RATE := DEFAULT_EUR_YEN_EXCHANGE_RATE in
  let YEN_TO_EUR_RATE := 1 / EUR_TO_YEN_RATE in
  let EUR_TO_YUAN_RATE := DEFAULT_EUR_YUAN_EXCHANGE_RATE in
  let YUAN_TO_EUR_RATE := 1 / EUR_TO_YUAN_RATE in
  let EARNING_RATE := 101 / 100 in
  let EUR_BUDGET_WITHOUT_ERROR :=
    (STARTING_CAPITAL - USD_TO_EUR_RATE - YEN_TO_EUR_RATE - YUAN_TO_EUR_RATE) / (1 + 3 * EARNING_RATE) in
  let USD_BUDGET_WITHOUT_ERROR := EUR_BUDGET_WITHOUT_ERROR * EARNING_RATE * EUR_TO_USD_RATE + 1 in
  let YEN_BUDGET_WITHOUT_ERROR := EUR_BUDGET_WITHOUT_ERROR * EARNING_RATE * EUR_TO_YEN_RATE + 1 in
  let YUAN_BUDGET_WITHOUT_ERROR := EUR_BUDGET_WITHOUT_ERROR * EARNING_RATE * EUR_TO_YUAN_RATE + 1 in
  let EUR_BUDGET := EUR_BUDGET_WITHOUT_ERROR - EUR_BUDGET_WITHOUT_ERROR * 1 / 10000000 in
  let USD_BUDGET := USD_BUDGET_WITHOUT_ERROR - USD_BUDGET_WITHOUT_ERROR * 1 / 10000000 in
  let YEN_BUDGET := YEN_BUDGET_WITHOUT_ERROR - YEN_BUDGET_WITHOUT_ERROR * 1 / 10000000 in
  let YUAN_BUDGET := YUAN_BUDGET_WITHOUT_ERROR - YUAN_BUDGET_WITHOUT_ERROR * 1 / 10000000 in
  [Good.new EUR EUR_BUDGET; Good.new YEN YEN_BUDGET; Good.new USD USD_BUDGET; Good.new YUAN YUAN_BUDGET].

Definition new_random : outcome unit (DogeMarket * list effect) :=
  match new_random_quantities with
  | [eur; yen; usd; yuan] => new_with_goods eur yen usd yuan
  | _ => Panic Unreachable
  end.

Definition add_subscriber (m : DogeMarket) (sub : SubscriberId) : DogeMarket :=
  mk_market (doge_impl m) (subscribers m ++ [sub]).

Definition on_event (m : DogeMarket) (e : Event) (roll : Z) : outcome unit DogeMarket :=
  impl ← advance_a_day (doge_impl m) roll; Ok (mk_market impl (subscribers m)).

Definition get_name (m : DogeMarket) : string := DogeMarketImpl.market_name.

Definition get_budget (m : DogeMarket) : Q :=
  get_reservable_quantity_by_kind (TxService.ops (service (doge_impl m))) DEFAULT_GOOD_KIND.

Definition get_buy_price (m : DogeMarket) (kind : GoodKind) (quantity : Q)
    : outcome MarketGetterError.t fval :=
  match DogeMarketImpl.get_buy_price (doge_impl m) kind quantity with
  | Ok p => Ok p
  | Err DogeGetBuyPriceError.NonPositiveRequest => Err MarketGetterError.NonPositiveQuantityAsked
  | Err (DogeGetBuyPriceError.ExceedsReservableQuantity r) =>
      Err (MarketGetterError.InsufficientGoodQuantityAvailable kind quantity r)
  | Panic r => Panic r
  end.

Definition get_sell_price (m : DogeMarket) (kind : GoodKind) (quantity : Q)
    : outcome MarketGetterError.t fval :=
  match DogeMarketImpl.get_sell_price (doge_impl m) kind quantity with
  | Ok p => Ok p
  | Err DogeGetSellPriceError.NonPositiveRequest => Err MarketGetterError.NonPositiveQuantityAsked
  | Panic r => Panic r
  end.

Definition get_goods (m : DogeMarket) : outcome unit (list GoodLabel) :=
  l1 ← make_label_for_kind (doge_impl m) EUR;
  l2 ← make_label_for_kind (doge_impl m) USD;
  l3 ← make_label_for_kind (doge_impl m) YEN;
  l4 ← make_label_for_kind (doge_impl m) YUAN;
  Ok [l1; l2; l3; l4].

Definition lock_buy (m : DogeMarket) (kind_to_buy : GoodKind) (quantity_to_buy bid : Q)
    (trader_name : string) (uuid : Uuid) (roll : Z)
    : outcome LockBuyError.t (string * DogeMarket * list effect) :=
  let proposal := BuyTx.mk_buy_proposal (Good.new kind_to_buy quantity_to_buy)
                    (Good.new DEFAULT_GOOD_KIND bid) in
  match do_buy_reservation (doge_impl m) proposal uuid with
  | Ok (u, impl1) =>
      impl2 ← infallible (advance_a_day impl1 roll);
      Ok (uuid_to_string u, mk_market impl2 (subscribers m),
          ELog (LogLockBuy (BuyTx.proposal_buy proposal) trader_name (BuyTx.proposal_bid proposal) (Some u))
          :: EAdvance
          :: publish (subscribers m) (mk_event LockedBuy kind_to_buy quantity_to_buy bid))
  | Err DogeBuyReservationError.NonPositiveBuy => Err (LockBuyError.NonPositiveQuantityToBuy quantity_to_buy)
  | Err DogeBuyReservationError.NonPositiveBid => Err (LockBuyError.NonPositiveBid bid)
  | Err (DogeBuyReservationError.ExceedsReservableQuantity r) =>
      Err (LockBuyError.InsufficientGoodQuantityAvailable kind_to_buy quantity_to_buy r)
  | Err (DogeBuyReservationError.BidTooLow l) =>
      Err (LockBuyError.BidTooLow kind_to_buy quantity_to_buy bid l)
  | Panic r => Panic r
  end.

Definition lock_sell (m : DogeMarket) (kind_to_sell : GoodKind) (quantity_to_sell offer : Q)
    (trader_name : string) (uuid : Uuid) (roll : Z)
    : outcome LockSellError.t (string * DogeMarket * list effect) :=
  let proposal := SellTx.mk_sell_proposal (Good.new kind_to_sell quantity_to_sell)
                    (Good.new DEFAULT_GOOD_KIND offer) in
  match do_sell_reservation (doge_impl m) proposal uuid with
  | Ok (u, impl1) =>
      impl2 ← infallible (advance_a_day impl1 roll);
      Ok (uuid_to_string u, mk_market impl2 (subscribers m),
          ELog (LogLockSell (SellTx.proposal_sell proposal) trader_name (SellTx.proposal_offer proposal) (Some u))
          :: EAdvance
          :: publish (subscribers m) (mk_event LockedSell kind_to_sell quantity_to_sell offer))
  | Err DogeSellReservationError.NonPositiveSell => Err (LockSellError.NonPositiveQuantityToSell quantity_to_sell)
  | Err DogeSellReservationError.NonPositiveOffer => Err (LockSellError.NonPositiveOffer offer)
  | Err (DogeSellReservationError.ExceedsReservableQuantity r) =>
      Err (LockSellError.InsufficientDefaultGoodQuantityAvailable kind_to_sell quantity_to_sell r)
  | Err (DogeSellReservationError.OfferTooHigh h) =>
      Err (LockSellError.OfferTooHigh kind_to_sell quantity_to_sell offer h)
  | Panic r => Panic r
  end.

Definition buy (m : DogeMarket) (token : string) (cash : Good) (roll : Z)
    : outcome BuyError.t (Good * DogeMarket * Good * list effect) :=
  match uuid_from_str token with
  | None => Err (BuyError.UnrecognizedToken token)
  | Some u =>
      match DogeMarketImpl.buy (doge_impl m) u cash with
      | Ok (bought, impl1, cash') =>
          impl2 ← infallible (advance_a_day impl1 roll);
          tx ← match TxService.get_buy (service impl2) u with
               | Some tx => Ok tx
               | None => Panic UnwrapOnErr
               end;
          Ok (bought, mk_market impl2 (subscribers m), cash',
              ELog (LogBuy u true) :: EAdvance
              :: publish (subscribers m) (mk_event Bought (get_kind (BuyTx.buy tx))
                                            (get_qty (BuyTx.buy tx)) (get_qty (BuyTx.bid tx))))
      | Err DogeBuyError.UnrecognizedUuid => Err (BuyError.UnrecognizedToken token)
      | Err (DogeBuyError.InvalidState BuyTx.Reserved) => Panic Unreachable
      | Err (DogeBuyError.InvalidState BuyTx.Paid) => Err (BuyError.UnrecognizedToken token)
      | Err (DogeBuyError.InvalidState BuyTx.Expired) => Err (BuyError.ExpiredToken token)
      | Err (DogeBuyError.WrongGoodKind _) => Err (BuyError.GoodKindNotDefault (get_kind cash))
      | Err (DogeBuyError.InsufficientGoodQuantity p) =>
          Err (BuyError.InsufficientGoodQuantity (get_qty cash) p)
      | Panic r => Panic r
      end
  end.

Definition sell (m : DogeMarket) (token : string) (good : Good) (roll : Z)
    : outcome SellError.t (Good * DogeMarket * Good * list effect) :=
  match uuid_from_str token with
  | None => Err (SellError.UnrecognizedToken token)
  | Some u =>
      match DogeMarketImpl.sell (doge_impl m) u good with
      | Ok (sold, impl1, good') =>
          impl2 ← infallible (advance_a_day impl1 roll);
          tx ← match TxService.get_sell (service impl2) u with
               | Some tx => Ok tx
               | None => Panic UnwrapOnErr
               end;
          Ok (sold, mk_market impl2 (subscribers m), good',
              ELog (LogSell u true) :: EAdvance
              :: publish (subscribers m) (mk_event Sold (get_kind (SellTx.sell tx))
                                            (get_qty (SellTx.sell tx)) (get_qty (SellTx.offer tx))))
      | Err DogeSellError.UnrecognizedUuid => Err (SellError.UnrecognizedToken token)
      | Err (DogeSellError.InvalidState SellTx.Reserved) => Panic Unreachable
      | Err (DogeSellError.InvalidState SellTx.Paid) => Err (SellError.UnrecognizedToken token)
      | Err (DogeSellError.InvalidState SellTx.Expired) => Err (SellError.ExpiredToken token)
      | Err (DogeSellError.WrongGoodKind pre) => Err (SellError.WrongGoodKind (get_kind good) pre)
      | Err (DogeSellError.InsufficientGoodQuantity p) =>
          Err (SellError.InsufficientGoodQuantity (get_qty good) p)
      | Panic r => Panic r
      end
  end.

End WithConsts.
End DogeMarket.

(** ** The market as a transition system *)

Import DogeMarketImpl DogeMarket TxService.

(** The invariant of a market: the service invariant and well-formed
    trackers. *)
Definition market_inv (m : DogeMarket) : Prop :=
  svc_inv (service (doge_impl m)) /\ refiller_wf (refiller (doge_impl m)).

Section Steps.
Context `{MarketConsts}.

(** One public operation of [DogeMarket] that returned normally; a new
    lock gets a fresh UUID. *)
Inductive market_step : DogeMarket -> DogeMarket -> Prop :=
| ms_lock_buy m k q bid name u roll tok m' tr :
    Service.fresh (service (doge_impl m)) u -> lock_buy m k q bid name u roll = Ok (tok, m', tr) ->
    market_step m m'
| ms_lock_sell m k q offer name u roll tok m' tr :
    Service.fresh (service (doge_impl m)) u -> lock_sell m k q offer name u roll = Ok (tok, m', tr) ->
    market_step m m'
| ms_buy m token cash roll g m' cash' tr :
    DogeMarket.buy m token cash roll = Ok (g, m', cash', tr) -> market_step m m'
| ms_sell m token good roll g m' good' tr :
    DogeMarket.sell m token good roll = Ok (g, m', good', tr) -> market_step m m'
| ms_on_event m e roll m' : on_event m e roll = Ok m' -> market_step m m'
| ms_subscribe m sub : market_step m (add_subscriber m sub).

(** The markets reachable from [new_with_quantities] with non-negative
    quantities. *)
Inductive market_reachable : DogeMarket -> Prop :=
| mr_new e y u yu m tr : 0 <= e -> 0 <= y -> 0 <= u -> 0 <= yu ->
    new_with_quantities e y u yu = Ok (m, tr) -> market_reachable m
| mr_step m m' : market_reachable m -> market_step m m' -> market_reachable m'.
End Steps.

(** ** Tokens *)

Lemma uuid_roundtrip u : uuid_from_str (uuid_to_string u) = Some u.
Proof.
  unfold uuid_from_str, uuid_to_string.
  change (HexString.of_pos u) with (HexString.of_N (Npos u)).
  rewrite HexString.to_N_of_N. by rewrite String.eqb_refl.
Qed.

Lemma uuid_from_str_canonical s u : uuid_from_str s = Some u -> uuid_to_string u = s.
Proof.
  unfold uuid_from_str. destruct (HexString.to_N s) as [| p]; [done |].
  destruct (String.eqb_spec (HexString.of_pos p) s); [| done]. by intros [= <-].
Qed.

(** ** Service facts used by the facade *)

Lemma svc_inv_set_assets s a : svc_inv s -> Account.account_wf a -> Account.account_nonneg a ->
  svc_inv (set_assets s a).
Proof.
  intros [Hwf Hnn Hr Hf Hb Hs Hd Hq Hdom] Wa Na.
  destruct Hwf as (_ & Wr & Wf). destruct Hnn as (_ & Nr & Nf).
  constructor; try done; cbn; by repeat split.
Qed.

(** Locks are never removed: ticking keeps every registered UUID. *)
Lemma expire_one_dom s u s' v : expire_one s u = Ok s' ->
  (is_Some (buys s !! v) -> is_Some (buys s' !! v)) /\
  (is_Some (sells s !! v) -> is_Some (sells s' !! v)).
Proof.
  unfold expire_one. intros H.
  destruct (buys s !! u) as [b |] eqn:Hu; [| destruct (sells s !! u) as [b |] eqn:Hu'];
    [destruct (BuyTx.expire b (ops s)) as [[tx' o] | |] | destruct (SellTx.expire b (ops s)) as [[tx' o] | |] |];
    cbn in H; simplify_eq; try done;
    split; intros Hv; cbn; try done; apply lookup_insert_is_Some'; by right.
Qed.

Lemma expire_each_dom us s s' v : expire_each us s = Ok s' ->
  (is_Some (buys s !! v) -> is_Some (buys s' !! v)) /\
  (is_Some (sells s !! v) -> is_Some (sells s' !! v)).
Proof.
  revert s. induction us as [| u us IH]; intros s H; cbn in H; [by simplify_eq |].
  destruct (expire_one s u) as [s1 | |] eqn:H1; try done. cbn in H.
  destruct (expire_one_dom s u s1 v H1), (IH s1 H). tauto.
Qed.

Lemma tick_all_dom s s' v : tick_all s = Ok s' ->
  (is_Some (buys s !! v) -> is_Some (buys s' !! v)) /\
  (is_Some (sells s !! v) -> is_Some (sells s' !! v)).
Proof.
  unfold tick_all. destruct (tick (TxService.deque s)) as [[e d'] | |]; try done. cbn.
  intros H. exact (expire_each_dom _ _ _ v H).
Qed.

(** [do_buy] reports [InvalidState] only for a settled or expired lock. *)
Lemma do_buy_invalid_state s u w st : do_buy s u w = Err (ServiceBuyError.InvalidState st) ->
  st <> BuyTx.Reserved.
Proof.
  unfold do_buy. destruct (buys s !! u) as [tx |]; [| done].
  destruct (BuyTx.buy_ tx (ops s) w) as [[[[? ?] ?] ?] | [] | ] eqn:E; intros [=]; subst.
  exact (buy_invalid_state _ _ _ _ E).
Qed.

Lemma do_sell_invalid_state s u w st : do_sell s u w = Err (ServiceSellError.InvalidState st) ->
  st <> SellTx.Reserved.
Proof.
  unfold do_sell. destruct (sells s !! u) as [tx |]; [| done].
  destruct (SellTx.sell_ tx (ops s) w) as [[[[? ?] ?] ?] | [] | ] eqn:E; intros [=]; subst.
  exact (sell_invalid_state _ _ _ _ E).
Qed.

(** ** The facade delegates to the service *)

Lemma impl_do_buy_reservation_ok m pr u u' m' :
  DogeMarketImpl.do_buy_reservation m pr u = Ok (u', m') ->
  TxService.do_buy_reservation (service m) pr u = Ok (u', service m') /\ refiller m' = refiller m.
Proof. unfold DogeMarketImpl.do_buy_reservation. intros H. repeat case_match; by simplify_eq. Qed.

Lemma impl_do_sell_reservation_ok m pr u u' m' :
  DogeMarketImpl.do_sell_reservation m pr u = Ok (u', m') ->
  TxService.do_sell_reservation (service m) pr u = Ok (u', service m') /\ refiller m' = refiller m.
Proof. unfold DogeMarketImpl.do_sell_reservation. intros H. repeat case_match; by simplify_eq. Qed.

Lemma impl_buy_ok m u w g m' w' : DogeMarketImpl.buy m u w = Ok (g, m', w') ->
  do_buy (service m) u w = Ok (g, service m', w') /\ refiller m' = refiller m.
Proof. unfold DogeMarketImpl.buy. intros H. repeat case_match; by simplify_eq. Qed.

Lemma impl_sell_ok m u w g m' w' : DogeMarketImpl.sell m u w = Ok (g, m', w') ->
  do_sell (service m) u w = Ok (g, service m', w') /\ refiller m' = refiller m.
Proof. unfold DogeMarketImpl.sell. intros H. repeat case_match; by simplify_eq. Qed.

Lemma infallible_ok {F A} (c : outcome unit A) a : @infallible F A c = Ok a -> c = Ok a.
Proof. by destruct c as [| [] |]; cbn; [intros [= ->] | |]. Qed.

Section Advance.
Context `{MarketConsts}.

(** A day keeps the service invariant and the trackers well formed. *)
Lemma advance_inv m roll m' : svc_inv (service m) -> refiller_wf (refiller m) ->
  advance_a_day m roll = Ok m' -> svc_inv (service m') /\ refiller_wf (refiller m').
Proof.
  intros Hi Hr Hop. unfold advance_a_day in Hop.
  destruct (tick_all (service m)) as [s1 | |] eqn:Ht; try done. cbn in Hop.
  pose proof (tick_all_inv _ _ Hi Ht) as Hi1.
  destruct (GoodRefiller.refill_goods _ _ _ roll) as [[r a] | |] eqn:Hf; try done.
  injection Hop as <-. destruct (inv_wf s1 Hi1) as (Wa & _ & _). destruct (inv_nonneg s1 Hi1) as (Na & _ & _).
  destruct (refill_goods_wf _ _ _ _ _ _ Hr Wa Na Hf) as (Hr' & Wa' & Na').
  split; [by apply svc_inv_set_assets | done].
Qed.

(** A market created with non-negative quantities satisfies the invariant. *)
Lemma market_new_inv e y u yu m tr : 0 <= e -> 0 <= y -> 0 <= u -> 0 <= yu ->
  new_with_quantities e y u yu = Ok (m, tr) -> market_inv m.
Proof.
  intros He Hy Hu Hyu Hnew. unfold new_with_quantities, new_with_goods, DogeMarketImpl.new in Hnew.
  destruct (TxService.new _ 10) as [s | |] eqn:Hs'; try done. cbn in Hnew.
  injection Hnew as <- _. split; [| apply new_wf].
  refine (svc_inv_new _ 10 s _ _ Hs'); [by intros [] | intros []; cbn; done].
Qed.

Lemma market_step_inv m m' : market_inv m -> market_step m m' -> market_inv m'.
Proof.
  intros [Hi Hr] Hst. destruct Hst as [m k q bid name u roll tok m' tr Hf Hop
    | m k q offer name u roll tok m' tr Hf Hop | m token cash roll g m' cash' tr Hop
    | m token good roll g m' good' tr Hop | m e roll m' Hop | m sub].
  - unfold lock_buy in Hop. destruct (DogeMarketImpl.do_buy_reservation _ _ u) as [[u' i1] | e |] eqn:E;
      [| destruct e; done | done].
    destruct (impl_do_buy_reservation_ok _ _ _ _ _ E) as [E1 R1].
    destruct (do_buy_reservation_inv _ _ _ _ _ Hi Hf E1) as [_ Hi1].
    destruct (advance_a_day i1 roll) as [i2 | [] |] eqn:A; cbn in Hop; try done.
    injection Hop as _ <- _. apply (advance_inv i1 roll); [done | by rewrite R1 | done].
  - unfold lock_sell in Hop. destruct (DogeMarketImpl.do_sell_reservation _ _ u) as [[u' i1] | e |] eqn:E;
      [| destruct e; done | done].
    destruct (impl_do_sell_reservation_ok _ _ _ _ _ E) as [E1 R1].
    destruct (do_sell_reservation_inv _ _ _ _ _ Hi Hf E1) as [_ Hi1].
    destruct (advance_a_day i1 roll) as [i2 | [] |] eqn:A; cbn in Hop; try done.
    injection Hop as _ <- _. apply (advance_inv i1 roll); [done | by rewrite R1 | done].
  - unfold DogeMarket.buy in Hop. destruct (uuid_from_str token) as [u |]; [| done].
    destruct (DogeMarketImpl.buy _ u cash) as [[[g1 i1] c1] | e |] eqn:E; [| destruct e as [| [] | |]; done | done].
    destruct (impl_buy_ok _ _ _ _ _ _ E) as [E1 R1]. pose proof (do_buy_inv _ _ _ _ _ _ Hi E1) as Hi1.
    destruct (advance_a_day i1 roll) as [i2 | [] |] eqn:A; cbn in Hop; try done.
    destruct (TxService.get_buy (service i2) u); cbn in Hop; [| done].
    injection Hop as _ <- _ _. apply (advance_inv i1 roll); [done | by rewrite R1 | done].
  - unfold DogeMarket.sell in Hop. destruct (uuid_from_str token) as [u |]; [| done].
    destruct (DogeMarketImpl.sell _ u good) as [[[g1 i1] c1] | e |] eqn:E; [| destruct e as [| [] | |]; done | done].
    destruct (impl_sell_ok _ _ _ _ _ _ E) as [E1 R1]. pose proof (do_sell_inv _ _ _ _ _ _ Hi E1) as Hi1.
    destruct (advance_a_day i1 roll) as [i2 | [] |] eqn:A; cbn in Hop; try done.
    destruct (TxService.get_sell (service i2) u); cbn in Hop; [| done].
    injection Hop as _ <- _ _. apply (advance_inv i1 roll); [done | by rewrite R1 | done].
  - unfold on_event in Hop. destruct (advance_a_day (doge_impl m) roll) as [i2 | |] eqn:A; try done.
    injection Hop as <-. exact (advance_inv _ _ _ Hi Hr A).
  - done.
Qed.
End Advance.

Lemma impl_buy_err_state m u w st : DogeMarketImpl.buy m u w = Err (DogeBuyError.InvalidState st) ->
  do_buy (service m) u w = Err (ServiceBuyError.InvalidState st).
Proof. unfold DogeMarketImpl.buy. intros H. repeat case_match; by simplify_eq. Qed.

Lemma impl_buy_panic m u w r : DogeMarketImpl.buy m u w = Panic r -> do_buy (service m) u w = Panic r.
Proof. unfold DogeMarketImpl.buy. intros H. repeat case_match; by simplify_eq. Qed.

(** Settling a buy lock leaves it registered. *)
Lemma do_buy_dom s u w g s' w' : svc_inv s -> do_buy s u w = Ok (g, s', w') -> is_Some (buys s' !! u).
Proof.
  intros Hi H. destruct (do_buy_cases s u w Hi) as [[e He] | (tx & _ & _ & He)];
    rewrite He in H; [done |]. injection H as _ <- _. cbn. rewrite lookup_insert_eq. eauto.
Qed.

Lemma advance_buys_dom `{MarketConsts} m roll m' v : advance_a_day m roll = Ok m' ->
  is_Some (buys (service m) !! v) -> is_Some (buys (service m') !! v).
Proof.
  unfold advance_a_day. destruct (tick_all (service m)) as [s1 | |] eqn:Ht; try done. cbn.
  destruct (GoodRefiller.refill_goods _ _ _ roll) as [[r a] | |]; try done. intros [= <-].
  apply (tick_all_dom _ _ v Ht).
Qed.

(** ** Properties of the market *)

Section MarketProperties.
Context `{MarketConsts}.

(** C1: Every market reachable from [new_with_quantities] with non-negative
    quantities, through locks under fresh UUIDs, settlements, notifications
    and subscriptions, satisfies the service invariant (non-negative ledger
    whose reservations and futures are exactly the outstanding locks) and
    has well-formed trackers. *)
Theorem market_reachable_inv m : market_reachable m -> market_inv m.
Proof.
  induction 1 as [e y u yu m tr He Hy Hu Hyu Hnew | m m' _ IH Hst].
  - exact (market_new_inv e y u yu m tr He Hy Hu Hyu Hnew).
  - exact (market_step_inv m m' IH Hst).
Qed.

(** C31: Under the invariant, [buy] panics only inside the day advance that
    follows a successful settlement ([tick_all] or [refill_goods]): the
    [unreachable!()] of the error mapping and the [unwrap] of [get_buy]
    are never reached. *)
Theorem buy_panics_only_in_advance m token cash roll : market_inv m ->
  is_panic (DogeMarket.buy m token cash roll) = true ->
  exists u g i1 cash', uuid_from_str token = Some u /\
    DogeMarketImpl.buy (doge_impl m) u cash = Ok (g, i1, cash') /\
    forall i2, advance_a_day i1 roll <> Ok i2.
Proof.
  intros [Hi Hr]. unfold DogeMarket.buy. destruct (uuid_from_str token) as [u |]; [| done].
  destruct (DogeMarketImpl.buy (doge_impl m) u cash) as [[[g i1] c1] | e | r] eqn:E.
  - destruct (advance_a_day i1 roll) as [i2 | [] | r] eqn:A; cbn; intros Hp.
    + destruct (impl_buy_ok _ _ _ _ _ _ E) as [E1 _].
      destruct (advance_buys_dom _ _ _ u A (do_buy_dom _ _ _ _ _ _ Hi E1)) as [tx Htx].
      unfold TxService.get_buy in Hp. by rewrite Htx in Hp.
    + exists u, g, i1, c1. by split; [| split; [| congruence]].
    + exists u, g, i1, c1. by split; [| split; [| congruence]].
  - destruct e as [| [] | |]; cbn; try done.
    apply impl_buy_err_state, do_buy_invalid_state in E. done.
  - apply impl_buy_panic in E. intros _.
    destruct (do_buy_cases _ u cash Hi) as [[e He] | (tx & _ & _ & He)]; congruence.
Qed.

(** Settling the token of a lock that is already paid or expired fails
    with the public error the spec names: an unknown token for a paid
    lock, an expired token for an expired one. *)
Theorem buy_terminal_token_errors m u tx cash roll :
  buys (service (doge_impl m)) !! u = Some tx ->
  (BuyTx.state tx = BuyTx.Expired ->
   DogeMarket.buy m (uuid_to_string u) cash roll = Err (BuyError.ExpiredToken (uuid_to_string u))) /\
  (BuyTx.state tx = BuyTx.Paid ->
   DogeMarket.buy m (uuid_to_string u) cash roll = Err (BuyError.UnrecognizedToken (uuid_to_string u))).
Proof.
  intros Hu. unfold DogeMarket.buy. rewrite uuid_roundtrip.
  unfold DogeMarketImpl.buy, do_buy. rewrite Hu.
  split; intros Hs; rewrite (proj1 (buy_settle_errors tx _ cash)) by (rewrite Hs; done);
    rewrite Hs; done.
Qed.

(** [get_goods] reports the saturated buy rate [f32::MAX] for a kind with
    less than one unit free (buying one unit exceeds the free stock). *)
Theorem make_label_saturates m k :
  get_reservable_quantity_by_kind (TxService.ops (service m)) k < 1 ->
  exists rs, make_label_for_kind m k =
    Ok (mk_label k (get_reservable_quantity_by_kind (TxService.ops (service m)) k) (Fin f32_MAX) rs).
Proof.
  intros Hlt. pose proof (earn_percentage_nonneg k).
  unfold make_label_for_kind, compute_buy_exchange_rate, compute_sell_exchange_rate,
    compute_buy_price, compute_sell_price.
  repeat (case_decide; try (exfalso; lra)). all: cbn; by eexists.
Qed.

(** The random starting inventory is worth exactly the starting capital
    less one ten-millionth, so at most the starting capital (the property
    the source's [test_starting_capital] checks). *)
Theorem new_random_quantities_value :
  exists eur yen usd yuan, new_random_quantities = [eur; yen; usd; yuan] /\
    Account.get_total_account_value_in_eur (mk_account eur usd yen yuan) ==
      (1 - 1 / 10000000) * STARTING_CAPITAL.
Proof.
  eexists _, _, _, _. split; [reflexivity |].
  pose proof usd_rate_pos. pose proof yen_rate_pos. pose proof yuan_rate_pos.
  unfold Account.get_total_account_value_in_eur, Account.get_quantity_by_kind. cbn.
  field. repeat split; intros E; rewrite E in *; lra.
Qed.
End MarketProperties.

(** ** Witnesses *)

#[local] Existing Instance sample_consts.

(** A market short of yen, with no kind abundant enough to export. *)
Definition scenario_new : outcome unit (DogeMarket * list effect) :=
  new_with_quantities 240000 1000000 125000 875000.

Definition scenario_m0 : DogeMarket :=
  match scenario_new with Ok (m, _) => m | _ => mk_market (DogeMarketImpl.mk_impl sample_service GoodRefiller.new) [] end.

(** A trader locks the sale of 10^8 USD for 230000 EUR: most euros are
    now reserved. *)
Definition scenario_lock_sell : outcome LockSellError.t (string * DogeMarket * list effect) :=
  lock_sell scenario_m0 USD 100000000 230000 EmptyString 1%positive 50.

Definition scenario_m1 : DogeMarket :=
  match scenario_lock_sell with Ok (_, m, _) => m | _ => scenario_m0 end.

(** The trader locks the purchase of 1 USD for a bid of 20000 EUR. *)
Definition scenario_lock_buy : outcome LockBuyError.t (string * DogeMarket * list effect) :=
  lock_buy scenario_m1 USD 1 20000 EmptyString 2%positive 50.

Definition scenario_m2 : DogeMarket :=
  match scenario_lock_buy with Ok (_, m, _) => m | _ => scenario_m1 end.

Lemma scenario_m2_inv : market_inv scenario_m2.
Proof.
  assert (H0 : market_inv scenario_m0)
    by (apply (market_new_inv 240000 1000000 125000 875000 _ [ELog (LogInitialization
          (Good.new EUR 240000) (Good.new USD 125000) (Good.new YEN 1000000) (Good.new YUAN 875000))]);
        [lra | lra | lra | lra | vm_compute; reflexivity]).
  assert (H1 : market_inv scenario_m1).
  { apply (market_step_inv scenario_m0); [done |].
    eapply (ms_lock_sell _ USD 100000000 230000 EmptyString 1%positive 50);
      [split; vm_compute; reflexivity | vm_compute; reflexivity]. }
  apply (market_step_inv scenario_m1); [done |].
  eapply (ms_lock_buy _ USD 1 20000 EmptyString 2%positive 50);
    [split; vm_compute; reflexivity | vm_compute; reflexivity].
Qed.

Lemma market_reachable_inv_witness :
  market_reachable scenario_m0 /\ market_inv scenario_m0.
Proof.
  assert (R : market_reachable scenario_m0).
  { apply (mr_new 240000 1000000 125000 875000 _ [ELog (LogInitialization
          (Good.new EUR 240000) (Good.new USD 125000) (Good.new YEN 1000000) (Good.new YUAN 875000))]);
      [lra | lra | lra | lra | vm_compute; reflexivity]. }
  split; [exact R | exact (market_reachable_inv scenario_m0 R)].
Defined.

(** Paying the buy lock makes the following day advance panic: the bid
    lifts the euro stock above twice its threshold, yen is short, and the
    rebalancer withdraws 135000 EUR from a free stock of 30000 EUR. *)
Lemma buy_panics_only_in_advance_witness :
  is_panic (DogeMarket.buy scenario_m2 (uuid_to_string 2%positive) (Good.new EUR 20000) 50) = true /\
  exists u g i1 cash', uuid_from_str (uuid_to_string 2%positive) = Some u /\
    DogeMarketImpl.buy (doge_impl scenario_m2) u (Good.new EUR 20000) = Ok (g, i1, cash') /\
    forall i2, advance_a_day i1 50 <> Ok i2.
Proof.
  assert (Hp : is_panic (DogeMarket.buy scenario_m2 (uuid_to_string 2%positive) (Good.new EUR 20000) 50) = true)
    by (vm_compute; reflexivity).
  split; [exact Hp |].
  exact (buy_panics_only_in_advance scenario_m2 _ _ 50 scenario_m2_inv Hp).
Defined.

Lemma buy_terminal_token_errors_witness :
  exists tx, buys (service (doge_impl scenario_m2)) !! 2%positive = Some tx /\
    (BuyTx.state tx = BuyTx.Expired ->
     DogeMarket.buy scenario_m2 (uuid_to_string 2%positive) (Good.new EUR 20000) 50 =
     Err (BuyError.ExpiredToken (uuid_to_string 2%positive))).
Proof.
  eexists. split; [vm_compute; reflexivity |].
  apply (buy_terminal_token_errors scenario_m2 2%positive _ _ 50). vm_compute. reflexivity.
Defined.

(** A market holding half a yuan free. *)
Definition label_market : DogeMarket :=
  match new_with_quantities 1000 1000 1000 (1 # 2) with Ok (m, _) => m | _ => scenario_m0 end.

Lemma make_label_saturates_witness :
  exists rs, make_label_for_kind (doge_impl label_market) YUAN =
    Ok (mk_label YUAN (1 # 2) (Fin f32_MAX) rs).
Proof. apply make_label_saturates. vm_compute. reflexivity. Defined.
