(* ===== verification/Tests.v ===== *)
(** * The unit tests of the crate, run on the model

    Each [#[test]] function of account_ops.rs, tick_deque.rs, refiller.rs
    and dogemarket.rs is a definition of type [test]: its body calls the
    model's operations in the order of the source and returns [Ok tt] when
    every assertion holds, while a failed [assert!], [assert_eq!] or
    [unwrap] panics as in Rust.  The theorems evaluate them: every test of
    the crate that the rational model can represent passes.  The two tests
    of market.rs put an infinite [f32] quantity into a [Good] and are not
    represented (quantities are rationals). *)

From S2P Require Import Prelude Goods Ledger TickDeque Refiller Service Market.
From Stdlib Require Import ZArith String Qabs.
Open Scope Q_scope.
Import AccountOps.

(** ** The test harness *)

Definition test := outcome unit unit.

(** [assert!(b)]. *)
Definition assert_ (b : bool) : test := if b then Ok tt else Panic AssertFailed.

(** [.unwrap_err()]: the error, or a panic on a result. *)
Definition unwrap_err {E A F} (c : outcome E A) : outcome F E :=
  match c with Ok _ => Panic UnwrapOnErr | Err e => Ok e | Panic r => Panic r end.

(** [assert_eq!] on an [f32] result and a finite expected value. *)
Definition fin_eqb (x : fval) (b : Q) : bool :=
  match x with Fin a => bool_decide (a == b) | _ => false end.

(** [assert_approx_eq!(a, b, eps)]: [|a - b| < eps]. *)
Definition approx_eqb (x : fval) (b eps : Q) : bool :=
  match x with Fin a => bool_decide (Qabs (a - b) < eps) | _ => false end.

(** [v[i]]. *)
Definition index {A} (l : list A) (i : nat) : outcome unit A :=
  match nth_error l i with Some x => Ok x | None => Panic IndexOutOfBounds end.

(** [#[derive(PartialEq)]] on the price errors. *)
Definition buy_price_error_eqb (e1 e2 : BuyPriceComputationError.t) : bool :=
  match e1, e2 with
  | BuyPriceComputationError.NonPositiveQuantity, BuyPriceComputationError.NonPositiveQuantity => true
  | BuyPriceComputationError.NegativeExchangeRateEarnPercentage,
    BuyPriceComputationError.NegativeExchangeRateEarnPercentage => true
  | BuyPriceComputationError.ExceedsReservableQuantity r1,
    BuyPriceComputationError.ExceedsReservableQuantity r2 => bool_decide (r1 == r2)
  | _, _ => false
  end.

Definition sell_price_error_eqb (e1 e2 : SellPriceComputationError.t) : bool :=
  match e1, e2 with
  | SellPriceComputationError.NonPositiveQuantity, SellPriceComputationError.NonPositiveQuantity => true
  | SellPriceComputationError.NegativeExchangeEarnRatePercentage,
    SellPriceComputationError.NegativeExchangeEarnRatePercentage => true
  | _, _ => false
  end.

(** [Account { eur: Good::new(EUR, e), usd: .., yen: .., yuan: .. }]. *)
Definition acc4 (e u y yu : Q) : Account :=
  mk_account (Good.new EUR e) (Good.new USD u) (Good.new YEN y) (Good.new YUAN yu).

(** [f32::MIN_POSITIVE] = 2^-126. *)
Definition f32_MIN_POSITIVE : Q := Qmake 1 (2 ^ 126).

(** ** account_ops.rs *)

Module AccountOpsTests.

Definition eur_eur_exchange_buy : test :=
  let ops := of_assets (acc4 120000 0 0 0) in
  computed ← unwrap (compute_buy_price ops EUR 77 1);
  let expected := 77 + 77 * (1 # 100) in
  assert_ (fin_eqb computed expected).

Definition eur_eur_exchange_sell : test :=
  let ops := of_assets (acc4 120000 0 0 0) in
  computed ← unwrap (compute_sell_price ops EUR 325 1);
  let expected := 325 - 325 * (1 # 100) in
  assert_ (fin_eqb computed expected).

Definition buy_not_enough_quantity_eur : test :=
  let ops := mk_ops (acc4 2000 0 0 0) (acc4 5000 0 0 0) Account.new_empty in
  computed ← unwrap_err (compute_buy_price ops EUR 5000 1);
  let expected := BuyPriceComputationError.ExceedsReservableQuantity 2000 in
  assert_ (buy_price_error_eqb computed expected).

Definition buy_not_enough_quantity_1 : test :=
  let ops := of_assets (acc4 10000 4000 0 0) in
  computed ← unwrap_err (compute_buy_price ops USD 9874 1);
  let expected := BuyPriceComputationError.ExceedsReservableQuantity 4000 in
  assert_ (buy_price_error_eqb computed expected).

Definition buy_not_enough_quantity_2 : test :=
  let ops := mk_ops (acc4 10000 4000 0 0) (acc4 100000 40000 0 0) Account.new_empty in
  computed ← unwrap_err (compute_buy_price ops USD 9874 1);
  let expected := BuyPriceComputationError.ExceedsReservableQuantity 4000 in
  assert_ (buy_price_error_eqb computed expected).

Definition test_buy_computed_1 : test :=
  let ops := of_assets (acc4 1000 2000 0 0) in
  computed ← unwrap (compute_buy_price ops USD 1800 1);
  assert_ (fin_eqb computed 9090).

Definition test_buy_computed_1_1 : test :=
  let ops := mk_ops (acc4 500 1900 0 0) (acc4 500 100 0 0) Account.new_empty in
  computed ← unwrap (compute_buy_price ops USD 1800 1);
  assert_ (fin_eqb computed 18180).

Definition test_buy_computed_1_2 : test :=
  let ops := mk_ops (acc4 500 1900 0 0) (acc4 500 100 0 0) (acc4 200 300 0 0) in
  computed ← unwrap (compute_buy_price ops USD 1800 1);
  assert_ (fin_eqb computed 21816).

Definition test_buy_computed_2 : test :=
  let ops := of_assets (acc4 53000 0 400000 0) in
  computed ← unwrap (compute_buy_price ops YEN 54879 1);
  assert_ (approx_eqb computed 8512 1).

Definition test_buy_computed_2_1 : test :=
  let ops := mk_ops (acc4 49000 0 325000 0) (acc4 4000 75000 0 0) Account.new_empty in
  computed ← unwrap (compute_buy_price ops YEN 54879 1);
  assert_ (approx_eqb computed 10875 1).

Definition test_buy_computed_2_2 : test :=
  let ops := mk_ops (acc4 49000 0 325000 0) (acc4 4000 75000 0 0) (acc4 8000 18000 0 0) in
  computed ← unwrap (compute_buy_price ops YEN 54879 1);
  assert_ (approx_eqb computed 12516 1).

Definition test_sell_computed_1 : test :=
  let ops := of_assets (acc4 35000 0 0 75000) in
  computed ← unwrap (compute_sell_price ops YUAN 10500 1);
  assert_ (approx_eqb computed 4255 1).

Definition test_sell_computed_1_1 : test :=
  let ops := mk_ops (acc4 20000 0 0 40000) (acc4 15000 0 0 35000) Account.new_empty in
  computed ← unwrap (compute_sell_price ops YUAN 10500 1);
  assert_ (approx_eqb computed 2431 1).

Definition test_sell_computed_1_2 : test :=
  let ops := mk_ops (acc4 20000 0 0 40000) (acc4 15000 0 0 35000) (acc4 5000 0 0 14000) in
  computed ← unwrap (compute_sell_price ops YUAN 10500 1);
  assert_ (approx_eqb computed 2089 1).

Definition test_sell_computed_2 : test :=
  let ops := of_assets (acc4 98478 35454 0 0) in
  computed ← unwrap (compute_sell_price ops USD 36000 1);
  assert_ (approx_eqb computed 49119 1).

Definition test_sell_computed_2_1 : test :=
  let ops := mk_ops (acc4 90000 30000 0 0) (acc4 8478 5454 0 0) Account.new_empty in
  computed ← unwrap (compute_sell_price ops USD 36000 1);
  assert_ (approx_eqb computed 44890 1).

Definition test_sell_computed_2_2 : test :=
  let ops := mk_ops (acc4 90000 30000 0 0) (acc4 8478 5454 0 0) (acc4 25000 15000 0 0) in
  computed ← unwrap (compute_sell_price ops USD 36000 1);
  assert_ (approx_eqb computed 37101 1).

Definition requested_is_zero : test :=
  let ops := of_assets (acc4 90000 30000 0 0) in
  computed ← unwrap_err (compute_sell_price ops USD 0 1);
  assert_ (sell_price_error_eqb computed SellPriceComputationError.NonPositiveQuantity).

Definition exceeds_reservable : test :=
  let ops := of_assets (acc4 90000 30000 0 0) in
  computed ← unwrap_err (compute_buy_price ops YEN 29000 1);
  assert_ (buy_price_error_eqb computed (BuyPriceComputationError.ExceedsReservableQuantity 0)).

Definition requested_is_zero_and_exceeds_reservable : test :=
  let ops := of_assets (acc4 90000 30000 0 0) in
  computed ← unwrap_err (compute_buy_price ops YEN 0 1);
  assert_ (buy_price_error_eqb computed BuyPriceComputationError.NonPositiveQuantity).

Definition requested_is_minimum : test :=
  let ops := mk_ops (acc4 90000 30000 0 0) Account.new_empty Account.new_empty in
  computed ← unwrap (compute_buy_price ops USD f32_MIN_POSITIVE 1);
  assert_ (negb (fin_eqb computed 0)).

Definition all : list test :=
  [eur_eur_exchange_buy; eur_eur_exchange_sell; buy_not_enough_quantity_eur;
   buy_not_enough_quantity_1; buy_not_enough_quantity_2; test_buy_computed_1;
   test_buy_computed_1_1; test_buy_computed_1_2; test_buy_computed_2; test_buy_computed_2_1;
   test_buy_computed_2_2; test_sell_computed_1; test_sell_computed_1_1; test_sell_computed_1_2;
   test_sell_computed_2; test_sell_computed_2_1; test_sell_computed_2_2; requested_is_zero;
   exceeds_reservable; requested_is_zero_and_exceeds_reservable; requested_is_minimum].

End AccountOpsTests.

(** ** tick_deque.rs *)

Module TickDequeTests.

Definition test_empty_deque : test :=
  td ← TickDeque.new (T:=string) 1;
  '(expired, _) ← tick td;
  assert_ (match expired with [] => true | _ => false end).

Definition test_1_max_ticks : test :=
  td ← TickDeque.new 1;
  let td := push_back td "first"%string in
  let td := push_back td "second"%string in
  '(expired, _) ← tick td;
  e0 ← index expired 0; _ ← assert_ (String.eqb e0 "first");
  e1 ← index expired 1; assert_ (String.eqb e1 "second").

Definition test_2_max_ticks : test :=
  td ← TickDeque.new 2;
  let td := push_back td "first"%string in
  let td := push_back td "second"%string in
  '(expired, td) ← tick td;
  _ ← assert_ (match expired with [] => true | _ => false end);
  '(expired, _) ← tick td;
  e0 ← index expired 0; _ ← assert_ (String.eqb e0 "first");
  e1 ← index expired 1; assert_ (String.eqb e1 "second").

Definition all : list test := [test_empty_deque; test_1_max_ticks; test_2_max_ticks].

End TickDequeTests.

(** ** refiller.rs *)

Module RefillerTests.

Definition days_should_pass : test :=
  let tracker := GoodTracker.new EUR in
  let tracker := mk_tracker (kind tracker) (Importer 0) in
  let tracker := GoodTracker.advance_a_day tracker in
  match mode tracker with
  | Importer days_passed_as_importer => assert_ (Z.eqb days_passed_as_importer 1)
  | _ => Panic ExplicitPanic
  end.

Section WithConsts.
Context `{MarketConsts}.

(** [tests::test]: four refills of the test inventory, the [i]-th drawing
    [roll_i] from [gen_range(0..100)]; the [println!]s are not modelled. *)
Definition refill_test (roll1 roll2 roll3 roll4 : Z) : test :=
  let assets := acc4 500000 (25000 * DEFAULT_EUR_USD_EXCHANGE_RATE)
                  (250000 * DEFAULT_EUR_YEN_EXCHANGE_RATE) (250000 * DEFAULT_EUR_YUAN_EXCHANGE_RATE) in
  let reservations := Account.new_empty in
  let refiller := GoodRefiller.new in
  '(refiller, assets) ← GoodRefiller.refill_goods refiller assets reservations roll1;
  '(refiller, assets) ← GoodRefiller.refill_goods refiller assets reservations roll2;
  '(refiller, assets) ← GoodRefiller.refill_goods refiller assets reservations roll3;
  '(refiller, assets) ← GoodRefiller.refill_goods refiller assets reservations roll4;
  Ok tt.

End WithConsts.

End RefillerTests.

(** ** dogemarket.rs *)

Module DogeMarketTests.

Section WithConsts.
Context `{MarketConsts}.

(** The closure of [test_starting_capital]: a label's quantity in euros. *)
Definition label_value (label : GoodLabel) : Q :=
  if decide (good_kind label = DEFAULT_GOOD_KIND) then quantity label
  else quantity label / get_default_exchange_rate (good_kind label).

Definition test_starting_capital : test :=
  '(market, _) ← DogeMarket.new_random;
  labels ← DogeMarket.get_goods market;
  let sum := fold_left Qplus (map label_value labels) 0 in
  assert_ (bool_decide (sum <= 1000000)).

End WithConsts.

End DogeMarketTests.

(** ** The tests pass *)

(** One refill of an inventory without reservations returns normally and
    keeps the refiller and the account well formed and non-negative. *)
Lemma refill_step `{MarketConsts} r a roll : refiller_wf r -> Account.account_wf a ->
  Account.account_nonneg a ->
  exists r' a', GoodRefiller.refill_goods r a Account.new_empty roll = Ok (r', a') /\
    refiller_wf r' /\ Account.account_wf a' /\ Account.account_nonneg a'.
Proof.
  intros Hr Ha Na.
  destruct (refill_goods_ok r a Account.new_empty roll Hr Ha) as (r' & a' & E).
  { intros k. pose proof (threshold_pos k). by destruct k; cbv [Account.get_quantity_by_kind]; simpl; lra. }
  exists r', a'. split; [done |]. exact (refill_goods_wf _ _ _ _ _ _ Hr Ha Na E).
Qed.

(** Run the refills of a goal one after the other, each from the
    well-formedness facts that the previous one established. *)
Ltac refill_chain :=
  repeat match goal with
  | Hr : refiller_wf ?r, Ha : Account.account_wf ?a, Na : Account.account_nonneg ?a
    |- context [GoodRefiller.refill_goods ?r ?a Account.new_empty ?roll] =>
      let r' := fresh "r" in let a' := fresh "a" in
      destruct (refill_step r a roll Hr Ha Na) as (r' & a' & -> & ? & ? & ?);
      rewrite bind_Ok; cbv beta iota; clear Hr Ha Na
  end.

(** Every unit test of account_ops.rs passes on the model of the ledger:
    the exact prices of [test_buy_computed_*], the approximate ones of
    [test_sell_computed_*] within 1, and the errors of the boundary tests
    ([requested_is_zero], [exceeds_reservable], the minimum positive
    [f32] request). *)
Theorem account_ops_tests_pass : Forall (fun t => t = Ok tt) AccountOpsTests.all.
Proof. vm_compute. repeat constructor. Qed.

(** The three unit tests of tick_deque.rs pass: a token pushed at tick 0
    comes out, in push order, from the [max_ticks]-th tick. *)
Theorem tick_deque_tests_pass : Forall (fun t => t = Ok tt) TickDequeTests.all.
Proof. vm_compute. repeat constructor. Qed.

(** [days_should_pass] passes, and [tests::test] of refiller.rs passes
    for every value of the market constants and every four rolls of the
    random generator: the four refills of the test inventory never panic. *)
Theorem refiller_tests_pass `{MarketConsts} roll1 roll2 roll3 roll4 :
  RefillerTests.days_should_pass = Ok tt /\
  RefillerTests.refill_test roll1 roll2 roll3 roll4 = Ok tt.
Proof.
  split; [reflexivity |]. unfold RefillerTests.refill_test.
  pose proof usd_rate_pos. pose proof yen_rate_pos. pose proof yuan_rate_pos.
  assert (Account.account_nonneg (acc4 500000 (25000 * DEFAULT_EUR_USD_EXCHANGE_RATE)
            (250000 * DEFAULT_EUR_YEN_EXCHANGE_RATE) (250000 * DEFAULT_EUR_YUAN_EXCHANGE_RATE))).
  { intros []; cbv [Account.get_quantity_by_kind]; simpl; lra. }
  pose proof new_wf. assert (Account.account_wf (acc4 500000 (25000 * DEFAULT_EUR_USD_EXCHANGE_RATE)
            (250000 * DEFAULT_EUR_YEN_EXCHANGE_RATE) (250000 * DEFAULT_EUR_YUAN_EXCHANGE_RATE)))
    by (by intros []).
  refill_chain. done.
Qed.

(** [test_starting_capital] of dogemarket.rs passes with the sample
    constants: the euro value of the labels of a fresh market is at most
    1 000 000. *)
Theorem dogemarket_test_passes : @DogeMarketTests.test_starting_capital sample_consts = Ok tt.
Proof. vm_compute. reflexivity. Qed.
