(* ===== verification/Trader.v ===== *)
(** * The trader's market primitives: doge_trader/src/strategy/common.rs

    The trader talks to any market through the [Market] trait of
    unitn_market_2022.  The trait is the class [Market] below; the
    functions of common.rs ([lock_buy], [lock_sell], [buy], [sell],
    [direct_buy], [direct_sell], [get_market_good_quantity]) and the
    random single-market strategy are written once against it, and their
    theorems are proved against the class.  The instance [doge_market]
    makes the DogeMarket model of Market.v a market for the trader, and the
    composition theorems are proved on it.

    The trader mutates its [Account], the market behind [Rc<RefCell<..>>]
    and emits one [TradingEvent] per market call to its handler.  These
    are the three fields of [World]; the functions run in the state and
    error monad [TM]: an [Err] returns early and keeps the effects done so
    far, as a Rust [return Err(..)] does, and a [Panic] ends the run.

    Prices are [f32] ([fval]); the trait's quantities and the accounts are
    rationals.  A price that is not finite, passed on as a bid or an offer,
    leaves the model: the step is the panic [OutOfModel]. *)

From S2P Require Import Prelude Goods Ledger Transactions TickDeque Service Refiller Market.
From Stdlib Require Import String.
Open Scope Q_scope.

(** ** The [Market] trait *)

(** The methods of [unitn_market_2022::market::Market] that the trader
    calls.  A market draws random values (a UUID, a roll) in the calls that
    change it; they are an [entropy] input.  A call that returns [Err]
    leaves the market unchanged, and [buy] and [sell] return the rest of
    the good handed over ([&mut cash]).  [on_event] (of the supertrait
    [Notifiable]) returns [()]: it has no error and can only panic. *)
Class Market (M : Type) := {
  entropy : Type;
  market_get_buy_price : M -> GoodKind -> Q -> outcome MarketGetterError.t fval;
  market_get_sell_price : M -> GoodKind -> Q -> outcome MarketGetterError.t fval;
  market_get_goods : M -> outcome unit (list GoodLabel);
  market_get_budget : M -> Q;
  market_lock_buy : M -> GoodKind -> Q -> Q -> string -> entropy -> outcome LockBuyError.t (string * M);
  market_lock_sell : M -> GoodKind -> Q -> Q -> string -> entropy -> outcome LockSellError.t (string * M);
  market_buy : M -> string -> Good -> entropy -> outcome BuyError.t (Good * M * Good);
  market_sell : M -> string -> Good -> entropy -> outcome SellError.t (Good * M * Good);
  market_get_name : M -> string;
  market_on_event : M -> Event -> entropy -> outcome Empty_set M
}.

(** ** The trader's data: lib.rs, event.rs, common.rs *)

Definition DOGE_TRADER_NAME : string := "DOGE".

(** [Result<A, E>] of a market call, as carried by an event. *)
Inductive TradingEventType :=
| LockBuy (kind : GoodKind) (quantity bid : Q) (result : string + LockBuyError.t)
| LockSell (kind : GoodKind) (quantity offer : Q) (result : string + LockSellError.t)
| Buy (token : string) (kind : GoodKind) (quantity bid : Q) (result : Good + BuyError.t)
| Sell (token : string) (kind : GoodKind) (quantity offer : Q) (result : Good + SellError.t).

Record TradingEvent := mk_trading_event {
  ev_account : Account;
  ev_market : string;
  ev_event : TradingEventType
}.

Module TraderError.
Inductive t :=
| LockBuyTraderError (e : LockBuyError.t)
| LockSellTraderError (e : LockSellError.t)
| BuyTraderError (e : BuyError.t)
| SellTraderError (e : SellError.t)
| WithdrawTraderError (e : WithdrawError)
| PriceTraderError (e : MarketGetterError.t)
| RcnzBUG.
End TraderError.

Record ReservedLock := mk_reserved_lock {
  token : string;
  good_kind : GoodKind;
  bid_offer : Q;
  lock_quantity : Q
}.

Section Trader.
Context {M : Type} `{Market M}.

(** The trader's account, the market and the events handed to the handler. *)
Record World := mk_world { account : Account; market : M; events : list TradingEvent }.

Definition TM (A : Type) : Type := World -> World * outcome TraderError.t A.

#[export] Instance tm_ret : MRet TM := fun _ a w => (w, Ok a).
#[export] Instance tm_bind : MBind TM := fun _ _ f c w =>
  match c w with
  | (w', Ok a) => f a w'
  | (w', Err e) => (w', Err e)
  | (w', Panic r) => (w', Panic r)
  end.

Definition throw {A} (e : TraderError.t) : TM A := fun w => (w, Err e).

Definition set_account (w : World) (a : Account) : World := mk_world a (market w) (events w).
Definition set_market (w : World) (m : M) : World := mk_world (account w) m (events w).

(** [handler.handle_event(TradingEvent { account: account.clone(),
    market: DOGE_TRADER_NAME.to_string(), event })]. *)
Definition emit (ev : TradingEventType) : TM unit := fun w =>
  (mk_world (account w) (market w) (events w ++ [mk_trading_event (account w) DOGE_TRADER_NAME ev]), Ok tt).

(** A read of the market's price, its error mapped into the trader's. *)
Definition price_of (get : M -> outcome MarketGetterError.t fval) : TM fval := fun w =>
  (w, map_err TraderError.PriceTraderError (get (market w))).

(** A lock call: the token or the market's error, as [result]. *)
Definition call_lock {E} (lock : M -> outcome E (string * M)) : TM (string + E) := fun w =>
  match lock (market w) with
  | Ok (token, m') => (set_market w m', Ok (inl token))
  | Err e => (w, Ok (inr e))
  | Panic r => (w, Panic r)
  end.

(** A settlement call with [&mut good]: its [result] and the good after the call. *)
Definition call_settle {E} (settle : M -> Good -> outcome E (Good * M * Good)) (g : Good)
    : TM ((Good + E) * Good) := fun w =>
  match settle (market w) g with
  | Ok (got, m', g') => (set_market w m', Ok (inl got, g'))
  | Err e => (w, Ok (inr e, g))
  | Panic r => (w, Panic r)
  end.

(** [account.withdraw(kind, quantity)] with the early return of its error. *)
Definition withdraw_t (k : GoodKind) (q : Q) : TM Good := fun w =>
  match Account.withdraw (account w) k q with
  | Ok (g, a') => (set_account w a', Ok g)
  | Err e => (w, Err (TraderError.WithdrawTraderError e))
  | Panic r => (w, Panic r)
  end.

Definition deposit_t (g : Good) : TM unit := fun w =>
  match Account.deposit (account w) g with
  | Ok a' => (set_account w a', Ok tt)
  | Err e => (w, Err e)
  | Panic r => (w, Panic r)
  end.

(** [bid = price] where the price is an [f32] and the bid of the model a rational. *)
Definition finite_price (x : fval) : TM Q := fun w =>
  match x with Fin q => (w, Ok q) | _ => (w, Panic OutOfModel) end.

(** [lock_buy]: ask the buy price, refuse a negative one ([RcnzBUG]), lock
    at that price, report the event, return the lock. *)
Definition lock_buy (good_kind : GoodKind) (quantity : Q) (ent : entropy) : TM ReservedLock :=
  price ← price_of (fun m => market_get_buy_price m good_kind quantity);
  if fltq price 0 then throw TraderError.RcnzBUG else
  bid ← finite_price price;
  result ← call_lock (fun m => market_lock_buy m good_kind quantity bid DOGE_TRADER_NAME ent);
  _ ← emit (LockBuy good_kind quantity bid result);
  match result with
  | inl token => mret (mk_reserved_lock token good_kind bid quantity)
  | inr err => throw (TraderError.LockBuyTraderError err)
  end.

Definition lock_sell (good_kind : GoodKind) (quantity : Q) (ent : entropy) : TM ReservedLock :=
  price ← price_of (fun m => market_get_sell_price m good_kind quantity);
  if fltq price 0 then throw TraderError.RcnzBUG else
  offer ← finite_price price;
  result ← call_lock (fun m => market_lock_sell m good_kind quantity offer DOGE_TRADER_NAME ent);
  _ ← emit (LockSell good_kind quantity offer result);
  match result with
  | inl token => mret (mk_reserved_lock token good_kind offer quantity)
  | inr err => throw (TraderError.LockSellTraderError err)
  end.

(** [buy]: take the bid in euros from the account, pay the lock, deposit
    the good obtained (or the cash back on an error), report the event. *)
Definition buy (reservation : ReservedLock) (ent : entropy) : TM unit :=
  cash ← withdraw_t DEFAULT_GOOD_KIND (bid_offer reservation);
  '(result, cash) ← call_settle (fun m g => market_buy m (token reservation) g ent) cash;
  _ ← deposit_t (match result with inl good_obtained => good_obtained | inr _ => cash end);
  _ ← emit (Buy (token reservation) (good_kind reservation) (lock_quantity reservation)
              (bid_offer reservation) result);
  match result with
  | inl _ => mret tt
  | inr err => throw (TraderError.BuyTraderError err)
  end.

Definition sell (reservation : ReservedLock) (ent : entropy) : TM unit :=
  good_to_sell ← withdraw_t (good_kind reservation) (lock_quantity reservation);
  '(result, good_to_sell) ← call_settle (fun m g => market_sell m (token reservation) g ent) good_to_sell;
  _ ← deposit_t (match result with inl cash => cash | inr _ => good_to_sell end);
  _ ← emit (Sell (token reservation) (good_kind reservation) (lock_quantity reservation)
              (bid_offer reservation) result);
  match result with
  | inl _ => mret tt
  | inr err => throw (TraderError.SellTraderError err)
  end.

Definition direct_buy (good_kind : GoodKind) (quantity : Q) (ent_lock ent_buy : entropy) : TM unit :=
  reservation ← lock_buy good_kind quantity ent_lock;
  buy reservation ent_buy.

Definition direct_sell (good_kind : GoodKind) (quantity : Q) (ent_lock ent_sell : entropy) : TM unit :=
  reservation ← lock_sell good_kind quantity ent_lock;
  sell reservation ent_sell.

(** The [for good in goods] loop of [get_market_good_quantity]. *)
Fixpoint find_good_quantity (goods : list GoodLabel) (k : GoodKind) : option Q :=
  match goods with
  | [] => None
  | good :: rest =>
      if decide (Goods.good_kind good = k) then Some (quantity good) else find_good_quantity rest k
  end.

Definition get_market_good_quantity (m : M) (k : GoodKind) : outcome unit (option Q) :=
  goods ← market_get_goods m; Ok (find_good_quantity goods k).

(** ** single_market_random_strategy.rs *)

Definition panic_t {A} (r : panic_reason) : TM A := fun w => (w, Panic r).

(** [match result { Ok(_) => (), Err(msg) => println!("{:?}", msg) }]. *)
Definition print_err (c : TM unit) : TM unit := fun w =>
  match c w with
  | (w', Ok _) | (w', Err _) => (w', Ok tt)
  | (w', Panic r) => (w', Panic r)
  end.

Definition MAX_QUANTITY : Q := 100000.

Section RandomStrategy.
Context `{MarketConsts}.

(** [apply], with the three draws of [rand::thread_rng()] as inputs:
    [is_buy_draw] from [0..2], [kind_draw] from [0..4] and [sample] from
    [0.0..MAX_QUANTITY]. *)
Definition random_apply (is_buy_draw kind_draw : Z) (sample : Q) (ent_lock ent_settle : entropy)
    : TM unit :=
  is_buy ← (match is_buy_draw with
           | 0%Z => mret false
           | 1%Z => mret true
           | _ => panic_t ExplicitPanic
           end : TM bool);
  good_kind ← (match kind_draw with
              | 0%Z => mret EUR
              | 1%Z => mret USD
              | 2%Z => mret YEN
              | 3%Z => mret YUAN
              | _ => panic_t ExplicitPanic
              end : TM GoodKind);
  let quantity := sample * get_default_exchange_rate good_kind in
  print_err (if (is_buy : bool) then direct_buy good_kind quantity ent_lock ent_settle
             else direct_sell good_kind quantity ent_lock ent_settle).

End RandomStrategy.

End Trader.

(** ** DogeMarket as a market of the trader *)

Section DogeInstance.
Context `{MarketConsts}.

(** [impl Market for DogeMarket]: the entropy of a call is the UUID and the
    shortage roll it draws; the log entries, day advances and notifications
    of the trace stay with the market and its subscribers. *)
#[export] Instance doge_market : Market DogeMarket.DogeMarket := {
  entropy := Uuid * Z;
  market_get_buy_price := DogeMarket.get_buy_price;
  market_get_sell_price := DogeMarket.get_sell_price;
  market_get_goods := DogeMarket.get_goods;
  market_get_budget := DogeMarket.get_budget;
  market_lock_buy m k q bid name ent :=
    '(token, m', _) ← DogeMarket.lock_buy m k q bid name (fst ent) (snd ent); Ok (token, m');
  market_lock_sell m k q offer name ent :=
    '(token, m', _) ← DogeMarket.lock_sell m k q offer name (fst ent) (snd ent); Ok (token, m');
  market_buy m token cash ent :=
    '(got, m', cash', _) ← DogeMarket.buy m token cash (snd ent); Ok (got, m', cash');
  market_sell m token good ent :=
    '(got, m', good', _) ← DogeMarket.sell m token good (snd ent); Ok (got, m', good');
  market_get_name := DogeMarket.get_name;
  market_on_event m e ent := infallible (DogeMarket.on_event m e (snd ent))
}.

End DogeInstance.

Arguments TM : clear implicits.
Arguments World : clear implicits.

(** ** The monad and the account *)

Section TraderFacts.
Context {M : Type} `{Market M}.

Lemma run_bind {A B} (c : TM M A) (f : A -> TM M B) w :
  (x ← c; f x) w = match c w with
                   | (w', Ok a) => f a w'
                   | (w', Err e) => (w', Err e)
                   | (w', Panic r) => (w', Panic r)
                   end.
Proof. done. Qed.

(** A computation that never changes the trader's account. *)
Definition keeps_account {A} (c : TM M A) : Prop := forall w, account (fst (c w)) = account w.

Lemma keeps_bind {A B} (c : TM M A) (f : A -> TM M B) :
  keeps_account c -> (forall a, keeps_account (f a)) -> keeps_account (x ← c; f x).
Proof.
  intros Hc Hf w. rewrite run_bind. specialize (Hc w).
  destruct (c w) as [w' [a | e | r]]; cbn in *; [by rewrite Hf | done | done].
Qed.

Lemma keeps_ret {A} (a : A) : keeps_account (mret a).
Proof. done. Qed.
Lemma keeps_throw {A} e : keeps_account (A:=A) (throw e).
Proof. done. Qed.
Lemma keeps_panic {A} r : keeps_account (A:=A) (panic_t r).
Proof. done. Qed.
Lemma keeps_price_of get : keeps_account (price_of get).
Proof. done. Qed.
Lemma keeps_finite_price x : keeps_account (finite_price x).
Proof. intros w. by destruct x. Qed.
Lemma keeps_emit ev : keeps_account (emit ev).
Proof. done. Qed.
Lemma keeps_call_lock {E} (lock : M -> outcome E (string * M)) : keeps_account (call_lock lock).
Proof. intros w. unfold call_lock. by destruct (lock (market w)) as [[] | |]. Qed.

(** A computation that keeps a property of the account. *)
Definition preserves (P : Account -> Prop) {A} (c : TM M A) : Prop :=
  forall w, P (account w) -> P (account (fst (c w))).

Lemma preserves_bind P {A B} (c : TM M A) (f : A -> TM M B) :
  preserves P c -> (forall a, preserves P (f a)) -> preserves P (x ← c; f x).
Proof.
  intros Hc Hf w Hw. rewrite run_bind. specialize (Hc w Hw).
  destruct (c w) as [w' [a | e | r]]; cbn in *; [by apply Hf | done | done].
Qed.

Lemma keeps_preserves P {A} (c : TM M A) : keeps_account c -> preserves P c.
Proof. intros Hc w. by rewrite Hc. Qed.

Lemma keeps_call_settle {E} (settle : M -> Good -> outcome E (Good * M * Good)) g :
  keeps_account (call_settle settle g).
Proof. intros w. unfold call_settle. by destruct (settle (market w) g) as [[[? ?] ?] | |]. Qed.

Lemma withdraw_t_wf k q : preserves Account.account_wf (withdraw_t k q).
Proof.
  intros w Hw. unfold withdraw_t.
  destruct (Account.withdraw (account w) k q) as [[g a'] | | ] eqn:W; cbn; [| done | done].
  destruct (withdraw_inv _ _ _ _ _ Hw W) as (_ & -> & _). auto with doge.
Qed.

Lemma deposit_t_wf g : preserves Account.account_wf (deposit_t g).
Proof.
  intros w Hw. unfold deposit_t.
  destruct (Account.deposit (account w) g) as [a' | | ] eqn:D; cbn; [| done | done].
  exact (deposit_wf _ _ _ Hw D).
Qed.

Lemma print_err_preserves P (c : TM M unit) : preserves P c -> preserves P (print_err c).
Proof. intros Hc w Hw. unfold print_err. specialize (Hc w Hw). by destruct (c w) as [? [| |]]. Qed.

End TraderFacts.

Create HintDb trader.
#[export] Hint Resolve keeps_ret keeps_throw keeps_panic keeps_price_of keeps_finite_price
  keeps_emit keeps_call_lock : trader.

(** Split a computation built from the trader's steps into its steps. *)
#[export] Hint Resolve keeps_call_settle withdraw_t_wf deposit_t_wf : trader.

Ltac keeps := repeat first [ apply keeps_bind; intros | case_match | solve [auto with trader] ].

(** The same for a property of the account that the steps keep. *)
Ltac preserves := repeat first [ apply preserves_bind; intros | case_match | solve [auto with trader]
                               | apply print_err_preserves
                               | apply keeps_preserves; solve [auto with trader] ].

Section TraderProperties.
Context {M : Type} `{Market M}.

(** Locking never touches the trader's account. *)
Lemma lock_buy_keeps k q ent : keeps_account (M:=M) (lock_buy k q ent).
Proof. unfold lock_buy. keeps. Qed.

Lemma lock_sell_keeps k q ent : keeps_account (M:=M) (lock_sell k q ent).
Proof. unfold lock_sell. keeps. Qed.

(** A settlement that ends in an error hands the good it took back: the
    account ends as it started, up to [==]. *)
Lemma settle_err_restores {E} (settle : M -> Good -> outcome E (Good * M * Good))
    (mk_err : E -> TraderError.t) (mk_ev : Good + E -> TradingEventType) k q w w' e :
  Account.account_wf (account w) ->
  (g ← withdraw_t k q;
   '(result, g) ← call_settle settle g;
   _ ← deposit_t (match result with inl got => got | inr _ => g end);
   _ ← emit (mk_ev result);
   match result with inl _ => mret tt | inr err => throw (mk_err err) end) w = (w', Err e) ->
  Account.acc_equiv (account w') (account w).
Proof.
  intros Hwf. cbv [mbind tm_bind withdraw_t call_settle deposit_t emit throw mret tm_ret].
  destruct (Account.withdraw (account w) k q) as [[g a'] | we | r] eqn:W;
    [| by intros [= <- _] | intros [=]].
  destruct (withdraw_inv _ _ _ _ _ Hwf W) as (-> & -> & _). cbn.
  destruct (settle (market w) (Good.new k q)) as [[[got m'] g'] | err | r]; [| | intros [=]];
    cbn; rewrite deposit_credit by auto with doge; cbn; [intros [=] |].
  intros [= <- _]. apply credit_debit, Hwf.
Qed.

(** A failed [buy] or [sell] leaves the account as it was, up to [==]. *)
Lemma buy_err_restores res ent w w' e : Account.account_wf (account w) ->
  buy (M:=M) res ent w = (w', Err e) -> Account.acc_equiv (account w') (account w).
Proof. apply settle_err_restores. Qed.

Lemma sell_err_restores res ent w w' e : Account.account_wf (account w) ->
  sell (M:=M) res ent w = (w', Err e) -> Account.acc_equiv (account w') (account w).
Proof. apply settle_err_restores. Qed.

(** The successful run of [lock_buy]: the market quoted a finite,
    non-negative price, the lock at that price succeeded, and one event
    was reported. *)
Lemma lock_buy_ok k q ent w w1 res :
  lock_buy (M:=M) k q ent w = (w1, Ok res) ->
  exists bid token,
    market_get_buy_price (market w) k q = Ok (Fin bid) /\ ~ bid < 0 /\
    market_lock_buy (market w) k q bid DOGE_TRADER_NAME ent = Ok (token, market w1) /\
    res = mk_reserved_lock token k bid q /\ account w1 = account w /\
    events w1 = events w ++ [mk_trading_event (account w) DOGE_TRADER_NAME (LockBuy k q bid (inl token))].
Proof.
  cbv [lock_buy mbind tm_bind price_of finite_price call_lock emit throw mret tm_ret].
  destruct (market_get_buy_price (market w) k q) as [[bid | [] |] | | ] eqn:P; cbn; try by intros [=].
  case_bool_decide as Hneg; [by intros [=] |].
  destruct (market_lock_buy (market w) k q bid DOGE_TRADER_NAME ent) as [[token m'] | | ] eqn:L;
    cbn; [| by intros [=] | by intros [=]].
  intros [= <- <-]. by exists bid, token.
Qed.

(** The successful run of [buy]: the bid left the account as euros, the
    market took them and the good obtained was deposited. *)
Lemma buy_ok res ent w w' :
  Account.account_wf (account w) -> buy (M:=M) res ent w = (w', Ok tt) ->
  exists got cash',
    market_buy (market w) (token res) (Good.new DEFAULT_GOOD_KIND (bid_offer res)) ent =
      Ok (got, market w', cash') /\
    account w' = Account.credit (Account.debit (account w) DEFAULT_GOOD_KIND (bid_offer res))
                   (get_kind got) (get_qty got) /\
    events w' = events w ++ [mk_trading_event (account w') DOGE_TRADER_NAME
                  (Buy (token res) (good_kind res) (lock_quantity res) (bid_offer res) (inl got))].
Proof.
  intros Hwf. cbv [buy mbind tm_bind withdraw_t call_settle deposit_t emit throw mret tm_ret].
  destruct (Account.withdraw (account w) _ _) as [[g a'] | we | r] eqn:W; [| by intros [=] | by intros [=]].
  destruct (withdraw_inv _ _ _ _ _ Hwf W) as (-> & -> & _). cbn -[Account.debit Account.credit Account.deposit].
  destruct (market_buy (market w) _ _ ent) as [[[got m'] cash'] | err | r] eqn:B; [| | by intros [=]];
    cbn -[Account.debit Account.credit Account.deposit]; rewrite deposit_credit by auto with doge;
    cbn -[Account.debit Account.credit]; [| by intros [=]].
  intros [= <-]. by exists got, cash'.
Qed.

(** C32: A successful [direct_buy] of [q] units of [k] pays exactly the
    price the market quoted for them: the market quoted a finite
    non-negative [bid], accepted a lock at [bid] and sold the good for a
    cash good of [bid] euros taken from the account, the good obtained was
    deposited, and exactly two events were reported, a [LockBuy] and a
    [Buy], each carrying the account at that moment and [DOGE_TRADER_NAME]
    as the market's name. *)
Theorem direct_buy_ok k q e1 e2 w w' : Account.account_wf (account w) ->
  direct_buy (M:=M) k q e1 e2 w = (w', Ok tt) ->
  exists bid token m1 got cash',
    market_get_buy_price (market w) k q = Ok (Fin bid) /\ ~ bid < 0 /\
    market_lock_buy (market w) k q bid DOGE_TRADER_NAME e1 = Ok (token, m1) /\
    market_buy m1 token (Good.new DEFAULT_GOOD_KIND bid) e2 = Ok (got, market w', cash') /\
    account w' = Account.credit (Account.debit (account w) DEFAULT_GOOD_KIND bid)
                   (get_kind got) (get_qty got) /\
    events w' = events w ++ [mk_trading_event (account w) DOGE_TRADER_NAME (LockBuy k q bid (inl token));
                             mk_trading_event (account w') DOGE_TRADER_NAME (Buy token k q bid (inl got))].
Proof.
  intros Hwf Hrun. unfold direct_buy in Hrun. rewrite run_bind in Hrun.
  destruct (lock_buy k q e1 w) as [w1 [res | err | r]] eqn:L; [| done | done].
  destruct (lock_buy_ok _ _ _ _ _ _ L) as (bid & token & P & Hneg & Lk & -> & Ha & He).
  destruct (buy_ok _ _ _ _ ltac:(by rewrite Ha) Hrun) as (got & cash' & B & Ha' & He').
  exists bid, token, (market w1), got, cash'. cbn in *. rewrite Ha in Ha'.
  split_and!; try done. rewrite He', He. by rewrite <- app_assoc.
Qed.

(** Every operation of the trader keeps its account well typed: each
    of the four slots holds a good of its own kind, whatever the market
    answers. *)
Theorem trader_ops_wf `{MarketConsts} k q e1 e2 res b kd smp :
  preserves (M:=M) Account.account_wf (lock_buy k q e1) /\
  preserves (M:=M) Account.account_wf (lock_sell k q e1) /\
  preserves (M:=M) Account.account_wf (buy res e2) /\
  preserves (M:=M) Account.account_wf (sell res e2) /\
  preserves (M:=M) Account.account_wf (direct_buy k q e1 e2) /\
  preserves (M:=M) Account.account_wf (direct_sell k q e1 e2) /\
  preserves (M:=M) Account.account_wf (random_apply b kd smp e1 e2).
Proof.
  split_and!;
    unfold random_apply, direct_buy, direct_sell, lock_buy, lock_sell, buy, sell; preserves.
Qed.

(** The account after a failed direct trade. *)
Lemma direct_err_restores k q e1 e2 w w' e : Account.account_wf (account w) ->
  (direct_buy (M:=M) k q e1 e2 w = (w', Err e) \/ direct_sell (M:=M) k q e1 e2 w = (w', Err e)) ->
  Account.acc_equiv (account w') (account w).
Proof.
  intros Hwf [Hrun | Hrun].
  - unfold direct_buy in Hrun. rewrite run_bind in Hrun. pose proof (lock_buy_keeps k q e1 w) as Hk.
    destruct (lock_buy k q e1 w) as [w1 [res | err | r]]; cbn in Hk; simplify_eq; [| by rewrite Hk].
    rewrite <- Hk. by apply (buy_err_restores res e2 w1 w' e); [rewrite Hk |].
  - unfold direct_sell in Hrun. rewrite run_bind in Hrun. pose proof (lock_sell_keeps k q e1 w) as Hk.
    destruct (lock_sell k q e1 w) as [w1 [res | err | r]]; cbn in Hk; simplify_eq; [| by rewrite Hk].
    rewrite <- Hk. by apply (sell_err_restores res e2 w1 w' e); [rewrite Hk |].
Qed.

(** C9: A failed [direct_buy] or [direct_sell] leaves the trader's account
    as it was (up to [==]), whatever the market does: the price request,
    the [RcnzBUG] check and the lock fail before the account is touched, a
    failed withdrawal changes nothing, and the good taken for a failed
    settlement is deposited back. *)
Theorem direct_trade_err_restores k q e1 e2 w w' e : Account.account_wf (account w) ->
  (direct_buy (M:=M) k q e1 e2 w = (w', Err e) \/ direct_sell (M:=M) k q e1 e2 w = (w', Err e)) ->
  Account.acc_equiv (account w') (account w).
Proof. apply direct_err_restores. Qed.




End TraderProperties.

(** ** The trader on a DogeMarket *)

(** A lock at exactly the computed price passes the price check. *)
Lemma buy_reserve_at_price ops k q p l :
  AccountOps.compute_buy_price ops k q (earn_percentage k) = Ok (Fin p) ->
  BuyTx.reserve ops (BuyTx.mk_buy_proposal (Good.new k q) (Good.new DEFAULT_GOOD_KIND p)) <>
    Err (BuyTx.BidTooLow l).
Proof.
  intros Hp. unfold BuyTx.reserve. cbn [BuyTx.proposal_buy BuyTx.proposal_bid get_kind get_qty Good.new].
  repeat (case_decide; [done |]). rewrite Hp. cbn [qltf]. rewrite bool_decide_false by lra.
  apply no_err_bind; [apply no_err_unwrap |]. intros [? ?]. solve_no_err.
Qed.

Lemma sell_reserve_at_price ops k q p h :
  AccountOps.compute_sell_price ops k q (earn_percentage k) = Ok (Fin p) ->
  SellTx.reserve ops (SellTx.mk_sell_proposal (Good.new k q) (Good.new DEFAULT_GOOD_KIND p)) <>
    Err (SellTx.OfferTooHigh h).
Proof.
  intros Hp. unfold SellTx.reserve. cbn [SellTx.proposal_sell SellTx.proposal_offer get_kind get_qty Good.new].
  repeat (case_decide; [done |]). rewrite Hp. cbn [fltq]. rewrite bool_decide_false by lra.
  apply no_err_bind; [apply no_err_unwrap |]. intros [? ?]. solve_no_err.
Qed.

Section DogeFacts.
Context `{MarketConsts}.

Lemma doge_get_buy_price_ok m k q x : DogeMarket.get_buy_price m k q = Ok x ->
  AccountOps.compute_buy_price (TxService.ops (DogeMarketImpl.service (DogeMarket.doge_impl m))) k q (earn_percentage k) = Ok x.
Proof. unfold DogeMarket.get_buy_price, DogeMarketImpl.get_buy_price. intros. by repeat case_match; simplify_eq. Qed.

Lemma doge_get_sell_price_ok m k q x : DogeMarket.get_sell_price m k q = Ok x ->
  AccountOps.compute_sell_price (TxService.ops (DogeMarketImpl.service (DogeMarket.doge_impl m))) k q (earn_percentage k) = Ok x.
Proof. unfold DogeMarket.get_sell_price, DogeMarketImpl.get_sell_price. intros. by repeat case_match; simplify_eq. Qed.

(** [BidTooLow] and [OfferTooHigh] come from the price check of the lock. *)
Lemma doge_lock_buy_too_low m k q b n u r k' q' b' l :
  DogeMarket.lock_buy m k q b n u r = Err (LockBuyError.BidTooLow k' q' b' l) ->
  BuyTx.reserve (TxService.ops (DogeMarketImpl.service (DogeMarket.doge_impl m)))
    (BuyTx.mk_buy_proposal (Good.new k q) (Good.new DEFAULT_GOOD_KIND b)) = Err (BuyTx.BidTooLow l).
Proof.
  unfold DogeMarket.lock_buy, DogeMarketImpl.do_buy_reservation, TxService.do_buy_reservation.
  destruct (BuyTx.reserve _ _) as [[? ?] | [] | ]; cbn; try done;
    [destruct (DogeMarketImpl.advance_a_day _ _) as [| [] |]; cbn; by intros [=] | intros [=]; by subst].
Qed.

Lemma doge_lock_sell_too_high m k q o n u r k' q' o' h :
  DogeMarket.lock_sell m k q o n u r = Err (LockSellError.OfferTooHigh k' q' o' h) ->
  SellTx.reserve (TxService.ops (DogeMarketImpl.service (DogeMarket.doge_impl m)))
    (SellTx.mk_sell_proposal (Good.new k q) (Good.new DEFAULT_GOOD_KIND o)) = Err (SellTx.OfferTooHigh h).
Proof.
  unfold DogeMarket.lock_sell, DogeMarketImpl.do_sell_reservation, TxService.do_sell_reservation.
  destruct (SellTx.reserve _ _) as [[? ?] | [] | ]; cbn; try done;
    [destruct (DogeMarketImpl.advance_a_day _ _) as [| [] |]; cbn; by intros [=] | intros [=]; by subst].
Qed.

Lemma make_label_ok m k l : DogeMarketImpl.make_label_for_kind m k = Ok l ->
  Goods.good_kind l = k /\
  quantity l = AccountOps.get_reservable_quantity_by_kind (TxService.ops (DogeMarketImpl.service m)) k.
Proof.
  unfold DogeMarketImpl.make_label_for_kind. intros Hl.
  destruct (AccountOps.compute_buy_exchange_rate _ _ _) as [| [] |]; cbn in Hl; try done;
    destruct (AccountOps.compute_sell_exchange_rate _ _ _) as [| [] |]; cbn in Hl; by simplify_eq.
Qed.

Lemma get_goods_ok m labels : DogeMarket.get_goods m = Ok labels ->
  exists l1 l2 l3 l4, labels = [l1; l2; l3; l4] /\
    DogeMarketImpl.make_label_for_kind (DogeMarket.doge_impl m) EUR = Ok l1 /\
    DogeMarketImpl.make_label_for_kind (DogeMarket.doge_impl m) USD = Ok l2 /\
    DogeMarketImpl.make_label_for_kind (DogeMarket.doge_impl m) YEN = Ok l3 /\
    DogeMarketImpl.make_label_for_kind (DogeMarket.doge_impl m) YUAN = Ok l4.
Proof.
  unfold DogeMarket.get_goods. intros Hg.
  destruct (DogeMarketImpl.make_label_for_kind _ EUR) as [l1 | | ]; cbn in Hg; try done.
  destruct (DogeMarketImpl.make_label_for_kind _ USD) as [l2 | | ]; cbn in Hg; try done.
  destruct (DogeMarketImpl.make_label_for_kind _ YEN) as [l3 | | ]; cbn in Hg; try done.
  destruct (DogeMarketImpl.make_label_for_kind _ YUAN) as [l4 | | ]; cbn in Hg; try done.
  injection Hg as <-. by exists l1, l2, l3, l4.
Qed.

(** The labels of a DogeMarket list every kind once, with its free stock. *)
Lemma doge_labels_quantity m k labels : DogeMarket.get_goods m = Ok labels ->
  find_good_quantity labels k =
    Some (AccountOps.get_reservable_quantity_by_kind
            (TxService.ops (DogeMarketImpl.service (DogeMarket.doge_impl m))) k).
Proof.
  intros Hg. destruct (get_goods_ok _ _ Hg) as (l1 & l2 & l3 & l4 & -> & H1 & H2 & H3 & H4).
  apply make_label_ok in H1 as [K1 Q1], H2 as [K2 Q2], H3 as [K3 Q3], H4 as [K4 Q4].
  cbn. rewrite K1, K2, K3, K4. destruct k; repeat case_decide; congruence.
Qed.

End DogeFacts.

Section DogeProperties.
Context `{MarketConsts}.

(** C11: Against a DogeMarket, the trader's locks at the quoted price are
    never refused for their price: [lock_buy] never fails with [BidTooLow]
    and [lock_sell] never with [OfferTooHigh], in any market state.  The
    market prices the lock with the same computation and ledger as the
    quote, and the check is strict. *)
Theorem doge_lock_at_quote k q ent (w w' : World DogeMarket.DogeMarket) :
  (forall k' q' b l, lock_buy k q ent w <>
     (w', Err (TraderError.LockBuyTraderError (LockBuyError.BidTooLow k' q' b l)))) /\
  (forall k' q' o h, lock_sell k q ent w <>
     (w', Err (TraderError.LockSellTraderError (LockSellError.OfferTooHigh k' q' o h)))).
Proof.
  split; intros.
  - cbv [lock_buy mbind tm_bind price_of finite_price call_lock emit throw mret tm_ret].
    cbn [market_get_buy_price market_lock_buy doge_market].
    destruct (DogeMarket.get_buy_price (market w) k q) as [[p | [] |] | |] eqn:P; cbn; try done.
    case_bool_decide; [done |].
    destruct (DogeMarket.lock_buy _ _ _ _ _ _ _) as [[[? ?] ?] | e | ] eqn:L; cbn; try done.
    intros [= _ ->]. apply (buy_reserve_at_price _ _ _ _ l (doge_get_buy_price_ok _ _ _ _ P)).
    exact (doge_lock_buy_too_low _ _ _ _ _ _ _ _ _ _ _ L).
  - cbv [lock_sell mbind tm_bind price_of finite_price call_lock emit throw mret tm_ret].
    cbn [market_get_sell_price market_lock_sell doge_market].
    destruct (DogeMarket.get_sell_price (market w) k q) as [[p | [] |] | |] eqn:P; cbn; try done.
    case_bool_decide; [done |].
    destruct (DogeMarket.lock_sell _ _ _ _ _ _ _) as [[[? ?] ?] | e | ] eqn:L; cbn; try done.
    intros [= _ ->]. apply (sell_reserve_at_price _ _ _ _ h (doge_get_sell_price_ok _ _ _ _ P)).
    exact (doge_lock_sell_too_high _ _ _ _ _ _ _ _ _ _ _ L).
Qed.

(** On a DogeMarket whose labels can be computed, the trader's
    [get_market_good_quantity] finds a label for every kind, and reads the
    market's free stock of that kind. *)
Theorem doge_good_quantity m k labels : DogeMarket.get_goods m = Ok labels ->
  get_market_good_quantity m k =
    Ok (Some (AccountOps.get_reservable_quantity_by_kind
                (TxService.ops (DogeMarketImpl.service (DogeMarket.doge_impl m))) k)).
Proof.
  intros Hg. unfold get_market_good_quantity. cbn [market_get_goods doge_market]. rewrite Hg. cbn.
  by rewrite (doge_labels_quantity _ _ _ Hg).
Qed.

End DogeProperties.

(** ** Witnesses *)

#[local] Existing Instance sample_consts.

(** The trader of common.rs's tests, 100 000 units of each kind, in front of
    a fresh DogeMarket. *)
Definition trader_account : Account :=
  mk_account (Good.new EUR 100000) (Good.new USD 100000) (Good.new YEN 100000) (Good.new YUAN 100000).

(** The random values a DogeMarket draws in a call. *)
Definition doge_ent (u : Uuid) (roll : Z) : @entropy _ (@doge_market sample_consts) := (u, roll).

Definition trader_w0 : World DogeMarket.DogeMarket := mk_world trader_account scenario_m0 [].

(** [direct_buy(USD, 50.)], as in [direct__buy]. *)
Definition trader_buy_run := direct_buy (M:=DogeMarket.DogeMarket) USD 50 (doge_ent 1%positive 50%Z) (doge_ent 2%positive 50%Z) trader_w0.

(** [direct_buy(YEN, 150_000_000_000.)]: more yen than the market has. *)
Definition trader_big_buy_run := direct_buy (M:=DogeMarket.DogeMarket) YEN 150000000000 (doge_ent 1%positive 50%Z) (doge_ent 2%positive 50%Z) trader_w0.

Lemma direct_buy_ok_witness :
  exists bid token m1 got cash',
    market_get_buy_price (M:=DogeMarket.DogeMarket) scenario_m0 USD 50 = Ok (Fin bid) /\ ~ bid < 0 /\
    market_lock_buy (M:=DogeMarket.DogeMarket) scenario_m0 USD 50 bid DOGE_TRADER_NAME (doge_ent 1%positive 50%Z) = Ok (token, m1) /\
    market_buy (M:=DogeMarket.DogeMarket) m1 token (Good.new DEFAULT_GOOD_KIND bid) (doge_ent 2%positive 50%Z) =
      Ok (got, market (fst trader_buy_run), cash') /\
    account (fst trader_buy_run) =
      Account.credit (Account.debit trader_account DEFAULT_GOOD_KIND bid) (get_kind got) (get_qty got) /\
    events (fst trader_buy_run) =
      [mk_trading_event trader_account DOGE_TRADER_NAME (LockBuy USD 50 bid (inl token));
       mk_trading_event (account (fst trader_buy_run)) DOGE_TRADER_NAME (Buy token USD 50 bid (inl got))].
Proof.
  apply (direct_buy_ok USD 50 _ _ trader_w0 (fst trader_buy_run)); [concrete |].
  vm_compute. reflexivity.
Defined.

Lemma direct_trade_err_restores_witness :
  Account.acc_equiv (account (fst trader_big_buy_run)) trader_account.
Proof.
  apply (direct_trade_err_restores YEN 150000000000 (doge_ent 1%positive 50%Z) (doge_ent 2%positive 50%Z) trader_w0
           (fst trader_big_buy_run)
           (TraderError.PriceTraderError
              (MarketGetterError.InsufficientGoodQuantityAvailable YEN 150000000000 1000000)));
    [concrete | left; vm_compute; reflexivity].
Defined.



Lemma doge_good_quantity_witness :
  get_market_good_quantity scenario_m0 YEN = Ok (Some 1000000).
Proof.
  apply (doge_good_quantity scenario_m0 YEN (match DogeMarket.get_goods scenario_m0 with Ok l => l | _ => [] end)).
  vm_compute. reflexivity.
Defined.
