(* ===== verification/Markets.v ===== *)
(** * The trader's three markets: doge_trader/src/markets.rs

    [MarketWrapper] holds the three markets the trader plays on, each an
    [Rc<RefCell<dyn Market>>].  The strategies clone these handles and call
    the markets through the clones; a clone shares its market with the
    wrapper.  Here the three markets are the fields of [MarketWrapper M]
    for one market type [M] with its [Market] instance, and a handle is a
    [MarketRef], the field it shares: a call through a handle reads and
    writes that field of the wrapper held in the trader's world, so what a
    call changes through one clone is seen through the wrapper and through
    every other clone, as with [Rc<RefCell<..>>].

    [at_market r c] runs a computation [c] of Trader.v (written for a
    world with one market) on the market behind [r].  It is a monad
    morphism ([at_market_ret], [at_market_bind]) that keeps the other two
    markets, so the theorems of common.rs carry over to the strategies
    that play on three markets.  [wait_one_day!] of unitn_market_2022
    notifies each market it is given, in order, of a [Wait] event.

    The trait [Strategy] of strategy.rs is a class whose law is that
    [apply] keeps the trader's account well formed, and [trading_loop] runs
    a strategy for a number of iterations, as the [for] loop of main.rs
    does.  [NoOpStrategy] and the three single-market random strategies
    (SolRandom, RcnzRandom, BoseRandom, one instance indexed by the handle
    they use) are its simplest instances. *)

From S2P Require Import Prelude Goods Ledger Transactions TickDeque Service Refiller Market Trader.
From Stdlib Require Import String.
Open Scope Q_scope.

Record MarketWrapper (M : Type) := mk_wrapper { sol : M; rcnz : M; bose : M }.
Arguments mk_wrapper {M} _ _ _.
Arguments sol {M} _.
Arguments rcnz {M} _.
Arguments bose {M} _.

(** A clone of one of the wrapper's [Rc]s: the field it shares. *)
Inductive MarketRef := SolRef | RcnzRef | BoseRef.

#[export] Instance MarketRef_eq_dec : EqDecision MarketRef.
Proof. solve_decision. Defined.

Definition deref {M} (ms : MarketWrapper M) (r : MarketRef) : M :=
  match r with SolRef => sol ms | RcnzRef => rcnz ms | BoseRef => bose ms end.

Definition store {M} (ms : MarketWrapper M) (r : MarketRef) (m : M) : MarketWrapper M :=
  match r with
  | SolRef => mk_wrapper m (rcnz ms) (bose ms)
  | RcnzRef => mk_wrapper (sol ms) m (bose ms)
  | BoseRef => mk_wrapper (sol ms) (rcnz ms) m
  end.

(** [MarketWrapper::iter]: [Iter { markets: vec![sol, rcnz, bose] }]. *)
Definition iter_vec : list MarketRef := [SolRef; RcnzRef; BoseRef].

(** [Iterator::next] of [Iter]: [self.markets.pop()]. *)
Definition next (v : list MarketRef) : option (MarketRef * list MarketRef) :=
  match rev v with [] => None | r :: rest => Some (r, rev rest) end.

(** The items an [Iter] yields: [next] until [None], at most [fuel] times. *)
Fixpoint collect (fuel : nat) (v : list MarketRef) : list MarketRef :=
  match fuel with
  | O => []
  | S fuel' => match next v with None => [] | Some (r, v') => r :: collect fuel' v' end
  end.

(** One round per element is enough fuel ([collect_rev]). *)
Definition iter_items (v : list MarketRef) : list MarketRef := collect (List.length v) v.

Section Focus.
Context {M : Type} `{Market M}.

(** A call through the handle [r]: [c] sees the trader's account, the
    market behind [r] and the events, and its changes to them are written
    back; the other two markets are untouched. *)
Definition at_market {A} (r : MarketRef) (c : TM M A) : TM (MarketWrapper M) A := fun w =>
  let '(w', res) := c (mk_world (account w) (deref (market w) r) (events w)) in
  (mk_world (account w') (store (market w) r (market w')) (events w'), res).

(** A read of the markets through [&MarketWrapper] that can only panic. *)
Definition run_read {A} (c : MarketWrapper M -> outcome Empty_set A) : TM (MarketWrapper M) A := fun w =>
  match c (market w) with
  | Ok a => (w, Ok a)
  | Err e => match e with end
  | Panic r => (w, Panic r)
  end.

(** [market.borrow_mut().on_event(event)]. *)
Definition on_event_t (e : Event) (ent : entropy) : TM M unit := fun w =>
  match market_on_event (market w) e ent with
  | Ok m' => (set_market w m', Ok tt)
  | Err v => match v with end
  | Panic p => (w, Panic p)
  end.

(** The event [wait_one_day!] sends: a [Wait] of no quantity. *)
Definition WAIT_EVENT : Event := mk_event Wait DEFAULT_GOOD_KIND 0 0.

(** [wait_one_day!(m1, ..., mn)]: [on_event] of a [Wait] on each market
    given, in order; with no market given it does nothing. *)
Fixpoint wait_one_day_macro (targets : list (MarketRef * entropy)) : TM (MarketWrapper M) unit :=
  match targets with
  | [] => mret tt
  | (r, ent) :: rest => _ ← at_market r (on_event_t WAIT_EVENT ent); wait_one_day_macro rest
  end.

(** [MarketWrapper::wait_one_day]: [wait_one_day!(self.bose, self.rcnz, self.sol)]. *)
Definition wait_one_day (ent_bose ent_rcnz ent_sol : entropy) : TM (MarketWrapper M) unit :=
  wait_one_day_macro [(BoseRef, ent_bose); (RcnzRef, ent_rcnz); (SolRef, ent_sol)].

(** [handler.handle_event(TradingEvent { account: account.clone(),
    market: market.borrow().get_name().to_owned(), event })]: an event
    that names the market it was made with. *)
Definition emit_from (r : MarketRef) (ev : TradingEventType) : TM (MarketWrapper M) unit := fun w =>
  (mk_world (account w) (market w)
     (events w ++ [mk_trading_event (account w) (market_get_name (deref (market w) r)) ev]), Ok tt).

(** [account.withdraw(kind, quantity)], its error kept as a value. *)
Definition try_withdraw (k : GoodKind) (q : Q) : TM (MarketWrapper M) (Good + WithdrawError) := fun w =>
  match Account.withdraw (account w) k q with
  | Ok (g, a') => (set_account w a', Ok (inl g))
  | Err e => (w, Ok (inr e))
  | Panic r => (w, Panic r)
  end.

(** [Result::is_ok] of a call that may end in an error, without its early
    return: the error becomes a value. *)
Definition attempt {A} (c : TM (MarketWrapper M) A) : TM (MarketWrapper M) (A + TraderError.t) := fun w =>
  match c w with
  | (w', Ok a) => (w', Ok (inl a))
  | (w', Err e) => (w', Ok (inr e))
  | (w', Panic r) => (w', Panic r)
  end.

End Focus.

(** ** The handles *)

Lemma deref_store_eq {M} (ms : MarketWrapper M) r m : deref (store ms r m) r = m.
Proof. by destruct r. Qed.

Lemma deref_store_ne {M} (ms : MarketWrapper M) r r' m : r <> r' -> deref (store ms r m) r' = deref ms r'.
Proof. destruct r, r'; cbn; congruence. Qed.

Lemma store_deref {M} (ms : MarketWrapper M) r : store ms r (deref ms r) = ms.
Proof. by destruct ms, r. Qed.

Lemma store_store {M} (ms : MarketWrapper M) r m m' : store (store ms r m) r m' = store ms r m'.
Proof. by destruct r. Qed.

#[export] Hint Rewrite @deref_store_eq @store_deref @store_store : doge_rw.

(** The iterator yields the handles from the last to the first. *)
Lemma collect_rev v : iter_items v = rev v.
Proof.
  unfold iter_items. induction v as [| r v IH] using rev_ind; [done |].
  rewrite length_app, Nat.add_1_r. cbn [collect]. unfold next.
  rewrite rev_app_distr. cbn. rewrite rev_involutive, IH. done.
Qed.

Section FocusFacts.
Context {M : Type} `{Market M}.

Lemma world_eta {N} (w : World N) : mk_world (account w) (market w) (events w) = w.
Proof. by destruct w. Qed.

Lemma at_market_ret {A} r (a : A) w : at_market (M:=M) r (mret a) w = mret (M:=TM (MarketWrapper M)) a w.
Proof. unfold at_market. cbn. by rewrite store_deref, world_eta. Qed.

(** [at_market r] is a monad morphism. *)
Lemma at_market_bind {A B} r (c : TM M A) (f : A -> TM M B) w :
  at_market r (x ← c; f x) w = (x ← at_market r c; at_market r (f x)) w.
Proof.
  unfold at_market. cbv [mbind tm_bind].
  destruct (c _) as [[a m e] [x | err | p]]; cbn; [| done | done].
  rewrite deref_store_eq. destruct (f x _) as [[a' m' e'] res']. cbn. by rewrite store_store.
Qed.

(** The run of [at_market r c] is the run of [c] on the market behind [r]. *)
Lemma at_market_run {A} r (c : TM M A) w w1 res :
  c (mk_world (account w) (deref (market w) r) (events w)) = (w1, res) ->
  at_market r c w = (mk_world (account w1) (store (market w) r (market w1)) (events w1), res).
Proof. unfold at_market. by intros ->. Qed.

Lemma keeps_at_market {A} r (c : TM M A) : keeps_account c -> keeps_account (at_market r c).
Proof.
  intros Hc w. unfold at_market. specialize (Hc (mk_world (account w) (deref (market w) r) (events w))).
  destruct (c _) as [w1 res]. exact Hc.
Qed.

Lemma preserves_at_market P {A} r (c : TM M A) : preserves P c -> preserves P (at_market r c).
Proof.
  intros Hc w Hw. unfold at_market.
  specialize (Hc (mk_world (account w) (deref (market w) r) (events w)) Hw).
  destruct (c _) as [w1 res]. exact Hc.
Qed.

(** A call through [r] leaves the markets behind the other handles alone. *)
Lemma at_market_other {A} r r' (c : TM M A) w : r <> r' ->
  deref (market (fst (at_market r c w))) r' = deref (market w) r'.
Proof.
  intros Hne. unfold at_market. destruct (c _) as [w1 res]. cbn. by apply deref_store_ne.
Qed.

Lemma keeps_on_event e ent : keeps_account (M:=M) (on_event_t e ent).
Proof. intros w. unfold on_event_t. by destruct (market_on_event (market w) e ent) as [| [] |]. Qed.

Lemma keeps_emit_from r ev : keeps_account (M:=MarketWrapper M) (emit_from r ev).
Proof. done. Qed.

Lemma keeps_run_read {A} (c : MarketWrapper M -> outcome Empty_set A) : keeps_account (run_read c).
Proof. intros w. unfold run_read. by destruct (c (market w)) as [| [] |]. Qed.

Lemma keeps_wait targets : keeps_account (M:=MarketWrapper M) (wait_one_day_macro targets).
Proof.
  induction targets as [| [r ent] rest IH]; cbn; [apply keeps_ret |].
  apply keeps_bind; [apply keeps_at_market, keeps_on_event | done].
Qed.

Lemma attempt_preserves P {A} (c : TM (MarketWrapper M) A) : preserves P c -> preserves P (attempt c).
Proof. intros Hc w Hw. unfold attempt. specialize (Hc w Hw). by destruct (c w) as [? [| |]]. Qed.

Lemma try_withdraw_wf k q : preserves (M:=MarketWrapper M) Account.account_wf (try_withdraw k q).
Proof.
  intros w Hw. unfold try_withdraw.
  destruct (Account.withdraw (account w) k q) as [[g a'] | | ] eqn:W; cbn; [| done | done].
  destruct (withdraw_inv _ _ _ _ _ Hw W) as (_ & -> & _). auto with doge.
Qed.

End FocusFacts.

#[export] Hint Resolve keeps_at_market preserves_at_market keeps_on_event keeps_emit_from
  keeps_run_read keeps_wait attempt_preserves try_withdraw_wf : trader.

(** Split a strategy's computation into the steps of Trader.v and of this
    file and discharge that each keeps a property of the account. *)
Ltac strategy_preserves :=
  repeat first [ apply preserves_bind; intros | apply preserves_at_market | apply attempt_preserves
               | case_match | solve [auto with trader] | apply keeps_preserves; solve [auto with trader] ].

(** ** The [Strategy] trait and the trading loop of main.rs *)

(** [pub trait Strategy]: [apply] on the strategy's own state [S], with
    the random values of one iteration ([strategy_draws]); [None] is an
    iteration whose loops have not ended within the fuel of the model.
    The law is what every strategy promises the loop: it keeps the
    trader's account well formed.  [add_event_handler] is the choice of
    who receives the events, which the model does not distinguish. *)
Class Strategy (M : Type) `{Market M} (S : Type) := {
  strategy_draws : Type;
  strategy_apply : S -> strategy_draws -> World (MarketWrapper M) ->
                   option (World (MarketWrapper M) * outcome TraderError.t S);
  strategy_get_name : S -> string;
  strategy_apply_wf : forall s d w r, Account.account_wf (account w) ->
    strategy_apply s d w = Some r -> Account.account_wf (account (fst r))
}.
Arguments strategy_draws M {_} S {_}.

Section Loop.
Context {M : Type} `{Market M} {S : Type} `{!Strategy M S}.

(** [for it in 0..args.n_iterations { ...; strategy.apply(&mut account,
    &mut markets); ... }], the draws of iteration [it] being [draws it].
    The interactive change of strategy, the interaction logger and the
    pause between iterations are not modelled. *)
Fixpoint trading_loop (draws : nat -> strategy_draws M S) (n : nat) (s : S) (w : World (MarketWrapper M))
    : option (World (MarketWrapper M) * outcome TraderError.t S) :=
  match n with
  | O => Some (w, Ok s)
  | Datatypes.S n' =>
      match trading_loop draws n' s w with
      | Some (w', Ok s') => strategy_apply s' (draws n') w'
      | other => other
      end
  end.

(** The result of an [apply] of type [()] on a strategy whose state is [s]. *)
Definition restate {A} (s : S) (r : World (MarketWrapper M) * outcome TraderError.t A)
    : World (MarketWrapper M) * outcome TraderError.t S :=
  (fst r, _ ← snd r; Ok s).

(** An [apply] of type [()] that leaves the strategy's state as it is. *)
Definition stateless {A} (c : TM (MarketWrapper M) A) (s : S) (w : World (MarketWrapper M))
    : option (World (MarketWrapper M) * outcome TraderError.t S) :=
  Some (restate s (c w)).

End Loop.

Lemma stateless_preserves {M S A} (c : TM (MarketWrapper M) A) (s : S) w r :
  preserves Account.account_wf c -> Account.account_wf (account w) -> stateless c s w = Some r ->
  Account.account_wf (account (fst r)).
Proof.
  intros Hc Hw. unfold stateless. specialize (Hc w Hw). by intros [= <-].
Qed.

(** ** [NoOpStrategy] (noop_strategy.rs) *)

(** [pub struct NoOpStrategy;] *)
Inductive NoOpStrategy := NoOp.

(** [apply]: [wrapper.wait_one_day()]. *)
Definition noop_apply {M} `{Market M} (d : entropy * entropy * entropy) : TM (MarketWrapper M) unit :=
  let '(e1, e2, e3) := d in wait_one_day e1 e2 e3.

Definition NOOP_NAME : string := "No-op strategy"%string.

#[export] Program Instance noop_strategy {M} `{Market M} : Strategy M NoOpStrategy := {
  strategy_draws := entropy * entropy * entropy;
  strategy_apply s d w := stateless (noop_apply d) s w;
  strategy_get_name _ := NOOP_NAME
}.
Next Obligation.
  intros M HM s d w r Hw. eapply stateless_preserves; [| done]. destruct d as [[e1 e2] e3].
  apply keeps_preserves, keeps_wait.
Qed.

(** ** [SolRandom], [RcnzRandom], [BoseRandom] (single_market_random_strategy.rs) *)

(** [apply(account, markets.sol.clone(), &self.handler)]: the random
    strategy of one market, through the handle of that market; the state
    is which of the three structs it is. *)
Definition single_market_apply `{MarketConsts} {M} `{Market M} (r : MarketRef)
    (d : Z * Z * Q * entropy * entropy) : TM (MarketWrapper M) unit :=
  let '(is_buy_draw, kind_draw, sample, ent_lock, ent_settle) := d in
  at_market r (random_apply is_buy_draw kind_draw sample ent_lock ent_settle).

Definition single_market_name (r : MarketRef) : string :=
  match r with SolRef => "SOL Random" | RcnzRef => "RCNZ Random" | BoseRef => "BOSE Random" end%string.

Lemma random_apply_preserves `{MarketConsts} {M} `{Market M} b k smp e1 e2 :
  preserves (M:=M) Account.account_wf (random_apply b k smp e1 e2).
Proof. unfold random_apply, direct_buy, direct_sell, lock_buy, lock_sell, buy, sell. preserves. Qed.

#[export] Program Instance single_market_random `{MarketConsts} {M} `{Market M} : Strategy M MarketRef := {
  strategy_draws := Z * Z * Q * entropy * entropy;
  strategy_apply r d w := stateless (single_market_apply r d) r w;
  strategy_get_name := single_market_name
}.
Next Obligation.
  intros ? M HM r d w res Hw. eapply stateless_preserves; [| done]. destruct d as [[[[b k] smp] e1] e2].
  apply preserves_at_market, random_apply_preserves.
Qed.

(** ** Sample draws, for the runs of main.rs *)

#[local] Existing Instance sample_consts.

Definition noop_draws (it : nat) : strategy_draws DogeMarket.DogeMarket NoOpStrategy :=
  (doge_ent 1%positive (Z.of_nat it), doge_ent 2%positive (Z.of_nat it), doge_ent 3%positive (Z.of_nat it)).
