(* ===== verification/MinMax.v ===== *)
(** * The min-max strategy: strategy/min_max_strategy.rs

    [compute_exchange_quantity] sizes an arbitrage between a seller and a
    buyer market: it starts from half a percent of the seller's stock and
    divides by 1.2 until the seller's price fits the trader's euros, then
    again until the buyer's price fits the buyer's budget.  The two
    [loop]s are [shrink], a [Fixpoint] on fuel whose [None] is a loop that
    has not ended within the fuel.

    Against DogeMarkets the sizing terminates when the trader holds euros
    ([exchange_quantity_terminates]).  With an empty euro balance the
    seller's price, never negative, is never below it: in [f32] the
    quantity then underflows to zero after a few hundred rounds and the
    [unwrap] of the price panics, while the rationals of the model shrink
    forever, so the model says nothing of that case beyond running out of
    fuel.

    [MinMaxImpl] holds the rest of the file: [find_exchange] picks with
    [max_by] the kind and ordered pair of markets of greatest unit gain,
    sizes it and keeps it when bid and offer are non-negative and the offer
    exceeds the bid; [apply] locks at the seller, re-reads the buyer's
    price, locks at the buyer, pays, sells and waits a day.  The bid is
    always affordable between DogeMarkets ([min_max_bid_affordable]), and a
    sale the buyer refuses loses the goods bought
    ([min_max_sell_failure_loses_goods]).  [min_max] is the [Strategy]
    instance. *)

From S2P Require Import Prelude Goods Ledger Transactions TickDeque Service Refiller Market Trader Markets.
From Stdlib Require Import Qround String.
Import AccountOps.
Open Scope Q_scope.

Definition TRADE_PERCENTAGE : Q := 1 # 200.
Definition QUANTITY_DECREASE_FACTOR : Q := 6 # 5.

(** [loop { if check(q) { break } else { q /= QUANTITY_DECREASE_FACTOR } }],
    for at most [fuel] rounds. *)
Fixpoint shrink (fuel : nat) (check : Q -> outcome unit bool) (q : Q) : option (outcome unit Q) :=
  match fuel with
  | O => None
  | S fuel' =>
      match check q with
      | Ok true => Some (Ok q)
      | Ok false => shrink fuel' check (q / QUANTITY_DECREASE_FACTOR)
      | Err e => Some (Err e)
      | Panic r => Some (Panic r)
      end
  end.

Section Sizing.
Context {M : Type} `{Market M}.

(** [seller_price < account.get_quantity_by_kind(EUR)], the price unwrapped. *)
Definition seller_check (k : GoodKind) (seller : M) (account : Account) (q : Q) : outcome unit bool :=
  seller_price ← unwrap (market_get_buy_price seller k q);
  Ok (fltq seller_price (Account.get_quantity_by_kind account EUR)).

(** [buyer_price < buyer.get_budget()], the price unwrapped. *)
Definition buyer_check (k : GoodKind) (buyer : M) (q : Q) : outcome unit bool :=
  buyer_price ← unwrap (market_get_sell_price buyer k q);
  Ok (fltq buyer_price (market_get_budget buyer)).

Definition compute_exchange_quantity (fuel : nat) (kind : GoodKind) (seller buyer : M)
    (account : Account) : option (outcome unit Q) :=
  match market_get_goods seller with
  | Ok goods =>
      match find_good_quantity goods kind with
      | Some from_seller_quantity =>
          match shrink fuel (seller_check kind seller account) (from_seller_quantity * TRADE_PERCENTAGE) with
          | Some (Ok quantity_to_exchange) => shrink fuel (buyer_check kind buyer) quantity_to_exchange
          | other => other
          end
      | None => Some (Panic UnwrapOnErr)
      end
  | Err e => Some (Err e)
  | Panic r => Some (Panic r)
  end.

End Sizing.

(** ** [find_exchange] and [apply] *)

(** [struct Exchange]: the seller and the buyer are clones of the
    wrapper's handles. *)
Record Exchange := mk_exchange {
  ex_kind : GoodKind; ex_seller : MarketRef; ex_bid : fval; ex_buyer : MarketRef; ex_offer : fval;
  ex_quantity : Q
}.

(** [tuple_combinations::<(_, _)>()] of itertools: the pairs of the items
    at positions [i < j], in lexicographic order of the positions. *)
Fixpoint tuple_combinations {A} (l : list A) : list (A * A) :=
  match l with
  | [] => []
  | x :: rest => map (fun y => (x, y)) rest ++ tuple_combinations rest
  end.

(** [make_combinations(markets)]: the pairs of the iterator's markets,
    then the same pairs reversed. *)
Definition make_combinations : list (MarketRef * MarketRef) :=
  let combinations := tuple_combinations (iter_items iter_vec) in
  let opposite := map (fun '(first, second) => (second, first)) combinations in
  combinations ++ opposite.

(** [Iterator::max_by]: [reduce] with [cmp::max_by], which keeps the
    accumulator only when it compares [Greater]: the last of the maximal
    items.  The comparison can panic. *)
Definition max_by {A} (compare : A -> A -> outcome unit comparison) (l : list A) : outcome unit (option A) :=
  match l with
  | [] => Ok None
  | x :: rest =>
      r ← fold_left (fun acc y => a ← acc; c ← compare a y; Ok (match c with Gt => a | _ => y end)) rest (Ok x);
      Ok (Some r)
  end.

(** [f32::total_cmp]; it orders the two signs of NaN, which the model does
    not carry: a NaN leaves the model. *)
Definition total_cmp (x y : fval) : outcome unit comparison :=
  match fcmp x y with Some c => Ok c | None => Panic OutOfModel end.

(** The body of [impl Strategy for MinMaxStrategy] and its helpers. *)
Module MinMaxImpl.

Section FindExchange.
Context {M : Type} `{Market M}.

(** The closure [compute_difference]: the gain of one unit bought from the
    seller and sold to the buyer; a buy price that cannot be quoted is
    +inf, a sell price is unwrapped. *)
Definition compute_difference (kind : GoodKind) (seller buyer : M) : outcome unit fval :=
  buy_price ← match market_get_buy_price seller kind 1 with
              | Ok p => Ok p
              | Err _ => Ok (Inf false)
              | Panic r => Panic r
              end;
  sell_price ← unwrap (market_get_sell_price buyer kind 1);
  Ok (fsub sell_price buy_price).

(** The comparator of [max_by]. *)
Definition compare_candidates (markets : MarketWrapper M)
    (c1 c2 : GoodKind * (MarketRef * MarketRef)) : outcome unit comparison :=
  let '(kind1, (seller1, buyer1)) := c1 in
  let '(kind2, (seller2, buyer2)) := c2 in
  diff1 ← compute_difference kind1 (deref markets seller1) (deref markets buyer1);
  diff2 ← compute_difference kind2 (deref markets seller2) (deref markets buyer2);
  total_cmp diff1 diff2.

(** The candidates: [[USD, YEN, YUAN].cartesian_product(make_combinations(markets))]. *)
Definition candidates : list (GoodKind * (MarketRef * MarketRef)) :=
  list_prod [USD; YEN; YUAN] make_combinations.

(** [find_exchange]; [None] when the sizing loop has not ended within [fuel]. *)
Definition find_exchange (fuel : nat) (markets : MarketWrapper M) (account : Account)
    : option (outcome unit (option Exchange)) :=
  match max_by (compare_candidates markets) candidates with
  | Ok (Some (kind, (seller, buyer))) =>
      match compute_exchange_quantity fuel kind (deref markets seller) (deref markets buyer) account with
      | Some (Ok quantity) =>
          Some (bid ← unwrap (market_get_buy_price (deref markets seller) kind quantity);
                offer ← unwrap (market_get_sell_price (deref markets buyer) kind quantity);
                Ok (if fge0 bid && fge0 offer && flt bid offer
                    then Some (mk_exchange kind seller bid buyer offer quantity) else None))
      | Some (Err e) => Some (Err e)
      | Some (Panic r) => Some (Panic r)
      | None => None
      end
  | Ok None => Some (Ok None)
  | Err e => Some (Err e)
  | Panic r => Some (Panic r)
  end.

(** [account.withdraw(kind, quantity).unwrap()]. *)
Definition withdraw_unwrap (k : GoodKind) (q : Q) : TM (MarketWrapper M) Good := fun w =>
  match Account.withdraw (account w) k q with
  | Ok (g, a') => (set_account w a', Ok g)
  | Err _ => (w, Panic UnwrapOnErr)
  | Panic r => (w, Panic r)
  end.

(** [buyer.borrow().get_sell_price(kind, quantity)], its error kept as a value. *)
Definition read_sell_price (buyer : MarketRef) (kind : GoodKind) (quantity : Q)
    : TM (MarketWrapper M) (fval + MarketGetterError.t) := fun w =>
  match market_get_sell_price (deref (market w) buyer) kind quantity with
  | Ok p => (w, Ok (inl p))
  | Err e => (w, Ok (inr e))
  | Panic r => (w, Panic r)
  end.

(** The random values of the market calls of one [apply]. *)
Record MinMaxDraws := mk_min_max_draws {
  draw_lock_buy : entropy; draw_lock_sell : entropy; draw_buy : entropy; draw_sell : entropy;
  draw_wait_bose : entropy; draw_wait_rcnz : entropy; draw_wait_sol : entropy
}.

Definition wait (d : MinMaxDraws) : TM (MarketWrapper M) unit :=
  wait_one_day (draw_wait_bose d) (draw_wait_rcnz d) (draw_wait_sol d).

(** The body of [if let Ok(buyer_token) = result { .. }] and the final
    wait: pay the seller the bid, sell what it delivers to the buyer and
    keep the euros of the sale. *)
Definition settle_exchange (seller buyer : MarketRef) (seller_token buyer_token : string) (kind : GoodKind)
    (quantity bid offer : Q) (d : MinMaxDraws) : TM (MarketWrapper M) unit :=
  cash ← withdraw_unwrap DEFAULT_GOOD_KIND bid;
  '(result, cash) ← at_market seller (call_settle (fun m g => market_buy m seller_token g (draw_buy d)) cash);
  _ ← emit_from seller (Buy seller_token kind quantity bid result);
  match result with
  | inl bought =>
      '(result, _) ← at_market buyer (call_settle (fun m g => market_sell m buyer_token g (draw_sell d)) bought);
      _ ← (match result with inl got => deposit_t got | inr _ => mret tt end);
      _ ← emit_from buyer (Sell buyer_token kind quantity offer result);
      wait d
  | inr _ => _ ← deposit_t cash; wait d
  end.

(** The body of [if let Some(Exchange { .. }) = find_exchange(..) { .. }]
    up to the final [markets.wait_one_day()], which it includes; the two
    [return]s of the code are the branches that wait and end. *)
Definition apply_exchange (ex : Exchange) (d : MinMaxDraws) : TM (MarketWrapper M) unit :=
  let kind := ex_kind ex in
  let seller := ex_seller ex in
  let buyer := ex_buyer ex in
  let quantity := ex_quantity ex in
  bid ← finite_price (ex_bid ex);
  result ← at_market seller (call_lock (fun m => market_lock_buy m kind quantity bid DOGE_TRADER_NAME (draw_lock_buy d)));
  _ ← emit_from seller (LockBuy kind quantity bid result);
  new_offer ← read_sell_price buyer kind quantity;
  match new_offer with
  | inr _ => wait d
  | inl new_offer =>
      if flt (ex_offer ex) new_offer && fle new_offer (ex_bid ex) then wait d else
      match result with
      | inr _ => wait d
      | inl seller_token =>
          offer ← finite_price new_offer;
          result ← at_market buyer (call_lock (fun m => market_lock_sell m kind quantity offer DOGE_TRADER_NAME (draw_lock_sell d)));
          _ ← emit_from buyer (LockSell kind quantity offer result);
          match result with
          | inr _ => wait d
          | inl buyer_token => settle_exchange seller buyer seller_token buyer_token kind quantity bid offer d
          end
      end
  end.

(** [MinMaxStrategy::apply]: [None] when the sizing loop has not ended
    within [fuel].  An [Err] of the reads cannot occur (the trait's reads
    have no error type). *)
Definition apply (fuel : nat) (d : MinMaxDraws) (w : World (MarketWrapper M))
    : option (World (MarketWrapper M) * outcome TraderError.t unit) :=
  match find_exchange fuel (market w) (account w) with
  | Some (Ok (Some ex)) => Some (apply_exchange ex d w)
  | Some (Ok None) => Some (wait d w)
  | Some (Err _) => Some (w, Panic Unreachable)
  | Some (Panic r) => Some (w, Panic r)
  | None => None
  end.

End FindExchange.

End MinMaxImpl.
Import MinMaxImpl.

(** ** The loop *)

Section Shrink.
Variables (check : Q -> outcome unit bool) (q0 B K : Q).

(** Each check within [(0, q0]] compares a price [p] with [B], and the price
    grows at most linearly, with slope [K]. *)
Hypothesis Hcheck : forall q, 0 < q <= q0 ->
  exists p, check q = Ok (bool_decide (p < B)) /\ 0 <= p <= q * K.

Lemma Qnat_nonneg n : 0 <= inject_Z (Z.of_nat n).
Proof. change 0 with (inject_Z 0). rewrite <- Zle_Qle. lia. Qed.

Lemma Qnat_succ n : inject_Z (Z.of_nat (S n)) == inject_Z (Z.of_nat n) + 1.
Proof. rewrite Nat2Z.inj_succ, <- Z.add_1_r, inject_Z_plus. reflexivity. Qed.

(** [n + 1] rounds suffice once [q K < B (1 + n/5)]: each round that does not
    stop divides the bound by [6/5], more than it loses of the slack. *)
Lemma shrink_ends : 0 < B -> 0 <= K -> forall n q, 0 < q <= q0 ->
  q * K < B * (1 + inject_Z (Z.of_nat n) * (1 # 5)) ->
  exists q', shrink (S n) check q = Some (Ok q') /\ 0 < q' <= q.
Proof.
  intros HB HK n. induction n as [| n IH]; intros q Hq Hlt; cbn [shrink];
    destruct (Hcheck q Hq) as (p & -> & Hp0 & Hp).
  - rewrite bool_decide_true; [exists q; split; [done | lra] |].
    change (inject_Z (Z.of_nat 0)) with 0 in Hlt. lra.
  - case_bool_decide as Hpb; [exists q; split; [done | lra] |].
    destruct (IH (q / QUANTITY_DECREASE_FACTOR)) as (q' & Hs & Hq'); unfold QUANTITY_DECREASE_FACTOR in *.
    + split; [apply Qdiv_pos; lra |]. apply Qle_trans with q; [| lra].
      apply Qle_shift_div_r; lra.
    + rewrite Qnat_succ in Hlt. pose proof (Qnat_nonneg n) as HN.
      assert (0 <= B * inject_Z (Z.of_nat n)) by (apply Qmult_le_0_compat; lra).
      assert (E : q / (6 # 5) * K == (5 # 6) * (q * K)) by (field; discriminate).
      rewrite E. lra.
    + exists q'. split; [done |]. split; [lra |]. apply Qle_trans with (q / (6 # 5)); [lra |].
      apply Qle_shift_div_r; lra.
Qed.

(** Enough fuel: the loop stops for every starting quantity in [(0, q0]]. *)
Lemma shrink_terminates : 0 < B -> 0 <= K -> 0 < q0 ->
  exists n q', shrink n check q0 = Some (Ok q') /\ 0 < q' <= q0.
Proof.
  intros HB HK Hq0.
  set (n := Z.to_nat (Qceiling (5 * (q0 * K) / B))).
  assert (Hc : 0 <= 5 * (q0 * K) / B).
  { apply Qle_shift_div_l; [done |]. rewrite Qmult_0_l.
    apply Qmult_le_0_compat; [lra | apply Qmult_le_0_compat; lra]. }
  assert (Hn : 5 * (q0 * K) / B <= inject_Z (Z.of_nat n)).
  { unfold n. rewrite Z2Nat.id; [apply Qle_ceiling |].
    rewrite <- (Qceiling_Z 0). apply Qceiling_resp_le. done. }
  apply (Qmult_le_compat_r _ _ B) in Hn; [| lra].
  assert (E : 5 * (q0 * K) / B * B == 5 * (q0 * K)) by (field; lra). rewrite E in Hn.
  destruct (shrink_ends HB HK n q0) as (q' & Hs & Hq'); [lra | lra |].
  by exists (S n), q'.
Qed.

End Shrink.

(** With no room below [B] the loop never stops. *)
(** ** On DogeMarkets *)

Section Doge.
Context `{MarketConsts}.

Definition ledger (m : DogeMarket.DogeMarket) : AccountOps :=
  TxService.ops (DogeMarketImpl.service (DogeMarket.doge_impl m)).

Lemma doge_get_buy_price_of m k q x :
  AccountOps.compute_buy_price (ledger m) k q (earn_percentage k) = Ok x ->
  DogeMarket.get_buy_price m k q = Ok x.
Proof. unfold DogeMarket.get_buy_price, DogeMarketImpl.get_buy_price, ledger. by intros ->. Qed.

Lemma doge_get_sell_price_of m k q x :
  AccountOps.compute_sell_price (ledger m) k q (earn_percentage k) = Ok x ->
  DogeMarket.get_sell_price m k q = Ok x.
Proof. unfold DogeMarket.get_sell_price, DogeMarketImpl.get_sell_price, ledger. by intros ->. Qed.

(** The seller's price of a foreign kind below [q0 < R] grows at most
    linearly: [E / (R - q0)] euros per unit, plus the earn percentage. *)
Lemma doge_seller_check m k acct q0 q : k <> EUR -> ops_nonneg (ledger m) ->
  q0 < get_reservable_quantity_by_kind (ledger m) k -> 0 < q <= q0 ->
  exists p, seller_check k m acct q = Ok (bool_decide (p < Account.get_quantity_by_kind acct EUR)) /\
    0 <= p <= q * (eur_position (ledger m) / (get_reservable_quantity_by_kind (ledger m) k - q0) *
                   ((100 + earn_percentage k) / 100)).
Proof.
  intros Hk Hn HR Hq. pose proof (earn_percentage_nonneg k) as He.
  pose proof (eur_position_nonneg _ Hn) as HE.
  pose proof (compute_buy_price_fin (ledger m) k q (earn_percentage k) ltac:(lra) He HE
                ltac:(right; split; [done | lra])) as Hp.
  rewrite decide_False in Hp by done.
  set (R := get_reservable_quantity_by_kind (ledger m) k) in *.
  set (E := eur_position (ledger m)) in *.
  eexists. split.
  - unfold seller_check. cbn [market_get_buy_price doge_market].
    by rewrite (doge_get_buy_price_of m k q _ Hp).
  - assert (Hr : E / (R - q) <= E / (R - q0)) by (apply Qdiv_le_denom; lra).
    assert (Hr0 : 0 <= E / (R - q)) by (apply Qdiv_nonneg; lra).
    assert (Hc : 0 <= (100 + earn_percentage k) / 100) by (apply Qdiv_nonneg; lra).
    set (c := (100 + earn_percentage k) / 100) in *.
    assert (L : q * (E / (R - q)) * (100 + earn_percentage k) / 100 == (q * c) * (E / (R - q)))
      by (unfold c; field; lra).
    assert (Rq : q * (E / (R - q0) * c) == (q * c) * (E / (R - q0))) by ring.
    rewrite L, Rq. assert (0 <= q * c) by (apply Qmult_le_0_compat; lra).
    split; [by apply Qmult_le_0_compat |].
    rewrite !(Qmult_comm (q * c)). by apply Qmult_le_compat_r.
Qed.

(** A buyer with euros can always afford a foreign good: its sell price is
    at most 99% of its free euros. *)
Lemma doge_buyer_check m k q : k <> EUR -> ops_nonneg (ledger m) ->
  0 < DogeMarket.get_budget m -> 0 < q -> buyer_check k m q = Ok true.
Proof.
  intros Hk Hn HB Hq. unfold DogeMarket.get_budget in HB. fold (ledger m) in HB.
  pose proof Hn as (Ha & Hr & Hf).
  pose proof (compute_sell_price_fin (ledger m) k q (earn_percentage k) Hn Hq (earn_percentage_nonneg k)) as Hp.
  rewrite decide_False in Hp by done.
  unfold buyer_check. cbn [market_get_sell_price market_get_budget doge_market].
  rewrite (doge_get_sell_price_of m k q _ Hp). cbn. f_equal. apply bool_decide_true.
  unfold DogeMarket.get_budget. fold (ledger m).
  change DEFAULT_GOOD_KIND with EUR in *.
  set (E := get_reservable_quantity_by_kind (ledger m) EUR) in *.
  set (D := get_reservable_quantity_by_kind (ledger m) k + get_reserved_quantity_by_kind (ledger m) k +
            get_future_quantity_by_kind (ledger m) k).
  assert (HD : 0 <= D) by (unfold D, get_reservable_quantity_by_kind, get_reserved_quantity_by_kind,
                             get_future_quantity_by_kind; specialize (Ha k); specialize (Hr k);
                           specialize (Hf k); lra).
  unfold earn_percentage. rewrite decide_False by done. fold D.
  assert (L : q * (E / (D + q)) * (100 - 1) / 100 == (99 # 100) * E * (q / (D + q))) by (field; lra).
  rewrite L. assert (q / (D + q) <= 1) by (apply Qle_shift_div_r; lra).
  assert (0 <= q / (D + q)) by (apply Qdiv_nonneg; lra).
  assert (E * (q / (D + q)) <= E) by (rewrite <- (Qmult_1_r E) at 2; apply Qmult_le_l; lra).
  assert (E2 : (99 # 100) * E * (q / (D + q)) == (99 # 100) * (E * (q / (D + q)))) by ring.
  rewrite E2. lra.
Qed.

(** C10: Termination of the sizing loops of [compute_exchange_quantity]
    between two DogeMarkets, for a foreign kind the seller holds and a
    buyer with euros: when the trader holds euros, both loops end within
    some fuel with a positive quantity.  The seller's price grows at most
    linearly in the quantity, so dividing by 1.2 eventually brings it
    under a positive balance, and the buyer can always afford the result
    at once. *)
Theorem exchange_quantity_terminates seller buyer k acct labels :
  k <> EUR -> ops_nonneg (ledger seller) -> ops_nonneg (ledger buyer) ->
  0 < get_reservable_quantity_by_kind (ledger seller) k -> 0 < DogeMarket.get_budget buyer ->
  DogeMarket.get_goods seller = Ok labels -> 0 < Account.get_quantity_by_kind acct EUR ->
  exists n q, compute_exchange_quantity n k seller buyer acct = Some (Ok q) /\ 0 < q.
Proof.
  intros Hk Hns Hnb HR Hbud Hg HB.
  set (R := get_reservable_quantity_by_kind (ledger seller) k) in *.
  set (B := Account.get_quantity_by_kind acct EUR) in *.
  set (q0 := R * TRADE_PERCENTAGE).
  assert (Hq0 : 0 < q0 < R) by (unfold q0, TRADE_PERCENTAGE; split; nra).
  pose proof (fun q => doge_seller_check seller k acct q0 q Hk Hns (proj2 Hq0)) as Hchk.
  unfold compute_exchange_quantity. cbn [market_get_goods doge_market]. rewrite Hg.
  rewrite (doge_labels_quantity _ _ _ Hg). fold (ledger seller) R q0.
  set (K := eur_position (ledger seller) / (R - q0) * ((100 + earn_percentage k) / 100)).
  assert (HK : 0 <= K).
  { pose proof (eur_position_nonneg _ Hns). pose proof (earn_percentage_nonneg k).
    apply Qmult_le_0_compat; apply Qdiv_nonneg; lra. }
  destruct (shrink_terminates (seller_check k seller acct) q0 B K Hchk HB HK (proj1 Hq0))
    as (n & q & Hs & Hq).
  destruct n as [| n]; [done |]. exists (S n), q. rewrite Hs. cbn [shrink].
  rewrite (doge_buyer_check buyer k q Hk Hnb Hbud ltac:(lra)). split; [done | lra].
Qed.


End Doge.

(** ** The pairs of markets *)

(** [make_combinations] lists every ordered pair of two different
    markets exactly once, in the order of its test: BOSE-RCNZ, BOSE-SOL,
    RCNZ-SOL, then the same pairs reversed. *)
Theorem make_combinations_spec :
  make_combinations = [(BoseRef, RcnzRef); (BoseRef, SolRef); (RcnzRef, SolRef);
                       (RcnzRef, BoseRef); (SolRef, BoseRef); (SolRef, RcnzRef)] /\
  NoDup make_combinations /\ forall s b, (s, b) ∈ make_combinations <-> s <> b.
Proof.
  assert (E : make_combinations = [(BoseRef, RcnzRef); (BoseRef, SolRef); (RcnzRef, SolRef);
                                   (RcnzRef, BoseRef); (SolRef, BoseRef); (SolRef, RcnzRef)]) by reflexivity.
  split_and!; [done | rewrite E; apply (bool_decide_unpack _); reflexivity |].
  intros s b. rewrite E. destruct s, b; split; intros Hp;
    solve [done | (apply (bool_decide_unpack _); reflexivity) | (exfalso; revert Hp; apply (bool_decide_unpack _); reflexivity)].
Qed.

(** ** The choice of [max_by] *)

Section MaxBy.
Context {A : Type} (compare : A -> A -> outcome unit comparison).

Lemma fold_max_stuck (rest : list A) (c : outcome unit A) :
  (forall a, c <> Ok a) ->
  fold_left (fun acc y => a ← acc; c ← compare a y; Ok (match c with Gt => a | _ => y end)) rest c = c.
Proof.
  revert c. induction rest as [| y rest IH]; intros c Hc; [done |]. cbn [fold_left].
  destruct c as [a | e | r]; [by destruct (Hc a) | apply IH; done | apply IH; done].
Qed.

(** The item [max_by] returns is one of the items. *)
Lemma max_by_in l x : max_by compare l = Ok (Some x) -> x ∈ l.
Proof.
  destruct l as [| x0 rest]; [done |]. unfold max_by. intros H. ok_inv H. injection H as <-.
  match goal with Hf : fold_left _ _ _ = Ok _ |- _ => rename Hf into Hfold end.
  revert x0 Hfold. induction rest as [| y rest IH]; intros x0 Hfold; cbn in Hfold.
  - injection Hfold as ->. by left.
  - destruct (compare x0 y) as [[] | e | r] eqn:C; cbn in Hfold;
      try (rewrite fold_max_stuck in Hfold; done).
    + apply IH in Hfold. apply elem_of_cons in Hfold as [-> | Hin]; [by right; left | by right; right].
    + apply IH in Hfold. apply elem_of_cons in Hfold as [-> | Hin]; [by right; left | by right; right].
    + apply IH in Hfold. apply elem_of_cons in Hfold as [-> | Hin]; [by left | by right; right].
Qed.

End MaxBy.

Lemma candidates_foreign k s b : (k, (s, b)) ∈ candidates -> k <> EUR.
Proof.
  unfold candidates. rewrite list_elem_of_In, in_prod_iff. intros [Hk _].
  destruct Hk as [<- | [<- | [<- | []]]]; discriminate.
Qed.

(** ** The loops that end *)

Lemma shrink_ok_check n check q0 q : shrink n check q0 = Some (Ok q) -> check q = Ok true.
Proof.
  revert q0. induction n as [| n IH]; intros q0 Hs; [done |]. cbn in Hs.
  destruct (check q0) as [[] | e | r] eqn:C; [congruence | by apply IH in Hs | done | done].
Qed.

Section DogeExchange.
Context `{MarketConsts}.

Lemma doge_seller_check_nonpos m k acct q : q <= 0 -> seller_check k m acct q = Panic UnwrapOnErr.
Proof.
  intros Hq. unfold seller_check. cbn [market_get_buy_price doge_market].
  unfold DogeMarket.get_buy_price, DogeMarketImpl.get_buy_price, compute_buy_price.
  by rewrite decide_True by done.
Qed.

(** The sizing between DogeMarkets stops at a quantity whose seller's
    price is below the trader's euros: the buyer's loop, which can afford
    it at once, does not shrink it again. *)
Lemma doge_exchange_quantity_price n k seller buyer acct q : k <> EUR ->
  ops_nonneg (ledger buyer) -> 0 < DogeMarket.get_budget buyer ->
  compute_exchange_quantity n k seller buyer acct = Some (Ok q) ->
  0 < q /\ seller_check k seller acct q = Ok true.
Proof.
  intros Hk Hnb Hbud. unfold compute_exchange_quantity.
  destruct (market_get_goods seller) as [goods | | ]; [| done | done].
  destruct (find_good_quantity goods k) as [q0 |]; [| done].
  destruct (shrink n (seller_check k seller acct) _) as [[q1 | | ] |] eqn:S1; try done.
  pose proof (shrink_ok_check _ _ _ _ S1) as C1.
  assert (Hq1 : 0 < q1).
  { destruct (Qlt_le_dec 0 q1) as [| Hle]; [done |]. by rewrite doge_seller_check_nonpos in C1. }
  destruct n as [| n]; [done |]. cbn [shrink].
  rewrite (doge_buyer_check buyer k q1 Hk Hnb Hbud Hq1). by intros [= <-].
Qed.

(** A DogeMarket refuses a buy lock at a bid that is not positive
    ([BuyTx::reserve]'s [NonPositiveBid], or [NonPositiveBuy] first). *)
Lemma doge_lock_buy_pos_bid (m : DogeMarket.DogeMarket) k q b name ent tok m' :
  market_lock_buy m k q b name ent = Ok (tok, m') -> 0 < b.
Proof.
  destruct (Qlt_le_dec 0 b) as [| Hb]; [done |].
  cbn [market_lock_buy doge_market]. unfold DogeMarket.lock_buy, DogeMarketImpl.do_buy_reservation,
    TxService.do_buy_reservation.
  pose proof (buy_reserve_errors (TxService.ops (DogeMarketImpl.service (DogeMarket.doge_impl m)))
    (BuyTx.mk_buy_proposal (Good.new k q) (Good.new DEFAULT_GOOD_KIND b))) as (E1 & E2 & _).
  cbn in E1, E2. destruct (Qlt_le_dec 0 q) as [Hq | Hq];
    [rewrite (E2 Hq Hb) | rewrite (E1 Hq)]; cbn; discriminate.
Qed.

(** C30: Between DogeMarkets the euro withdrawal of [apply] never fails:
    the bid of every exchange [find_exchange] proposes is a finite price
    below the trader's euro balance, and once the seller has accepted the
    buy lock at that bid (the only path to
    [account.withdraw(DEFAULT_GOOD_KIND, bid).unwrap()], reached with the
    account unchanged) the withdrawal succeeds and debits exactly the bid.
    The code relies on the buyer's loop not shrinking the quantity; a
    seller whose price is not monotone in the quantity, behind a buyer
    that shrinks it, breaks this. *)
Theorem min_max_bid_affordable fuel (ms : MarketWrapper DogeMarket.DogeMarket) acct ex :
  Account.account_wf acct ->
  (forall r, ops_nonneg (ledger (deref ms r))) -> (forall r, 0 < DogeMarket.get_budget (deref ms r)) ->
  find_exchange fuel ms acct = Some (Ok (Some ex)) ->
  exists b, ex_bid ex = Fin b /\ b < Account.get_quantity_by_kind acct EUR /\
    forall name ent tok m',
      market_lock_buy (deref ms (ex_seller ex)) (ex_kind ex) (ex_quantity ex) b name ent = Ok (tok, m') ->
      Account.withdraw acct DEFAULT_GOOD_KIND b =
      Ok (Good.new EUR b, Account.set_good_by_kind acct EUR
                            (mk_good EUR (Account.get_quantity_by_kind acct EUR - b))).
Proof.
  intros Hwf Hn Hb. unfold find_exchange.
  destruct (max_by _ _) as [[[k [s b]] |] | | ] eqn:MB; try done.
  apply max_by_in, candidates_foreign in MB.
  destruct (compute_exchange_quantity fuel k _ _ acct) as [[q | | ] |] eqn:CQ; try done.
  destruct (doge_exchange_quantity_price _ _ _ _ _ _ MB (Hn b) (Hb b) CQ) as [_ Hc].
  unfold seller_check in Hc. destruct (market_get_buy_price (deref ms s) k q) as [p | | ] eqn:P;
    cbn in Hc; [| done | done]. cbv [mbind outcome_bind unwrap].
  destruct (market_get_sell_price (deref ms b) k q) as [o | | ]; [| done | done].
  injection Hc as Hlt. destruct (fge0 p && fge0 o && flt p o) eqn:F; [| done]. intros [= <-]. cbn.
  destruct p as [x | [] |]; cbn in Hlt; try done.
  apply bool_decide_eq_true in Hlt. exists x. split; [done | split; [lra |]].
  intros name ent tok m' Hl%doge_lock_buy_pos_bid. apply withdraw_ok; [done | done | lra].
Qed.

End DogeExchange.

(** ** The goods of a refused sale *)

Section SellFailure.
Context {M : Type} `{Market M}.

(** C12: When the buyer refuses the sale after the seller has delivered,
    [apply] drops the goods: [if let Ok(bought) = result { account.deposit(bought) }]
    deposits only the proceeds of a sale, and the [bought] handed back by
    a failed [sell] is lost.  The trader ends having paid the bid, with
    neither the goods nor their price. *)
Theorem min_max_sell_failure_loses_goods seller buyer st bt kind quantity bid offer d
    (w : World (MarketWrapper M)) bought m1 cash' e :
  seller <> buyer -> Account.account_wf (account w) ->
  0 < bid <= Account.get_quantity_by_kind (account w) DEFAULT_GOOD_KIND ->
  market_buy (deref (market w) seller) st (Good.new DEFAULT_GOOD_KIND bid) (draw_buy d) = Ok (bought, m1, cash') ->
  market_sell (deref (market w) buyer) bt bought (draw_sell d) = Err e ->
  account (fst (settle_exchange seller buyer st bt kind quantity bid offer d w)) =
    Account.debit (account w) DEFAULT_GOOD_KIND bid.
Proof.
  intros Hsb Hwf [Hb0 Hb] Hbuy Hsell.
  unfold settle_exchange. cbv [mbind tm_bind withdraw_unwrap].
  rewrite (withdraw_debit _ _ _ Hwf Hb0 Hb).
  unfold at_market at 1. cbv [call_settle]. cbn [account market events set_account]. rewrite Hbuy.
  cbn [set_market account market events emit_from fst snd].
  unfold at_market. cbn [account market events]. rewrite deref_store_ne by done. rewrite Hsell.
  cbn [fst snd account market events mret tm_ret].
  lazymatch goal with |- context [wait d ?w5] =>
    pose proof (keeps_wait (M:=M) [(BoseRef, draw_wait_bose d); (RcnzRef, draw_wait_rcnz d);
                                   (SolRef, draw_wait_sol d)] w5) as K;
    change (wait_one_day_macro _ w5) with (wait d w5) in K;
    destruct (wait d w5) as [w6 [[] | ? | ?]] end; cbn in *; exact K.
Qed.

End SellFailure.

(** ** [impl Strategy for MinMaxStrategy] *)

(** [pub struct MinMaxStrategy { handlers }]: its handlers all receive the events. *)
Inductive MinMaxStrategy := min_max_strategy.

Definition MIN_MAX_NAME : string := "Min-Max Strategy"%string.

Section MinMaxInstance.
Context {M : Type} `{Market M}.

Lemma withdraw_unwrap_wf k q : preserves (M:=MarketWrapper M) Account.account_wf (withdraw_unwrap k q).
Proof.
  intros w Hw. unfold withdraw_unwrap.
  destruct (Account.withdraw (account w) k q) as [[g a'] | | ] eqn:W; cbn; [| done | done].
  destruct (withdraw_inv _ _ _ _ _ Hw W) as (_ & -> & _). auto with doge.
Qed.

Lemma keeps_read_sell_price r k q : keeps_account (M:=MarketWrapper M) (read_sell_price r k q).
Proof. intros w. unfold read_sell_price. by destruct (market_get_sell_price _ k q). Qed.

Lemma keeps_wait_d d : keeps_account (M:=MarketWrapper M) (wait d).
Proof. apply keeps_wait. Qed.

Lemma apply_exchange_wf ex d : preserves (M:=MarketWrapper M) Account.account_wf (apply_exchange ex d).
Proof.
  unfold apply_exchange, settle_exchange, wait.
  strategy_preserves; first [apply withdraw_unwrap_wf | apply keeps_preserves, keeps_read_sell_price].
Qed.

End MinMaxInstance.

#[export] Program Instance min_max `{Market M} : Strategy M MinMaxStrategy := {
  strategy_draws := nat * MinMaxDraws;
  strategy_apply s d w := option_map (restate s) (apply d.1 d.2 w);
  strategy_get_name _ := MIN_MAX_NAME
}.
Next Obligation.
  intros M HM s [fuel d] w r Hw. cbn [strategy_apply fst snd]. unfold apply.
  destruct (find_exchange _ _ _) as [[[ex |] | | ] |]; cbn [option_map]; try done;
    intros [= <-]; cbn [restate fst]; try done.
  - exact (apply_exchange_wf ex d w Hw).
  - by rewrite (keeps_wait_d d w).
Qed.

(** ** Witnesses *)

#[local] Existing Instance sample_consts.

Definition sample_labels : list GoodLabel :=
  match DogeMarket.get_goods scenario_m0 with Ok l => l | _ => [] end.

Lemma exchange_quantity_terminates_witness :
  exists n q, compute_exchange_quantity n USD scenario_m0 scenario_m0 trader_account = Some (Ok q) /\ 0 < q.
Proof.
  apply (exchange_quantity_terminates scenario_m0 scenario_m0 USD trader_account sample_labels);
    [done | concrete | concrete | vm_compute; reflexivity .. ].
Defined.

(** Three DogeMarkets with room for an arbitrage of yen: SOL holds 10^8
    yen, RCNZ 1000 and a fortune in dollars. *)
Definition mm_market (eur yen usd yuan : Q) : DogeMarket.DogeMarket :=
  match DogeMarket.new_with_quantities eur yen usd yuan with Ok (m, _) => m | _ => scenario_m0 end.

Definition mm_markets : MarketWrapper DogeMarket.DogeMarket :=
  mk_wrapper (mm_market 1000000 100000000 1000000 1000000) (mm_market 1000000 1000 100000000 1000000) scenario_m0.

Definition mm_exchange : Exchange :=
  match find_exchange 200 mm_markets trader_account with
  | Some (Ok (Some ex)) => ex
  | _ => mk_exchange EUR SolRef NaN SolRef NaN 0
  end.

Lemma min_max_bid_affordable_witness :
  exists b, ex_bid mm_exchange = Fin b /\ (b < Account.get_quantity_by_kind trader_account EUR) /\
    forall name ent tok m',
      market_lock_buy (deref mm_markets (ex_seller mm_exchange)) (ex_kind mm_exchange)
        (ex_quantity mm_exchange) b name ent = Ok (tok, m') ->
      Account.withdraw trader_account DEFAULT_GOOD_KIND b =
      Ok (Good.new EUR b, Account.set_good_by_kind trader_account EUR
                            (mk_good EUR (Account.get_quantity_by_kind trader_account EUR - b))).
Proof.
  apply (min_max_bid_affordable 200 mm_markets trader_account mm_exchange);
    [intros []; reflexivity | intros []; concrete | intros []; vm_compute; reflexivity | vm_compute; reflexivity].
Defined.

Definition mm_draws : MinMaxDraws (M:=DogeMarket.DogeMarket) :=
  mk_min_max_draws (doge_ent 11%positive 50%Z) (doge_ent 12%positive 50%Z) (doge_ent 13%positive 50%Z)
    (doge_ent 14%positive 50%Z) (doge_ent 15%positive 50%Z) (doge_ent 16%positive 50%Z) (doge_ent 17%positive 50%Z).

(** SOL after the trader's lock of the exchange's yen, and the token of the lock. *)
Definition mm_locked : string * DogeMarket.DogeMarket :=
  match DogeMarket.lock_buy (sol mm_markets) (ex_kind mm_exchange) (ex_quantity mm_exchange)
          (match ex_bid mm_exchange with Fin b => b | _ => 0 end) DOGE_TRADER_NAME 11%positive 50%Z with
  | Ok (token, m, _) => (token, m)
  | _ => (EmptyString, sol mm_markets)
  end.

Definition mm_world : World (MarketWrapper DogeMarket.DogeMarket) :=
  mk_world trader_account (store mm_markets SolRef (snd mm_locked)) [].

Definition mm_bid : Q := match ex_bid mm_exchange with Fin b => b | _ => 0 end.

(** RCNZ does not know the token it is handed: the sale is refused. *)
Lemma min_max_sell_failure_loses_goods_witness :
  account (fst (settle_exchange SolRef RcnzRef (fst mm_locked) "unknown"%string YEN (ex_quantity mm_exchange)
                  mm_bid 0 mm_draws mm_world)) =
    Account.debit trader_account DEFAULT_GOOD_KIND mm_bid.
Proof.
  eapply (min_max_sell_failure_loses_goods SolRef RcnzRef (fst mm_locked) "unknown"%string YEN
            (ex_quantity mm_exchange) mm_bid 0 mm_draws mm_world);
    [discriminate | concrete | concrete | vm_compute; reflexivity | vm_compute; reflexivity].
Defined.
