(* ===== verification/PriceComparison.v ===== *)
(** * The price-comparison strategy: strategy/price_comparison_strategy.rs

    Each iteration reads, for every kind, the buy and sell price of 10000
    units on each of the three markets (an error reads as +inf for a buy
    and -inf for a sell), picks per kind the cheapest market to buy from
    and the dearest to sell to ([BuySellTable::get_best_operation]), keeps
    the kind of largest expected gain ([PriceTable::get_best_operation]),
    and when the gain reaches 2 buys there and sells there with
    [direct_buy] and [direct_sell] of common.rs.

    The branches that should let a day pass call [wait_one_day!()] with no
    market: the macro then notifies nobody, and the iteration ends with
    every market as it was.  When the best gain is below 2 the trader is
    therefore stuck: no later iteration sees other prices
    ([price_comparison_idles_forever]).

    [min_f32] and [max_f32] come from iteraction_logger/create_account_graphs.rs. *)

From S2P Require Import Prelude Goods Ledger Transactions TickDeque Service Refiller Market Trader Markets.
From Stdlib Require Import String.
Open Scope Q_scope.

(** [max_f32(v1, v2)]: [if v1 > v2 { v1 } else { v2 }]. *)
Definition max_f32 (v1 v2 : fval) : fval := if flt v2 v1 then v1 else v2.

(** [min_f32(v1, v2)]: [if v1 < v2 { v1 } else { v2 }]. *)
Definition min_f32 (v1 v2 : fval) : fval := if flt v1 v2 then v1 else v2.

Definition QUANTITY : Q := 10000.
Definition IMPOSSIBLE_BUY_PRICE : fval := Inf false.
Definition IMPOSSIBLE_SELL_PRICE : fval := Inf true.

Inductive MarketToChoose := Sol | Rcnz | Bose.

#[export] Instance MarketToChoose_eq_dec : EqDecision MarketToChoose.
Proof. solve_decision. Defined.

Record GoodPriceTable := mk_good_price_table { price_sol : fval; price_rcnz : fval; price_bose : fval }.

Record BuySellTable := mk_buy_sell_table { table_buy : GoodPriceTable; table_sell : GoodPriceTable }.

Record PriceTable := mk_price_table {
  table_eur : BuySellTable; table_usd : BuySellTable; table_yen : BuySellTable; table_yuan : BuySellTable
}.

Record BestOperation := mk_best_operation {
  op_kind : GoodKind; buy_from : MarketToChoose; sell_to : MarketToChoose; expected_gain : fval
}.

(** The column of a market in a table. *)
Definition price_at (t : GoodPriceTable) (c : MarketToChoose) : fval :=
  match c with Sol => price_sol t | Rcnz => price_rcnz t | Bose => price_bose t end.

(** [match best_operation.buy_from { MarketToChoose::Sol => markets.sol.clone(), ... }]. *)
Definition market_of (c : MarketToChoose) : MarketRef :=
  match c with Sol => SolRef | Rcnz => RcnzRef | Bose => BoseRef end.

(** The free functions and table methods of price_comparison_strategy.rs. *)
Module PriceComparisonImpl.

Section Apply.
Context {M : Type} `{Market M} `{MarketConsts}.

(** [get_buy_price(market, quantity, kind)]: the market's price, or its
    error (the code formats it into a message, which its only caller
    discards). *)
Definition get_buy_price (market : M) (quantity : Q) (kind : GoodKind) : outcome MarketGetterError.t fval :=
  market_get_buy_price market kind quantity.

Definition get_sell_price (market : M) (quantity : Q) (kind : GoodKind) : outcome MarketGetterError.t fval :=
  market_get_sell_price market kind quantity.

(** [get_buy_price(market, QUANTITY, kind).unwrap_or(IMPOSSIBLE_BUY_PRICE)]. *)
Definition my_get_buy_price (market : M) (kind : GoodKind) : outcome Empty_set fval :=
  match get_buy_price market QUANTITY kind with
  | Ok price => Ok price
  | Err _ => Ok IMPOSSIBLE_BUY_PRICE
  | Panic r => Panic r
  end.

Definition my_get_sell_price (market : M) (kind : GoodKind) : outcome Empty_set fval :=
  match get_sell_price market QUANTITY kind with
  | Ok price => Ok price
  | Err _ => Ok IMPOSSIBLE_SELL_PRICE
  | Panic r => Panic r
  end.

(** [BuySellTable::new]: the six reads, in the order of the struct literal. *)
Definition BuySellTable_new (markets : MarketWrapper M) (kind : GoodKind) : outcome Empty_set BuySellTable :=
  buy_sol ← my_get_buy_price (sol markets) kind;
  buy_rcnz ← my_get_buy_price (rcnz markets) kind;
  buy_bose ← my_get_buy_price (bose markets) kind;
  sell_sol ← my_get_sell_price (sol markets) kind;
  sell_rcnz ← my_get_sell_price (rcnz markets) kind;
  sell_bose ← my_get_sell_price (bose markets) kind;
  Ok (mk_buy_sell_table (mk_good_price_table buy_sol buy_rcnz buy_bose)
                        (mk_good_price_table sell_sol sell_rcnz sell_bose)).

(** [BuySellTable::get_best_operation]. *)
Definition BuySellTable_get_best_operation (t : BuySellTable) (kind : GoodKind) : BestOperation :=
  let buy := table_buy t in
  let sell := table_sell t in
  let min_buy := min_f32 (price_sol buy) (min_f32 (price_rcnz buy) (price_bose buy)) in
  let buy_from := if feq min_buy (price_sol buy) then Sol
                  else if feq min_buy (price_rcnz buy) then Rcnz else Bose in
  let max_sell := max_f32 (price_sol sell) (max_f32 (price_rcnz sell) (price_bose sell)) in
  let sell_to := if feq max_sell (price_sol sell) then Sol
                 else if feq max_sell (price_rcnz sell) then Rcnz else Bose in
  mk_best_operation kind buy_from sell_to
    (fdiv (fsub max_sell min_buy) (Fin (get_default_exchange_rate kind))).

(** [PriceTable::new]. *)
Definition PriceTable_new (markets : MarketWrapper M) : outcome Empty_set PriceTable :=
  eur ← BuySellTable_new markets EUR;
  usd ← BuySellTable_new markets USD;
  yen ← BuySellTable_new markets YEN;
  yuan ← BuySellTable_new markets YUAN;
  Ok (mk_price_table eur usd yen yuan).

(** [if new_best_operation.expected_gain > best_operation.expected_gain
    { best_operation = new_best_operation; }]. *)
Definition keep_best (best new : BestOperation) : BestOperation :=
  if flt (expected_gain best) (expected_gain new) then new else best.

(** [PriceTable::get_best_operation]. *)
Definition PriceTable_get_best_operation (t : PriceTable) : BestOperation :=
  let best_operation := BuySellTable_get_best_operation (table_eur t) EUR in
  let best_operation := keep_best best_operation (BuySellTable_get_best_operation (table_usd t) USD) in
  let best_operation := keep_best best_operation (BuySellTable_get_best_operation (table_yen t) YEN) in
  keep_best best_operation (BuySellTable_get_best_operation (table_yuan t) YUAN).

(** [PriceComparison::apply], with the random values of the four market
    calls it can make as inputs.  Every [wait_one_day!()] of the code has
    no argument. *)
Definition apply (ent_lock_buy ent_buy ent_lock_sell ent_sell : entropy) : TM (MarketWrapper M) unit :=
  price_table ← run_read PriceTable_new;
  let best_operation := PriceTable_get_best_operation price_table in
  if flt (expected_gain best_operation) (Fin 2) then wait_one_day_macro [] else
  success ← attempt (at_market (market_of (buy_from best_operation))
                      (direct_buy (op_kind best_operation) QUANTITY ent_lock_buy ent_buy));
  match success with
  | inl _ =>
      success ← attempt (at_market (market_of (sell_to best_operation))
                          (direct_sell (op_kind best_operation) QUANTITY ent_lock_sell ent_sell));
      match success with
      | inl _ => mret tt
      | inr _ => wait_one_day_macro []
      end
  | inr _ => wait_one_day_macro []
  end.

End Apply.

End PriceComparisonImpl.
Import PriceComparisonImpl.

(** ** [impl Strategy for PriceComparison] *)

(** [pub struct PriceComparison { handler }]: its handler receives the events. *)
Inductive PriceComparison := PriceComparisonStrategy.

Definition PRICE_COMPARISON_NAME : string := "Table Comparison"%string.

Lemma price_comparison_apply_wf `{MarketConsts} {M} `{Market M} e1 e2 e3 e4 :
  preserves Account.account_wf (apply (M:=M) e1 e2 e3 e4).
Proof. unfold apply, direct_buy, direct_sell, lock_buy, lock_sell, buy, sell. strategy_preserves. Qed.

#[export] Program Instance price_comparison `{MarketConsts} {M} `{Market M} : Strategy M PriceComparison := {
  strategy_draws := entropy * entropy * entropy * entropy;
  strategy_apply s d w := let '(e1, e2, e3, e4) := d in stateless (apply e1 e2 e3 e4) s w;
  strategy_get_name _ := PRICE_COMPARISON_NAME
}.
Next Obligation.
  intros ? M HM s [[[e1 e2] e3] e4] w r Hw. eapply stateless_preserves; [| done]. apply price_comparison_apply_wf.
Qed.

(** ** The choice of markets *)

Definition rank (c : MarketToChoose) : nat := match c with Sol => 0 | Rcnz => 1 | Bose => 2 end.

(** No price of the table is NaN. *)
Definition table_ok (t : GoodPriceTable) : bool :=
  negb (is_nan (price_sol t)) && negb (is_nan (price_rcnz t)) && negb (is_nan (price_bose t)).

Lemma table_ok_at t c : table_ok t = true -> is_nan (price_at t c) = false.
Proof. unfold table_ok. intros Ht. repeat (apply andb_prop in Ht as [Ht ?]). destruct c; cbn; by apply negb_true_iff. Qed.

Lemma min_f32_le a b : is_nan a = false -> is_nan b = false ->
  fle (min_f32 a b) a = true /\ fle (min_f32 a b) b = true.
Proof.
  intros Ha Hb. unfold min_f32. destruct (flt a b) eqn:E.
  - rewrite flt_fle in E by done. split; [by apply fle_refl |].
    destruct (fle_total a b Ha Hb) as [|Hba]; [done | by rewrite Hba in E].
  - rewrite flt_fle in E by done. apply negb_false_iff in E. split; [done | by apply fle_refl].
Qed.

Lemma max_f32_ge a b : is_nan a = false -> is_nan b = false ->
  fle a (max_f32 a b) = true /\ fle b (max_f32 a b) = true.
Proof.
  intros Ha Hb. unfold max_f32. destruct (flt b a) eqn:E.
  - rewrite flt_fle in E by done. split; [by apply fle_refl |].
    destruct (fle_total a b Ha Hb) as [Hab|]; [by rewrite Hab in E | done].
  - rewrite flt_fle in E by done. apply negb_false_iff in E. split; [done | by apply fle_refl].
Qed.

Lemma min_f32_cases a b : min_f32 a b = a \/ min_f32 a b = b.
Proof. unfold min_f32. destruct (flt a b); auto. Qed.

Lemma max_f32_cases a b : max_f32 a b = a \/ max_f32 a b = b.
Proof. unfold max_f32. destruct (flt b a); auto. Qed.

Lemma fle_feq_l x y z : feq x y = true -> fle x z = true -> fle y z = true.
Proof. intros [_ Hyx]%feq_fle Hxz. by eapply fle_trans. Qed.

Lemma fle_feq_r x y z : feq x y = true -> fle z x = true -> fle z y = true.
Proof. intros [Hxy _]%feq_fle Hzx. by eapply fle_trans. Qed.

Lemma not_feq_flt x y : is_nan x = false -> is_nan y = false -> fle x y = true -> feq x y = false -> flt x y = true.
Proof.
  intros Hx Hy Hle Heq. rewrite flt_fle by done. apply negb_true_iff.
  destruct (fle y x) eqn:E; [| done]. by rewrite (proj2 (feq_fle x y) (conj Hle E)) in Heq.
Qed.

Section Extremes.
Variable (p : MarketToChoose -> fval).
Hypothesis Hp : forall c, is_nan (p c) = false.

(** The selection [if m == p(Sol) { Sol } else if m == p(Rcnz) { Rcnz } else { Bose }]
    of an [m] that is one of the three prices is the first market whose
    price is [m]. *)
Definition first_at (m : fval) : MarketToChoose :=
  if feq m (p Sol) then Sol else if feq m (p Rcnz) then Rcnz else Bose.

Lemma first_at_spec m : m = p Sol \/ m = p Rcnz \/ m = p Bose ->
  feq m (p (first_at m)) = true /\ forall c, (rank c < rank (first_at m))%nat -> feq m (p c) = false.
Proof.
  intros Hm. unfold first_at.
  destruct (feq m (p Sol)) eqn:E1; [split; [done | intros []; cbn; lia] |].
  destruct (feq m (p Rcnz)) eqn:E2; [split; [done | intros []; cbn; try done; lia] |].
  split; [| intros []; cbn; done || lia].
  destruct Hm as [-> | [-> | ->]]; [| |by rewrite (proj2 (feq_fle _ _) (conj (fle_refl _ (Hp _)) (fle_refl _ (Hp _))))].
  - by rewrite (proj2 (feq_fle _ _) (conj (fle_refl _ (Hp _)) (fle_refl _ (Hp _)))) in E1.
  - by rewrite (proj2 (feq_fle _ _) (conj (fle_refl _ (Hp _)) (fle_refl _ (Hp _)))) in E2.
Qed.

Lemma min3_spec : let m := min_f32 (p Sol) (min_f32 (p Rcnz) (p Bose)) in
  (m = p Sol \/ m = p Rcnz \/ m = p Bose) /\ forall c, fle m (p c) = true.
Proof.
  cbn. pose proof (min_f32_le (p Rcnz) (p Bose) (Hp _) (Hp _)) as [H1 H2].
  assert (Hn : is_nan (min_f32 (p Rcnz) (p Bose)) = false) by (by destruct (min_f32_cases (p Rcnz) (p Bose)) as [-> | ->]).
  pose proof (min_f32_le (p Sol) _ (Hp _) Hn) as [H3 H4]. split.
  - destruct (min_f32_cases (p Sol) (min_f32 (p Rcnz) (p Bose))) as [-> | ->]; [by left |].
    destruct (min_f32_cases (p Rcnz) (p Bose)) as [-> | ->]; auto.
  - intros []; [done | by eapply fle_trans ..].
Qed.

Lemma max3_spec : let m := max_f32 (p Sol) (max_f32 (p Rcnz) (p Bose)) in
  (m = p Sol \/ m = p Rcnz \/ m = p Bose) /\ forall c, fle (p c) m = true.
Proof.
  cbn. pose proof (max_f32_ge (p Rcnz) (p Bose) (Hp _) (Hp _)) as [H1 H2].
  assert (Hn : is_nan (max_f32 (p Rcnz) (p Bose)) = false) by (by destruct (max_f32_cases (p Rcnz) (p Bose)) as [-> | ->]).
  pose proof (max_f32_ge (p Sol) _ (Hp _) Hn) as [H3 H4]. split.
  - destruct (max_f32_cases (p Sol) (max_f32 (p Rcnz) (p Bose))) as [-> | ->]; [by left |].
    destruct (max_f32_cases (p Rcnz) (p Bose)) as [-> | ->]; auto.
  - intros []; [done | by eapply fle_trans ..].
Qed.

Lemma feq_trans_false x y z : feq x y = true -> feq x z = false -> feq y z = false.
Proof.
  intros Hxy Hxz. destruct (feq y z) eqn:Hyz; [| done]. exfalso.
  enough (feq x z = true) by congruence.
  apply feq_fle in Hxy as [H1 H2], Hyz as [H3 H4]. apply feq_fle. split; by eapply fle_trans.
Qed.

(** The cheapest market: its price is the least, and strictly below the
    price of every market listed before it. *)
Lemma first_min_spec : let m := min_f32 (p Sol) (min_f32 (p Rcnz) (p Bose)) in
  forall c, fle (p (first_at m)) (p c) = true /\
            ((rank c < rank (first_at m))%nat -> flt (p (first_at m)) (p c) = true).
Proof.
  intros m. destruct min3_spec as [Hm Hle]. fold m in Hm, Hle.
  destruct (first_at_spec m Hm) as [Hf Hbefore]. intros c.
  assert (Hc : fle (p (first_at m)) (p c) = true) by (eapply fle_feq_l; [exact Hf | apply Hle]).
  split; [done |]. intros Hr. apply not_feq_flt; [apply Hp | apply Hp | done |].
  by eapply feq_trans_false; [exact Hf | apply Hbefore].
Qed.

(** The dearest market, with the same tie-breaking. *)
Lemma first_max_spec : let m := max_f32 (p Sol) (max_f32 (p Rcnz) (p Bose)) in
  forall c, fle (p c) (p (first_at m)) = true /\
            ((rank c < rank (first_at m))%nat -> flt (p c) (p (first_at m)) = true).
Proof.
  intros m. destruct max3_spec as [Hm Hle]. fold m in Hm, Hle.
  destruct (first_at_spec m Hm) as [Hf Hbefore]. intros c.
  assert (Hc : fle (p c) (p (first_at m)) = true) by (eapply fle_feq_r; [exact Hf | apply Hle]).
  split; [done |]. intros Hr. apply not_feq_flt; [apply Hp | apply Hp | done |].
  destruct (feq (p c) (p (first_at m))) eqn:E; [| done].
  assert (Hmc : feq m (p c) = true).
  { apply feq_fle in Hf as [H1 H2], E as [H3 H4]. apply feq_fle. split; by eapply fle_trans. }
  by rewrite (Hbefore c Hr) in Hmc.
Qed.

End Extremes.

Lemma feq_equiv x y : feq x y = true -> fval_equiv x y.
Proof. fcmp_solve. Qed.

(** ** The best operation *)

Lemma keep_best_cases b n : keep_best b n = b \/ keep_best b n = n.
Proof. unfold keep_best. destruct (flt _ _); auto. Qed.

Lemma keep_best_ge b n : is_nan (expected_gain b) = false -> is_nan (expected_gain n) = false ->
  fle (expected_gain b) (expected_gain (keep_best b n)) = true /\
  fle (expected_gain n) (expected_gain (keep_best b n)) = true.
Proof.
  intros Hb Hn. unfold keep_best. destruct (flt _ _) eqn:E; rewrite flt_fle in E by done.
  - split; [| by apply fle_refl]. destruct (fle_total _ _ Hb Hn) as [|H']; [done | by rewrite H' in E].
  - apply negb_false_iff in E. split; [by apply fle_refl | done].
Qed.

(** The running best of [get_best_operation] is one of the operations
    seen, with the largest expected gain. *)
Lemma keep_best_fold l b : Forall (fun o => is_nan (expected_gain o) = false) (b :: l) ->
  fold_left keep_best l b ∈ b :: l /\
  Forall (fun o => fle (expected_gain o) (expected_gain (fold_left keep_best l b)) = true) (b :: l).
Proof.
  revert b. induction l as [| x l IH]; intros b Hl.
  - split; [by left |]. inversion Hl as [| ? ? Hb]; subst. constructor; [by apply fle_refl | done].
  - inversion Hl as [| ? ? Hb Hxl]; subst. inversion Hxl as [| ? ? Hx Hl']; subst. cbn [fold_left].
    destruct (keep_best_ge b x Hb Hx) as [Hbk Hxk].
    assert (Hk : is_nan (expected_gain (keep_best b x)) = false)
      by (by destruct (keep_best_cases b x) as [-> | ->]).
    destruct (IH (keep_best b x)) as [Hin Hall]; [by constructor |].
    inversion Hall as [| ? ? Hkr Hlr]; subst. split.
    + apply elem_of_cons in Hin as [-> | Hin]; [| by right; right].
      destruct (keep_best_cases b x) as [-> | ->]; [left | right; left].
    + constructor; [by eapply fle_trans |]. constructor; [by eapply fle_trans | done].
Qed.

Section Choice.
Context `{MarketConsts}.

(** The operations of the four kinds, in the order they are compared. *)
Definition kind_operations (t : PriceTable) : list BestOperation :=
  [BuySellTable_get_best_operation (table_eur t) EUR; BuySellTable_get_best_operation (table_usd t) USD;
   BuySellTable_get_best_operation (table_yen t) YEN; BuySellTable_get_best_operation (table_yuan t) YUAN].

Lemma PriceTable_best_fold t : PriceTable_get_best_operation t =
  fold_left keep_best (tail (kind_operations t)) (BuySellTable_get_best_operation (table_eur t) EUR).
Proof. reflexivity. Qed.

(** [BuySellTable::get_best_operation] buys where the price is least and
    sells where it is largest, the first such market on a tie, and its
    gain is the difference of those two prices in euros. *)
Theorem best_operation_extremes t k :
  table_ok (table_buy t) = true -> table_ok (table_sell t) = true ->
  let op := BuySellTable_get_best_operation t k in
  let buy := price_at (table_buy t) in
  let sell := price_at (table_sell t) in
  (forall c, fle (buy (buy_from op)) (buy c) = true /\
             ((rank c < rank (buy_from op))%nat -> flt (buy (buy_from op)) (buy c) = true)) /\
  (forall c, fle (sell c) (sell (sell_to op)) = true /\
             ((rank c < rank (sell_to op))%nat -> flt (sell c) (sell (sell_to op)) = true)) /\
  fval_equiv (expected_gain op)
    (fdiv (fsub (sell (sell_to op)) (buy (buy_from op))) (Fin (get_default_exchange_rate k))).
Proof.
  intros Hb Hs op buy sell.
  pose proof (fun c => table_ok_at _ c Hb) as Hbn. pose proof (fun c => table_ok_at _ c Hs) as Hsn.
  assert (Eb : buy_from op = first_at buy (min_f32 (buy Sol) (min_f32 (buy Rcnz) (buy Bose)))) by reflexivity.
  assert (Es : sell_to op = first_at sell (max_f32 (sell Sol) (max_f32 (sell Rcnz) (sell Bose)))) by reflexivity.
  split_and!.
  - rewrite Eb. by apply first_min_spec.
  - rewrite Es. by apply first_max_spec.
  - destruct (first_at_spec buy Hbn _ (proj1 (min3_spec buy Hbn))) as [Fb _].
    destruct (first_at_spec sell Hsn _ (proj1 (max3_spec sell Hsn))) as [Fs _].
    rewrite Eb, Es, <- (feq_equiv _ _ Fb), <- (feq_equiv _ _ Fs). reflexivity.
Qed.

(** [PriceTable::get_best_operation] keeps the operation of largest
    expected gain among the four kinds. *)
Theorem price_table_best t : Forall (fun o => is_nan (expected_gain o) = false) (kind_operations t) ->
  PriceTable_get_best_operation t ∈ kind_operations t /\
  Forall (fun o => fle (expected_gain o) (expected_gain (PriceTable_get_best_operation t)) = true)
         (kind_operations t).
Proof. intros Hl. rewrite PriceTable_best_fold. exact (keep_best_fold _ _ Hl). Qed.

End Choice.

(** ** A strategy that never waits *)

Section Idle.
Context {M : Type} `{Market M} `{MarketConsts}.

Lemma apply_idle (w : World (MarketWrapper M)) t e1 e2 e3 e4 : PriceTable_new (market w) = Ok t ->
  flt (expected_gain (PriceTable_get_best_operation t)) (Fin 2) = true ->
  apply e1 e2 e3 e4 w = (w, Ok tt).
Proof. intros Ht Hg. unfold apply. cbv [mbind tm_bind run_read]. rewrite Ht. cbn. by rewrite Hg. Qed.

(** C13: When no kind promises a gain of 2, an iteration does nothing at all:
    its [wait_one_day!()] notifies no market, so the markets, the account
    and the events stay as they were, and every later iteration of the
    trading loop makes the same choice.  The trader never trades again,
    whatever the random values of the markets. *)
Theorem price_comparison_idles_forever (w : World (MarketWrapper M)) t
    (draws : nat -> entropy * entropy * entropy * entropy) n :
  PriceTable_new (market w) = Ok t ->
  flt (expected_gain (PriceTable_get_best_operation t)) (Fin 2) = true ->
  trading_loop (S:=PriceComparison) draws n PriceComparisonStrategy w = Some (w, Ok PriceComparisonStrategy).
Proof.
  intros Ht Hg. induction n as [| n IH]; [done |]. cbn [trading_loop]. rewrite IH.
  cbn. destruct (draws n) as [[[e1 e2] e3] e4]. unfold stateless. by rewrite (apply_idle w t _ _ _ _ Ht Hg).
Qed.

End Idle.

(** ** Witnesses *)

#[local] Existing Instance sample_consts.

(** Three DogeMarkets: the sample market, after a sell lock, after a buy lock. *)
Definition pc_markets : MarketWrapper DogeMarket.DogeMarket := mk_wrapper scenario_m0 scenario_m1 scenario_m2.

Definition pc_table : PriceTable :=
  match PriceTable_new pc_markets with
  | Ok t => t
  | _ => let g := mk_good_price_table NaN NaN NaN in
         let b := mk_buy_sell_table g g in mk_price_table b b b b
  end.

Lemma best_operation_extremes_witness :
  let op := BuySellTable_get_best_operation (table_usd pc_table) USD in
  let buy := price_at (table_buy (table_usd pc_table)) in
  let sell := price_at (table_sell (table_usd pc_table)) in
  (forall c, fle (buy (buy_from op)) (buy c) = true /\
             ((rank c < rank (buy_from op))%nat -> flt (buy (buy_from op)) (buy c) = true)) /\
  (forall c, fle (sell c) (sell (sell_to op)) = true /\
             ((rank c < rank (sell_to op))%nat -> flt (sell c) (sell (sell_to op)) = true)) /\
  fval_equiv (expected_gain op)
    (fdiv (fsub (sell (sell_to op)) (buy (buy_from op))) (Fin (get_default_exchange_rate USD))).
Proof. apply (best_operation_extremes (table_usd pc_table) USD); vm_compute; reflexivity. Defined.

Lemma price_table_best_witness :
  PriceTable_get_best_operation pc_table ∈ kind_operations pc_table /\
  Forall (fun o => fle (expected_gain o) (expected_gain (PriceTable_get_best_operation pc_table)) = true)
         (kind_operations pc_table).
Proof. apply (price_table_best pc_table). repeat constructor. Defined.

Definition pc_world : World (MarketWrapper DogeMarket.DogeMarket) := mk_world trader_account pc_markets [].

Definition pc_ents (it : nat) : entropy * entropy * entropy * entropy :=
  (doge_ent 1%positive 50%Z, doge_ent 2%positive 50%Z, doge_ent 3%positive 50%Z, doge_ent 4%positive 50%Z).

Lemma price_comparison_idles_forever_witness :
  trading_loop (S:=PriceComparison) pc_ents 100 PriceComparisonStrategy pc_world = Some (pc_world, Ok PriceComparisonStrategy).
Proof. apply (price_comparison_idles_forever pc_world pc_table pc_ents 100); vm_compute; reflexivity. Defined.
