(* ===== verification/RandomAction.v ===== *)
(** * The random-action strategy: strategy/random_action_strategy.rs

    The strategy keeps the transactions it has locked and not completed
    ([pending]).  Each iteration draws an action: wait a day, lock a
    purchase or a sale of a random share of its euros or goods on a
    market picked by the selection strategy, or (when transactions are
    pending) complete one of them, picked at random.  A completion whose
    withdrawal fails is put back at the end of [pending].

    The random values are inputs ([RandomDraws]): the coins of [gen_bool],
    the index of [gen_range(0..=len - 1)], the index of [choose], the
    percentage of [gen_range] and the draw of [random_selection].  The
    selection strategy is a field of the state, as in the code, whose
    default is [random_selection].  The handlers all receive the same
    events, the [events] of the world.

    Theorems: a completion that cannot withdraw reschedules the
    transaction and changes nothing else; a lock of a purchase is tried
    exactly when eur * (percentage + 0.01) exceeds [MIN_LIMIT]; in range
    the draws never make the strategy itself panic; and a completion
    keeps the account well formed and, when the market refuses, gives the
    trader back what it handed over. *)

From S2P Require Import Prelude Goods Ledger Transactions TickDeque Service Refiller Market Trader Markets.
From Stdlib Require Import String.
Open Scope Q_scope.

Definition MIN_LIMIT : Q := 5.

Inductive TxType :=
| TxBuy (kind : GoodKind) (quantity bid : Q)
| TxSell (kind : GoodKind) (quantity offer : Q).

(** [struct Tx]: the token of the lock and the market that issued it. *)
Record Tx := mk_tx { tx_token : string; tx_market : MarketRef; tx_type : TxType }.

Inductive ActionToApply :=
| WaitOneDay
| LockBuy (market : MarketRef) (kind : GoodKind) (percentage : Q)
| LockSell (market : MarketRef) (kind : GoodKind) (percentage : Q)
| CompleteTx (tx : Tx).

(** [Vec::remove(index)]: the item and the rest, or a panic out of range. *)
Definition vec_remove {A} (index : nat) (v : list A) : outcome Empty_set (A * list A) :=
  match v !! index with
  | Some x => Ok (x, delete index v)
  | None => Panic IndexOutOfBounds
  end.

(** [random_selection]: [match thread_rng().gen_range(0..=2) { .. }]. *)
Definition random_selection (draw : Z) : outcome Empty_set MarketRef :=
  match draw with
  | 0%Z => Ok SolRef
  | 1%Z => Ok RcnzRef
  | 2%Z => Ok BoseRef
  | _ => Panic Unreachable
  end.

(** The strategy's state: the pending transactions and the selection
    strategy, a function of its own random draw. *)
Record RandomActionStrategy := mk_random_action {
  pending : list Tx;
  selection_strategy : Z -> outcome Empty_set MarketRef
}.

(** [RandomActionStrategy::new]. *)
Definition new_strategy : RandomActionStrategy := mk_random_action [] random_selection.

Definition set_pending (s : RandomActionStrategy) (p : list Tx) : RandomActionStrategy :=
  mk_random_action p (selection_strategy s).

(** The methods of [RandomActionStrategy] used by [apply]. *)
Module RandomActionImpl.

Section Apply.
Context {M : Type} `{Market M}.

(** The random values of one iteration. *)
Record RandomDraws := mk_random_draws {
  coin_wait : bool;         (** [gen_bool(0.5)] (no pending) or [gen_bool(0.333)] *)
  coin_lock : bool;         (** [gen_bool(0.5)]: lock rather than complete *)
  draw_index : nat;         (** [gen_range(0..=len - 1)] *)
  coin_buy : bool;          (** [gen_bool(0.5)] of [create_random_lock_action] *)
  draw_market : Z;          (** the draw of the selection strategy *)
  draw_kind : nat;          (** the index [choose] picks in [[USD, YEN, YUAN]] *)
  draw_percentage : Q;      (** [gen_range(10/3..=30)] or [gen_range(10..=90)] *)
  ent_lock : entropy; ent_settle : entropy;
  ent_wait_bose : entropy; ent_wait_rcnz : entropy; ent_wait_sol : entropy
}.

(** [[USD, YEN, YUAN].choose(&mut self.rng).unwrap()]. *)
Definition choose_kind (i : nat) : outcome Empty_set GoodKind :=
  match [USD; YEN; YUAN] !! i with Some k => Ok k | None => Panic UnwrapOnErr end.

(** [create_random_lock_action]: the fields in the order of the literal. *)
Definition create_random_lock_action (s : RandomActionStrategy) (d : RandomDraws)
    : outcome Empty_set ActionToApply :=
  market ← selection_strategy s (draw_market d);
  kind ← choose_kind (draw_kind d);
  Ok (if coin_buy d then LockBuy market kind (draw_percentage d / 100)
      else LockSell market kind (draw_percentage d / 100)).

(** [generate_random_action]: the action and the pending transactions
    left once it is taken out. *)
Definition generate_random_action (s : RandomActionStrategy) (d : RandomDraws)
    : outcome Empty_set (ActionToApply * list Tx) :=
  match pending s with
  | [] =>
      if coin_wait d then Ok (WaitOneDay, [])
      else a ← create_random_lock_action s d; Ok (a, [])
  | _ =>
      if coin_wait d then Ok (WaitOneDay, pending s)
      else if coin_lock d then a ← create_random_lock_action s d; Ok (a, pending s)
      else '(tx, rest) ← vec_remove (draw_index d) (pending s); Ok (CompleteTx tx, rest)
  end.

Definition get_account : TM (MarketWrapper M) Account := fun w => (w, Ok (account w)).

Definition wait (d : RandomDraws) : TM (MarketWrapper M) unit :=
  wait_one_day (ent_wait_bose d) (ent_wait_rcnz d) (ent_wait_sol d).

(** A read of one market that can only panic. *)
Definition read_market {A} (r : MarketRef) (c : M -> outcome Empty_set A) : TM (MarketWrapper M) A :=
  run_read (fun ms => c (deref ms r)).

(** [market.borrow().get_goods().into_iter().filter(|l| l.good_kind == kind)
    .map(|l| l.exchange_rate_buy).next().unwrap()]. *)
Definition exchange_rate_buy_of (kind : GoodKind) (m : M) : outcome Empty_set fval :=
  match market_get_goods m with
  | Ok labels =>
      match filter (fun l => Goods.good_kind l = kind) labels with
      | l :: _ => Ok (exchange_rate_buy l)
      | [] => Panic UnwrapOnErr
      end
  | Err _ => Panic Unreachable
  | Panic r => Panic r
  end.

(** A price read whose error makes the iteration wait and return. *)
Definition price_or_none (c : M -> outcome MarketGetterError.t fval) (m : M) : outcome Empty_set (option fval) :=
  match c m with Ok p => Ok (Some p) | Err _ => Ok None | Panic r => Panic r end.

(** [minimum_bid] and [maximum_bid]: [f32::max(eur * (percentage -+ 0.01), MIN_LIMIT)]. *)
Definition bid_range (eur percentage : Q) : Q * Q :=
  (Qmax (eur * (percentage - (1 # 100))) MIN_LIMIT, Qmax (eur * (percentage + (1 # 100))) MIN_LIMIT).

(** The arm [ActionToApply::LockBuy]. *)
Definition lock_buy_action (market : MarketRef) (kind : GoodKind) (percentage : Q) (d : RandomDraws)
    (rest : list Tx) : TM (MarketWrapper M) (list Tx) :=
  acc ← get_account;
  let '(minimum_bid, maximum_bid) := bid_range (Account.get_quantity_by_kind acc EUR) percentage in
  if decide (maximum_bid == minimum_bid) then _ ← wait d; mret rest else
  exchange_rate_buy ← read_market market (exchange_rate_buy_of kind);
  quantity_to_buy ← finite_price (fmul (Fin minimum_bid) exchange_rate_buy);
  buy_price_result ← read_market market (price_or_none (fun m => market_get_buy_price m kind quantity_to_buy));
  match buy_price_result with
  | None => _ ← wait d; mret rest
  | Some price =>
      if flt (Fin maximum_bid) price then _ ← wait d; mret rest else
      bid ← finite_price price;
      result ← at_market market (call_lock (fun m => market_lock_buy m kind quantity_to_buy bid DOGE_TRADER_NAME (ent_lock d)));
      _ ← emit_from market (Trader.LockBuy kind quantity_to_buy bid result);
      match result with
      | inl token => mret (rest ++ [mk_tx token market (TxBuy kind quantity_to_buy bid)])
      | inr _ => mret rest
      end
  end.

(** The arm [ActionToApply::LockSell]. *)
Definition lock_sell_action (market : MarketRef) (kind : GoodKind) (percentage : Q) (d : RandomDraws)
    (rest : list Tx) : TM (MarketWrapper M) (list Tx) :=
  acc ← get_account;
  let quantity_to_sell := Account.get_quantity_by_kind acc kind * percentage in
  if decide (Account.get_quantity_by_kind acc kind - quantity_to_sell <= MIN_LIMIT) then _ ← wait d; mret rest else
  highest_offer ← read_market market (price_or_none (fun m => market_get_sell_price m kind quantity_to_sell));
  match highest_offer with
  | None => _ ← wait d; mret rest
  | Some price =>
      offer ← finite_price price;
      result ← at_market market (call_lock (fun m => market_lock_sell m kind quantity_to_sell offer DOGE_TRADER_NAME (ent_lock d)));
      _ ← emit_from market (Trader.LockSell kind quantity_to_sell offer result);
      match result with
      | inl token => mret (rest ++ [mk_tx token market (TxSell kind quantity_to_sell offer)])
      | inr _ => mret rest
      end
  end.

(** The arm [ActionToApply::CompleteTx]: withdraw what the lock asks,
    settle, deposit what the market gives (or the good back), report; a
    withdrawal that fails reschedules the transaction. *)
Definition complete_tx (tx : Tx) (d : RandomDraws) (rest : list Tx) : TM (MarketWrapper M) (list Tx) :=
  match tx_type tx with
  | TxBuy kind quantity bid =>
      cash ← try_withdraw EUR bid;
      match cash with
      | inr _ => mret (rest ++ [tx])
      | inl cash =>
          '(result, cash) ← at_market (tx_market tx)
                              (call_settle (fun m g => market_buy m (tx_token tx) g (ent_settle d)) cash);
          _ ← deposit_t (match result with inl bought => bought | inr _ => cash end);
          _ ← emit_from (tx_market tx) (Trader.Buy (tx_token tx) kind quantity bid result);
          mret rest
      end
  | TxSell kind quantity offer =>
      sold ← try_withdraw kind quantity;
      match sold with
      | inr _ => mret (rest ++ [tx])
      | inl sold =>
          '(result, sold) ← at_market (tx_market tx)
                              (call_settle (fun m g => market_sell m (tx_token tx) g (ent_settle d)) sold);
          _ ← deposit_t (match result with inl cash => cash | inr _ => sold end);
          _ ← emit_from (tx_market tx) (Trader.Sell (tx_token tx) kind quantity offer result);
          mret rest
      end
  end.

(** [RandomActionStrategy::apply]. *)
Definition apply (s : RandomActionStrategy) (d : RandomDraws) : TM (MarketWrapper M) RandomActionStrategy :=
  '(action, rest) ← run_read (fun _ => generate_random_action s d);
  rest ← match action with
         | WaitOneDay => _ ← wait d; mret rest
         | LockBuy market kind percentage => lock_buy_action market kind percentage d rest
         | LockSell market kind percentage => lock_sell_action market kind percentage d rest
         | CompleteTx tx => complete_tx tx d rest
         end;
  mret (set_pending s rest).

End Apply.

End RandomActionImpl.
Import RandomActionImpl.

(** ** The draws *)

Lemma vec_remove_ok {A} (l : list A) i x rest : vec_remove i l = Ok (x, rest) ->
  l !! i = Some x /\ rest = delete i l /\ l ≡ₚ x :: rest.
Proof.
  unfold vec_remove. destruct (l !! i) as [y |] eqn:E; [| done]. intros [= <- <-].
  split_and!; [done | done | by apply delete_Permutation].
Qed.

Lemma vec_remove_in_range {A} (l : list A) i : (i < List.length l)%nat -> exists x, vec_remove i l = Ok (x, delete i l).
Proof.
  intros Hi. destruct (lookup_lt_is_Some_2 l i Hi) as [x Hx]. exists x. unfold vec_remove. by rewrite Hx.
Qed.

Lemma random_selection_in_range draw : (0 <= draw <= 2)%Z -> exists r, random_selection draw = Ok r.
Proof.
  intros Hd. unfold random_selection.
  destruct (decide (draw = 0%Z)) as [-> | ?]; [by eexists |].
  destruct (decide (draw = 1%Z)) as [-> | ?]; [by eexists |].
  destruct (decide (draw = 2%Z)) as [-> | ?]; [by eexists | lia].
Qed.

Section Draws.
Context {M : Type} `{Market M}.

Lemma choose_kind_in_range i : (i < 3)%nat -> exists k, choose_kind i = Ok k /\ k <> EUR.
Proof. intros Hi. unfold choose_kind. do 3 (destruct i as [| i]; [by eexists |]). lia. Qed.

Lemma create_lock_in_range s d : (forall x, (0 <= x <= 2)%Z -> exists r, selection_strategy s x = Ok r) ->
  (0 <= draw_market d <= 2)%Z -> (draw_kind d < 3)%nat ->
  exists a, create_random_lock_action (M:=M) s d = Ok a /\ a <> WaitOneDay /\ forall tx, a <> CompleteTx tx.
Proof.
  intros Hsel Hm Hk. unfold create_random_lock_action.
  destruct (Hsel _ Hm) as [r ->]. destruct (choose_kind_in_range _ Hk) as (k & -> & _). cbn.
  eexists. split; [done |]. by destruct (coin_buy d).
Qed.

(** With its draws in their ranges ([gen_range(0..=2)] of the selection,
    [choose] in three kinds, [gen_range(0..=len - 1)] when a transaction
    is pending) [generate_random_action] never panics: the index drawn is
    in range and the subtraction [len - 1] is only done on a non-empty
    vector.  A completion takes one of the pending transactions out, the
    other actions keep them all. *)
Theorem generate_random_action_spec s d :
  (forall x, (0 <= x <= 2)%Z -> exists r, selection_strategy s x = Ok r) ->
  (0 <= draw_market d <= 2)%Z -> (draw_kind d < 3)%nat -> (draw_index d < List.length (pending s))%nat \/ pending s = [] ->
  exists a rest, generate_random_action (M:=M) s d = Ok (a, rest) /\
    match a with
    | CompleteTx tx => pending s !! draw_index d = Some tx /\ pending s ≡ₚ tx :: rest
    | _ => rest = pending s
    end.
Proof.
  intros Hsel Hm Hk Hi. unfold generate_random_action.
  destruct (create_lock_in_range s d Hsel Hm Hk) as (a & Ha & Hw & Hc).
  destruct (pending s) as [| t ts] eqn:Hp.
  - destruct (coin_wait d); [by exists WaitOneDay, [] |].
    rewrite Ha. exists a, []. split; [done |]. destruct a; try done. by destruct (Hc tx).
  - destruct Hi as [Hi | Hi]; [| done]. destruct (coin_wait d); [by exists WaitOneDay, (t :: ts) |].
    destruct (coin_lock d).
    + rewrite Ha. exists a, (t :: ts). split; [done |]. destruct a; try done. by destruct (Hc tx).
    + destruct (vec_remove_in_range _ _ Hi) as [x Hx]. rewrite Hx. cbn.
      exists (CompleteTx x), (delete (draw_index d) (t :: ts)). split; [done |].
      by destruct (vec_remove_ok _ _ _ _ Hx) as (? & _ & ?).
Qed.

End Draws.

(** ** The bid range of a purchase *)

(** The range of bids collapses to [MIN_LIMIT], and the purchase waits
    instead, exactly when the upper end [eur * (percentage + 0.01)] does
    not exceed [MIN_LIMIT]: the code's "not enough EUR to trade". *)
Lemma bid_range_collapse eur p : 0 <= eur ->
  fst (bid_range eur p) == snd (bid_range eur p) <-> eur * (p + (1 # 100)) <= MIN_LIMIT.
Proof.
  intros He. unfold bid_range, MIN_LIMIT. cbn [fst snd].
  assert (eur * (p - (1 # 100)) <= eur * (p + (1 # 100))) by nra.
  split; intros Hq.
  - destruct (Qlt_le_dec 5 (eur * (p + (1 # 100)))) as [Hlt |]; [| done]. exfalso.
    rewrite (Q.max_l (eur * (p + (1 # 100))) 5) in Hq by lra.
    destruct (Qlt_le_dec 5 (eur * (p - (1 # 100)))).
    + rewrite Q.max_l in Hq by lra. assert (0 < eur) by nra. nra.
    + rewrite Q.max_r in Hq by lra. lra.
  - rewrite !Q.max_r by lra. reflexivity.
Qed.

(** ** Completing a transaction *)

(** What a completion withdraws from the account: the bid in euros for a
    purchase, the goods for a sale. *)
Definition tx_withdrawal (t : TxType) : GoodKind * Q :=
  match t with TxBuy _ _ bid => (EUR, bid) | TxSell kind quantity _ => (kind, quantity) end.

Section Complete.
Context {M : Type} `{Market M}.

Lemma create_lock_not_complete s d a : create_random_lock_action (M:=M) s d = Ok a -> forall tx, a <> CompleteTx tx.
Proof.
  unfold create_random_lock_action. intros Ha. ok_inv Ha. injection Ha as <-. intros tx.
  by destruct (coin_buy d).
Qed.

Lemma generate_complete s d tx rest : generate_random_action (M:=M) s d = Ok (CompleteTx tx, rest) ->
  pending s ≡ₚ tx :: rest.
Proof.
  unfold generate_random_action. destruct (pending s) as [| t ts] eqn:Hp.
  - destruct (coin_wait d); [done |]. intros Ha. ok_inv Ha. injection Ha as Ha _.
    subst. by destruct (create_lock_not_complete _ _ _ ltac:(eassumption) tx).
  - destruct (coin_wait d); [done |]. destruct (coin_lock d); intros Ha.
    + ok_inv Ha. injection Ha as Ha _. subst. by destruct (create_lock_not_complete _ _ _ ltac:(eassumption) tx).
    + ok_inv Ha. injection Ha as <- <-. by destruct (vec_remove_ok _ _ _ _ ltac:(eassumption)) as (_ & _ & ?).
Qed.

Lemma complete_tx_reschedule tx d rest (w : World (MarketWrapper M)) e :
  Account.withdraw (account w) (tx_withdrawal (tx_type tx)).1 (tx_withdrawal (tx_type tx)).2 = Err e ->
  complete_tx tx d rest w = (w, Ok (rest ++ [tx])).
Proof.
  unfold complete_tx. cbv [mbind tm_bind try_withdraw].
  destruct (tx_type tx); cbn; intros ->; done.
Qed.

(** The shape of both arms of a completion: withdraw, settle through the
    handle, deposit what comes back, report. *)
Lemma settle_refused_restores {E} (settle : M -> Good -> outcome E (Good * M * Good))
    (mk_ev : Good + E -> TradingEventType) r k q (rest0 rest : list Tx) (w : World (MarketWrapper M)) e :
  Account.account_wf (account w) -> settle (deref (market w) r) (Good.new k q) = Err e ->
  Account.acc_equiv
    (account (fst ((g ← try_withdraw k q;
                    match g with
                    | inr _ => mret rest0
                    | inl g =>
                        '(result, g) ← at_market r (call_settle settle g);
                        _ ← deposit_t (match result with inl x => x | inr _ => g end);
                        _ ← emit_from r (mk_ev result);
                        mret rest
                    end : TM (MarketWrapper M) (list Tx)) w)))
    (account w).
Proof.
  intros Hwf Hs. cbv [mbind tm_bind try_withdraw].
  destruct (Account.withdraw (account w) k q) as [[g a'] | we | p] eqn:W; cbn; [| reflexivity | reflexivity].
  destruct (withdraw_inv _ _ _ _ _ Hwf W) as (-> & -> & _).
  unfold at_market, call_settle. cbn. rewrite Hs. cbn.
  cbv [deposit_t]. rewrite deposit_credit by (cbn; apply wf_debit, Hwf). cbn. cbv [mret tm_ret]. cbn.
  apply credit_debit, Hwf.
Qed.

(** C14: When the market refuses the settlement, a completion gives back what it
    withdrew: the account ends as it was, up to [==]. *)
Theorem complete_tx_refused_restores tx d rest (w : World (MarketWrapper M)) :
  Account.account_wf (account w) ->
  match tx_type tx with
  | TxBuy _ _ bid => exists e, market_buy (deref (market w) (tx_market tx)) (tx_token tx)
                                 (Good.new EUR bid) (ent_settle d) = Err e
  | TxSell kind quantity _ => exists e, market_sell (deref (market w) (tx_market tx)) (tx_token tx)
                                 (Good.new kind quantity) (ent_settle d) = Err e
  end ->
  Account.acc_equiv (account (fst (complete_tx tx d rest w))) (account w).
Proof.
  intros Hwf. unfold complete_tx. destruct (tx_type tx); intros [e He]; by eapply settle_refused_restores.
Qed.

(** A completion whose withdrawal fails puts the transaction back at the
    end of [pending] and changes nothing else: no market call, no event,
    the same account; the pending transactions are the same up to order. *)
Theorem random_action_reschedules s d (w : World (MarketWrapper M)) tx rest e :
  generate_random_action s d = Ok (CompleteTx tx, rest) ->
  Account.withdraw (account w) (tx_withdrawal (tx_type tx)).1 (tx_withdrawal (tx_type tx)).2 = Err e ->
  apply s d w = (w, Ok (set_pending s (rest ++ [tx]))) /\ pending s ≡ₚ rest ++ [tx].
Proof.
  intros Hg Hw. split.
  - unfold apply. cbv [mbind tm_bind run_read]. rewrite Hg. cbn.
    by rewrite (complete_tx_reschedule tx d rest w e Hw).
  - rewrite (generate_complete _ _ _ _ Hg). by rewrite Permutation_cons_append.
Qed.

End Complete.

(** ** [impl Strategy for RandomActionStrategy] *)

Definition RANDOM_ACTION_NAME : string := "Random selection strategy"%string.

Section Instance.
Context {M : Type} `{Market M}.

Lemma keeps_get_account : keeps_account (M:=MarketWrapper M) get_account.
Proof. done. Qed.

Lemma keeps_wait_draws d : keeps_account (M:=MarketWrapper M) (wait d).
Proof. apply keeps_wait. Qed.

#[local] Hint Resolve keeps_get_account keeps_wait_draws : trader.

Lemma random_action_apply_wf s d : preserves (M:=MarketWrapper M) Account.account_wf (apply s d).
Proof.
  unfold apply, lock_buy_action, lock_sell_action, complete_tx, read_market. strategy_preserves.
Qed.

End Instance.

#[export] Instance random_action {M} `{Market M} : Strategy M RandomActionStrategy := {
  strategy_draws := RandomDraws;
  strategy_apply s d w := Some (apply s d w);
  strategy_get_name _ := RANDOM_ACTION_NAME;
  strategy_apply_wf s d w r Hw Hr :=
    match Hr in _ = o return match o with Some r => Account.account_wf (account (fst r)) | None => True end with
    | eq_refl => random_action_apply_wf s d w Hw
    end
}.

(** ** Witnesses *)

#[local] Existing Instance sample_consts.

Definition ra_world : World (MarketWrapper DogeMarket.DogeMarket) :=
  mk_world trader_account (mk_wrapper scenario_m0 scenario_m1 scenario_m2) [].

Definition ra_draws (cw cl cb : bool) (i : nat) (mk : Z) (k : nat) (p : Q) : RandomDraws (M:=DogeMarket.DogeMarket) :=
  mk_random_draws cw cl i cb mk k p (doge_ent 21%positive 50%Z) (doge_ent 22%positive 50%Z)
    (doge_ent 23%positive 50%Z) (doge_ent 24%positive 50%Z) (doge_ent 25%positive 50%Z).

(** A first iteration that locks the purchase of yen for 20% of the euros on SOL. *)
Definition ra_run1 := apply new_strategy (ra_draws false false true 0 0 1 20) ra_world.

Definition ra_state1 : RandomActionStrategy :=
  match snd ra_run1 with Ok s => s | _ => new_strategy end.

(** The purchase the trader locked, as a purchase of far more than it holds in euros. *)
Definition ra_big_tx : Tx :=
  match pending ra_state1 with
  | tx :: _ => mk_tx (tx_token tx) (tx_market tx) (TxBuy YEN 1 1000000)
  | [] => mk_tx EmptyString SolRef (TxBuy YEN 1 1000000)
  end.

Lemma generate_random_action_spec_witness :
  exists a rest, generate_random_action ra_state1 (ra_draws false false true 0 0 1 20) = Ok (a, rest) /\
    match a with
    | CompleteTx tx => pending ra_state1 !! 0%nat = Some tx /\ pending ra_state1 ≡ₚ tx :: rest
    | _ => rest = pending ra_state1
    end.
Proof.
  apply (generate_random_action_spec ra_state1 (ra_draws false false true 0 0 1 20));
    [apply random_selection_in_range | cbn; lia | cbn; lia | left; vm_compute; lia].
Defined.

Lemma bid_range_collapse_witness :
  fst (bid_range 100 (1 # 100)) == snd (bid_range 100 (1 # 100)) <-> 100 * ((1 # 100) + (1 # 100)) <= MIN_LIMIT.
Proof. apply bid_range_collapse. discriminate. Defined.

(** Completing the locked purchase with a token SOL does not know. *)
Lemma complete_tx_refused_restores_witness :
  Account.acc_equiv
    (account (fst (complete_tx (mk_tx "unknown"%string SolRef (TxBuy YEN 10 10))
                     (ra_draws false false true 0 0 1 20) [] ra_world)))
    (account ra_world).
Proof.
  apply complete_tx_refused_restores; [concrete |]. cbn. eexists. vm_compute. reflexivity.
Defined.

Lemma random_action_reschedules_witness :
  apply (set_pending ra_state1 [ra_big_tx]) (ra_draws false false true 0 0 1 20) ra_world =
    (ra_world, Ok (set_pending (set_pending ra_state1 [ra_big_tx]) ([] ++ [ra_big_tx]))) /\
  pending (set_pending ra_state1 [ra_big_tx]) ≡ₚ [] ++ [ra_big_tx].
Proof.
  eapply (random_action_reschedules _ _ ra_world ra_big_tx []); vm_compute; reflexivity.
Defined.
