(* ===== verification/Console.v ===== *)
(** * Standard input and output, and the parsers of the standard library

    The console of the trader's process as explicit state ([Console]):
    the lines that the next calls of [io::stdin().read_line] return, each
    with its newline, and the lines printed so far, kept as the values they
    show.  At the end of the input [read_line] returns [Ok(0)] and leaves
    the buffer empty.  The parsers the code calls on a line it reads
    ([str::trim], [FromStr] of [i32], [u32], [char] and [f32]) are written
    out on ASCII text; the [f32] parser is exact up to rounding, like the
    rest of the numeric model, with the overflow to infinity of [f32].
    Input is ASCII text: a line holds [ascii] characters, so the multibyte
    characters of UTF-8 input (which [parse::<char>] would accept as one
    character) are not modelled.

    Every question the program asks is a [loop] that prints a prompt,
    reads a line and parses it, and asks again when the line is not an
    answer: [prompt_loop], a [Fixpoint] on fuel whose [None] is a loop that
    has not ended within the fuel.  It returns the first answer once the
    fuel exceeds the number of lines before it ([prompt_loop_first]) and
    never returns when no answer is left ([prompt_loop_spins]). *)
From S2P Require Import Prelude Goods.
From Stdlib Require Import String Ascii DecimalString.
Open Scope Q_scope.

(** ** The console *)

(** A printed line: a literal, or the value the [println!] formats (the
    [{:.2}] rendering of numbers is not modelled). *)
Inductive OutLine :=
| Say (s : string)
| ShowAccount (a : Account)
| ShowLabel (gl : GoodLabel)
| ShowWithdrawError (e : WithdrawError)
(** [println!("{}:\t{:<65}\t{}", name, account, gain)] of the interaction
    logger, with the difference and percentage of the gain string, [None]
    for the empty string *)
| ShowAccountGain (name : string) (a : Account) (gain : option (Q * fval))
(** [println!("{} {}", name, final_gain)]: the four values the final gain
    string formats, in the order of its format arguments *)
| ShowFinalGain (name : string) (gain : option (Q * Q * Q * fval)).

Definition newline : string := String (ascii_of_nat 10) EmptyString.

(** [{}] of an unsigned integer: its decimal digits. *)
Definition string_of_nat (n : nat) : string := NilEmpty.string_of_uint (Nat.to_uint n).

Record Console := mk_console { stdin : list string; stdout : list OutLine }.

Definition print (c : Console) (ls : list OutLine) : Console := mk_console (stdin c) (stdout c ++ ls).

(** [io::stdin().read_line(&mut input).unwrap()] into an empty [input]:
    the next line, or nothing at the end of the input.  A read error
    (input that is not UTF-8) is not modelled. *)
Definition read_line (c : Console) : string * Console :=
  match stdin c with
  | [] => (EmptyString, c)
  | l :: rest => (l, mk_console rest (stdout c))
  end.

(** ** The parsers of the standard library, on ASCII text *)

(** [char::is_whitespace] on ASCII: tab to carriage return, and space. *)
Definition is_whitespace (c : ascii) : bool :=
  let n := nat_of_ascii c in (Nat.leb 9 n && Nat.leb n 13) || Nat.eqb n 32.

Fixpoint drop_whitespace (l : list ascii) : list ascii :=
  match l with
  | c :: r => if is_whitespace c then drop_whitespace r else l
  | [] => []
  end.

(** [str::trim]. *)
Definition trim (s : string) : string :=
  string_of_list_ascii (rev (drop_whitespace (rev (drop_whitespace (list_ascii_of_string s))))).

Definition digit_value (c : ascii) : option Z :=
  let n := nat_of_ascii c in
  if Nat.leb 48 n && Nat.leb n 57 then Some (Z.of_nat n - 48)%Z else None.

(** The leading digits of [l] read in base 10 after [acc], their number
    and the rest of [l]. *)
Fixpoint take_digits (acc : Z) (n : nat) (l : list ascii) : Z * nat * list ascii :=
  match l with
  | c :: r =>
      match digit_value c with
      | Some d => take_digits (10 * acc + d)%Z (S n) r
      | None => (acc, n, l)
      end
  | [] => (acc, n, [])
  end.

Definition split_sign (l : list ascii) : bool * list ascii :=
  match l with
  | "-"%char :: r => (true, r)
  | "+"%char :: r => (false, r)
  | _ => (false, l)
  end.

Definition I32_MIN : Z := (- 2 ^ 31)%Z.
Definition I32_MAX : Z := (2 ^ 31 - 1)%Z.
Definition U32_MAX : Z := (2 ^ 32 - 1)%Z.

(** [from_str_radix(src, 10)] of an integer type of range [[lo, hi]]: an
    optional sign ([-] only for a signed type), then digits only, at
    least one, and a value in range. *)
Definition parse_integer (signed : bool) (lo hi : Z) (s : string) : option Z :=
  let '(neg, body) := split_sign (list_ascii_of_string s) in
  if neg && negb signed then None else
  match take_digits 0 0 body with
  | (v, S _, []) =>
      let z := if neg then (- v)%Z else v in
      if (lo <=? z)%Z && (z <=? hi)%Z then Some z else None
  | _ => None
  end.

(** [<i32 as FromStr>::from_str]. *)
Definition parse_i32 : string -> option Z := parse_integer true I32_MIN I32_MAX.

(** [<u32 as FromStr>::from_str]. *)
Definition parse_u32 : string -> option Z := parse_integer false 0 U32_MAX.

(** [<char as FromStr>::from_str]: a string of exactly one character. *)
Definition parse_char (s : string) : option ascii :=
  match s with String c EmptyString => Some c | _ => None end.

Definition lower (c : ascii) : ascii :=
  let n := nat_of_ascii c in if Nat.leb 65 n && Nat.leb n 90 then ascii_of_nat (n + 32) else c.

(** [f32::MAX] plus half a unit in the last place, [2^128 - 2^103]: the
    smallest magnitude that rounds to infinity. *)
Definition F32_OVERFLOW : Q := inject_Z (2 ^ 128 - 2 ^ 103).

(** The [f32] of a non-negative rational and a sign, up to rounding. *)
Definition to_f32 (neg : bool) (v : Q) : fval :=
  if Qle_bool F32_OVERFLOW v then Inf neg else Fin (if neg then - v else v).

Definition parse_exponent (l : list ascii) : option Z :=
  let '(neg, body) := split_sign l in
  match take_digits 0 0 body with
  | (e, S _, []) => Some (if neg then (- e)%Z else e)
  | _ => None
  end.

(** [<f32 as FromStr>::from_str]: a sign, then [inf], [infinity] or [nan]
    in any case, or digits with an optional point and an optional
    exponent, with one digit at least before the exponent. *)
Definition parse_f32 (s : string) : option fval :=
  let '(neg, body) := split_sign (list_ascii_of_string s) in
  let word := string_of_list_ascii (map lower body) in
  if String.eqb word "inf" || String.eqb word "infinity" then Some (Inf neg)
  else if String.eqb word "nan" then Some NaN
  else
    let '(ip, n1, r1) := take_digits 0 0 body in
    let '(m, n2, r2) := match r1 with
                        | "."%char :: r => take_digits ip 0 r
                        | _ => (ip, 0%nat, r1)
                        end in
    if Nat.eqb (n1 + n2) 0 then None else
    e ← match r2 with
        | [] => Some 0%Z
        | c :: r => if Ascii.eqb (lower c) "e"%char then parse_exponent r else None
        end;
    Some (to_f32 neg (inject_Z m * 10 ^ (e - Z.of_nat n2))).

(** ** The prompts *)

(** [loop { println!(prompt); read_line; match input.trim().parse() {
    answer => break answer, _ => continue } }]. *)
Fixpoint prompt_loop {A} (prompt : list string) (accept : string -> option A) (fuel : nat) (c : Console)
    : option (A * Console) :=
  match fuel with
  | O => None
  | S fuel' =>
      let '(input, c') := read_line (print c (map Say prompt)) in
      match accept input with
      | Some a => Some (a, c')
      | None => prompt_loop prompt accept fuel' c'
      end
  end.

(** ** The prompts: the first answer, and no answer at all *)

Section Prompt.
Context {A : Type} (prompt : list string) (accept : string -> option A).

(** A prompt skips the lines that are not answers, printing itself once
    per line read, and returns the first answer once the fuel exceeds the
    number of lines before it. *)
Lemma prompt_loop_first pre l post a fuel c :
  stdin c = pre ++ l :: post -> Forall (fun s => accept s = None) pre -> accept l = Some a ->
  (List.length pre < fuel)%nat ->
  prompt_loop prompt accept fuel c =
    Some (a, mk_console post (stdout c ++ List.concat (replicate (S (List.length pre)) (map Say prompt)))).
Proof.
  revert fuel c. induction pre as [| s pre IH]; intros [| fuel] c Hin Hpre Hl Hf; cbn in Hf; try lia;
    cbn [prompt_loop]; unfold read_line, print; cbn; rewrite Hin; cbn.
  - by rewrite Hl, app_nil_r.
  - inversion Hpre as [| ? ? Hs Hpre']; subst. rewrite Hs.
    rewrite (IH fuel (mk_console (pre ++ l :: post) (stdout c ++ map Say prompt))); [| done | exact Hpre' | done | lia].
    cbn. by rewrite <- app_assoc.
Qed.

(** When no line left is an answer, and the empty read at the end of the
    input is none either, the prompt never returns. *)
Lemma prompt_loop_spins fuel c : accept EmptyString = None -> Forall (fun s => accept s = None) (stdin c) ->
  prompt_loop prompt accept fuel c = None.
Proof.
  intros Hnil. revert c. induction fuel as [| fuel IH]; intros c Hc; [done |].
  cbn [prompt_loop]. unfold read_line, print. cbn. destruct (stdin c) as [| s rest] eqn:Hin.
  - rewrite Hnil. apply IH. cbn. by rewrite ?Hin.
  - inversion Hc as [| ? ? Hs Hc']; subst. rewrite Hs. by apply IH.
Qed.

End Prompt.
