(* ===== verification/MarketLog.v ===== *)
(** * The market's loggers: logger.rs, mute_logger.rs, stdout_logger.rs and txt_file_logger.rs

    A [DogeMarket] reports its operations to a [Box<dyn Logger>]: the
    [Logger] class has one method per [LogEntry] of the traces of
    Market.v, and [log_entry] is the call an entry stands for.
    [MuteLogger] ignores the calls, [StdoutLogger] prints a line for each
    ([StdoutLine]: the goods of a lock line are kept as values, their
    [Display] being the external crate's), and [TxtFileLogger] appends to
    the file [log_<market_name>.txt] ([format_filename]) the line
    [<market_name>|<local time>|<log code>] ([write_code],
    [format_log_code]), whose code is [initialization_code],
    [lock_buy_code], [lock_sell_code], [buy_code] or [sell_code].
    [AnyLogger] is the box, with dynamic dispatch.  [new_logger] is the
    choice of [DogeMarket::new_with_goods]: the file logger when
    [File::create] succeeds ([create], an input), the mute logger
    otherwise; [new_with_goods_logged] composes it with the constructor of
    Market.v.  The file is the list of the lines written since
    [File::create] truncated it; the [unwrap] of [writeln!] is assumed to
    succeed, and the [eprintln!] of a failed [File::create] is not
    modelled.

    The local time of a call ([Local::now()]) is an input, a [DateTime]
    with its civil fields; [format_datetime] is chrono's format
    ["%Y:%m:%d:%T:%3f"].  [Display] of [f32] ([display_f32]) prints the
    exact decimal of the rational value, cut after 9 decimals: what Rust
    prints for the decimals of at most 9 decimals ([decimal9]) that the
    code and its tests write.  [Display] of [GoodKind] is its name, and a
    UUID is printed as in Market.v.  The readers [parse_log_line],
    [parse_datetime], [parse_initialization_code] and the [f32] parser of
    Console.v state what a log determines.

    Theorems: a file log holds one line per call, in order, and each line
    reads back as the market name, the time to the millisecond and the
    code ([txt_log_reads_back], from [log_line_roundtrip]).  [Display] of
    an [f32] reads back through [FromStr] ([parse_display_f32]).  A new
    market logs its inventory by kind ([new_market_log]).
    [test_datetime_format] converts a time at +01:00 to the local zone
    with chrono's calendar ([days_from_civil], [civil_from_days],
    [to_local]); it passes exactly on machines whose offset at that
    instant is +01:00 ([datetime_test_needs_plus_one]). *)
From S2P Require Import Prelude Goods Ledger Transactions TickDeque Refiller Service Market Tests Console.
From Stdlib Require Import ZArith String Ascii Qpower.
Open Scope Q_scope.
Local Open Scope string_scope.

Local Infix "+s+" := String.append (at level 60, right associativity).

(** ** Fixed-width decimal digits *)

Definition digit_char (d : Z) : ascii := ascii_of_nat (48 + Z.to_nat d).

(** The last [n] decimal digits of [x], zero-padded, in front of [rest]. *)
Fixpoint pad_acc (n : nat) (x : Z) (rest : string) : string :=
  match n with
  | O => rest
  | S n' => pad_acc n' (x / 10)%Z (String (digit_char (x mod 10)%Z) rest)
  end.

(** [{:0n}] of a non-negative integer below [10^n]. *)
Definition pad_digits (n : nat) (x : Z) : string := pad_acc n x EmptyString.

(** Reads [n] digits after the value [acc] already read. *)
Fixpoint read_fixed (n : nat) (s : string) (acc : Z) : option (Z * string) :=
  match n, s with
  | O, _ => Some (acc, s)
  | S n', String c s' => match digit_value c with Some d => read_fixed n' s' (10 * acc + d)%Z | None => None end
  | S _, EmptyString => None
  end.

Definition expect_char (c : ascii) (s : string) : option string :=
  match s with String c' s' => if Ascii.eqb c c' then Some s' else None | EmptyString => None end.

(** ** [Display] of integers, of [f32] and of [GoodKind] *)

(** The decimal digits of a non-negative [z] in front of [rest];
    [fuel] bounds their number. *)
Fixpoint digits_acc (fuel : nat) (z : Z) (rest : string) : string :=
  match fuel with
  | O => rest
  | S f => if (z <? 10)%Z then String (digit_char z) rest
           else digits_acc f (z / 10)%Z (String (digit_char (z mod 10)%Z) rest)
  end.

(** [{}] of a non-negative integer: [log2 z + 1] bits bound its digits. *)
Definition display_int (z : Z) : string := digits_acc (S (Z.to_nat (Z.log2 z))) z EmptyString.

(** The least [k] from [k0] on, within [fuel] steps, with [|q| * 10^k]
    an integer; [k0 + fuel] when there is none. *)
Fixpoint least_exact (k0 fuel : nat) (q : Q) : nat :=
  match fuel with
  | O => k0
  | S f => if ((Z.abs (Qnum q) * 10 ^ Z.of_nat k0) mod Zpos (Qden q) =? 0)%Z then k0
           else least_exact (S k0) f q
  end.

(** The number of decimals [Display] shows: at most 9, the digits an
    [f32] needs to round-trip. *)
Definition frac_len (q : Q) : nat := least_exact 0 9 q.

(** [{}] of an [f32] of value [q]: its sign, its integer part and, when
    it is not an integer, a point and its decimals, without exponent.
    Rust prints the shortest decimal that reads back as the same [f32];
    on a decimal of at most 9 decimals (all the literals of the code and
    its tests) that is the exact value printed here, and other values
    are cut after 9 decimals. *)
Definition display_f32 (q : Q) : string :=
  let k := frac_len q in
  let m := (Z.abs (Qnum q) * 10 ^ Z.of_nat k / Zpos (Qden q))%Z in
  let sign := if (Qnum q <? 0)%Z then "-" else EmptyString in
  let ip := display_int (m / 10 ^ Z.of_nat k)%Z in
  match k with
  | O => sign +s+ ip
  | S _ => sign +s+ ip +s+ "." +s+ pad_digits k (m mod 10 ^ Z.of_nat k)%Z
  end.

(** [Display] of the external crate's [GoodKind]. *)
Definition display_kind (k : GoodKind) : string :=
  match k with EUR => "EUR" | USD => "USD" | YEN => "YEN" | YUAN => "YUAN" end.

(** ** chrono's [DateTime] and its formatting *)

(** A local date and time: its civil fields. *)
Record DateTime := mk_datetime {
  year : Z; month : Z; day : Z; hour : Z; minute : Z; second : Z; nanosecond : Z
}.

(** [datetime.format("%Y:%m:%d:%T:%3f")]: [%T] is [%H:%M:%S], [%3f] the
    milliseconds. *)
Definition format_datetime (dt : DateTime) : string :=
  pad_digits 4 (year dt) +s+ ":" +s+ pad_digits 2 (month dt) +s+ ":" +s+ pad_digits 2 (day dt) +s+ ":" +s+
  pad_digits 2 (hour dt) +s+ ":" +s+ pad_digits 2 (minute dt) +s+ ":" +s+ pad_digits 2 (second dt) +s+ ":" +s+
  pad_digits 3 (nanosecond dt / 1000000)%Z.

(** The fields a formatted time shows. *)
Definition shown_fields (dt : DateTime) : Z * Z * Z * Z * Z * Z * Z :=
  (year dt, month dt, day dt, hour dt, minute dt, second dt, nanosecond dt / 1000000)%Z.

(** Reads a formatted time back, and the text after it. *)
Definition parse_datetime (s : string) : option ((Z * Z * Z * Z * Z * Z * Z) * string) :=
  '(y, s) ← read_fixed 4 s 0; s ← expect_char ":" s;
  '(mo, s) ← read_fixed 2 s 0; s ← expect_char ":" s;
  '(d, s) ← read_fixed 2 s 0; s ← expect_char ":" s;
  '(h, s) ← read_fixed 2 s 0; s ← expect_char ":" s;
  '(mi, s) ← read_fixed 2 s 0; s ← expect_char ":" s;
  '(sec, s) ← read_fixed 2 s 0; s ← expect_char ":" s;
  '(ms, s) ← read_fixed 3 s 0;
  Some ((y, mo, d, h, mi, sec, ms), s).

(** The fields fit their widths: a year of four digits, and a time of
    day and a date whose fields have two. *)
Definition fits (dt : DateTime) : Prop :=
  (0 <= year dt < 10000 /\ 0 <= month dt < 100 /\ 0 <= day dt < 100 /\ 0 <= hour dt < 100 /\
   0 <= minute dt < 100 /\ 0 <= second dt < 100 /\ 0 <= nanosecond dt < 1000000000)%Z.

(** [TxtFileLogger::format_log_code]: [<market_name>|<time>|<log_code>]. *)
Definition format_log_code (market_name : string) (datetime : DateTime) (log_code : string) : string :=
  market_name +s+ "|" +s+ format_datetime datetime +s+ "|" +s+ log_code.

(** The text before the first [sep], and the text after it. *)
Fixpoint split_at (sep : ascii) (s : string) : option (string * string) :=
  match s with
  | EmptyString => None
  | String c s' => if Ascii.eqb c sep then Some (EmptyString, s')
                   else '(a, b) ← split_at sep s'; Some (String c a, b)
  end.

(** Reads a line of the log back: market name, time and code. *)
Definition parse_log_line (s : string) : option (string * (Z * Z * Z * Z * Z * Z * Z) * string) :=
  '(name, s) ← split_at "|" s;
  '(fields, s) ← parse_datetime s;
  s ← expect_char "|" s;
  Some (name, fields, s).

(** Whether [s] contains [sep]. *)
Fixpoint has_char (sep : ascii) (s : string) : bool :=
  match s with EmptyString => false | String c s' => Ascii.eqb c sep || has_char sep s' end.

(** The text after the prefix [p]. *)
Fixpoint strip_prefix (p s : string) : option string :=
  match p with
  | EmptyString => Some s
  | String c p' => match s with
                   | String c' s' => if Ascii.eqb c c' then strip_prefix p' s' else None
                   | EmptyString => None
                   end
  end.

Definition newline_char : ascii := ascii_of_nat 10.

(** A line [<label><f32>] of an initialization code, and the text after
    its newline. *)
Definition parse_field (label s : string) : option (fval * string) :=
  s ← strip_prefix label s;
  '(v, s) ← split_at newline_char s;
  x ← parse_f32 v;
  Some (x, s).

(** Reads an initialization code back: the EUR, USD, YEN and YUAN
    quantities, in the order of the market protocol. *)
Definition parse_initialization_code (s : string) : option (fval * fval * fval * fval) :=
  s ← strip_prefix "MARKET_INITIALIZATION" s;
  s ← strip_prefix newline s;
  '(eur, s) ← parse_field "EUR: " s;
  '(usd, s) ← parse_field "USD: " s;
  '(yen, s) ← parse_field "YEN: " s;
  '(yuan, s) ← parse_field "YUAN: " s;
  if String.eqb s "END_MARKET_INITIALIZATION" then Some (eur, usd, yen, yuan) else None.

(** A quantity whose [Display] is exact: a decimal of at most 9
    decimals, below the overflow to infinity. *)
Definition decimal9 (q : Q) : bool := ((Z.abs (Qnum q) * 10 ^ 9) mod Zpos (Qden q) =? 0)%Z.

Definition loggable (q : Q) : Prop := decimal9 q = true /\ - F32_OVERFLOW < q < F32_OVERFLOW.

(** ** chrono's calendar: conversion to the local zone *)

(** The day number of a civil date (days since 1970-01-01), chrono's
    proleptic Gregorian calendar. *)
Definition days_from_civil (y m d : Z) : Z :=
  let y := if (m <=? 2)%Z then (y - 1)%Z else y in
  let era := (y / 400)%Z in
  let yoe := (y - era * 400)%Z in
  let mp := ((m + 9) mod 12)%Z in
  let doy := ((153 * mp + 2) / 5 + d - 1)%Z in
  let doe := (yoe * 365 + yoe / 4 - yoe / 100 + doy)%Z in
  (era * 146097 + doe - 719468)%Z.

(** The civil date of a day number. *)
Definition civil_from_days (z : Z) : Z * Z * Z :=
  let z := (z + 719468)%Z in
  let era := (z / 146097)%Z in
  let doe := (z - era * 146097)%Z in
  let yoe := ((doe - doe / 1460 + doe / 36524 - doe / 146096) / 365)%Z in
  let y := (yoe + era * 400)%Z in
  let doy := (doe - (365 * yoe + yoe / 4 - yoe / 100))%Z in
  let mp := ((5 * doy + 2) / 153)%Z in
  let d := (doy - (153 * mp + 2) / 5 + 1)%Z in
  let m := if (mp <? 10)%Z then (mp + 3)%Z else (mp - 9)%Z in
  ((if (m <=? 2)%Z then (y + 1)%Z else y), m, d).

(** The seconds of a civil time since the epoch of its zone. *)
Definition seconds_of (dt : DateTime) : Z :=
  (days_from_civil (year dt) (month dt) (day dt) * 86400 + hour dt * 3600 + minute dt * 60 + second dt)%Z.

(** The civil time [delta] seconds later (the nanoseconds stay). *)
Definition shift_seconds (dt : DateTime) (delta : Z) : DateTime :=
  let total := (seconds_of dt + delta)%Z in
  let '(y, m, d) := civil_from_days (total / 86400)%Z in
  let rem := (total mod 86400)%Z in
  mk_datetime y m d (rem / 3600)%Z ((rem mod 3600) / 60)%Z (rem mod 60)%Z (nanosecond dt).

(** [.with_timezone(&Local)] of a time read with the offset [fixed_offset]
    (in seconds east of UTC), where the local zone's offset at that
    instant is [local_offset]. *)
Definition to_local (dt : DateTime) (fixed_offset local_offset : Z) : DateTime :=
  shift_seconds dt (local_offset - fixed_offset)%Z.

(** ** The log codes of [TxtFileLogger] *)

(** [TxtFileLogger::format_filename]: [to_lowercase] on ASCII names. *)
Definition format_filename (market_name : string) : string :=
  "log_" +s+ string_of_list_ascii (map lower (list_ascii_of_string market_name)) +s+ ".txt".

(** [TxtFileLogger::initialization_code]: one payload of six lines. *)
Definition initialization_code (eur usd jpy cny : Good) : string :=
  "MARKET_INITIALIZATION" +s+ newline +s+
  "EUR: " +s+ display_f32 (get_qty eur) +s+ newline +s+
  "USD: " +s+ display_f32 (get_qty usd) +s+ newline +s+
  "YEN: " +s+ display_f32 (get_qty jpy) +s+ newline +s+
  "YUAN: " +s+ display_f32 (get_qty cny) +s+ newline +s+
  "END_MARKET_INITIALIZATION".

(** [TxtFileLogger::lock_buy_code]. *)
Definition lock_buy_code (locked : Good) (trader_name : string) (bid : Good) (token : option Uuid) : string :=
  let head := "LOCK_BUY-" +s+ trader_name +s+ "-KIND_TO_BUY:" +s+ display_kind (get_kind locked) +s+
              "-QUANTITY_TO_BUY:" +s+ display_f32 (get_qty locked) +s+ "-BID:" +s+ display_f32 (get_qty bid) in
  match token with
  | Some token => head +s+ "-TOKEN:" +s+ uuid_to_string token
  | None => head +s+ "-ERROR"
  end.

(** [TxtFileLogger::lock_sell_code]. *)
Definition lock_sell_code (locked : Good) (trader_name : string) (offer : Good) (token : option Uuid) : string :=
  let head := "LOCK_SELL-" +s+ trader_name +s+ "-KIND_TO_SELL:" +s+ display_kind (get_kind locked) +s+
              "-QUANTITY_TO_SELL:" +s+ display_f32 (get_qty locked) +s+ "-OFFER:" +s+ display_f32 (get_qty offer) in
  match token with
  | Some token => head +s+ "-TOKEN:" +s+ uuid_to_string token
  | None => head +s+ "-ERROR"
  end.

(** [TxtFileLogger::buy_code]. *)
Definition buy_code (token : Uuid) (success : bool) : string :=
  if success then "BUY-TOKEN:" +s+ uuid_to_string token +s+ "-OK"
  else "BUY-TOKEN:" +s+ uuid_to_string token +s+ "-ERROR".

(** [TxtFileLogger::sell_code]. *)
Definition sell_code (token : Uuid) (success : bool) : string :=
  if success then "SELL-TOKEN:" +s+ uuid_to_string token +s+ "-OK"
  else "SELL-TOKEN:" +s+ uuid_to_string token +s+ "-ERROR".

(** The code [TxtFileLogger] writes for a call. *)
Definition entry_code (e : LogEntry) : string :=
  match e with
  | LogInitialization eur usd yen yuan => initialization_code eur usd yen yuan
  | LogLockBuy locked trader_name bid token => lock_buy_code locked trader_name bid token
  | LogLockSell locked trader_name offer token => lock_sell_code locked trader_name offer token
  | LogBuy token success => buy_code token success
  | LogSell token success => sell_code token success
  end.

(** ** The [Logger] trait and its implementations *)

(** [trait Logger] (logger.rs): one method per [LogEntry]; every method
    receives the [Local::now()] of its call, which only [TxtFileLogger]
    reads. *)
Class Logger (L : Type) := {
  log_initialization : L -> DateTime -> Good -> Good -> Good -> Good -> L;
  log_lock_buy : L -> DateTime -> Good -> string -> Good -> option Uuid -> L;
  log_lock_sell : L -> DateTime -> Good -> string -> Good -> option Uuid -> L;
  log_buy : L -> DateTime -> Uuid -> bool -> L;
  log_sell : L -> DateTime -> Uuid -> bool -> L
}.

(** The method call an entry of a market trace stands for. *)
Definition log_entry `{Logger L} (l : L) (now : DateTime) (e : LogEntry) : L :=
  match e with
  | LogInitialization eur usd yen yuan => log_initialization l now eur usd yen yuan
  | LogLockBuy locked trader_name bid token => log_lock_buy l now locked trader_name bid token
  | LogLockSell locked trader_name offer token => log_lock_sell l now locked trader_name offer token
  | LogBuy token success => log_buy l now token success
  | LogSell token success => log_sell l now token success
  end.

(** A sequence of calls, each at its time. *)
Definition log_entries `{Logger L} (l : L) (calls : list (DateTime * LogEntry)) : L :=
  fold_left (fun l '(now, e) => log_entry l now e) calls l.

(** The log entries of a market trace, in order. *)
Definition logs_of (effs : list effect) : list LogEntry :=
  omap (fun eff => match eff with ELog e => Some e | _ => None end) effs.

(** [MuteLogger] (mute_logger.rs). *)
Inductive MuteLogger := mk_mute_logger.

#[export] Instance mute_logger : Logger MuteLogger := {
  log_initialization l _ _ _ _ _ := l;
  log_lock_buy l _ _ _ _ _ := l;
  log_lock_sell l _ _ _ _ _ := l;
  log_buy l _ _ _ := l;
  log_sell l _ _ _ := l
}.

(** [TxtFileLogger]: the market name and the lines written to the file
    since [File::create] truncated it. *)
Record TxtFileLogger := mk_txt_file_logger { market_name : string; file : list string }.

(** [writeln!(self.file, "{}", format_log_code(&self.market_name, now, code))]. *)
Definition write_code (l : TxtFileLogger) (now : DateTime) (code : string) : TxtFileLogger :=
  mk_txt_file_logger (market_name l) (file l ++ [format_log_code (market_name l) now code]).

#[export] Instance txt_file_logger : Logger TxtFileLogger := {
  log_initialization l now eur usd jpy cny := write_code l now (initialization_code eur usd jpy cny);
  log_lock_buy l now locked trader_name bid token := write_code l now (lock_buy_code locked trader_name bid token);
  log_lock_sell l now locked trader_name offer token := write_code l now (lock_sell_code locked trader_name offer token);
  log_buy l now token success := write_code l now (buy_code token success);
  log_sell l now token success := write_code l now (sell_code token success)
}.

(** [TxtFileLogger::try_new]: [create] is whether [File::create] of the
    path succeeds (the [eprintln!] of a failure is not modelled). *)
Definition try_new (create : string -> bool) (market_name : string) : option TxtFileLogger :=
  if create (format_filename market_name) then Some (mk_txt_file_logger market_name []) else None.

(** A line [StdoutLogger] prints: a text, or a line that shows two goods
    (their [Display] is the external crate's, so they are kept as values):
    [<trader_name> <verb> <locked> WITH <what> <other>], then
    [ AND TOKEN <token>] when there is one. *)
Inductive StdoutLine :=
| PrintText (s : string)
| PrintGoods (trader_name verb : string) (locked : Good) (what : string) (other : Good) (token : option Uuid).

(** [StdoutLogger] (stdout_logger.rs): the lines printed so far. *)
Record StdoutLogger := mk_stdout_logger { printed : list StdoutLine }.

Definition print_line (l : StdoutLogger) (line : StdoutLine) : StdoutLogger :=
  mk_stdout_logger (printed l ++ [line]).

#[export] Instance stdout_logger : Logger StdoutLogger := {
  log_initialization l _ eur usd jpy cny :=
    print_line l (PrintText ("INITIALIZED MARKET:" +s+ newline +s+
      "EUR: " +s+ display_f32 (get_qty eur) +s+ newline +s+ "USD: " +s+ display_f32 (get_qty usd) +s+ newline +s+
      "YEN: " +s+ display_f32 (get_qty jpy) +s+ newline +s+ "YUAN: " +s+ display_f32 (get_qty cny) +s+ newline));
  log_lock_buy l _ locked trader_name bid token :=
    print_line l (match token with
                  | Some _ => PrintGoods trader_name "LOCK_BUY" locked "BID" bid token
                  | None => PrintGoods trader_name "FAILED LOCK_BUY" locked "BID" bid None
                  end);
  log_lock_sell l _ locked trader_name offer token :=
    print_line l (match token with
                  | Some _ => PrintGoods trader_name "LOCK_SELL" locked "OFFER" offer token
                  | None => PrintGoods trader_name "FAILED LOCK_SELL" locked "OFFER" offer None
                  end);
  log_buy l _ token success :=
    print_line l (PrintText ((if success then "SUCCESSFUL BUY WITH TOKEN " else "FAILED BUY WITH TOKEN ") +s+
                             uuid_to_string token));
  log_sell l _ token success :=
    print_line l (PrintText ((if success then "SUCCESSFUL SELL WITH TOKEN " else "FAILED SELL WITH TOKEN ") +s+
                             uuid_to_string token))
}.

(** [Box<dyn Logger>]: one of the implementations, and dynamic dispatch. *)
Inductive AnyLogger :=
| BoxTxt (l : TxtFileLogger)
| BoxMute (l : MuteLogger)
| BoxStdout (l : StdoutLogger).

Definition dispatch (l : AnyLogger) (now : DateTime) (e : LogEntry) : AnyLogger :=
  match l with
  | BoxTxt t => BoxTxt (log_entry t now e)
  | BoxMute m => BoxMute (log_entry m now e)
  | BoxStdout s => BoxStdout (log_entry s now e)
  end.

#[export] Instance any_logger : Logger AnyLogger := {
  log_initialization l now eur usd yen yuan := dispatch l now (LogInitialization eur usd yen yuan);
  log_lock_buy l now locked trader_name bid token := dispatch l now (LogLockBuy locked trader_name bid token);
  log_lock_sell l now locked trader_name offer token := dispatch l now (LogLockSell locked trader_name offer token);
  log_buy l now token success := dispatch l now (LogBuy token success);
  log_sell l now token success := dispatch l now (LogSell token success)
}.

(** The logger of [DogeMarket::new_with_goods] (dogemarket.rs): the text
    file logger of ["DogeMarket"] when its file can be created, the mute
    logger otherwise. *)
Definition new_logger (create : string -> bool) : AnyLogger :=
  match try_new create "DogeMarket" with
  | Some txt_file_logger => BoxTxt txt_file_logger
  | None => BoxMute mk_mute_logger
  end.

(** [DogeMarket::new_with_goods] with its logger: the market of Market.v
    and the logger after the log calls of its trace, the [Local::now()]
    of the call being [now]. *)
Definition new_with_goods_logged (create : string -> bool) (now : DateTime) (eur yen usd yuan : Good)
    : outcome unit (DogeMarket.DogeMarket * AnyLogger) :=
  '(m, effs) ← DogeMarket.new_with_goods eur yen usd yuan;
  Ok (m, log_entries (new_logger create) (map (pair now) (logs_of effs))).


(** ** The tests of txt_file_logger.rs *)

(** [test_datetime_format], on a machine whose offset at 2022-12-01
    15:39:19 +01:00 is [local_offset] seconds: [DateTime::<Local>::from_str]
    reads the time at +01:00 and converts it to the local zone. *)
(** [DateTime::from_str("2022-12-01 15:39:19.315644312 +01:00")]: the
    civil time read, at the offset +01:00 (3600 seconds). *)
Definition test_time : DateTime := mk_datetime 2022 12 1 15 39 19 315644312.

Definition test_datetime_format (local_offset : Z) : test :=
  let datetime := to_local test_time 3600 local_offset in
  let formatted := format_log_code "DogeMarket" datetime "Testing testing..." in
  assert_ (String.eqb "DogeMarket|2022:12:01:15:39:19:315|Testing testing..." formatted).

(** ** Lemmas *)

Lemma digit_value_char d : (0 <= d < 10)%Z -> digit_value (digit_char d) = Some d.
Proof.
  intros Hd. assert (d = 0 \/ d = 1 \/ d = 2 \/ d = 3 \/ d = 4 \/ d = 5 \/ d = 6 \/ d = 7 \/ d = 8 \/ d = 9)%Z
    as Hc by lia.
  by repeat destruct Hc as [-> | Hc]; [..| subst d].
Qed.

Lemma pad_acc_app n x acc rest : pad_acc n x acc +s+ rest = pad_acc n x (acc +s+ rest).
Proof. revert x acc. induction n as [| n IH]; intros x acc; cbn; [done |]. by rewrite IH. Qed.

Lemma pad_app n x rest : pad_digits n x +s+ rest = pad_acc n x rest.
Proof. unfold pad_digits. by rewrite pad_acc_app. Qed.

Lemma read_pad n y s acc k : (0 <= y < 10 ^ Z.of_nat n)%Z ->
  read_fixed (n + k) (pad_acc n y s) acc = read_fixed k s (acc * 10 ^ Z.of_nat n + y)%Z.
Proof.
  revert y s acc k. induction n as [| n IH]; intros y s acc k Hy.
  - cbn in *. f_equal. lia.
  - cbn [pad_acc]. rewrite Nat.add_succ_l, <- Nat.add_succ_r.
    rewrite IH by (rewrite Nat2Z.inj_succ, Z.pow_succ_r in Hy by lia; split; [apply Z.div_pos | apply Z.div_lt_upper_bound]; lia).
    cbn [read_fixed]. rewrite digit_value_char by (apply Z.mod_pos_bound; lia).
    f_equal. rewrite Nat2Z.inj_succ, Z.pow_succ_r by lia. pose proof (Z.div_mod y 10). lia.
Qed.

Lemma read_pad_digits n y s : (0 <= y < 10 ^ Z.of_nat n)%Z -> read_fixed n (pad_digits n y +s+ s) 0 = Some (y, s).
Proof.
  intros Hy. pose proof (read_pad n y s 0 0 Hy) as H. rewrite Nat.add_0_r in H.
  rewrite pad_app, H. cbn. by rewrite Z.add_0_l.
Qed.

Lemma append_cons c s t : String c s +s+ t = String c (s +s+ t).
Proof. reflexivity. Qed.

Lemma append_nil t : EmptyString +s+ t = t.
Proof. reflexivity. Qed.

Lemma append_assoc_s a b c : (a +s+ b) +s+ c = a +s+ (b +s+ c).
Proof. induction a as [| x a IH]; [reflexivity |]. rewrite !append_cons. by rewrite IH. Qed.

Lemma div_bound n q b : (0 <= n < q * b)%Z -> (0 < q)%Z -> (0 <= n / q < b)%Z.
Proof. intros Hn Hq. split; [apply Z.div_pos; lia | apply Z.div_lt_upper_bound; lia]. Qed.

(** A formatted time reads back as the fields it shows. *)
Lemma parse_format_datetime dt rest : fits dt -> parse_datetime (format_datetime dt +s+ rest) = Some (shown_fields dt, rest).
Proof.
  intros (Hy & Hmo & Hd & Hh & Hmi & Hs & Hn).
  assert (Hms : (0 <= nanosecond dt / 1000000 < 10 ^ Z.of_nat 3)%Z) by (apply div_bound; cbn; lia).
  unfold format_datetime, parse_datetime. rewrite !append_assoc_s.
  repeat (rewrite read_pad_digits by (cbn; lia); cbn [mbind option_bind];
          rewrite ?append_cons, ?append_nil; cbn [expect_char Ascii.eqb Bool.eqb mbind option_bind]).
  done.
Qed.

Lemma split_at_app sep name rest : has_char sep name = false ->
  split_at sep (name +s+ String sep rest) = Some (name, rest).
Proof.
  induction name as [| c name IH]; intros Hb.
  - rewrite append_nil. cbn [split_at]. by rewrite Ascii.eqb_refl.
  - rewrite append_cons. cbn [split_at has_char] in *. apply orb_false_iff in Hb as [-> Hb]. by rewrite IH.
Qed.

Lemma bar_app t : "|" +s+ t = String "|" t.
Proof. reflexivity. Qed.

(** ** The log line reads back *)

(** A line of the market log determines what was logged: reading it
    back gives the market name (when it contains no ['|']), the local
    time to the millisecond (when its fields fit their widths) and the
    log code. *)
Theorem log_line_roundtrip name dt code : has_char "|" name = false -> fits dt ->
  parse_log_line (format_log_code name dt code) = Some (name, shown_fields dt, code).
Proof.
  intros Hb Hf. unfold format_log_code, parse_log_line. rewrite bar_app, split_at_app by done.
  cbn [mbind option_bind]. rewrite parse_format_datetime by done. cbn [mbind option_bind].
  rewrite bar_app. cbn. done.
Qed.

(** ** [test_datetime_format] depends on the time zone *)

(** A second of the day is its hours, minutes and seconds, each in range. *)
Lemma day_split r : (0 <= r < 86400)%Z ->
  r = (3600 * (r / 3600) + 60 * ((r mod 3600) / 60) + r mod 60)%Z /\
  (0 <= r / 3600 < 24 /\ 0 <= (r mod 3600) / 60 < 60 /\ 0 <= r mod 60 < 60)%Z.
Proof.
  intros Hr. pose proof (Z.div_mod r 3600 ltac:(lia)). pose proof (Z.mod_pos_bound r 3600 ltac:(lia)).
  pose proof (Z.div_mod (r mod 3600) 60 ltac:(lia)). pose proof (Z.mod_pos_bound (r mod 3600) 60 ltac:(lia)).
  assert (Hmod : ((r mod 3600) mod 60 = r mod 60)%Z) by (apply Z.mod_mod_divide; exists 60%Z; reflexivity).
  rewrite Hmod in *. split; [lia |]. split; [apply div_bound; lia |]. split; [apply div_bound; lia | lia].
Qed.

(** The seconds since the epoch are the day number and the second of the day. *)
Lemma seconds_split total : total = (86400 * (total / 86400) + total mod 86400)%Z /\ (0 <= total mod 86400 < 86400)%Z.
Proof. split; [apply Z.div_mod | apply Z.mod_pos_bound]; lia. Qed.

(** Shifted by less than a day either way, the test's time still fits,
    and shows the same fields only when the shift is zero. *)
Lemma shift_test_time delta : (-90000 < delta < 82800)%Z ->
  fits (shift_seconds test_time delta) /\
  (shown_fields (shift_seconds test_time delta) = shown_fields test_time -> delta = 0%Z).
Proof.
  intros Hd. unfold shift_seconds. replace (seconds_of test_time) with 1669909159%Z by reflexivity.
  remember (1669909159 + delta)%Z as total eqn:Ht. destruct (seconds_split total) as [Hdm Hr].
  remember (total / 86400)%Z as q eqn:Hq. remember (total mod 86400)%Z as r eqn:Hre. clear Hq Hre.
  destruct (day_split r Hr) as [Hrs Hb].
  remember (r / 3600)%Z as h eqn:Hh. remember ((r mod 3600) / 60)%Z as mi eqn:Hmi.
  remember (r mod 60)%Z as s eqn:Hs. clear Hh Hmi Hs.
  assert (Hq : q = 19326%Z \/ q = 19327%Z \/ q = 19328%Z) by lia.
  destruct Hq as [-> | [-> | ->]];
    match goal with |- context [civil_from_days ?z] =>
      let c := eval vm_compute in (civil_from_days z) in change (civil_from_days z) with c end;
    cbn -[Z.div]; (split; [unfold fits; cbn; lia | intros [=]; lia]).
Qed.

(** C28: [test_datetime_format] passes exactly on machines whose local
    offset at 2022-12-01 15:39:19 +01:00 is +01:00: [from_str] converts the
    time it reads to the local zone, and the formatted line shows any
    other offset. *)
Theorem datetime_test_needs_plus_one local_offset : (-86400 < local_offset < 86400)%Z ->
  test_datetime_format local_offset = Ok tt <-> local_offset = 3600%Z.
Proof.
  intros Ho. split; [| intros ->; vm_compute; reflexivity].
  unfold test_datetime_format, assert_. case_match eqn:E; [intros _ | discriminate]. apply String.eqb_eq in E.
  destruct (shift_test_time (local_offset - 3600) ltac:(lia)) as [Hf Heq]. unfold to_local in E.
  apply (f_equal parse_log_line) in E. rewrite log_line_roundtrip in E by done.
  remember (shown_fields (shift_seconds test_time (local_offset - 3600))) as fs eqn:Hfs.
  replace (parse_log_line "DogeMarket|2022:12:01:15:39:19:315|Testing testing..."%string)
    with (Some ("DogeMarket"%string, shown_fields test_time, "Testing testing..."%string)) in E by (vm_compute; reflexivity).
  injection E as E. subst fs. symmetry in E. apply Heq in E. lia.
Qed.

Lemma datetime_test_needs_plus_one_witness :
  (-86400 < 3600 < 86400)%Z /\ test_datetime_format 3600 = Ok tt.
Proof. split; [lia | apply (proj2 (datetime_test_needs_plus_one 3600 ltac:(lia))); reflexivity]. Defined.

(** ** [Display] of [f32] reads back *)
Lemma list_ascii_app a b : list_ascii_of_string (a +s+ b) = (list_ascii_of_string a ++ list_ascii_of_string b)%list.
Proof. induction a as [| c a IH]; [done |]. rewrite append_cons. cbn [list_ascii_of_string]. by rewrite IH. Qed.

Lemma take_digits_digit acc n d r : (0 <= d < 10)%Z ->
  take_digits acc n (digit_char d :: r) = take_digits (10 * acc + d)%Z (S n) r.
Proof. intros Hd. cbn [take_digits]. by rewrite digit_value_char. Qed.

Lemma take_pad k x acc n rest : (0 <= x < 10 ^ Z.of_nat k)%Z ->
  take_digits acc n (list_ascii_of_string (pad_acc k x rest)) =
  take_digits (acc * 10 ^ Z.of_nat k + x)%Z (n + k) (list_ascii_of_string rest).
Proof.
  revert x acc n rest. induction k as [| k IH]; intros x acc n rest Hx.
  - cbn in *. rewrite Nat.add_0_r. f_equal. lia.
  - cbn [pad_acc]. rewrite Nat2Z.inj_succ, Z.pow_succ_r in Hx |- * by lia.
    rewrite IH by (split; [apply Z.div_pos | apply Z.div_lt_upper_bound]; lia).
    cbn [list_ascii_of_string]. rewrite take_digits_digit by (apply Z.mod_pos_bound; lia).
    rewrite Nat.add_succ_r. f_equal. pose proof (Z.div_mod x 10). lia.
Qed.

Lemma take_digits_acc f z : (0 < f)%nat -> (0 <= z < 2 ^ Z.of_nat f)%Z ->
  exists d, (0 < d)%nat /\ forall acc n rest,
    take_digits acc n (list_ascii_of_string (digits_acc f z rest)) =
    take_digits (acc * 10 ^ Z.of_nat d + z)%Z (n + d) (list_ascii_of_string rest).
Proof.
  revert z. induction f as [| f IH]; intros z Hf Hz; [lia |]. cbn [digits_acc].
  destruct (Z.ltb_spec z 10) as [Hlt | Hge].
  - exists 1%nat. split; [lia |]. intros acc n rest. cbn [list_ascii_of_string].
    rewrite take_digits_digit by lia. f_equal; lia.
  - rewrite Nat2Z.inj_succ, Z.pow_succ_r in Hz by lia.
    assert (Hq : (1 <= z / 10 < 2 ^ Z.of_nat f)%Z) by (split; [apply Z.div_le_lower_bound | apply Z.div_lt_upper_bound]; lia).
    destruct f as [| f]; [cbn in Hq; lia |].
    destruct (IH (z / 10)%Z ltac:(lia) ltac:(lia)) as (d & Hd & Ht).
    exists (S d). split; [lia |]. intros acc n rest. rewrite Ht. cbn [list_ascii_of_string].
    rewrite take_digits_digit by (apply Z.mod_pos_bound; lia).
    rewrite Nat.add_succ_r. f_equal. rewrite Nat2Z.inj_succ, Z.pow_succ_r by lia.
    pose proof (Z.div_mod z 10). lia.
Qed.

Lemma digits_acc_app f z acc rest : digits_acc f z acc +s+ rest = digits_acc f z (acc +s+ rest).
Proof. revert z acc. induction f as [| f IH]; intros z acc; cbn; [done |]. case_match; [done | by rewrite IH]. Qed.

Lemma display_int_fuel z : (0 <= z)%Z -> (0 <= z < 2 ^ Z.of_nat (S (Z.to_nat (Z.log2 z))))%Z.
Proof.
  intros Hz. rewrite Nat2Z.inj_succ, Z2Nat.id by apply Z.log2_nonneg.
  destruct (Z.eq_dec z 0) as [-> | Hne]; [cbn; lia |]. pose proof (Z.log2_spec z ltac:(lia)). lia.
Qed.

Lemma take_display_int z : (0 <= z)%Z ->
  exists d, (0 < d)%nat /\ forall acc n rest,
    take_digits acc n (list_ascii_of_string (display_int z +s+ rest)) =
    take_digits (acc * 10 ^ Z.of_nat d + z)%Z (n + d) (list_ascii_of_string rest).
Proof.
  intros Hz. destruct (take_digits_acc (S (Z.to_nat (Z.log2 z))) z ltac:(lia) (display_int_fuel z Hz)) as (d & Hd & Ht).
  exists d. split; [done |]. intros acc n rest. unfold display_int. rewrite digits_acc_app. apply Ht.
Qed.

Lemma take_digits_count l acc n : (n <= (take_digits acc n l).1.2)%nat.
Proof. revert acc n. induction l as [| c l IH]; intros acc n; cbn; [done |]. case_match; [| done]. specialize (IH (10 * acc + z)%Z (S n)). lia. Qed.

Lemma take_digits_moved l acc n : (take_digits acc n l).1.2 <> n ->
  exists c l' x, l = c :: l' /\ digit_value c = Some x.
Proof. destruct l as [| c l]; cbn; [done |]. case_match; [by eauto | done]. Qed.

(** What a digit is not: a sign, a letter of [inf] or [nan]. *)
Lemma digit_char_facts c x : digit_value c = Some x ->
  (forall r, split_sign (c :: r) = (false, c :: r)) /\ lower c = c /\
  Ascii.eqb c "i" = false /\ Ascii.eqb c "n" = false.
Proof. destruct c as [[] [] [] [] [] [] [] []]; cbn; intros H; try discriminate H; done. Qed.

Lemma least_exact_spec k0 f q :
  ((Z.abs (Qnum q) * 10 ^ Z.of_nat (least_exact k0 f q)) mod Zpos (Qden q) =? 0)%Z = true \/
  least_exact k0 f q = (k0 + f)%nat.
Proof.
  revert k0. induction f as [| f IH]; intros k0; cbn [least_exact]; [right; lia |].
  case_match eqn:E; [by left |]. destruct (IH (S k0)) as [H | H]; [by left | right; lia].
Qed.

Lemma frac_len_exact q : decimal9 q = true ->
  ((Z.abs (Qnum q) * 10 ^ Z.of_nat (frac_len q)) mod Zpos (Qden q) = 0)%Z.
Proof.
  unfold decimal9, frac_len. intros H9. apply Z.eqb_eq.
  destruct (least_exact_spec 0 9 q) as [H | ->]; [done | exact H9].
Qed.

Lemma append_nil_r s : s +s+ EmptyString = s.
Proof. induction s as [| c s IH]; [done |]. by rewrite append_cons, IH. Qed.

(** [parse_f32] of a sign, the digits of [ip] and, when [k > 0], a point
    and [k] digits of [f]. *)
Lemma parse_f32_digits (neg : bool) (ip : Z) (k : nat) (f : Z) : (0 <= ip)%Z -> (0 <= f < 10 ^ Z.of_nat k)%Z ->
  parse_f32 ((if neg then "-" else EmptyString) +s+ display_int ip +s+
             match k with O => EmptyString | S _ => "." +s+ pad_digits k f end) =
  Some (to_f32 neg (inject_Z (ip * 10 ^ Z.of_nat k + f) * 10 ^ (0 - Z.of_nat k))).
Proof.
  intros Hip Hf. destruct (take_display_int ip Hip) as ([| d] & Hd & Ht); [lia |].
  set (tail := match k with O => EmptyString | S _ => "." +s+ pad_digits k f end).
  assert (Htake : take_digits 0%Z 0 (list_ascii_of_string (display_int ip +s+ tail)) =
                  (match k with O => (ip, S d, []) | S _ => (ip, S d, "."%char :: list_ascii_of_string (pad_digits k f)) end
                   : Z * nat * list ascii)).
  { rewrite Ht. subst tail. destruct k; [done |]. rewrite append_cons. cbn [list_ascii_of_string]. done. }
  assert (Hmoved : (take_digits 0%Z 0 (list_ascii_of_string (display_int ip +s+ tail))).1.2 <> 0%nat)
    by (rewrite Htake; destruct k; cbn; lia).
  destruct (take_digits_moved _ _ _ Hmoved) as (c & l' & x & Hl & Hc).
  destruct (digit_char_facts c x Hc) as (Hsign & Hlow & Hi & Hn).
  unfold parse_f32. rewrite list_ascii_app, Hl.
  replace (split_sign (list_ascii_of_string (if neg then "-" else EmptyString) ++ c :: l')%list) with (neg, c :: l')
    by (destruct neg; [done | symmetry; apply Hsign]).
  cbn [map string_of_list_ascii]. rewrite Hlow. cbn [String.eqb]. rewrite Hi, Hn. cbn [andb orb].
  rewrite <- Hl, Htake. destruct k as [| k].
  - cbn. do 4 f_equal. cbn in Hf. lia.
  - unfold pad_digits. rewrite take_pad by done. cbn. done.
Qed.

(** The value [m / 10^k] of the decimal printed for [q]. *)
Lemma decimal_value (num : Z) (den : positive) (m : Z) (k : nat) :
  (Z.abs num * 10 ^ Z.of_nat k = m * Zpos den)%Z ->
  inject_Z m * 10 ^ (0 - Z.of_nat k) == inject_Z (Z.abs num) * / inject_Z (Zpos den).
Proof.
  intros Hm. rewrite Z.sub_0_l, Qpower_opp. change (10 : Q) with (inject_Z 10).
  rewrite <- (Zpower_Qpower 10 (Z.of_nat k)) by lia.
  assert (Ht : (0 < 10 ^ Z.of_nat k)%Z) by (apply Z.pow_pos_nonneg; lia).
  destruct (10 ^ Z.of_nat k)%Z as [| t | t] eqn:Et; [lia | | lia].
  unfold Qeq, Qmult, Qinv; cbn. nia.
Qed.

Theorem parse_display_f32 q : decimal9 q = true -> - F32_OVERFLOW < q < F32_OVERFLOW ->
  exists v, parse_f32 (display_f32 q) = Some (Fin v) /\ v == q.
Proof.
  intros H9 Hb. pose proof (frac_len_exact q H9) as Hex. unfold display_f32.
  set (k := frac_len q) in *. set (m := (Z.abs (Qnum q) * 10 ^ Z.of_nat k / Zpos (Qden q))%Z).
  assert (Hpk : (0 < 10 ^ Z.of_nat k)%Z) by (apply Z.pow_pos_nonneg; lia).
  assert (Hm : (Z.abs (Qnum q) * 10 ^ Z.of_nat k = m * Zpos (Qden q))%Z).
  { subst m. rewrite Z.mul_comm with (n := (_ / _)%Z). apply Z.div_exact; [lia | done]. }
  assert (Hm0 : (0 <= m)%Z) by (subst m; apply Z.div_pos; lia).
  pose proof (Z.div_mod m (10 ^ Z.of_nat k) ltac:(lia)) as Hdm.
  pose proof (Z.mod_pos_bound m (10 ^ Z.of_nat k) Hpk) as Hf.
  assert (Hip : (0 <= m / 10 ^ Z.of_nat k)%Z) by (apply Z.div_pos; lia).
  assert (Hbody : (m / 10 ^ Z.of_nat k * 10 ^ Z.of_nat k + m mod 10 ^ Z.of_nat k = m)%Z) by lia.
  assert (Hv : inject_Z m * 10 ^ (0 - Z.of_nat k) == inject_Z (Z.abs (Qnum q)) * / inject_Z (Zpos (Qden q)))
    by (apply decimal_value; lia).
  set (neg := (Qnum q <? 0)%Z).
  assert (Hparse : parse_f32 ((if neg then "-" else EmptyString) +s+ display_int (m / 10 ^ Z.of_nat k) +s+
                      match k with O => EmptyString | S _ => "." +s+ pad_digits k (m mod 10 ^ Z.of_nat k) end) =
                   Some (to_f32 neg (inject_Z m * 10 ^ (0 - Z.of_nat k))))
    by (rewrite parse_f32_digits, Hbody by done; done).
  replace (match k with O => _ | S _ => _ end) with
    ((if neg then "-" else EmptyString) +s+ display_int (m / 10 ^ Z.of_nat k) +s+
     match k with O => EmptyString | S _ => "." +s+ pad_digits k (m mod 10 ^ Z.of_nat k) end)
    by (destruct k; [by rewrite append_nil_r | done]).
  rewrite Hparse. unfold to_f32.
  destruct q as [num den]. cbn [Qnum Qden] in *. unfold Qlt in Hb. cbn in Hb.
  destruct (Qle_bool F32_OVERFLOW (inject_Z m * 10 ^ (0 - Z.of_nat k))) eqn:Eo.
  - exfalso. apply Qle_bool_iff in Eo. rewrite Hv in Eo. unfold Qle in Eo. cbn in Eo. unfold F32_OVERFLOW in *. cbn in *. lia.
  - eexists. split; [reflexivity |]. subst neg.
    destruct (Z.ltb_spec num 0); rewrite Hv; unfold Qeq; cbn; lia.
Qed.

(** ** The initialization code reads back *)

Lemma has_char_app sep a b : has_char sep (a +s+ b) = has_char sep a || has_char sep b.
Proof. induction a as [| c a IH]; [done |]. rewrite append_cons. cbn [has_char]. rewrite IH. apply orb_assoc. Qed.

Lemma digit_not_newline d : (0 <= d < 10)%Z -> Ascii.eqb (digit_char d) newline_char = false.
Proof.
  intros Hd. assert (d = 0 \/ d = 1 \/ d = 2 \/ d = 3 \/ d = 4 \/ d = 5 \/ d = 6 \/ d = 7 \/ d = 8 \/ d = 9)%Z
    as Hc by lia.
  by repeat destruct Hc as [-> | Hc]; [..| subst d].
Qed.

Lemma pad_no_newline k x rest : has_char newline_char (pad_acc k x rest) = has_char newline_char rest.
Proof.
  revert x rest. induction k as [| k IH]; intros x rest; [done |]. cbn [pad_acc]. rewrite IH. cbn [has_char].
  by rewrite digit_not_newline by (apply Z.mod_pos_bound; lia).
Qed.

Lemma digits_no_newline f z rest : (0 <= z)%Z -> has_char newline_char (digits_acc f z rest) = has_char newline_char rest.
Proof.
  revert z rest. induction f as [| f IH]; intros z rest Hz; [done |]. cbn [digits_acc].
  destruct (Z.ltb_spec z 10); cbn [has_char].
  - by rewrite digit_not_newline by lia.
  - rewrite IH by (apply Z.div_pos; lia). cbn [has_char]. by rewrite digit_not_newline by (apply Z.mod_pos_bound; lia).
Qed.

(** The text of an [f32] is one line. *)
Lemma display_f32_no_newline q : has_char newline_char (display_f32 q) = false.
Proof.
  unfold display_f32, display_int, pad_digits.
  assert (Hs : forall neg : bool, has_char newline_char (if neg then "-" else EmptyString) = false) by (intros []; done).
  assert (Hm : (0 <= Z.abs (Qnum q) * 10 ^ Z.of_nat (frac_len q) / Zpos (Qden q) / 10 ^ Z.of_nat (frac_len q))%Z)
    by (apply Z.div_pos; [apply Z.div_pos |]; try apply Z.mul_nonneg_nonneg; try apply Z.pow_pos_nonneg; lia).
  destruct (frac_len q); rewrite !has_char_app, Hs, digits_no_newline by exact Hm; [done |].
  rewrite pad_no_newline. done.
Qed.

Lemma strip_prefix_app p r : strip_prefix p (p +s+ r) = Some r.
Proof. induction p as [| c p IH]; [done |]. rewrite append_cons. cbn [strip_prefix]. by rewrite Ascii.eqb_refl. Qed.

Lemma newline_app t : newline +s+ t = String newline_char t.
Proof. reflexivity. Qed.

Lemma parse_field_display label q : loggable q ->
  exists v, (forall rest, parse_field label (label +s+ display_f32 q +s+ newline +s+ rest) = Some (Fin v, rest)) /\ v == q.
Proof.
  intros [H9 Hb]. destruct (parse_display_f32 q H9 Hb) as (v & Hp & Hv). exists v. split; [| done].
  intros rest. unfold parse_field. rewrite strip_prefix_app. cbn [mbind option_bind].
  rewrite newline_app, split_at_app by apply display_f32_no_newline. cbn [mbind option_bind]. by rewrite Hp.
Qed.

Lemma initialization_code_reads_back eur usd jpy cny :
  loggable (get_qty eur) -> loggable (get_qty usd) -> loggable (get_qty jpy) -> loggable (get_qty cny) ->
  exists e u y c, parse_initialization_code (initialization_code eur usd jpy cny) = Some (Fin e, Fin u, Fin y, Fin c) /\
    e == get_qty eur /\ u == get_qty usd /\ y == get_qty jpy /\ c == get_qty cny.
Proof.
  intros He Hu Hy Hc. unfold initialization_code, parse_initialization_code.
  rewrite strip_prefix_app. cbn [mbind option_bind]. rewrite strip_prefix_app. cbn [mbind option_bind].
  destruct (parse_field_display "EUR: " _ He) as (e & -> & Ee). cbn [mbind option_bind].
  destruct (parse_field_display "USD: " _ Hu) as (u & -> & Eu). cbn [mbind option_bind].
  destruct (parse_field_display "YEN: " _ Hy) as (y & -> & Ey). cbn [mbind option_bind].
  destruct (parse_field_display "YUAN: " _ Hc) as (c & -> & Ec). cbn [mbind option_bind].
  by exists e, u, y, c.
Qed.

(** ** The loggers *)

Lemma log_entries_cons `{Logger L} (l : L) now e calls :
  log_entries l ((now, e) :: calls) = log_entries (log_entry l now e) calls.
Proof. reflexivity. Qed.

Lemma log_entries_txt (l : TxtFileLogger) calls :
  log_entries l calls = mk_txt_file_logger (market_name l)
    (file l ++ map (fun c => format_log_code (market_name l) c.1 (entry_code c.2)) calls)%list.
Proof.
  revert l. induction calls as [| [now e] calls IH]; intros l.
  - cbn. rewrite app_nil_r. by destruct l.
  - rewrite log_entries_cons, IH. replace (log_entry l now e) with (write_code l now (entry_code e)) by (by destruct e).
    cbn. by rewrite <- app_assoc.
Qed.

(** The logger [DogeMarket::new_with_goods] chooses. *)
Lemma new_logger_choice create :
  new_logger create = if create "log_dogemarket.txt" then BoxTxt (mk_txt_file_logger "DogeMarket" [])
                      else BoxMute mk_mute_logger.
Proof.
  unfold new_logger, try_new. change (format_filename "DogeMarket") with "log_dogemarket.txt".
  by destruct (create "log_dogemarket.txt").
Qed.

(** C27: The text file logger writes one line per call, after the lines
    already written and in the order of the calls, and each line reads
    back as the logger's market name, the time of the call and the code
    of the call. *)
Theorem txt_log_reads_back (l : TxtFileLogger) calls :
  has_char "|" (market_name l) = false -> Forall (fun c => fits c.1) calls ->
  market_name (log_entries l calls) = market_name l /\
  map parse_log_line (file (log_entries l calls)) =
    (map parse_log_line (file l) ++ map (fun c => Some (market_name l, shown_fields c.1, entry_code c.2)) calls)%list.
Proof.
  intros Hb Hf. rewrite log_entries_txt. split; [done |]. cbn [file]. rewrite map_app, map_map. f_equal.
  induction Hf as [| [now e] calls Hn _ IH]; [done |]. cbn. by rewrite log_line_roundtrip, IH.
Qed.

(** C26: A new market logs its inventory: when the file
    [log_dogemarket.txt] can be created, its log holds one line, which
    reads back as the market's name, the time of the call, and the EUR,
    USD, YEN and YUAN quantities of the inventory (decimals of at most 9
    decimals); otherwise the market logs nothing. *)
Theorem new_market_log create now eur yen usd yuan m l :
  new_with_goods_logged create now eur yen usd yuan = Ok (m, l) ->
  fits now -> loggable (get_qty eur) -> loggable (get_qty usd) -> loggable (get_qty yen) -> loggable (get_qty yuan) ->
  if create "log_dogemarket.txt" then
    exists line code e u y c, l = BoxTxt (mk_txt_file_logger "DogeMarket" [line]) /\
      parse_log_line line = Some ("DogeMarket", shown_fields now, code) /\
      parse_initialization_code code = Some (Fin e, Fin u, Fin y, Fin c) /\
      e == get_qty eur /\ u == get_qty usd /\ y == get_qty yen /\ c == get_qty yuan
  else l = BoxMute mk_mute_logger.
Proof.
  unfold new_with_goods_logged, DogeMarket.new_with_goods. intros Hnew Hf He Hu Hy Hc.
  destruct (DogeMarketImpl.new _ _); cbn [mbind outcome_bind] in Hnew; try discriminate. injection Hnew as <- <-.
  change (logs_of _) with [LogInitialization eur usd yen yuan]. rewrite new_logger_choice. destruct (create _).
  - cbn.
    destruct (initialization_code_reads_back eur usd yen yuan He Hu Hy Hc) as (e & u & y & c & Hp & Ee & Eu & Ey & Ec).
    eexists _, _, e, u, y, c. split; [reflexivity |]. split; [by apply log_line_roundtrip | done].
  - done.
Qed.


(** ** Witnesses *)

Lemma txt_log_reads_back_witness :
  let l := mk_txt_file_logger "DogeMarket" [] in
  let calls := [(test_time, LogInitialization (Good.new EUR 1) (Good.new USD 2) (Good.new YEN 3) (Good.new YUAN 4));
                (test_time, LogBuy 1%positive true)] in
  has_char "|" (market_name l) = false /\ Forall (fun c => fits c.1) calls /\
  market_name (log_entries l calls) = market_name l /\
  map parse_log_line (file (log_entries l calls)) =
    (map parse_log_line (file l) ++ map (fun c => Some (market_name l, shown_fields c.1, entry_code c.2)) calls)%list.
Proof.
  cbv zeta. assert (Hf : fits test_time) by (unfold fits; cbn; lia).
  split; [reflexivity | split; [constructor; [exact Hf | constructor; [exact Hf | constructor]] |]].
  apply (txt_log_reads_back (mk_txt_file_logger "DogeMarket" [])); [reflexivity | constructor; [exact Hf | constructor; [exact Hf | constructor]]].
Defined.

Lemma new_market_log_witness :
  exists m l, new_with_goods_logged (fun _ => true) test_time
                (Good.new EUR (142 # 10)) (Good.new YEN (57 # 10)) (Good.new USD (82 # 10)) (Good.new YUAN (91 # 10)) = Ok (m, l) /\
  fits test_time /\
  exists line code e u y c, l = BoxTxt (mk_txt_file_logger "DogeMarket" [line]) /\
    parse_log_line line = Some ("DogeMarket", shown_fields test_time, code) /\
    parse_initialization_code code = Some (Fin e, Fin u, Fin y, Fin c) /\
    e == 142 # 10 /\ u == 82 # 10 /\ y == 57 # 10 /\ c == 91 # 10.
Proof.
  assert (Hf : fits test_time) by (unfold fits; cbn; lia).
  destruct (new_with_goods_logged (fun _ => true) test_time (Good.new EUR (142 # 10)) (Good.new YEN (57 # 10))
              (Good.new USD (82 # 10)) (Good.new YUAN (91 # 10))) as [[m l] | err | why] eqn:E;
    [| vm_compute in E; discriminate E ..].
  exists m, l. split; [reflexivity |]. split; [exact Hf |].
  exact (new_market_log _ _ _ _ _ _ m l E Hf
           (conj eq_refl (conj eq_refl eq_refl)) (conj eq_refl (conj eq_refl eq_refl))
           (conj eq_refl (conj eq_refl eq_refl)) (conj eq_refl (conj eq_refl eq_refl))).
Defined.
