(* ===== verification/Interactive.v ===== *)
(** * The interactive strategy: strategy/interactive_strategy.rs

    Each iteration prints the account and the goods of the markets, then
    asks on standard input for a market, an operation, a kind, a quantity
    and a price, and performs a lock and a settlement at once on the chosen
    market.  Every question is a [prompt_loop] of Console.v over the
    process's console, which the strategy's state holds.

    Theorems: [select_market] returns the first answer of the input once
    the fuel exceeds the number of lines before it
    ([select_market_reads_first_choice]); at the end of the input the
    strategy never returns ([interactive_spins_at_eof]); the listing of
    BOSE's goods shows RCNZ's ([interactive_listing_ignores_bose]); a
    refused lock gives the account back
    ([interactive_lock_refused_restores]). *)
From S2P Require Import Prelude Goods Ledger Transactions TickDeque Service Refiller Market Trader Markets Console.
From Stdlib Require Import String Ascii.
Open Scope Q_scope.

(** ** The prompts of the strategy *)

Definition market_choice (z : Z) : option (option MarketRef) :=
  if (z =? 0)%Z then Some None
  else if (z =? 1)%Z then Some (Some SolRef)
  else if (z =? 2)%Z then Some (Some RcnzRef)
  else if (z =? 3)%Z then Some (Some BoseRef)
  else None.

Definition market_input (input : string) : option (option MarketRef) :=
  parse_i32 (trim input) ≫= market_choice.

Definition MARKET_PROMPT : list string :=
  ["Select a market for an operation:"%string; "0: No operation"%string; "1: SOL"%string;
   "2: RCNZ"%string; "3: BOSE"%string].

(** [select_market]: [None] is [Ok(0)], no operation. *)
Definition select_market : nat -> Console -> option (option MarketRef * Console) :=
  prompt_loop MARKET_PROMPT market_input.

Definition kind_choice (z : Z) : option GoodKind :=
  if (z =? 1)%Z then Some EUR
  else if (z =? 2)%Z then Some USD
  else if (z =? 3)%Z then Some YEN
  else if (z =? 4)%Z then Some YUAN
  else None.

Definition GOOD_KIND_PROMPT : list string :=
  ["Select a GoodKind:"%string; "1: EUR"%string; "2: USD"%string; "3: YEN"%string; "4: YUAN"%string].

Definition kind_input (input : string) : option GoodKind := parse_i32 (trim input) ≫= kind_choice.

(** [select_good_kind]. *)
Definition select_good_kind : nat -> Console -> option (GoodKind * Console) :=
  prompt_loop GOOD_KIND_PROMPT kind_input.

(** [if let Ok(quantity) = input.trim().parse::<f32>() { if quantity > 0. { return quantity; } }] *)
Definition f32_input (input : string) : option fval :=
  match parse_f32 (trim input) with
  | Some q => if flt (Fin 0) q then Some q else None
  | None => None
  end.

(** [select_f32(query)]. *)
Definition select_f32 (query : string) : nat -> Console -> option (fval * Console) :=
  prompt_loop [query] f32_input.

Module Op.
(** [enum Op]. *)
Inductive t :=
| Buy (kind : GoodKind) (quantity bid : fval)
| Sell (kind : GoodKind) (quantity offer : fval).
End Op.

Definition operation_choice (z : Z) : option bool :=
  if (z =? 1)%Z then Some true else if (z =? 2)%Z then Some false else None.

Definition operation_input (input : string) : option bool := parse_i32 (trim input) ≫= operation_choice.

Definition OPERATION_PROMPT : list string := ["Select the operation:"%string; "1: Buy"%string; "2: Sell"%string].

(** [select_operation]: the fields of [Op::Buy] and [Op::Sell] are read in
    the order of the literal, after the choice of the operation. *)
Definition select_operation (fuel : nat) (c : Console) : option (Op.t * Console) :=
  match prompt_loop OPERATION_PROMPT operation_input fuel c with
  | None => None
  | Some (is_buy, c) =>
      match select_good_kind fuel c with
      | None => None
      | Some (kind, c) =>
          match select_f32 (if is_buy then "Specify the quantity to buy:"%string
                            else "Specify the quantity to sell:"%string) fuel c with
          | None => None
          | Some (quantity, c) =>
              match select_f32 (if is_buy then "Specify the bid:"%string else "Specify the offer:"%string) fuel c with
              | None => None
              | Some (price, c) =>
                  Some (if is_buy then Op.Buy kind quantity price else Op.Sell kind quantity price, c)
              end
          end
      end
  end.

(** ** [impl Strategy for InteractiveStrategy] *)

(** The body of [impl Strategy for InteractiveStrategy]. *)
Module InteractiveImpl.

Section Apply.
Context {M : Type} `{Market M}.

(** The random values of the two market calls of one operation. *)
Record InteractiveDraws := mk_interactive_draws { draw_lock : entropy; draw_settle : entropy }.

(** [for gl in market.borrow().get_goods() { println!(..) }]. *)
Definition goods_of (m : M) : outcome Empty_set (list OutLine) :=
  match market_get_goods m with
  | Ok labels => Ok (map ShowLabel labels)
  | Err _ => Panic Unreachable
  | Panic r => Panic r
  end.

(** The three listings of [apply]; the third, under the BOSE heading,
    iterates over [markets.rcnz]. *)
Definition listing (markets : MarketWrapper M) : outcome Empty_set (list OutLine) :=
  sol ← goods_of (deref markets SolRef);
  rcnz ← goods_of (deref markets RcnzRef);
  bose ← goods_of (deref markets RcnzRef);
  Ok ([Say "SOL has the following goods:"%string] ++ sol ++
      [Say "RCNZ has the following goods:"%string] ++ rcnz ++
      [Say "BOSE has the following goods:"%string] ++ bose).

(** The quantities of the model are rationals: an infinite quantity or
    price read from the console leaves the model ([finite_price]) where
    the code first uses it: the bid (the quantity sold) at the withdrawal,
    the quantity bought (the offer) at the lock, after the withdrawal.

    The arm [Op::Buy]: withdraw the bid, lock, report, pay with the cash,
    deposit what the market gives or the cash back, report; the withdraw
    error is returned to be printed. *)
Definition buy_op (market : MarketRef) (kind : GoodKind) (quantity bid : fval) (d : InteractiveDraws)
    : TM (MarketWrapper M) (option WithdrawError) :=
  bid ← finite_price bid;
  cash ← try_withdraw EUR bid;
  match cash with
  | inr err => mret (Some err)
  | inl cash =>
      quantity ← finite_price quantity;
      result ← at_market market (call_lock (fun m => market_lock_buy m kind quantity bid DOGE_TRADER_NAME (draw_lock d)));
      _ ← emit_from market (LockBuy kind quantity bid result);
      match result with
      | inl token =>
          '(result, cash) ← at_market market (call_settle (fun m g => market_buy m token g (draw_settle d)) cash);
          _ ← deposit_t (match result with inl bought => bought | inr _ => cash end);
          _ ← emit_from market (Buy token kind quantity bid result);
          mret None
      | inr _ => _ ← deposit_t cash; mret None
      end
  end.

(** The arm [Op::Sell]. *)
Definition sell_op (market : MarketRef) (kind : GoodKind) (quantity offer : fval) (d : InteractiveDraws)
    : TM (MarketWrapper M) (option WithdrawError) :=
  quantity ← finite_price quantity;
  sold ← try_withdraw kind quantity;
  match sold with
  | inr err => mret (Some err)
  | inl sold =>
      offer ← finite_price offer;
      result ← at_market market (call_lock (fun m => market_lock_sell m kind quantity offer DOGE_TRADER_NAME (draw_lock d)));
      _ ← emit_from market (LockSell kind quantity offer result);
      match result with
      | inl token =>
          '(result, sold) ← at_market market (call_settle (fun m g => market_sell m token g (draw_settle d)) sold);
          _ ← deposit_t (match result with inl cash => cash | inr _ => sold end);
          _ ← emit_from market (Sell token kind quantity offer result);
          mret None
      | inr _ => _ ← deposit_t sold; mret None
      end
  end.

Definition trade (market : MarketRef) (op : Op.t) (d : InteractiveDraws) : TM (MarketWrapper M) (option WithdrawError) :=
  match op with
  | Op.Buy kind quantity bid => buy_op market kind quantity bid d
  | Op.Sell kind quantity offer => sell_op market kind quantity offer d
  end.

Definition op_banner (op : Op.t) : OutLine :=
  match op with
  | Op.Buy _ _ _ => Say "Performing buy operation..."%string
  | Op.Sell _ _ _ => Say "Performing sell operation..."%string
  end.

(** [InteractiveStrategy::apply] on the console [c]; [None] when a prompt
    has not been answered within [fuel] lines. *)
Definition apply (fuel : nat) (d : InteractiveDraws) (c : Console) (w : World (MarketWrapper M))
    : option (World (MarketWrapper M) * outcome TraderError.t Console) :=
  match listing (market w) with
  | Panic r => Some (w, Panic r)
  | Err e => match e with end
  | Ok lines =>
      let c := print c (ShowAccount (account w) :: lines) in
      match select_market fuel c with
      | None => None
      | Some (None, c) => Some (w, Ok c)
      | Some (Some market, c) =>
          match select_operation fuel c with
          | None => None
          | Some (op, c) =>
              let c := print c [op_banner op] in
              let r := trade market op d w in
              Some (fst r, e ← snd r;
                           Ok (print c (match e with Some err => [ShowWithdrawError err] | None => [] end)))
          end
      end
  end.

End Apply.

End InteractiveImpl.
Import InteractiveImpl.

Definition INTERACTIVE_NAME : string := "Interactive strategy"%string.

Section Facts.
Context {M : Type} `{Market M}.

Lemma keeps_finite_price_w x : keeps_account (M:=MarketWrapper M) (finite_price x).
Proof. intros w. unfold finite_price. by destruct x. Qed.

#[local] Hint Resolve keeps_finite_price_w : trader.

Lemma trade_wf market op d : preserves (M:=MarketWrapper M) Account.account_wf (trade market op d).
Proof. destruct op; unfold trade, buy_op, sell_op; strategy_preserves. Qed.

Lemma interactive_apply_wf fuel d c w r : Account.account_wf (account w) ->
  apply (M:=M) fuel d c w = Some r -> Account.account_wf (account (fst r)).
Proof.
  intros Hw. unfold apply.
  destruct (listing (market w)) as [lines | [] | p]; [| by intros [= <-]].
  destruct (select_market _ _) as [[[market|] c1]|]; [| by intros [= <-] | done].
  destruct (select_operation _ _) as [[op c2]|]; [| done].
  intros [= <-]. cbn. by apply trade_wf.
Qed.

Lemma finite_price_bind {A} q (f : Q -> TM (MarketWrapper M) A) w :
  (x ← finite_price (Fin q); f x) w = f q w.
Proof. done. Qed.

(** A withdrawal followed by a refused lock and the deposit of what was
    withdrawn leaves the account as it was, whatever the continuation. *)
Lemma withdraw_refund {E B} r k q (lock : M -> outcome E (string * M)) (mk_ev : string + E -> TradingEventType)
    (ok_branch : Good -> string -> TM (MarketWrapper M) B) (f : WithdrawError -> B) (b : B) (w : World (MarketWrapper M)) e :
  Account.account_wf (account w) -> lock (deref (market w) r) = Err e ->
  Account.acc_equiv
    (account (fst ((g ← try_withdraw k q;
                    match g with
                    | inr err => mret (f err)
                    | inl g =>
                        result ← at_market r (call_lock lock);
                        _ ← emit_from r (mk_ev result);
                        match result with
                        | inl token => ok_branch g token
                        | inr _ => _ ← deposit_t g; mret b
                        end
                    end : TM (MarketWrapper M) B) w)))
    (account w).
Proof.
  intros Hwf Hl. cbv [mbind tm_bind try_withdraw].
  destruct (Account.withdraw (account w) k q) as [[g a'] | we | p] eqn:W; cbn; [| reflexivity | reflexivity].
  destruct (withdraw_inv _ _ _ _ _ Hwf W) as (-> & -> & _).
  unfold at_market, call_lock. cbn. rewrite Hl. cbn.
  cbv [deposit_t]. rewrite deposit_credit by (cbn; apply wf_debit, Hwf). cbn.
  apply credit_debit, Hwf.
Qed.

End Facts.

#[export] Instance interactive {M} `{Market M} : Strategy M Console := {
  strategy_draws := nat * InteractiveDraws;
  strategy_apply c d w := apply d.1 d.2 c w;
  strategy_get_name _ := INTERACTIVE_NAME;
  strategy_apply_wf c d w r := interactive_apply_wf d.1 d.2 c w r
}.

(** ** Theorems *)

Section Theorems.
Context {M : Type} `{Market M}.

(** [select_market] returns the market of the first line of the input
    that reads as 0, 1, 2 or 3, once the fuel exceeds the number of lines
    before it; it consumes exactly the lines up to that one and prints its
    menu once per line read. *)
Theorem select_market_reads_first_choice pre l post choice fuel c :
  stdin c = pre ++ l :: post -> Forall (fun s => market_input s = None) pre -> market_input l = Some choice ->
  (List.length pre < fuel)%nat ->
  select_market fuel c =
    Some (choice, mk_console post (stdout c ++ List.concat (replicate (S (List.length pre)) (map Say MARKET_PROMPT)))).
Proof. apply prompt_loop_first. Qed.

(** C15: At the end of the input, or when no line left names a market, the
    strategy never returns: [read_line] gives an empty line, which is not
    an answer, and [select_market] asks again forever.  No fuel is enough. *)
Theorem interactive_spins_at_eof fuel d c (w : World (MarketWrapper M)) lines :
  listing (market w) = Ok lines -> Forall (fun s => market_input s = None) (stdin c) ->
  apply fuel d c w = None.
Proof.
  intros Hl Hin. unfold apply. rewrite Hl. unfold select_market.
  by rewrite prompt_loop_spins.
Qed.

(** C17: The goods listed under the heading of BOSE are RCNZ's: the
    listing does not depend on the BOSE market at all. *)
Theorem interactive_listing_ignores_bose (ms : MarketWrapper M) (m : M) :
  listing (store ms BoseRef m) = listing ms.
Proof. unfold listing. by rewrite !deref_store_ne. Qed.

(** C16: When the market refuses the lock, the operation deposits back what
    it withdrew: the account ends as it was, up to [==]. *)
Theorem interactive_lock_refused_restores r op d (w : World (MarketWrapper M)) :
  Account.account_wf (account w) ->
  match op with
  | Op.Buy kind (Fin q) (Fin bid) =>
      exists e, market_lock_buy (deref (market w) r) kind q bid DOGE_TRADER_NAME (draw_lock d) = Err e
  | Op.Sell kind (Fin q) (Fin offer) =>
      exists e, market_lock_sell (deref (market w) r) kind q offer DOGE_TRADER_NAME (draw_lock d) = Err e
  | _ => False
  end ->
  Account.acc_equiv (account (fst (trade r op d w))) (account w).
Proof.
  intros Hwf. destruct op as [kind [q| |] [p| |] | kind [q| |] [p| |]]; try done; intros [e He];
    unfold trade, buy_op, sell_op; rewrite !finite_price_bind.
  - exact (withdraw_refund r EUR p _ (fun res => LockBuy kind q p res) _ Some None w e Hwf He).
  - exact (withdraw_refund r kind q _ (fun res => LockSell kind q p res) _ Some None w e Hwf He).
Qed.

End Theorems.

(** ** Witnesses *)

#[local] Existing Instance sample_consts.

Definition it_world : World (MarketWrapper DogeMarket.DogeMarket) :=
  mk_world trader_account (mk_wrapper scenario_m0 scenario_m1 scenario_m2) [].

Definition it_draws : InteractiveDraws (M:=DogeMarket.DogeMarket) :=
  mk_interactive_draws (doge_ent 31%positive 50%Z) (doge_ent 32%positive 50%Z).

Definition it_lines : list OutLine :=
  match listing (market it_world) with Ok l => l | _ => [] end.

(** Two lines that are not answers, then [ 2 ] with spaces around it. *)
Lemma select_market_reads_first_choice_witness :
  select_market 3 (mk_console [String.append "abc" newline; String.append "7" newline; String.append " 2 " newline; "1"%string] []) =
    Some (Some RcnzRef, mk_console ["1"%string]
                          ([] ++ List.concat (replicate (S (List.length [String.append "abc" newline; String.append "7" newline]))
                                                        (map Say MARKET_PROMPT)))).
Proof.
  apply (select_market_reads_first_choice [String.append "abc" newline; String.append "7" newline] (String.append " 2 " newline) ["1"%string]);
    [reflexivity | repeat constructor | reflexivity | cbn; lia].
Defined.

(** An input that ends after a line that is not an answer. *)
Lemma interactive_spins_at_eof_witness :
  apply 1000 it_draws (mk_console [String.append "9" newline] []) it_world = None.
Proof.
  apply (interactive_spins_at_eof 1000 it_draws (mk_console [String.append "9" newline] []) it_world it_lines);
    [vm_compute; reflexivity | repeat constructor].
Defined.

(** Buying 10^8 yen on SOL for one euro: SOL refuses the lock. *)
Lemma interactive_lock_refused_restores_witness :
  Account.acc_equiv (account (fst (trade SolRef (Op.Buy YEN (Fin 100000000) (Fin 1)) it_draws it_world)))
    (account it_world).
Proof.
  apply interactive_lock_refused_restores; [concrete |]. cbn. eexists. vm_compute. reflexivity.
Defined.
