(* ===== verification/IteractionLogger.v ===== *)
(** * The interaction logger: iteraction_logger/iteraction_logger.rs

    [IteractionLogger] keeps one history of accounts per participant: the
    trader's account and, for each of the three markets, the account
    rebuilt from its goods labels.  [update] appends one account to each
    history.  After every iteration main.rs prints the last account of
    each history with the gain since the previous one
    ([log_last_difference]), and at the end the gain since the first one
    ([log_final_difference]).

    The histories are [list Account]s; the [usize] arithmetic of the code
    is [nat] with its underflow written out ([usize_sub]), since
    [vec.len() - 1] panics on an empty vector in a debug build.  The
    gains are rationals and the percentages [f32] values ([fval]): a
    previous value of zero gives an infinite or NaN percentage.  The
    printed strings are the values they format ([ShowAccountGain],
    [ShowFinalGain] of Console.v).  [generate_svgs] draws charts and is not
    modelled.

    Theorems: every logger reached by updates has four histories of the
    same length ([logger_reachable_same_length]); the final log never
    reaches the underflow ([log_final_difference_total]); the gain string
    never reports a loss ([gain_string_hides_losses]); the final message
    swaps the start and end values ([final_gain_swapped]). *)
From S2P Require Import Prelude Goods Ledger Transactions TickDeque Service Refiller Market Trader Markets Console.
From Stdlib Require Import String.
From stdpp Require Import relations.
Open Scope Q_scope.

(** [a - b] on [usize]: a panic in a debug build when it would be negative. *)
Definition usize_sub (a b : nat) : outcome Empty_set nat :=
  if Nat.ltb a b then Panic ArithmeticOverflow else Ok (a - b)%nat.

(** [get_last_item(vec, offset)]: the item [offset] places before the last. *)
Definition get_last_item {A} (vec : list A) (offset : nat) : option A :=
  if Nat.ltb (List.length vec) (1 + offset) then None else vec !! (List.length vec - 1 - offset)%nat.

(** [if diff < 0.000001 { return String::new(); }] *)
Definition GAIN_THRESHOLD : Q := 1 # 1000000.

Section Gain.
Context `{MarketConsts}.

(** [get_account_gain_string]: the difference and the percentage it
    formats, [None] for the empty string. *)
Definition get_account_gain_string (vec : list Account) : option (Q * fval) :=
  match get_last_item vec 0, get_last_item vec 1 with
  | Some current_account, Some previous_account =>
      let current_value := Account.get_total_account_value_in_eur current_account in
      let previous_value := Account.get_total_account_value_in_eur previous_account in
      let diff := current_value - previous_value in
      let percenteage := fmul (fdiv (Fin diff) (Fin previous_value)) (Fin 100) in
      if Qle_bool GAIN_THRESHOLD diff then Some (diff, percenteage) else None
  | _, _ => None
  end.

(** [get_final_account_gain_string]: the four format arguments in order,
    [current_value, previous_value, diff, percenteage]; the offset
    [vec.len() - 1] is computed before any check. *)
Definition get_final_account_gain_string (vec : list Account) : outcome Empty_set (option (Q * Q * Q * fval)) :=
  let current_account := get_last_item vec 0 in
  offset ← usize_sub (List.length vec) 1;
  let previous_account := get_last_item vec offset in
  match current_account, previous_account with
  | Some current_account, Some previous_account =>
      let current_value := Account.get_total_account_value_in_eur current_account in
      let previous_value := Account.get_total_account_value_in_eur previous_account in
      let diff := current_value - previous_value in
      let percenteage := fmul (fdiv (Fin diff) (Fin previous_value)) (Fin 100) in
      Ok (Some (current_value, previous_value, diff, percenteage))
  | _, _ => Ok None
  end.

End Gain.

Module IteractionLogger.

Record t := mk_logger { trader : list Account; sol : list Account; rcnz : list Account; bose : list Account }.

Definition new : t := mk_logger [] [] [] [].

Definition update (l : t) (tr s r b : Account) : t :=
  mk_logger (trader l ++ [tr]) (sol l ++ [s]) (rcnz l ++ [r]) (bose l ++ [b]).

Section WithMarkets.
Context {M : Type} `{Market M}.

(** [Account::new_from_good_labels(market.borrow().get_goods())]. *)
Definition account_of (m : M) : outcome Empty_set Account :=
  match market_get_goods m with
  | Ok labels =>
      match Account.new_from_good_labels labels with
      | Ok a => Ok a
      | Err _ => Panic Unreachable
      | Panic r => Panic r
      end
  | Err _ => Panic Unreachable
  | Panic r => Panic r
  end.

Definition update_from_market_wrapper (l : t) (account : Account) (markets : MarketWrapper M) : outcome Empty_set t :=
  s ← account_of (deref markets SolRef);
  r ← account_of (deref markets RcnzRef);
  b ← account_of (deref markets BoseRef);
  Ok (update l account s r b).

End WithMarkets.

(** [account_vecs] with [account_names] of the two log functions. *)
Definition account_vecs (l : t) : list (string * list Account) :=
  [("trader"%string, trader l); ("sol"%string, sol l); ("rcnz"%string, rcnz l); ("bose"%string, bose l)].

Section Log.
Context `{MarketConsts}.

Definition log_last_difference (l : t) : list OutLine :=
  flat_map (fun '(name, vec) =>
              match get_last_item vec 0 with
              | Some account => [ShowAccountGain name account (get_account_gain_string vec)]
              | None => []
              end) (account_vecs l) ++ [Say EmptyString].

Fixpoint log_final_lines (vecs : list (string * list Account)) : outcome Empty_set (list OutLine) :=
  match vecs with
  | [] => Ok []
  | (name, vec) :: rest =>
      line ← match get_last_item vec 0 with
             | Some _ => gain ← get_final_account_gain_string vec; Ok [ShowFinalGain name gain]
             | None => Ok []
             end;
      lines ← log_final_lines rest;
      Ok (line ++ lines)
  end.

Definition log_final_difference (l : t) : outcome Empty_set (list OutLine) := log_final_lines (account_vecs l).

End Log.

End IteractionLogger.

Import IteractionLogger.

(** ** Updates, as a step relation *)

(** The two ways main.rs changes a logger. *)
Inductive logger_step : IteractionLogger.t -> IteractionLogger.t -> Prop :=
| LogUpdate l tr s r b : logger_step l (update l tr s r b)
| LogUpdateFromMarkets {M : Type} `{Market M} l a (markets : MarketWrapper M) l' :
    update_from_market_wrapper l a markets = Ok l' -> logger_step l l'.

(** The four histories have the length of the trader's. *)
Definition same_length (l : IteractionLogger.t) : Prop :=
  List.length (sol l) = List.length (trader l) /\ List.length (rcnz l) = List.length (trader l) /\
  List.length (bose l) = List.length (trader l).

(** ** Lemmas *)

Lemma update_from_market_wrapper_inv {M} `{Market M} l a (markets : MarketWrapper M) l' :
  update_from_market_wrapper l a markets = Ok l' -> exists s r b, l' = update l a s r b.
Proof.
  unfold update_from_market_wrapper. cbv [mbind outcome_bind].
  repeat case_match; intros; simplify_eq; eauto.
Qed.

Lemma same_length_update l tr s r b : same_length l -> same_length (update l tr s r b).
Proof. unfold same_length; cbn. rewrite !length_app; cbn. lia. Qed.

Lemma same_length_step l l' : logger_step l l' -> same_length l -> same_length l'.
Proof.
  intros [| M ? l0 a ms l1 Hu]; [apply same_length_update |].
  destruct (update_from_market_wrapper_inv _ _ _ _ Hu) as (s & r & b & ->). apply same_length_update.
Qed.

Lemma get_last_item_nonempty {A} (vec : list A) x : get_last_item vec 0 = Some x -> (1 <= List.length vec)%nat.
Proof. unfold get_last_item. destruct (Nat.ltb_spec (List.length vec) (1 + 0)); intros Hx; [discriminate Hx | lia]. Qed.

Lemma get_last_item_last {A} (vec : list A) : get_last_item vec 0 = last vec.
Proof.
  unfold get_last_item. rewrite last_lookup. case_match eqn:E.
  - apply Nat.ltb_lt in E. destruct vec; [done | cbn in E; lia].
  - by rewrite Nat.sub_0_r, Nat.sub_1_r.
Qed.

Lemma get_last_item_first {A} (vec : list A) : vec <> [] -> get_last_item vec (List.length vec - 1) = head vec.
Proof.
  intros Hne. unfold get_last_item. case_match eqn:E.
  - apply Nat.ltb_lt in E. destruct vec; [done | cbn in E; lia].
  - rewrite Nat.sub_diag. by destruct vec.
Qed.

Lemma get_last_item_two {A} (rest : list A) prev cur :
  get_last_item (rest ++ [prev; cur]) 0 = Some cur /\ get_last_item (rest ++ [prev; cur]) 1 = Some prev.
Proof.
  unfold get_last_item. rewrite length_app. cbn [List.length].
  split; (case_match eqn:E; [apply Nat.ltb_lt in E; lia |]); rewrite lookup_app_r by lia.
  - by replace (List.length rest + 2 - 1 - 0 - List.length rest)%nat with 1%nat by lia.
  - by replace (List.length rest + 2 - 1 - 1 - List.length rest)%nat with 0%nat by lia.
Qed.

Lemma get_final_total `{MarketConsts} vec : (1 <= List.length vec)%nat ->
  exists g, get_final_account_gain_string vec = Ok g.
Proof.
  intros Hn. unfold get_final_account_gain_string, usize_sub.
  destruct (Nat.ltb_spec (List.length vec) 1); [lia |]. cbv [mbind outcome_bind]. repeat case_match; eauto.
Qed.

Lemma log_final_lines_total `{MarketConsts} vecs : exists lines, log_final_lines vecs = Ok lines.
Proof.
  induction vecs as [| [name vec] rest [lines IH]]; [by eexists |]. cbn. cbv [mbind outcome_bind].
  destruct (get_last_item vec 0) eqn:Hl.
  - destruct (get_final_total vec) as [g ->]; [exact (get_last_item_nonempty _ _ Hl) |]. rewrite IH. eauto.
  - rewrite IH. eauto.
Qed.

(** ** Theorems *)

Section Theorems.
Context `{MarketConsts}.

(** C22: Every logger reached from [IteractionLogger::new] by [update] and
    [update_from_market_wrapper] holds four histories of the same length:
    the trader's and the three markets' accounts are recorded together. *)
Theorem logger_reachable_same_length l : rtc logger_step IteractionLogger.new l -> same_length l.
Proof.
  intros Hr. cut (same_length IteractionLogger.new); [| done]. revert Hr.
  generalize IteractionLogger.new. intros l0 Hr. induction Hr as [| l1 l2 l3 Hs _ IH]; [done |].
  intros H0. exact (IH (same_length_step _ _ Hs H0)).
Qed.

(** [log_final_difference] never panics: it computes [vec.len() - 1],
    which underflows on an empty history, only for a history whose last
    item exists. *)
Theorem log_final_difference_total (l : IteractionLogger.t) :
  exists lines, log_final_difference l = Ok lines.
Proof. apply log_final_lines_total. Qed.

(** The gain string of the last iteration is empty exactly when the
    value of the account rose by less than 10^-6 EUR: a loss is never
    printed. *)
Theorem gain_string_hides_losses rest prev cur :
  get_account_gain_string (rest ++ [prev; cur]) = None <->
  Account.get_total_account_value_in_eur cur - Account.get_total_account_value_in_eur prev < GAIN_THRESHOLD.
Proof.
  unfold get_account_gain_string. destruct (get_last_item_two rest prev cur) as [-> ->].
  case_match eqn:E.
  - apply Qle_bool_iff in E. split; [discriminate | intros; lra].
  - assert (Hn : ~ (GAIN_THRESHOLD <= Account.get_total_account_value_in_eur cur -
                                       Account.get_total_account_value_in_eur prev))
      by (rewrite <- Qle_bool_iff; congruence).
    split; [intros _; lra | done].
Qed.

(** C18: The final message ["started with {} EUR and ended with {} EUR, for
    a total gain of {} EUR"] is given the value of the last account first
    and the value of the first account second: it prints the end value as
    the start and the start value as the end, with the gain of the whole
    run. *)
Theorem final_gain_swapped vec first last_account :
  head vec = Some first -> last vec = Some last_account ->
  exists percenteage, get_final_account_gain_string vec =
    Ok (Some (Account.get_total_account_value_in_eur last_account, Account.get_total_account_value_in_eur first,
              Account.get_total_account_value_in_eur last_account - Account.get_total_account_value_in_eur first,
              percenteage)).
Proof.
  intros Hh Hl. assert (Hne : vec <> []) by (by intros ->).
  unfold get_final_account_gain_string, usize_sub.
  destruct (Nat.ltb_spec (List.length vec) 1) as [Hlt | _]; [destruct vec; [done | cbn in Hlt; lia] |].
  cbv [mbind outcome_bind]. rewrite get_last_item_last, get_last_item_first, Hh, Hl by done. eauto.
Qed.

End Theorems.

(** ** Witnesses *)

#[local] Existing Instance sample_consts.

Definition lg_markets : MarketWrapper DogeMarket.DogeMarket := mk_wrapper scenario_m0 scenario_m1 scenario_m2.

Definition lg_first : IteractionLogger.t :=
  IteractionLogger.update IteractionLogger.new trader_account Account.new_empty Account.new_empty Account.new_empty.

Definition lg_second : IteractionLogger.t :=
  match update_from_market_wrapper lg_first Account.new_empty lg_markets with Ok l => l | _ => lg_first end.

(** A direct update, then one from three DogeMarkets, in which the
    trader's account has been emptied. *)
Lemma logger_reachable_same_length_witness : same_length lg_second.
Proof.
  apply logger_reachable_same_length. eapply rtc_l; [apply LogUpdate |].
  eapply rtc_l; [eapply (LogUpdateFromMarkets lg_first Account.new_empty lg_markets); vm_compute; reflexivity |].
  apply rtc_refl.
Defined.

Lemma final_gain_swapped_witness :
  exists percenteage, get_final_account_gain_string (trader lg_second) =
    Ok (Some (Account.get_total_account_value_in_eur Account.new_empty, Account.get_total_account_value_in_eur trader_account,
              Account.get_total_account_value_in_eur Account.new_empty - Account.get_total_account_value_in_eur trader_account,
              percenteage)).
Proof. apply final_gain_swapped; vm_compute; reflexivity. Defined.
