(* ===== verification/Strategies.v ===== *)
(** * [Box<dyn Strategy>]: the strategies behind the trait object

    main.rs and interactions.rs hold the current strategy as a
    [Box<dyn Strategy>].  Here it is [DynStrategy], one constructor per
    implementation of the trait, holding that strategy's state; the three
    single-market random strategies share one constructor indexed by their
    market.  [dyn_apply] and [dyn_get_name] dispatch to the instances of
    the [Strategy] class, and to [InteractiveImpl.apply] for the
    interactive strategy, whose state is the process's console, held by
    the caller.  The random values of one iteration are those of every
    strategy ([MainDraws]); a call uses the ones of the current strategy.

    [dyn_apply_wf]: whatever the strategy, an iteration keeps the trader's
    account well formed. *)
From S2P Require Import Prelude Goods Ledger Transactions TickDeque Service Refiller Market Trader Markets MinMax PriceComparison RandomAction Console Interactive.
From Stdlib Require Import String.
Open Scope Q_scope.

Inductive DynStrategy :=
| NoOpBox (s : NoOpStrategy)
| InteractiveBox
| RandomActionBox (s : RandomActionStrategy)
| MinMaxBox (s : MinMaxStrategy)
| SingleMarketBox (r : MarketRef)
| PriceComparisonBox (s : PriceComparison).

Section Dyn.
Context {M : Type} `{Market M} `{MarketConsts}.

(** [strategy.get_name()]. *)
Definition dyn_get_name (s : DynStrategy) : string :=
  match s with
  | NoOpBox st => strategy_get_name (M:=M) st
  | InteractiveBox => INTERACTIVE_NAME
  | RandomActionBox st => strategy_get_name (M:=M) st
  | MinMaxBox st => strategy_get_name (M:=M) st
  | SingleMarketBox r => strategy_get_name (M:=M) r
  | PriceComparisonBox st => strategy_get_name (M:=M) st
  end.

(** The random values of one iteration, for each strategy. *)
Record MainDraws := mk_main_draws {
  draw_noop : strategy_draws M NoOpStrategy;
  draw_interactive : nat * InteractiveImpl.InteractiveDraws (M:=M);
  draw_random_action : strategy_draws M RandomActionStrategy;
  draw_min_max : strategy_draws M MinMaxStrategy;
  draw_single : strategy_draws M MarketRef;
  draw_price_comparison : strategy_draws M PriceComparison
}.

(** The result of a strategy's [apply], boxed again, with the console. *)
Definition boxed {S} (box : S -> DynStrategy) (c : Console)
    (r : option (World (MarketWrapper M) * outcome TraderError.t S))
    : option (World (MarketWrapper M) * outcome TraderError.t (DynStrategy * Console)) :=
  option_map (fun r => (fst r, st ← snd r; Ok (box st, c))) r.

(** [strategy.apply(&mut account, &mut markets)]. *)
Definition dyn_apply (s : DynStrategy) (d : MainDraws) (c : Console) (w : World (MarketWrapper M))
    : option (World (MarketWrapper M) * outcome TraderError.t (DynStrategy * Console)) :=
  match s with
  | NoOpBox st => boxed NoOpBox c (strategy_apply st (draw_noop d) w)
  | InteractiveBox =>
      option_map (fun r => (fst r, c' ← snd r; Ok (InteractiveBox, c')))
        (InteractiveImpl.apply (draw_interactive d).1 (draw_interactive d).2 c w)
  | RandomActionBox st => boxed RandomActionBox c (strategy_apply st (draw_random_action d) w)
  | MinMaxBox st => boxed MinMaxBox c (strategy_apply st (draw_min_max d) w)
  | SingleMarketBox r => boxed SingleMarketBox c (strategy_apply r (draw_single d) w)
  | PriceComparisonBox st => boxed PriceComparisonBox c (strategy_apply st (draw_price_comparison d) w)
  end.

Lemma boxed_wf {S} `{!Strategy M S} (box : S -> DynStrategy) c (st : S) d w r :
  Account.account_wf (account w) -> boxed box c (strategy_apply st d w) = Some r ->
  Account.account_wf (account (fst r)).
Proof.
  intros Hw. unfold boxed. destruct (strategy_apply st d w) as [r0|] eqn:E; [| done].
  intros [= <-]. exact (strategy_apply_wf _ _ _ _ Hw E).
Qed.

Lemma dyn_apply_wf s d c w r : Account.account_wf (account w) ->
  dyn_apply s d c w = Some r -> Account.account_wf (account (fst r)).
Proof.
  intros Hw. destruct s; cbn [dyn_apply]; try (apply boxed_wf; exact Hw).
  destruct (InteractiveImpl.apply _ _ c w) as [r0|] eqn:E; [| done].
  intros [= <-]. exact (interactive_apply_wf _ _ _ _ _ Hw E).
Qed.

End Dyn.
