(* ===== verification/Interactions.v ===== *)
(** * The interactive menus of the library: interactions.rs and parser.rs

    interactions.rs offers, on standard input, to change the strategy and
    to attach an event handler to the new one ([do_main_loop]), with the
    menus [select_strategy] and [select_event_handler].  parser.rs declares
    the command line of an earlier version of the program, with its
    defaults.  Neither is called by main.rs; they are library code of the
    crate.

    Every menu is a [prompt_loop] of Console.v; the nested [loop]s of
    [do_main_loop] are two [Fixpoint]s on fuel.  An event handler is the
    choice of its kind ([EventHandlerChoice]): the handlers only print the
    events, and [File::create("simulation.txt")] of the text logger is
    file I/O, not modelled (its [unwrap] is assumed to succeed).

    Theorem: at the end of the input, [do_main_loop] keeps the current
    strategy and attaches no handler ([do_main_loop_keeps_at_eof]). *)
From S2P Require Import Prelude Goods Ledger Transactions TickDeque Service Refiller Market Trader Markets MinMax PriceComparison RandomAction Console Interactive Strategies.
From Stdlib Require Import String Ascii.
Open Scope Q_scope.

(** The [Box<dyn EventHandler>] that [select_event_handler] builds. *)
Inductive EventHandlerChoice := NoOpLoggerHandler | StdoutLoggerHandler | TxtFileLoggerHandler | SvgDisplayerHandler.

Module Interactions.

Definition handler_choice (z : Z) : option EventHandlerChoice :=
  if (z =? 1)%Z then Some NoOpLoggerHandler
  else if (z =? 2)%Z then Some StdoutLoggerHandler
  else if (z =? 3)%Z then Some TxtFileLoggerHandler
  else if (z =? 4)%Z then Some SvgDisplayerHandler
  else None.

Definition handler_input (input : string) : option EventHandlerChoice := parse_i32 (trim input) ≫= handler_choice.

Definition HANDLER_PROMPT : list string :=
  ["Select an event handler:"; "1: No-op logger"; "2: Stdout logger"; "3: Txt file logger"; "4: SVG displayer"]%string.

(** [select_event_handler]. *)
Definition select_event_handler : nat -> Console -> option (EventHandlerChoice * Console) :=
  prompt_loop HANDLER_PROMPT handler_input.

Definition strategy_choice (z : Z) : option DynStrategy :=
  if (z =? 1)%Z then Some (NoOpBox NoOp)
  else if (z =? 2)%Z then Some InteractiveBox
  else if (z =? 3)%Z then Some (RandomActionBox new_strategy)
  else if (z =? 4)%Z then Some (MinMaxBox min_max_strategy)
  else None.

Definition strategy_input (input : string) : option DynStrategy := parse_i32 (trim input) ≫= strategy_choice.

Definition STRATEGY_PROMPT : list string :=
  ["Select a trading strategy:"; "1: No-op strategy"; "2: Interactive strategy"; "3: Random action strategy";
   "4: Min-Max strategy"]%string.

(** [select_strategy]. *)
Definition select_strategy : nat -> Console -> option (DynStrategy * Console) :=
  prompt_loop STRATEGY_PROMPT strategy_input.

(** The answer to a [(y/N)] question: [Some true] for [y] or [Y], [Some
    false] for [n], [N] or a line that is not one character, [None] for
    any other character. *)
Definition yes_no (input : string) : option bool :=
  match parse_char (trim input) with
  | Some ch =>
      if Ascii.eqb ch "y"%char || Ascii.eqb ch "Y"%char then Some true
      else if Ascii.eqb ch "n"%char || Ascii.eqb ch "N"%char then Some false
      else None
  | None => Some false
  end.

Definition HANDLER_QUESTION : string := "Add an event handler to it? (y/N)"%string.

(** The loop ['handler]: [y] attaches a handler chosen from the menu, no
    ends without one, any other character asks again. *)
Fixpoint handler_loop (fuel : nat) (c : Console) : option (option EventHandlerChoice * Console) :=
  match fuel with
  | O => None
  | S fuel' =>
      let '(input, c') := read_line (print c [Say HANDLER_QUESTION]) in
      match yes_no input with
      | Some true => '(handler, c'') ← select_event_handler fuel' c'; Some (Some handler, c'')
      | Some false => Some (None, c')
      | None => handler_loop fuel' c'
      end
  end.

Section Loop.
Context {M : Type} `{Market M} `{MarketConsts}.

(** [println!("Change the trader strategy? (Current: '{}') (y/N)", current_strategy.get_name())]. *)
Definition change_question (s : DynStrategy) : string :=
  String.append "Change the trader strategy? (Current: '"%string
    (String.append (dyn_get_name (M:=M) s) "') (y/N)"%string).

(** [do_main_loop(current_strategy)]: the strategy of the [LoopResult]
    and the handler attached to it, if any. *)
Fixpoint do_main_loop (fuel : nat) (current_strategy : DynStrategy) (c : Console)
    : option (DynStrategy * option EventHandlerChoice * Console) :=
  match fuel with
  | O => None
  | S fuel' =>
      let '(input, c') := read_line (print c [Say (change_question current_strategy)]) in
      match yes_no input with
      | Some true =>
          '(new_strategy, c'') ← select_strategy fuel' c';
          '(handler, c''') ← handler_loop fuel' c'';
          Some (new_strategy, handler, c''')
      | Some false => Some (current_strategy, None, c')
      | None => do_main_loop fuel' current_strategy c'
      end
  end.

End Loop.

End Interactions.

(** ** parser.rs *)

Module Parser.

(** [enum ArgStrategy]. *)
Inductive ArgStrategy := NoOp | Interactive | RandomAction | MinMax.

(** [enum ArgLogger]. *)
Inductive ArgLogger := NoOpLogger | Stdout | TxtFile | Svg.

(** [struct Args] of parser.rs. *)
Record Args := mk_args {
  n_iterations : Z; pause_s : Q; interactive : bool; suppress_charts : bool;
  eur : Q; usd : Q; yen : Q; yuan : Q; strategy : ArgStrategy; logger : ArgLogger
}.

(** The [default_value_t] of each field. *)
Definition default_args : Args := mk_args 100 (1 # 2) false false 100000 100000 100000 100000 RandomAction Stdout.

End Parser.

(** ** Theorems *)

Import Interactions.

(** At the end of the input, [do_main_loop] returns at once with the
    current strategy and no handler: the empty line [read_line] gives is
    not one character, which counts as [N]. *)
Theorem do_main_loop_keeps_at_eof {M} `{Market M} `{MarketConsts} fuel s c :
  stdin c = [] -> (0 < fuel)%nat ->
  do_main_loop (M:=M) fuel s c = Some (s, None, print c [Say (change_question (M:=M) s)]).
Proof.
  intros Hin Hf. destruct fuel as [| fuel]; [lia |]. cbn [do_main_loop].
  unfold read_line at 1, print at 1. cbn [stdin]. rewrite Hin. reflexivity.
Qed.

(** ** Witness *)

#[local] Existing Instance sample_consts.

Lemma do_main_loop_keeps_at_eof_witness :
  do_main_loop (M:=DogeMarket.DogeMarket) 3 (MinMaxBox min_max_strategy) (mk_console [] []) =
    Some (MinMaxBox min_max_strategy, None,
          print (mk_console [] []) [Say (change_question (M:=DogeMarket.DogeMarket) (MinMaxBox min_max_strategy))]).
Proof. apply do_main_loop_keeps_at_eof; [reflexivity | lia]. Defined.
