(* ===== verification/Main.v ===== *)
(** * The trader's program: main.rs

    [main] builds the trader's account from the arguments, selects the
    strategy ([select_strategy], which asks on standard input when the
    mode given is not one of the eight), then runs [n_iterations]
    iterations.  Each prints its number, in interactive mode offers to
    change the strategy ([change_strategy]), applies the strategy, records
    the accounts in the interaction logger and prints the last gains.  At
    the end it prints the final gains.

    The arguments are the [Args] record, with the defaults of its [clap]
    attributes ([default_args]); the parsing of the command line is not
    modelled.  [MarketWrapper::new] builds the three external markets:
    [main] takes the markets as an input.  The console is the one of
    Console.v, shared with the interactive strategy.  The loops that read
    standard input run on one fuel, [None] being a loop that has not
    ended within it.  The pause between iterations is the check of
    [Duration::from_secs_f32] ([sleep_pause]), which panics on a negative
    pause or one too long for a [Duration]; the time slept, the events
    printed by the strategies' handlers and the charts of [generate_svgs]
    are not modelled.

    Theorems: answering [y] at the end of the input makes the program
    wait forever ([change_then_eof_spins], through [select_strategy_equiv]:
    [select_strategy] is the prompt loop of Console.v started from the mode
    of the command line); when the logger is on, it records one account
    per iteration for each participant ([main_logs_every_iteration]); and
    a pause that [from_secs_f32] refuses makes every run of at least one
    iteration end abnormally ([main_bad_pause_never_ends]). *)
From S2P Require Import Prelude Goods Ledger Transactions TickDeque Service Refiller Market Trader Markets MinMax PriceComparison RandomAction Console Interactive IteractionLogger Strategies.
From Stdlib Require Import String Ascii.
Open Scope Q_scope.

(** [struct Args] with its defaults. *)
Record Args := mk_args {
  n_iterations : Z; mode_choice : Z; pause_s : Q; log_hide : bool; graph_hide : bool; interactive : bool;
  arg_eur : Q; arg_usd : Q; arg_yen : Q; arg_yuan : Q
}.

Definition default_args : Args := mk_args 100 0 (1 # 2) false false false 100000 100000 100000 100000.

(** [MODE_CHOICE_DOCS], line by line. *)
Definition MODE_CHOICE_LINES : list string :=
  ["1: No-op strategy"; "2: Interactive strategy"; "3: Random selection strategy"; "4: Min-Max strategy";
   "5: SOL Random strategy"; "6: RCNZ Random strategy"; "7: BOSE Random strategy";
   "8: Price Comparison strategy"]%string.

Fixpoint join_lines (ls : list string) : string :=
  match ls with
  | [] => EmptyString
  | [l] => l
  | l :: rest => String.append l (String.append newline (join_lines rest))
  end.

Definition MODE_CHOICE_DOCS : string := join_lines MODE_CHOICE_LINES.

(** [println!("Select a trading strategy:\n{}", MODE_CHOICE_DOCS)]. *)
Definition SELECT_STRATEGY_PROMPT : string :=
  String.append "Select a trading strategy:"%string (String.append newline MODE_CHOICE_DOCS).

(** The arms of [match mode_choice] that return a strategy. *)
Definition strategy_of (mode_choice : Z) : option DynStrategy :=
  if (mode_choice =? 1)%Z then Some (NoOpBox NoOp)
  else if (mode_choice =? 2)%Z then Some InteractiveBox
  else if (mode_choice =? 3)%Z then Some (RandomActionBox new_strategy)
  else if (mode_choice =? 4)%Z then Some (MinMaxBox min_max_strategy)
  else if (mode_choice =? 5)%Z then Some (SingleMarketBox SolRef)
  else if (mode_choice =? 6)%Z then Some (SingleMarketBox RcnzRef)
  else if (mode_choice =? 7)%Z then Some (SingleMarketBox BoseRef)
  else if (mode_choice =? 8)%Z then Some (PriceComparisonBox PriceComparisonStrategy)
  else None.

(** [match input.trim().parse() { Ok(m) => mode_choice = m, _ => mode_choice = 0 }]. *)
Definition next_mode (input : string) : Z :=
  match parse_u32 (trim input) with Some m => m | None => 0%Z end.

(** [select_strategy(mode_choice)]: the mode is matched first; each
    round that finds no strategy prints the menu and reads the next mode. *)
Fixpoint select_strategy (fuel : nat) (mode_choice : Z) (c : Console) : option (DynStrategy * Console) :=
  match strategy_of mode_choice with
  | Some s => Some (s, c)
  | None =>
      match fuel with
      | O => None
      | S fuel' =>
          let '(input, c') := read_line (print c [Say SELECT_STRATEGY_PROMPT]) in
          select_strategy fuel' (next_mode input) c'
      end
  end.

Section Program.
Context {M : Type} `{Market M} `{MarketConsts}.

(** [println!("Change the trader strategy? (Current: {}) (y/N)", strategy.get_name())]. *)
Definition change_prompt (s : DynStrategy) : string :=
  String.append "Change the trader strategy? (Current: "%string
    (String.append (dyn_get_name (M:=M) s) ") (y/N)"%string).

(** The [if args.interactive { loop { .. } }] of the iteration: [y] or
    [Y] selects a new strategy from the menu, [n], [N] or a line that is
    not one character keeps the current one, any other character asks
    again. *)
Fixpoint change_strategy (fuel : nat) (s : DynStrategy) (c : Console) : option (DynStrategy * Console) :=
  match fuel with
  | O => None
  | S fuel' =>
      let '(input, c') := read_line (print c [Say (change_prompt s)]) in
      match parse_char (trim input) with
      | Some ch =>
          if Ascii.eqb ch "y"%char || Ascii.eqb ch "Y"%char then select_strategy fuel' 0 c'
          else if Ascii.eqb ch "n"%char || Ascii.eqb ch "N"%char then Some (s, c')
          else change_strategy fuel' s c'
      | None => Some (s, c')
      end
  end.

(** [Account { eur: Good::new(EUR, args.eur), .. }]. *)
Definition initial_account (args : Args) : Account :=
  mk_account (Good.new EUR (arg_eur args)) (Good.new USD (arg_usd args))
             (Good.new YEN (arg_yen args)) (Good.new YUAN (arg_yuan args)).

(** The state of the loop: the strategy, the logger and the console. *)
Definition Loop : Type := DynStrategy * IteractionLogger.t * Console.

Definition to_trader {A} (o : outcome Empty_set A) : outcome TraderError.t A :=
  match o with Ok a => Ok a | Err e => match e with end | Panic r => Panic r end.

(** [sleep(Duration::from_secs_f32(args.pause_s))]: [from_secs_f32]
    panics on a negative pause and on one of [2^64] seconds or more, which
    overflows [Duration]; the sleep itself has no effect in the model. *)
Definition sleep_pause (pause : Q) : outcome TraderError.t unit :=
  if Qlt_le_dec pause 0 then Panic ExplicitPanic
  else if Qlt_le_dec pause (inject_Z (2 ^ 64)) then Ok tt else Panic ExplicitPanic.

(** The body of [for it in 0..args.n_iterations]. *)
Definition iteration (args : Args) (fuel : nat) (d : MainDraws (M:=M)) (it : nat) (st : Loop)
    (w : World (MarketWrapper M)) : option (World (MarketWrapper M) * outcome TraderError.t Loop) :=
  let '(s, log, c) := st in
  let c := print c [Say (String.append "Iteration "%string (string_of_nat it))] in
  match (if interactive args
         then option_map (fun '(s, c) => (s, print c [Say (String.append "Applying "%string (dyn_get_name (M:=M) s))]))
                (change_strategy fuel s c)
         else Some (s, c)) with
  | None => None
  | Some (s, c) =>
      match dyn_apply s d c w with
      | None => None
      | Some (w', o) =>
          Some (w', '(s, c) ← o;
                    log ← (if negb (log_hide args) || negb (graph_hide args)
                           then to_trader (IteractionLogger.update_from_market_wrapper log (account w') (market w'))
                           else Ok log);
                    let c := if negb (log_hide args) then print c (IteractionLogger.log_last_difference log) else c in
                    _ ← sleep_pause (pause_s args);
                    Ok (s, log, c))
      end
  end.

(** The iterations [it, .., it + n - 1]. *)
Fixpoint iterations (args : Args) (fuel : nat) (draws : nat -> MainDraws (M:=M)) (it n : nat) (st : Loop)
    (w : World (MarketWrapper M)) : option (World (MarketWrapper M) * outcome TraderError.t Loop) :=
  match n with
  | O => Some (w, Ok st)
  | S n' =>
      match iteration args fuel (draws it) it st w with
      | Some (w', Ok st') => iterations args fuel draws (S it) n' st' w'
      | other => other
      end
  end.

(** [fn main()], from the parsed arguments and the three markets. *)
Definition main (args : Args) (fuel : nat) (draws : nat -> MainDraws (M:=M)) (markets : MarketWrapper M)
    (c : Console) : option (World (MarketWrapper M) * outcome TraderError.t Loop) :=
  let w := mk_world (initial_account args) markets [] in
  match select_strategy fuel (mode_choice args) c with
  | None => None
  | Some (s, c) =>
      let c := print c [Say (String.append "Running the trader for "%string
                               (String.append (string_of_nat (Z.to_nat (n_iterations args))) " iterations..."%string))] in
      match iterations args fuel draws 0 (Z.to_nat (n_iterations args)) (s, IteractionLogger.new, c) w with
      | Some (w', Ok (s, log, c)) =>
          Some (w', if negb (log_hide args)
                    then lines ← to_trader (IteractionLogger.log_final_difference log); Ok (s, log, print c lines)
                    else Ok (s, log, c))
      | other => other
      end
  end.

End Program.

(** The reference of [select_strategy]: the mode a line gives, matched. *)
Definition mode_input (input : string) : option DynStrategy := strategy_of (next_mode input).

(** ** Lemmas *)

Section Lemmas.
Context {M : Type} `{Market M} `{MarketConsts}.

(** [logging] is the condition under which an iteration records the accounts. *)
Definition logging (args : Args) : bool := negb (log_hide args) || negb (graph_hide args).

Lemma iteration_log args fuel d it s log c w w' s' log' c' : logging args = true ->
  iteration (M:=M) args fuel d it (s, log, c) w = Some (w', Ok (s', log', c')) ->
  exists a sl r b, log' = IteractionLogger.update log a sl r b.
Proof.
  unfold logging, iteration. intros Hl. rewrite Hl.
  destruct (if interactive args then _ else _) as [[s0 c0]|]; [| done].
  destruct (dyn_apply s0 d c0 w) as [[w0 o]|]; [| done]. intros [= <- Ho]. revert Ho.
  cbv [mbind outcome_bind to_trader]. destruct o as [[s1 c1] | |]; [| done | done].
  destruct (IteractionLogger.update_from_market_wrapper log _ _) as [l1 | [] |] eqn:U; [| done].
  destruct (sleep_pause _) as [[] | |]; [| done | done].
  intros [= <- <- <-]. destruct (update_from_market_wrapper_inv _ _ _ _ U) as (sl & r & b & ->). eauto.
Qed.

(** An iteration that ends normally has slept its pause. *)
Lemma iteration_ok_slept args fuel d it st w w' st' :
  iteration (M:=M) args fuel d it st w = Some (w', Ok st') -> sleep_pause (pause_s args) = Ok tt.
Proof.
  unfold iteration. destruct st as [[s log] c].
  destruct (if interactive args then _ else _) as [[s0 c0]|]; [| done].
  destruct (dyn_apply s0 d c0 w) as [[w0 o]|]; [| done]. intros [= _ Ho]. revert Ho.
  cbv [mbind outcome_bind]. destruct o as [[s1 c1] | |]; [| done | done].
  destruct (sleep_pause (pause_s args)) as [[] | |]; [done | ..]; by repeat case_match.
Qed.

Lemma sleep_pause_panics p : p < 0 \/ inject_Z (2 ^ 64) <= p -> sleep_pause p = Panic ExplicitPanic.
Proof.
  unfold sleep_pause. intros Hp.
  destruct (Qlt_le_dec p 0); [done |].
  destruct (Qlt_le_dec p (inject_Z (2 ^ 64))); [| done]. exfalso. destruct Hp as [Hp | Hp]; lra.
Qed.

Lemma iterations_log args fuel draws n it s log c w w' s' log' c' : logging args = true ->
  iterations (M:=M) args fuel draws it n (s, log, c) w = Some (w', Ok (s', log', c')) ->
  List.length (IteractionLogger.trader log') = (List.length (IteractionLogger.trader log) + n)%nat /\
  (same_length log -> same_length log').
Proof.
  intros Hl. revert it s log c w. induction n as [| n IH]; intros it s log c w; cbn [iterations].
  - intros [= -> -> ->]. split; [lia | done].
  - destruct (iteration args fuel (draws it) it (s, log, c) w) as [[w1 [[[s1 log1] c1] | e | p]]|] eqn:E;
      [| done | done | done].
    intros Hr. destruct (IH _ _ _ _ _ Hr) as [Hlen Hsame].
    destruct (iteration_log _ _ _ _ _ _ _ _ _ _ _ _ Hl E) as (a & sl & r & b & ->).
    rewrite Hlen. cbn. rewrite length_app. cbn. split; [lia |].
    intros Hs0. apply Hsame, same_length_update, Hs0.
Qed.

(** [select_strategy] is the prompt loop of Console.v on the menu of
    strategies, entered only when the mode of the command line names no
    strategy: a line that is not a number counts as mode 0 and makes it
    ask again. *)
Lemma select_strategy_equiv fuel mode c :
  select_strategy fuel mode c =
    match strategy_of mode with
    | Some s => Some (s, c)
    | None => prompt_loop [SELECT_STRATEGY_PROMPT] mode_input fuel c
    end.
Proof.
  revert mode c. induction fuel as [| fuel IH]; intros mode c; cbn [select_strategy prompt_loop];
    destruct (strategy_of mode); [done | done | done |].
  cbn [map]. destruct (read_line _) as [input c']. rewrite IH. unfold mode_input.
  by destruct (strategy_of (next_mode input)).
Qed.
End Lemmas.

(** ** Theorems *)



Section Theorems.
Context {M : Type} `{Market M} `{MarketConsts}.

(** C19: In interactive mode, answering [y] to the offer to change the
    strategy when no later line names a strategy (in particular at the end
    of the input, where [read_line] gives an empty line, mode 0) makes
    [select_strategy(0)] ask forever: the program never returns. *)
Theorem change_then_eof_spins fuel s c l rest :
  stdin c = l :: rest -> parse_char (trim l) = Some "y"%char \/ parse_char (trim l) = Some "Y"%char ->
  Forall (fun input => mode_input input = None) rest ->
  change_strategy (M:=M) fuel s c = None.
Proof.
  intros Hin Hy Hrest. destruct fuel as [| fuel]; [done |]. cbn [change_strategy].
  unfold read_line at 1, print at 1. cbn [stdin stdout]. rewrite Hin.
  destruct Hy as [-> | ->]; cbn -[select_strategy]; rewrite select_strategy_equiv; cbn [strategy_of];
    (apply prompt_loop_spins; [reflexivity | exact Hrest]).
Qed.

(** C20: When the logs or the charts are on, a run that ends normally has
    recorded, for the trader and for each market, one account per
    iteration: four histories of [n_iterations] accounts. *)
Theorem main_logs_every_iteration args fuel draws (markets : MarketWrapper M) c w s log c' :
  logging args = true -> main args fuel draws markets c = Some (w, Ok (s, log, c')) ->
  List.length (IteractionLogger.trader log) = Z.to_nat (n_iterations args) /\ same_length log.
Proof.
  intros Hl. unfold main. destruct (select_strategy fuel (mode_choice args) c) as [[s0 c0]|]; [| done].
  destruct (iterations _ _ _ _ _ _ _) as [[w1 [[[s1 log1] c1] | e | p]]|] eqn:E; [| done | done | done].
  destruct (iterations_log _ _ _ _ _ _ _ _ _ _ _ _ _ Hl E) as [Hlen Hsame].
  intros Hr. assert (Hlog : log1 = log).
  { revert Hr. destruct (negb (log_hide args)); [| by intros [= _ _ <- _]].
    destruct (log_final_lines_total (IteractionLogger.account_vecs log1)) as [lines Hlines].
    unfold IteractionLogger.log_final_difference. cbv [mbind outcome_bind to_trader]. rewrite Hlines.
    by intros [= _ _ <- _]. }
  subst log1. split; [rewrite Hlen; cbn; lia | by apply Hsame].
Qed.

(** C23: A pause that [Duration::from_secs_f32] refuses (negative, or of
    [2^64] seconds or more) makes the program panic at the end of its
    first iteration, if that iteration gets there: a run of at least one
    iteration never ends normally, whatever the strategy and the input. *)
Theorem main_bad_pause_never_ends args fuel draws (markets : MarketWrapper M) c w st :
  (0 < n_iterations args)%Z -> pause_s args < 0 \/ inject_Z (2 ^ 64) <= pause_s args ->
  main args fuel draws markets c <> Some (w, Ok st).
Proof.
  intros Hn Hp. unfold main. destruct (select_strategy fuel (mode_choice args) c) as [[s0 c0]|]; [| done].
  destruct (Z.to_nat (n_iterations args)) as [| n] eqn:En; [lia |]. cbn [iterations].
  destruct (iteration _ _ _ _ _ _) as [[w1 [st1 | e | p]]|] eqn:E; [| done | done | done].
  apply iteration_ok_slept in E. by rewrite sleep_pause_panics in E.
Qed.

End Theorems.

(** ** Witnesses *)

#[local] Existing Instance sample_consts.

Definition mn_markets : MarketWrapper DogeMarket.DogeMarket := mk_wrapper scenario_m0 scenario_m1 scenario_m2.

Definition mn_draws (it : nat) : MainDraws (M:=DogeMarket.DogeMarket) :=
  mk_main_draws (noop_draws it) (5%nat, it_draws) (ra_draws (Nat.even it) false true 0 (Z.of_nat it mod 3) 1 20)
    (10%nat, mm_draws) (0%Z, 1%Z, 1 # 2, doge_ent 41%positive (Z.of_nat it), doge_ent 42%positive (Z.of_nat it))
    (pc_ents it).

(** Three iterations of the random action strategy (mode 3), logged. *)
Definition mn_args : Args := mk_args 3 3 (1 # 2) false false false 100000 100000 100000 100000.

Lemma change_then_eof_spins_witness :
  change_strategy (M:=DogeMarket.DogeMarket) 50 (NoOpBox NoOp) (mk_console [String.append "y" newline] []) = None.
Proof.
  apply (change_then_eof_spins 50 (NoOpBox NoOp) (mk_console [String.append "y" newline] []) (String.append "y" newline) []);
    [reflexivity | left; reflexivity | constructor].
Defined.

Lemma main_bad_pause_never_ends_witness :
  main (mk_args 3 3 (-1) false false false 100000 100000 100000 100000) 10 mn_draws mn_markets
    (mk_console [] []) <>
  Some (mk_world trader_account mn_markets [], Ok (NoOpBox NoOp, IteractionLogger.new, mk_console [] [])).
Proof.
  apply main_bad_pause_never_ends; [reflexivity | left; reflexivity].
Defined.

Lemma main_logs_every_iteration_witness :
  match main mn_args 10 mn_draws mn_markets (mk_console [] []) with
  | Some (w, Ok (s, log, c')) =>
      List.length (IteractionLogger.trader log) = Z.to_nat (n_iterations mn_args) /\ same_length log
  | _ => False
  end.
Proof.
  destruct (main mn_args 10 mn_draws mn_markets (mk_console [] [])) as [[w [[[s log] c'] | e | p]]|] eqn:E;
    try (vm_compute in E; discriminate E).
  exact (main_logs_every_iteration mn_args 10 mn_draws mn_markets (mk_console [] []) w s log c' eq_refl E).
Defined.
